(** * KS Bot: Discord <-> Roblox synchronisation and secure ingress

    A shallow embedding of the synchronisation queue
    ([Roblox/database/sync_queue.js]), the links database
    ([Roblox/database/roblox_links.js]), the group verification
    ([Roblox/utils/verification.js]), the role synchronisation worker
    ([Roblox/utils/role_sync.js]), the API authentication middleware
    ([Roblox/api/auth.js]) and the JSON store under them
    ([data/db_handler.js]), followed by the properties established about
    them.

    The methods are embedded twice.
    - On the documents ([SyncQueue], the section [RobloxLinks],
      [RobloxVerification], [RoleSync], [authMiddleware], [System] and the
      modules after them): what a method computes from the JSON documents,
      and what it asks to be written, when every [db.read] answers with the
      document and every [db.modify] carries out the modifier that it is
      given.  For a method that only reads, this is the method; for a method
      that writes, it is its modifier and what the method does around it.
    - On the handler ([db], [Runtime], [Async] and the modules [syncQueue],
      [robloxLinks], [verification], [roleSync], [auth], [Program]): the
      same methods over the store as [DatabaseHandler] has it, with the lock
      and the cache entry of each path, and with promises that may never
      settle.  [db.modify] takes the lock of its path and then awaits
      [read(filePath, false)], whose [waitForLock] waits for that very lock.
      What the wait of that read does is a parameter [wait] of the methods:
      it is [db.waitForLock] for the handler as it is written, and a wait
      with [db.returns wait] comes back.  The properties of the handler say
      what a method does as it is written and what it does when that wait
      comes back; the properties on the documents are what the latter rest
      on.

    Conventions of the embedding.
    - Instants ([Date.now()], ISO strings parsed back with [new Date]) are
      integers, milliseconds since the epoch; a JavaScript [null] date is
      [None].  Every operation reads the clock once: it takes the instant as
      the argument [now].
    - One caller at a time runs on the handler, and nothing clears the table
      of the locks under it ([db.close] does, at shutdown).  What happens
      while an operation awaits is not interleaved with other operations,
      except where a property runs the two halves of [queueSync] apart.
    - A thrown [Error] is [Throw msg]; [try]/[catch] is [tryCatch].  A
      promise that never settles is [Pending]: its caller waits, and neither
      [catch] nor [finally] of the caller runs.
    - Random and cryptographic primitives ([uuidv4], [crypto.randomBytes],
      SHA-256, HMAC) are inputs or section variables. *)

From Stdlib Require Import ZArith List String DecimalString Bool Lia Permutation
  Sorted.
Import ListNotations.

Open Scope string_scope.
Open Scope Z_scope.
Open Scope list_scope.

(** ** JavaScript helpers *)

(** The result of a call that may throw. *)
Inductive outcome (A : Type) : Type :=
| Ret (a : A)
| Throw (msg : string).
Arguments Ret {A} a.
Arguments Throw {A} msg.

(** [x || d] on a possibly missing number: [undefined], [null] and [0] are
    falsy. *)
Definition orZ (x : option Z) (d : Z) : Z :=
  match x with
  | Some v => if v =? 0 then d else v
  | None => d
  end.

(** [x || d] on a possibly missing string: the empty string is falsy. *)
Definition orString (x : option string) (d : string) : string :=
  match x with
  | Some EmptyString => d
  | Some v => v
  | None => d
  end.

(** [x || null] on a possibly missing string. *)
Definition orNull (x : option string) : option string :=
  match x with
  | Some EmptyString => None
  | other => other
  end.

(** Truthiness of a possibly missing string. *)
Definition truthyString (x : option string) : bool :=
  match x with
  | Some EmptyString => false
  | Some _ => true
  | None => false
  end.

(** The decimal digits of an integer, as a template literal prints it. *)
Definition numberToString (z : Z) : string :=
  NilZero.string_of_int (Z.to_int z).

(** [{...old, ...updates}] on one field: a key present in [updates] wins. *)
Definition spread {A : Type} (old : A) (upd : option A) : A :=
  match upd with
  | Some v => v
  | None => old
  end.

(** [arr.slice(0, end)]: a negative [end] counts from the end of the array. *)
Definition slice0 {A : Type} (l : list A) (stop : Z) : list A :=
  let len := Z.of_nat (List.length l) in
  let final := if stop <? 0 then Z.max (len + stop) 0 else Z.min stop len in
  firstn (Z.to_nat final) l.

(** [arr.sort(cmp)] is a stable sort.  [before a b] is [cmp(a, b) <= 0]: an
    element is inserted in front of the first one it does not have to follow,
    so elements that compare equal keep their order. *)
Fixpoint insertBy {A : Type} (before : A -> A -> bool) (x : A) (l : list A)
  : list A :=
  match l with
  | [] => [x]
  | y :: l' => if before x y then x :: y :: l' else y :: insertBy before x l'
  end.

Fixpoint sortBy {A : Type} (before : A -> A -> bool) (l : list A) : list A :=
  match l with
  | [] => []
  | x :: l' => insertBy before x (sortBy before l')
  end.

(** [arr.findIndex(p)], [None] for [-1]. *)
Fixpoint findIndex {A : Type} (p : A -> bool) (l : list A) : option nat :=
  match l with
  | [] => None
  | x :: l' =>
      if p x then Some O
      else match findIndex p l' with
           | Some i => Some (S i)
           | None => None
           end
  end.

(** [arr[i] = v] for an index inside the array. *)
Fixpoint setAt {A : Type} (i : nat) (v : A) (l : list A) : list A :=
  match l, i with
  | [], _ => []
  | _ :: l', O => v :: l'
  | x :: l', S i' => x :: setAt i' v l'
  end.

(** [s.startsWith(p)] and [s.includes(p)]. *)
Fixpoint startsWith (p s : string) : bool :=
  match p, s with
  | EmptyString, _ => true
  | String a p', String b s' => Ascii.eqb a b && startsWith p' s'
  | String _ _, EmptyString => false
  end.

Fixpoint includes (s p : string) : bool :=
  startsWith p s ||
  match s with
  | EmptyString => false
  | String _ s' => includes s' p
  end.

(** [s.substring(n)]. *)
Fixpoint substringFrom (n : nat) (s : string) : string :=
  match n, s with
  | O, _ => s
  | S n', String _ s' => substringFrom n' s'
  | S _, EmptyString => EmptyString
  end.

(** A JavaScript object used as a dictionary with string keys that are not
    array indices (Discord server ids): [Object.entries] lists the keys in
    insertion order, and assigning to an existing key keeps its place. *)
Definition dict (V : Type) : Type := list (string * V).

Fixpoint dictGet {V : Type} (k : string) (d : dict V) : option V :=
  match d with
  | [] => None
  | (k', v) :: d' => if (k' =? k)%string then Some v else dictGet k d'
  end.

Fixpoint dictSet {V : Type} (k : string) (v : V) (d : dict V) : dict V :=
  match d with
  | [] => [(k, v)]
  | (k', v') :: d' =>
      if (k' =? k)%string then (k, v) :: d' else (k', v') :: dictSet k v d'
  end.

Fixpoint dictDelete {V : Type} (k : string) (d : dict V) : dict V :=
  match d with
  | [] => []
  | (k', v') :: d' =>
      if (k' =? k)%string then dictDelete k d' else (k', v') :: dictDelete k d'
  end.

(** ** shared/constants.js *)

(** Modelled from the spec: [SYNC_STATUS] is imported from
    [shared/constants] by the queue and the worker, but the enumeration is not
    among the sources; its five members are the statuses of the data model
    ([queued], [in_progress], [retrying], [completed], [failed]). *)
Inductive SYNC_STATUS : Type :=
| QUEUED
| IN_PROGRESS
| RETRYING
| COMPLETED
| FAILED.

Definition statusEqb (a b : SYNC_STATUS) : bool :=
  match a, b with
  | QUEUED, QUEUED | IN_PROGRESS, IN_PROGRESS | RETRYING, RETRYING
  | COMPLETED, COMPLETED | FAILED, FAILED => true
  | _, _ => false
  end.

(** Modelled from the spec: [ROBLOX_LINK_STATUS] is imported from
    [shared/constants] by the links database, but the enumeration is not among
    the sources; its members are the verification statuses of the LinkRecord
    ([pending], [verified], [verification_failed]). *)
Inductive ROBLOX_LINK_STATUS : Type :=
| PENDING_VERIFICATION
| VERIFIED
| VERIFICATION_FAILED.

(** ** Roblox/database/sync_queue.js

    The queue on the documents.  [SyncQueue] has, for each method, the
    function of the queue document that the method computes: the answer of a
    method that reads, the modifier of a method that writes.  The methods over
    the handler are in [syncQueue]. *)

Record ErrorEntry : Type := mkErrorEntry {
  message : string;
  timestamp : Z
}.

Module Job.
Record t : Type := mk {
  id : string;
  serverId : string;
  robloxUserId : string;
  robloxUsername : option string;
  groupId : string;
  newRank : Z;
  discordUserId : option string;
  discordRoleId : option string;
  status : SYNC_STATUS;
  priority : Z;
  attempts : Z;
  maxAttempts : Z;
  lastAttemptAt : option Z;
  nextRetryAt : option Z;
  errors : list ErrorEntry;
  lastError : option string;
  reason : string;
  applicationId : option string;
  createdAt : Z;
  updatedAt : Z;
  completedAt : option Z
}.
End Job.

(** The argument of [addJob]. *)
Module JobData.
Record t : Type := mk {
  serverId : string;
  robloxUserId : string;
  robloxUsername : option string;
  groupId : string;
  newRank : Z;
  discordUserId : option string;
  discordRoleId : option string;
  priority : option Z;
  maxAttempts : option Z;
  reason : option string;
  applicationId : option string
}.
End JobData.

(** The [updates] objects that the queue passes to [updateJob]. *)
Module JobUpdates.
Record t : Type := mk {
  status : option SYNC_STATUS;
  attempts : option Z;
  lastAttemptAt : option (option Z);
  nextRetryAt : option (option Z);
  errors : option (list ErrorEntry);
  lastError : option (option string);
  completedAt : option (option Z)
}.
End JobUpdates.

Module SyncQueue.

Definition queue : Type := list Job.t.

(** [addJob]: the job that is built, with [newId] the result of
    [db.generateId()]. *)
Definition newJob (jobData : JobData.t) (newId : string) (now : Z) : Job.t :=
  {| Job.id := newId;
     Job.serverId := JobData.serverId jobData;
     Job.robloxUserId := JobData.robloxUserId jobData;
     Job.robloxUsername := JobData.robloxUsername jobData;
     Job.groupId := JobData.groupId jobData;
     Job.newRank := JobData.newRank jobData;
     Job.discordUserId := orNull (JobData.discordUserId jobData);
     Job.discordRoleId := orNull (JobData.discordRoleId jobData);
     Job.status := QUEUED;
     Job.priority := orZ (JobData.priority jobData) 0;
     Job.attempts := 0;
     Job.maxAttempts := orZ (JobData.maxAttempts jobData) 3;
     Job.lastAttemptAt := None;
     Job.nextRetryAt := None;
     Job.errors := [];
     Job.lastError := None;
     Job.reason := orString (JobData.reason jobData) "Manual sync";
     Job.applicationId := orNull (JobData.applicationId jobData);
     Job.createdAt := now;
     Job.updatedAt := now;
     Job.completedAt := None |}.

(** [addJob] on the document: the job that is built, and the queue that
    the modifier returns, with the job pushed. *)
Definition addJob (jobData : JobData.t) (newId : string) (now : Z)
  (q : queue) : Job.t * queue :=
  let job := newJob jobData newId now in
  (job, q ++ [job]).

Definition hasId (jobId : string) (j : Job.t) : bool := (Job.id j =? jobId)%string.

(** [getJob]: [queue.find(j => j.id === jobId) || null]. *)
Definition getJob (jobId : string) (q : queue) : option Job.t :=
  find (hasId jobId) q.

(** [{...job, ...updates, updatedAt}] *)
Definition applyUpdates (j : Job.t) (u : JobUpdates.t) (now : Z) : Job.t :=
  {| Job.id := Job.id j;
     Job.serverId := Job.serverId j;
     Job.robloxUserId := Job.robloxUserId j;
     Job.robloxUsername := Job.robloxUsername j;
     Job.groupId := Job.groupId j;
     Job.newRank := Job.newRank j;
     Job.discordUserId := Job.discordUserId j;
     Job.discordRoleId := Job.discordRoleId j;
     Job.status := spread (Job.status j) (JobUpdates.status u);
     Job.priority := Job.priority j;
     Job.attempts := spread (Job.attempts j) (JobUpdates.attempts u);
     Job.maxAttempts := Job.maxAttempts j;
     Job.lastAttemptAt :=
       spread (Job.lastAttemptAt j) (JobUpdates.lastAttemptAt u);
     Job.nextRetryAt := spread (Job.nextRetryAt j) (JobUpdates.nextRetryAt u);
     Job.errors := spread (Job.errors j) (JobUpdates.errors u);
     Job.lastError := spread (Job.lastError j) (JobUpdates.lastError u);
     Job.reason := Job.reason j;
     Job.applicationId := Job.applicationId j;
     Job.createdAt := Job.createdAt j;
     Job.updatedAt := now;
     Job.completedAt := spread (Job.completedAt j) (JobUpdates.completedAt u)
  |}.

(** The modifier of [updateJob]: the first job with the id is replaced; the
    updated job is captured and the new queue returned. *)
Definition updateJob (jobId : string) (u : JobUpdates.t) (now : Z)
  (q : queue) : outcome (Job.t * queue) :=
  match findIndex (hasId jobId) q with
  | None => Throw "Job not found"
  | Some index =>
      match nth_error q index with
      | Some old =>
          let updated := applyUpdates old u now in
          Ret (updated, setAt index updated q)
      | None => Throw "Job not found"
      end
  end.

Definition markInProgress (jobId : string) (now : Z) (q : queue)
  : outcome (Job.t * queue) :=
  updateJob jobId
    {| JobUpdates.status := Some IN_PROGRESS;
       JobUpdates.attempts := None;
       JobUpdates.lastAttemptAt := Some (Some now);
       JobUpdates.nextRetryAt := None;
       JobUpdates.errors := None;
       JobUpdates.lastError := None;
       JobUpdates.completedAt := None |} now q.

Definition markCompleted (jobId : string) (now : Z) (q : queue)
  : outcome (Job.t * queue) :=
  updateJob jobId
    {| JobUpdates.status := Some COMPLETED;
       JobUpdates.attempts := None;
       JobUpdates.lastAttemptAt := None;
       JobUpdates.nextRetryAt := None;
       JobUpdates.errors := None;
       JobUpdates.lastError := None;
       JobUpdates.completedAt := Some (Some now) |} now q.

(** [Math.min(5 * Math.pow(2, attempts - 1), 30)], for the values
    [attempts >= 1] that an incremented counter takes. *)
Definition delayMinutes (attempts : Z) : Z :=
  Z.min (5 * 2 ^ (attempts - 1)) 30.

(** [markFailed] on the document: [getJob], the counting of the attempt,
    and the modifier of the [updateJob] that follows. *)
Definition markFailed (jobId : string) (errorMessage : string) (retry : bool)
  (now : Z) (q : queue) : outcome (Job.t * queue) :=
  match getJob jobId q with
  | None => Throw "Job not found"
  | Some job =>
      let attempts := Job.attempts job + 1 in
      let errors := Job.errors job ++ [mkErrorEntry errorMessage now] in
      let lastError := Some errorMessage in
      if retry && (attempts <? Job.maxAttempts job) then
        let nextRetryAt := now + delayMinutes attempts * 60 * 1000 in
        updateJob jobId
          {| JobUpdates.status := Some RETRYING;
             JobUpdates.attempts := Some attempts;
             JobUpdates.lastAttemptAt := None;
             JobUpdates.nextRetryAt := Some (Some nextRetryAt);
             JobUpdates.errors := Some errors;
             JobUpdates.lastError := Some lastError;
             JobUpdates.completedAt := None |} now q
      else
        updateJob jobId
          {| JobUpdates.status := Some FAILED;
             JobUpdates.attempts := Some attempts;
             JobUpdates.lastAttemptAt := None;
             JobUpdates.nextRetryAt := None;
             JobUpdates.errors := Some errors;
             JobUpdates.lastError := Some lastError;
             JobUpdates.completedAt := Some (Some now) |} now q
  end.

(** The modifier of [deleteJob]. *)
Definition deleteJob (jobId : string) (q : queue) : queue :=
  filter (fun j => negb ((Job.id j =? jobId)%string)) q.

(** The filter of [getPendingJobs]. *)
Definition isPending (now : Z) (job : Job.t) : bool :=
  match Job.status job with
  | QUEUED => true
  | RETRYING =>
      match Job.nextRetryAt job with
      | Some t => t <=? now
      | None => false
      end
  | _ => false
  end.

(** The comparator of [getPendingJobs] returns a number that is negative or
    zero: [a] need not follow [b]. *)
Definition comparePending (a b : Job.t) : Z :=
  if negb (Job.priority b =? Job.priority a)
  then Job.priority b - Job.priority a
  else Job.createdAt a - Job.createdAt b.

Definition pendingBefore (a b : Job.t) : bool := comparePending a b <=? 0.

(** [getPendingJobs] *)
Definition getPendingJobs (limit : Z) (now : Z) (q : queue) : list Job.t :=
  let pending := filter (isPending now) q in
  let sorted := sortBy pendingBefore pending in
  slice0 sorted limit.

(** [getServerJobs], before its final sort by creation date; the only
    filter that the queue itself passes is [robloxUserId], and a falsy value
    switches the filter off. *)
Definition getServerJobsUnsorted (serverId : string)
  (robloxUserId : option string) (q : queue) : list Job.t :=
  let filtered := filter (fun j => (Job.serverId j =? serverId)%string) q in
  match robloxUserId with
  | Some uid =>
      if truthyString (Some uid)
      then filter (fun j => (Job.robloxUserId j =? uid)%string) filtered
      else filtered
  | None => filtered
  end.

Definition newestFirst (a b : Job.t) : bool :=
  Job.createdAt b - Job.createdAt a <=? 0.

Definition getServerJobs (serverId : string) (robloxUserId : option string)
  (q : queue) : list Job.t :=
  sortBy newestFirst (getServerJobsUnsorted serverId robloxUserId q).

Definition getUserJobs (serverId robloxUserId : string) (q : queue)
  : list Job.t :=
  getServerJobs serverId (Some robloxUserId) q.

Definition nonTerminal (s : SYNC_STATUS) : bool :=
  match s with
  | QUEUED | IN_PROGRESS | RETRYING => true
  | _ => false
  end.

(** [hasPendingSync] *)
Definition hasPendingSync (serverId robloxUserId : string) (q : queue)
  : bool :=
  existsb (fun j => nonTerminal (Job.status j))
    (getUserJobs serverId robloxUserId q).

(** The modifier of [cleanCompletedJobs]: the number of deleted jobs, which
    it captures, and the new queue. *)
Definition cleanCompletedJobs (hoursOld : Z) (now : Z) (q : queue)
  : Z * queue :=
  let cutoffDate := now - hoursOld * 60 * 60 * 1000 in
  let filtered :=
    filter (fun job =>
              if negb (statusEqb (Job.status job) COMPLETED) then true
              else match Job.completedAt job with
                   | Some completedDate => cutoffDate <=? completedDate
                   | None => cutoffDate <=? 0
                   end) q in
  (Z.of_nat (List.length q) - Z.of_nat (List.length filtered), filtered).

(** The body of the [forEach] of [retryFailedJobs]. *)
Definition requeue (serverId : option string) (now : Z) (job : Job.t)
  : Job.t :=
  if statusEqb (Job.status job) FAILED
     && (negb (truthyString serverId)
         || match serverId with
            | Some sid => (Job.serverId job =? sid)%string
            | None => false
            end)
  then {| Job.id := Job.id job;
          Job.serverId := Job.serverId job;
          Job.robloxUserId := Job.robloxUserId job;
          Job.robloxUsername := Job.robloxUsername job;
          Job.groupId := Job.groupId job;
          Job.newRank := Job.newRank job;
          Job.discordUserId := Job.discordUserId job;
          Job.discordRoleId := Job.discordRoleId job;
          Job.status := QUEUED;
          Job.priority := Job.priority job;
          Job.attempts := 0;
          Job.maxAttempts := Job.maxAttempts job;
          Job.lastAttemptAt := Job.lastAttemptAt job;
          Job.nextRetryAt := None;
          Job.errors := Job.errors job;
          Job.lastError := Job.lastError job;
          Job.reason := Job.reason job;
          Job.applicationId := Job.applicationId job;
          Job.createdAt := Job.createdAt job;
          Job.updatedAt := now;
          Job.completedAt := Job.completedAt job |}
  else job.

(** The modifier of [retryFailedJobs]: the number of jobs reset, which it
    captures, and the new queue. *)
Definition retryFailedJobs (serverId : option string) (now : Z) (q : queue)
  : Z * queue :=
  (Z.of_nat
     (List.length
        (filter (fun job =>
                   statusEqb (Job.status job) FAILED
                   && (negb (truthyString serverId)
                       || match serverId with
                          | Some sid => (Job.serverId job =? sid)%string
                          | None => false
                          end)) q)),
   map (requeue serverId now) q).

(** The modifier of [cancelUserJobs]: the number of cancelled jobs, which it
    captures, and the new queue. *)
Definition shouldCancel (serverId robloxUserId : string) (job : Job.t)
  : bool :=
  (Job.serverId job =? serverId)%string
  && (Job.robloxUserId job =? robloxUserId)%string
  && (statusEqb (Job.status job) QUEUED
      || statusEqb (Job.status job) RETRYING).

Definition cancelUserJobs (serverId robloxUserId : string) (q : queue)
  : Z * queue :=
  (Z.of_nat (List.length (filter (shouldCancel serverId robloxUserId) q)),
   filter (fun job => negb (shouldCancel serverId robloxUserId job)) q).

(** The modifier of [clearServerJobs]. *)
Definition clearServerJobs (serverId : string) (q : queue) : Z * queue :=
  let filtered := filter (fun j => negb ((Job.serverId j =? serverId)%string)) q in
  (Z.of_nat (List.length q) - Z.of_nat (List.length filtered), filtered).

End SyncQueue.

(** ** Roblox/database/roblox_links.js

    The links on the documents; the methods over the handler are in
    [robloxLinks]. *)

Record RoleMapping : Type := mkRoleMapping {
  mappingDiscordRoleId : option string;
  robloxRank : Z
}.

Record LinkSettings : Type := mkLinkSettings {
  requirePlaytime : Z;
  rateLimitMinutes : Z;
  notificationsEnabled : bool;
  autoSync : bool;
  syncIntervalMinutes : Z
}.

Record LinkAnalytics : Type := mkLinkAnalytics {
  totalSubmissions : Z;
  totalSyncs : Z;
  lastSyncAt : option Z;
  failedSyncs : Z
}.

Module Link.
Record t : Type := mk {
  serverId : string;
  groupId : string;
  placeIds : list string;
  apiKeyHash : string;
  apiKeyCreated : Z;
  apiKeyLastUsed : option Z;
  status : ROBLOX_LINK_STATUS;
  verified : bool;
  verifiedAt : option Z;
  enabledTemplates : list string;
  roleMappings : dict RoleMapping;
  settings : LinkSettings;
  analytics : LinkAnalytics;
  createdAt : Z;
  updatedAt : Z
}.
End Link.

(** The argument of [createLink]; [settings] holds the optional members of
    [linkData.settings], the two toggles as [Some false] when they are
    [false]. *)
Module LinkData.
Record t : Type := mk {
  groupId : string;
  placeIds : option (list string);
  enabledTemplates : option (list string);
  roleMappings : option (dict RoleMapping);
  requirePlaytime : option Z;
  rateLimitMinutes : option Z;
  notificationsEnabled : option bool;
  autoSync : option bool;
  syncIntervalMinutes : option Z
}.
End LinkData.

(** The [updates] objects that the links database passes to [updateLink]. *)
Module LinkUpdates.
Record t : Type := mk {
  apiKeyHash : option string;
  apiKeyCreated : option Z;
  apiKeyLastUsed : option (option Z);
  status : option ROBLOX_LINK_STATUS;
  verified : option bool;
  verifiedAt : option (option Z);
  analytics : option LinkAnalytics
}.
End LinkUpdates.

(** The counters that [incrementAnalytics] is called with. *)
Inductive AnalyticsCounter : Type :=
| CounterTotalSubmissions
| CounterTotalSyncs
| CounterFailedSyncs.

Section RobloxLinks.

(** [hashApiKey]: the hexadecimal SHA-256 digest of the key followed by the
    salt. *)
Variable hashApiKey : string -> string.

Definition links : Type := dict Link.t.

(** [x !== false] on an optional toggle. *)
Definition notFalse (x : option bool) : bool :=
  match x with
  | Some false => false
  | _ => true
  end.

Definition orList {A : Type} (x : option (list A)) : list A :=
  match x with
  | Some l => l
  | None => []
  end.

(** [getLink]: [links[serverId] || null]. *)
Definition getLink (serverId : string) (ls : links) : option Link.t :=
  dictGet serverId ls.

(** [generateApiKey], with [randomHex] the 64 hexadecimal digits of
    [crypto.randomBytes(32)]. *)
Definition generateApiKey (serverId randomHex : string) : string :=
  ("ks_roblox_" ++ serverId ++ "_" ++ randomHex)%string.

(** [createLink]: the link that is stored. *)
Definition newLink (serverId : string) (linkData : LinkData.t)
  (hashedKey : string) (now : Z) : Link.t :=
  {| Link.serverId := serverId;
     Link.groupId := LinkData.groupId linkData;
     Link.placeIds := orList (LinkData.placeIds linkData);
     Link.apiKeyHash := hashedKey;
     Link.apiKeyCreated := now;
     Link.apiKeyLastUsed := None;
     Link.status := PENDING_VERIFICATION;
     Link.verified := false;
     Link.verifiedAt := None;
     Link.enabledTemplates := orList (LinkData.enabledTemplates linkData);
     Link.roleMappings := orList (LinkData.roleMappings linkData);
     Link.settings :=
       {| requirePlaytime := orZ (LinkData.requirePlaytime linkData) 60;
          rateLimitMinutes := orZ (LinkData.rateLimitMinutes linkData) 60;
          notificationsEnabled :=
            notFalse (LinkData.notificationsEnabled linkData);
          autoSync := notFalse (LinkData.autoSync linkData);
          syncIntervalMinutes :=
            orZ (LinkData.syncIntervalMinutes linkData) 5 |};
     Link.analytics :=
       {| totalSubmissions := 0;
          totalSyncs := 0;
          lastSyncAt := None;
          failedSyncs := 0 |};
     Link.createdAt := now;
     Link.updatedAt := now |}.

(** [createLink] on the document: the link with the plain key, and the
    document that the modifier returns. *)
Definition createLink (serverId : string) (linkData : LinkData.t)
  (randomHex : string) (now : Z) (ls : links) : (Link.t * string) * links :=
  let apiKey := generateApiKey serverId randomHex in
  let hashedKey := hashApiKey apiKey in
  let link := newLink serverId linkData hashedKey now in
  ((link, apiKey), dictSet serverId link ls).

(** [{...link, ...updates, updatedAt}] *)
Definition applyLinkUpdates (l : Link.t) (u : LinkUpdates.t) (now : Z)
  : Link.t :=
  {| Link.serverId := Link.serverId l;
     Link.groupId := Link.groupId l;
     Link.placeIds := Link.placeIds l;
     Link.apiKeyHash := spread (Link.apiKeyHash l) (LinkUpdates.apiKeyHash u);
     Link.apiKeyCreated :=
       spread (Link.apiKeyCreated l) (LinkUpdates.apiKeyCreated u);
     Link.apiKeyLastUsed :=
       spread (Link.apiKeyLastUsed l) (LinkUpdates.apiKeyLastUsed u);
     Link.status := spread (Link.status l) (LinkUpdates.status u);
     Link.verified := spread (Link.verified l) (LinkUpdates.verified u);
     Link.verifiedAt := spread (Link.verifiedAt l) (LinkUpdates.verifiedAt u);
     Link.enabledTemplates := Link.enabledTemplates l;
     Link.roleMappings := Link.roleMappings l;
     Link.settings := Link.settings l;
     Link.analytics := spread (Link.analytics l) (LinkUpdates.analytics u);
     Link.createdAt := Link.createdAt l;
     Link.updatedAt := now |}.

(** The modifier of [updateLink]: the updated link, which it captures, and
    the new document. *)
Definition updateLink (serverId : string) (u : LinkUpdates.t) (now : Z)
  (ls : links) : outcome (Link.t * links) :=
  match dictGet serverId ls with
  | None => Throw "Roblox link not found"
  | Some old =>
      let updated := applyLinkUpdates old u now in
      Ret (updated, dictSet serverId updated ls)
  end.

(** The modifier of [deleteLink]. *)
Definition deleteLink (serverId : string) (ls : links) : links :=
  dictDelete serverId ls.

(** [verifyLink] on the document. *)
Definition verifyLink (serverId : string) (now : Z) (ls : links)
  : outcome (Link.t * links) :=
  updateLink serverId
    {| LinkUpdates.apiKeyHash := None;
       LinkUpdates.apiKeyCreated := None;
       LinkUpdates.apiKeyLastUsed := None;
       LinkUpdates.status := Some VERIFIED;
       LinkUpdates.verified := Some true;
       LinkUpdates.verifiedAt := Some (Some now);
       LinkUpdates.analytics := None |} now ls.

Definition analyticsUpdate (a : LinkAnalytics) : LinkUpdates.t :=
  {| LinkUpdates.apiKeyHash := None;
     LinkUpdates.apiKeyCreated := None;
     LinkUpdates.apiKeyLastUsed := None;
     LinkUpdates.status := None;
     LinkUpdates.verified := None;
     LinkUpdates.verifiedAt := None;
     LinkUpdates.analytics := Some a |}.

(** [incrementAnalytics] on the document. *)
Definition incrementAnalytics (serverId : string) (counter : AnalyticsCounter)
  (amount : Z) (now : Z) (ls : links) : outcome (Link.t * links) :=
  match getLink serverId ls with
  | None => Throw "Roblox link not found"
  | Some link =>
      let a := Link.analytics link in
      let a' :=
        match counter with
        | CounterTotalSubmissions =>
            {| totalSubmissions := totalSubmissions a + amount;
               totalSyncs := totalSyncs a;
               lastSyncAt := lastSyncAt a;
               failedSyncs := failedSyncs a |}
        | CounterTotalSyncs =>
            {| totalSubmissions := totalSubmissions a;
               totalSyncs := totalSyncs a + amount;
               lastSyncAt := lastSyncAt a;
               failedSyncs := failedSyncs a |}
        | CounterFailedSyncs =>
            {| totalSubmissions := totalSubmissions a;
               totalSyncs := totalSyncs a;
               lastSyncAt := lastSyncAt a;
               failedSyncs := failedSyncs a + amount |}
        end in
      updateLink serverId (analyticsUpdate a') now ls
  end.

(** [updateLastSync] on the document. *)
Definition updateLastSync (serverId : string) (success : bool) (now : Z)
  (ls : links) : outcome (Link.t * links) :=
  match getLink serverId ls with
  | None => Throw "Roblox link not found"
  | Some link =>
      let a := Link.analytics link in
      let a' :=
        {| totalSubmissions := totalSubmissions a;
           totalSyncs := totalSyncs a + 1;
           lastSyncAt := Some now;
           failedSyncs :=
             if success then failedSyncs a else failedSyncs a + 1 |} in
      updateLink serverId (analyticsUpdate a') now ls
  end.

(** [updateApiKeyUsage] on the document: a failure of [updateLink] is logged
    and swallowed. *)
Definition updateApiKeyUsage (serverId : string) (now : Z) (ls : links)
  : links :=
  match updateLink serverId
          {| LinkUpdates.apiKeyHash := None;
             LinkUpdates.apiKeyCreated := None;
             LinkUpdates.apiKeyLastUsed := Some (Some now);
             LinkUpdates.status := None;
             LinkUpdates.verified := None;
             LinkUpdates.verifiedAt := None;
             LinkUpdates.analytics := None |} now ls with
  | Ret (_, ls') => ls'
  | Throw _ => ls
  end.

(** [regenerateApiKey] on the document: the updated link with the plain
    key. *)
Definition regenerateApiKey (serverId randomHex : string) (now : Z)
  (ls : links) : outcome ((Link.t * string) * links) :=
  let apiKey := generateApiKey serverId randomHex in
  let hashedKey := hashApiKey apiKey in
  match updateLink serverId
          {| LinkUpdates.apiKeyHash := Some hashedKey;
             LinkUpdates.apiKeyCreated := Some now;
             LinkUpdates.apiKeyLastUsed := Some None;
             LinkUpdates.status := None;
             LinkUpdates.verified := None;
             LinkUpdates.verifiedAt := None;
             LinkUpdates.analytics := None |} now ls with
  | Ret (updatedLink, ls') => Ret ((updatedLink, apiKey), ls')
  | Throw e => Throw e
  end.

(** The loop of [validateApiKey] over [Object.entries(links)]: the first
    entry with the hash. *)
Fixpoint findByHash (hashedKey : string) (entries : links)
  : option (string * Link.t) :=
  match entries with
  | [] => None
  | (serverId, link) :: rest =>
      if (Link.apiKeyHash link =? hashedKey)%string
      then Some (serverId, link)
      else findByHash hashedKey rest
  end.

(** [validateApiKey] on the document: the link as it was read, and the
    document with the usage time of the key updated. *)
Definition validateApiKey (apiKey : string) (now : Z) (ls : links)
  : option Link.t * links :=
  let hashedKey := hashApiKey apiKey in
  match findByHash hashedKey ls with
  | Some (serverId, link) => (Some link, updateApiKeyUsage serverId now ls)
  | None => (None, ls)
  end.

End RobloxLinks.

(** ** Roblox/utils/roblox_api.js: the Directory Service

    The calls go over the network to a service that the bot does not own: what
    a call answers, or that it throws, is an input of the model. *)

Record Role : Type := mkRole {
  roleId : Z;
  roleName : string;
  rank : Z
}.

Record Directory : Type := mkDirectory {
  getGroupRoles : string -> outcome (list Role);
  getUserRoleInGroup : string -> string -> outcome (option Role);
  setUserRank : string -> string -> Z -> outcome unit;
  getGroupDescription : string -> outcome string
}.

(** One invocation of [setUserRank(groupId, userId, roleId)]. *)
Record SetRankCall : Type := mkSetRankCall {
  callGroupId : string;
  callUserId : string;
  callRoleId : Z
}.

(** ** Roblox/utils/verification.js

    The verifications on the documents; the methods over the handler are in
    [verification]. *)

Module Verification.
Record t : Type := mk {
  serverId : string;
  groupId : string;
  groupName : string;
  code : string;
  initiatedBy : string;
  createdAt : Z;
  expiresAt : Z;
  verified : bool;
  attempts : Z;
  maxAttempts : Z;
  verifiedAt : option Z
}.
End Verification.

(** The object that [checkVerification] returns. *)
Record CheckResult : Type := mkCheckResult {
  checkSuccess : bool;
  checkError : option string;
  checkMessage : option string;
  attemptsRemaining : option Z
}.

Module RobloxVerification.

Definition verifications : Type := dict Verification.t.

(** [getVerification]: [verifications[serverId] || null]. *)
Definition getVerification (serverId : string) (vs : verifications)
  : option Verification.t :=
  dictGet serverId vs.

(** [startVerification]: the record that is stored, with [code] the result
    of [generateVerificationCode()] and [groupName] read from the Directory
    Service. *)
Definition newVerification (serverId groupId groupName code userId : string)
  (now : Z) : Verification.t :=
  {| Verification.serverId := serverId;
     Verification.groupId := groupId;
     Verification.groupName := groupName;
     Verification.code := ("KS_VERIFY_" ++ code)%string;
     Verification.initiatedBy := userId;
     Verification.createdAt := now;
     Verification.expiresAt := now + 10 * 60 * 1000;
     Verification.verified := false;
     Verification.attempts := 0;
     Verification.maxAttempts := 5;
     Verification.verifiedAt := None |}.

Definition startVerification
  (serverId groupId groupName code userId : string) (now : Z)
  (vs : verifications) : Verification.t * verifications :=
  let verification :=
    newVerification serverId groupId groupName code userId now in
  (verification, dictSet serverId verification vs).

(** The modifier of [updateVerification], called with [{ attempts }]. *)
Definition updateVerification (serverId : string) (attempts : Z)
  (vs : verifications) : verifications :=
  match dictGet serverId vs with
  | Some v =>
      dictSet serverId
        {| Verification.serverId := Verification.serverId v;
           Verification.groupId := Verification.groupId v;
           Verification.groupName := Verification.groupName v;
           Verification.code := Verification.code v;
           Verification.initiatedBy := Verification.initiatedBy v;
           Verification.createdAt := Verification.createdAt v;
           Verification.expiresAt := Verification.expiresAt v;
           Verification.verified := Verification.verified v;
           Verification.attempts := attempts;
           Verification.maxAttempts := Verification.maxAttempts v;
           Verification.verifiedAt := Verification.verifiedAt v |} vs
  | None => vs
  end.

(** The modifier of [completeVerification]. *)
Definition completeVerification (serverId : string) (now : Z)
  (vs : verifications) : verifications :=
  match dictGet serverId vs with
  | Some v =>
      dictSet serverId
        {| Verification.serverId := Verification.serverId v;
           Verification.groupId := Verification.groupId v;
           Verification.groupName := Verification.groupName v;
           Verification.code := Verification.code v;
           Verification.initiatedBy := Verification.initiatedBy v;
           Verification.createdAt := Verification.createdAt v;
           Verification.expiresAt := Verification.expiresAt v;
           Verification.verified := true;
           Verification.attempts := Verification.attempts v;
           Verification.maxAttempts := Verification.maxAttempts v;
           Verification.verifiedAt := Some now |} vs
  | None => vs
  end.

(** The modifier of [cancelVerification]. *)
Definition cancelVerification (serverId : string) (vs : verifications)
  : verifications :=
  dictDelete serverId vs.

Definition NO_VERIFICATION : string := "No verification in progress".
Definition EXPIRED : string := "Verification expired".
Definition MAX_ATTEMPTS : string := "Maximum verification attempts reached".
Definition CODE_NOT_FOUND : string :=
  "Verification code not found in group description".
Definition CHECK_FAILED : string := "Failed to verify group ownership".

Definition failure (error : string) : CheckResult :=
  {| checkSuccess := false;
     checkError := Some error;
     checkMessage := None;
     attemptsRemaining := None |}.

(** [checkVerification] on the document. *)
Definition checkVerification (dir : Directory) (serverId : string) (now : Z)
  (vs : verifications) : CheckResult * verifications :=
  match getVerification serverId vs with
  | None => (failure NO_VERIFICATION, vs)
  | Some verification =>
      if Verification.expiresAt verification <? now then
        (failure EXPIRED, cancelVerification serverId vs)
      else if Verification.maxAttempts verification
              <=? Verification.attempts verification then
        (failure MAX_ATTEMPTS, cancelVerification serverId vs)
      else
        let attempts := Verification.attempts verification + 1 in
        let vs1 := updateVerification serverId attempts vs in
        match getGroupDescription dir (Verification.groupId verification) with
        | Throw _ => (failure CHECK_FAILED, vs1)
        | Ret description =>
            if includes description (Verification.code verification) then
              ({| checkSuccess := true;
                  checkError := None;
                  checkMessage :=
                    Some "Group ownership verified successfully!";
                  attemptsRemaining := None |},
               completeVerification serverId now vs1)
            else
              ({| checkSuccess := false;
                  checkError := Some CODE_NOT_FOUND;
                  checkMessage := None;
                  attemptsRemaining :=
                    Some (Verification.maxAttempts verification - attempts)
               |},
               vs1)
        end
  end.

(** Consecutive calls of [checkVerification], one per element of [calls]
    (what the Directory Service answers and the instant of the call): the
    results in order, and the final document. *)
Fixpoint checkRepeatedly (serverId : string) (calls : list (Directory * Z))
  (vs : verifications) : list CheckResult * verifications :=
  match calls with
  | [] => ([], vs)
  | (dir, now) :: rest =>
      let '(r, vs1) := checkVerification dir serverId now vs in
      let '(rs, vs2) := checkRepeatedly serverId rest vs1 in
      (r :: rs, vs2)
  end.

End RobloxVerification.

(** ** The documents

    The three JSON documents, the flag of the worker, and the calls of
    [setUserRank] made so far, the latest last. *)

Record World : Type := mkWorld {
  sync_queue : SyncQueue.queue;
  roblox_links : dict Link.t;
  roblox_verifications : dict Verification.t;
  processing : bool;
  setRankCalls : list SetRankCall
}.

Definition setQueue (q : SyncQueue.queue) (w : World) : World :=
  {| sync_queue := q;
     roblox_links := roblox_links w;
     roblox_verifications := roblox_verifications w;
     processing := processing w;
     setRankCalls := setRankCalls w |}.

Definition setLinks (ls : dict Link.t) (w : World) : World :=
  {| sync_queue := sync_queue w;
     roblox_links := ls;
     roblox_verifications := roblox_verifications w;
     processing := processing w;
     setRankCalls := setRankCalls w |}.

Definition setProcessing (b : bool) (w : World) : World :=
  {| sync_queue := sync_queue w;
     roblox_links := roblox_links w;
     roblox_verifications := roblox_verifications w;
     processing := b;
     setRankCalls := setRankCalls w |}.

Definition logSetRank (c : SetRankCall) (w : World) : World :=
  {| sync_queue := sync_queue w;
     roblox_links := roblox_links w;
     roblox_verifications := roblox_verifications w;
     processing := processing w;
     setRankCalls := setRankCalls w ++ [c] |}.

(** Computations on the documents: they read and write them and may throw;
    what was written before a throw stays written. *)
Definition M (A : Type) : Type := World -> outcome A * World.

Definition ret {A : Type} (a : A) : M A := fun w => (Ret a, w).

Definition throw {A : Type} (msg : string) : M A := fun w => (Throw msg, w).

Definition bind {A B : Type} (m : M A) (f : A -> M B) : M B :=
  fun w =>
    match m w with
    | (Ret a, w') => f a w'
    | (Throw e, w') => (Throw e, w')
    end.

Definition tryCatch {A : Type} (m : M A) (handler : string -> M A) : M A :=
  fun w =>
    match m w with
    | (Ret a, w') => (Ret a, w')
    | (Throw e, w') => handler e w'
    end.

Notation "x <- m ;; k" := (bind m (fun x => k))
  (at level 61, m at next level, right associativity).
Notation "m ;;; k" := (bind m (fun _ => k))
  (at level 61, right associativity).

(** A queue operation run on the queue document. *)
Definition onQueue {A : Type}
  (op : SyncQueue.queue -> outcome (A * SyncQueue.queue)) : M A :=
  fun w =>
    match op (sync_queue w) with
    | Ret (a, q') => (Ret a, setQueue q' w)
    | Throw e => (Throw e, w)
    end.

(** A links operation run on the links document. *)
Definition onLinks {A : Type}
  (op : dict Link.t -> outcome (A * dict Link.t)) : M A :=
  fun w =>
    match op (roblox_links w) with
    | Ret (a, ls') => (Ret a, setLinks ls' w)
    | Throw e => (Throw e, w)
    end.

(** A call of the Directory Service that does not change the group. *)
Definition call {A : Type} (answer : outcome A) : M A :=
  fun w => (answer, w).

(** [robloxAPI.setUserRank]: the call is recorded, then answered. *)
Definition callSetUserRank (dir : Directory) (groupId userId : string)
  (role : Z) : M unit :=
  fun w =>
    (setUserRank dir groupId userId role,
     logSetRank (mkSetRankCall groupId userId role) w).

(** ** Roblox/utils/role_sync.js

    The worker on the documents; over the handler it is [roleSync]. *)

(** The object that [processJob] returns: [message] on success, [error]
    otherwise. *)
Record ProcessResult : Type := mkProcessResult {
  success : bool;
  text : string
}.

(** The argument of [queueSync]. *)
Module SyncData.
Record t : Type := mk {
  serverId : string;
  robloxUserId : string;
  robloxUsername : option string;
  newRank : Z;
  discordUserId : option string;
  discordRoleId : option string;
  reason : option string;
  applicationId : option string;
  priority : option Z
}.
End SyncData.

(** The object that [queueSync] returns. *)
Record QueueSyncResult : Type := mkQueueSyncResult {
  queued : bool;
  queuedJobId : option string;
  queueText : string
}.

(** The counters that [processPendingJobs] returns. *)
Record BatchResult : Type := mkBatchResult {
  processed : Z;
  succeeded : Z;
  failed : Z
}.

(** What the worker observes while it processes one job: the clock and the
    answers of the Directory Service. *)
Record Observation : Type := mkObservation {
  observedNow : Z;
  observedDirectory : Directory
}.

Module RoleSync.

Definition findRole (r : Z) (roles : list Role) : option Role :=
  find (fun role => rank role =? r) roles.

(** The [try] block of [processJob]. *)
Definition processJobBody (dir : Directory) (now : Z) (job : Job.t)
  : M ProcessResult :=
  onQueue (SyncQueue.markInProgress (Job.id job) now) ;;;
  link <- (fun w => (Ret (getLink (Job.serverId job) (roblox_links w)), w)) ;;
  match link with
  | None => throw "Roblox link not found for server"
  | Some link =>
      if negb (Link.verified link) then throw "Roblox group not verified"
      else
        roles <- call (getGroupRoles dir (Link.groupId link)) ;;
        match findRole (Job.newRank job) roles with
        | None =>
            throw ("Role with rank " ++ numberToString (Job.newRank job)
                   ++ " not found in group")%string
        | Some targetRole =>
            userRole <- call (getUserRoleInGroup dir (Job.robloxUserId job)
                                (Link.groupId link)) ;;
            match userRole with
            | None => throw "User is not in the Roblox group"
            | Some userRole =>
                if rank userRole =? Job.newRank job then
                  onQueue (SyncQueue.markCompleted (Job.id job) now) ;;;
                  onLinks (updateLastSync (Job.serverId job) true now) ;;;
                  ret (mkProcessResult true "User already has target rank")
                else
                  callSetUserRank dir (Link.groupId link)
                    (Job.robloxUserId job) (roleId targetRole) ;;;
                  onQueue (SyncQueue.markCompleted (Job.id job) now) ;;;
                  onLinks (updateLastSync (Job.serverId job) true now) ;;;
                  onLinks (incrementAnalytics (Job.serverId job)
                             CounterTotalSyncs 1 now) ;;;
                  ret (mkProcessResult true "Role synchronized successfully")
            end
        end
  end.

(** The [catch] block of [processJob]: the message of the error is handed to
    [markFailed] with [retry] set. *)
Definition processJobCatch (now : Z) (job : Job.t) (message : string)
  : M ProcessResult :=
  onQueue (SyncQueue.markFailed (Job.id job) message true now) ;;;
  onLinks (updateLastSync (Job.serverId job) false now) ;;;
  ret (mkProcessResult false message).

(** [processJob] *)
Definition processJob (dir : Directory) (now : Z) (job : Job.t)
  : M ProcessResult :=
  tryCatch (processJobBody dir now job) (processJobCatch now job).

(** The [for] loop of [processPendingJobs]. *)
Fixpoint processAll (observe : string -> Observation) (jobs : list Job.t)
  (succeeded failed : Z) (w : World) : (Z * Z) * World :=
  match jobs with
  | [] => ((succeeded, failed), w)
  | job :: rest =>
      let o := observe (Job.id job) in
      match processJob (observedDirectory o) (observedNow o) job w with
      | (Ret result, w') =>
          if success result
          then processAll observe rest (succeeded + 1) failed w'
          else processAll observe rest succeeded (failed + 1) w'
      | (Throw _, w') => processAll observe rest succeeded (failed + 1) w'
      end
  end.

(** [processPendingJobs]: [now] is the instant at which the queue is read,
    [observe jobId] what the worker observes while it processes the job. *)
Definition processPendingJobs (batchSize : Z) (now : Z)
  (observe : string -> Observation) (w : World) : BatchResult * World :=
  if processing w then (mkBatchResult 0 0 0, w)
  else
    let w1 := setProcessing true w in
    let pendingJobs := SyncQueue.getPendingJobs batchSize now (sync_queue w1) in
    match pendingJobs with
    | [] => (mkBatchResult 0 0 0, setProcessing false w1)
    | _ =>
        let '((succeeded, failed), w2) :=
          processAll observe pendingJobs 0 0 w1 in
        (mkBatchResult (Z.of_nat (List.length pendingJobs)) succeeded failed,
         setProcessing false w2)
    end.

(** [queueSync], with [newId] the result of [db.generateId()]. *)
Definition queueSync (syncData : SyncData.t) (newId : string) (now : Z)
  (w : World) : QueueSyncResult * World :=
  match getLink (SyncData.serverId syncData) (roblox_links w) with
  | None =>
      (mkQueueSyncResult false None
         "Roblox integration not set up for this server", w)
  | Some link =>
      if negb (Link.verified link) then
        (mkQueueSyncResult false None "Roblox group not verified", w)
      else if SyncQueue.hasPendingSync (SyncData.serverId syncData)
                (SyncData.robloxUserId syncData) (sync_queue w) then
        (mkQueueSyncResult false None "User already has a pending role sync",
         w)
      else
        let '(job, q') :=
          SyncQueue.addJob
            {| JobData.serverId := SyncData.serverId syncData;
               JobData.robloxUserId := SyncData.robloxUserId syncData;
               JobData.robloxUsername := SyncData.robloxUsername syncData;
               JobData.groupId := Link.groupId link;
               JobData.newRank := SyncData.newRank syncData;
               JobData.discordUserId := SyncData.discordUserId syncData;
               JobData.discordRoleId := SyncData.discordRoleId syncData;
               JobData.priority :=
                 Some (orZ (SyncData.priority syncData) 0);
               JobData.maxAttempts := None;
               JobData.reason :=
                 Some (orString (SyncData.reason syncData)
                         "Application approved");
               JobData.applicationId := SyncData.applicationId syncData |}
            newId now (sync_queue w) in
        (mkQueueSyncResult true (Some (Job.id job))
           "Role sync queued successfully",
         setQueue q' w)
  end.

(** [cancelSync] *)
Definition cancelSync (serverId robloxUserId : string) (w : World)
  : Z * World :=
  let '(cancelled, q') :=
    SyncQueue.cancelUserJobs serverId robloxUserId (sync_queue w) in
  (cancelled, setQueue q' w).

(** [retryFailed] *)
Definition retryFailed (serverId : option string) (now : Z) (w : World)
  : Z * World :=
  let '(retried, q') :=
    SyncQueue.retryFailedJobs serverId now (sync_queue w) in
  (retried, setQueue q' w).

(** [cleanCompletedJobs] *)
Definition cleanCompletedJobs (hoursOld : Z) (now : Z) (w : World)
  : Z * World :=
  let '(deleted, q') :=
    SyncQueue.cleanCompletedJobs hoursOld now (sync_queue w) in
  (deleted, setQueue q' w).

End RoleSync.

(** ** shared/utils/validator.js *)

(** [validateTimestamp]: [timestamp] is in seconds, [now] in milliseconds. *)
Definition validateTimestamp (timestamp maxDrift now : Z) : bool :=
  let nowSeconds := now / 1000 in
  let diff := Z.abs (nowSeconds - timestamp) in
  diff <=? maxDrift.

(** ** Roblox/api/auth.js

    The middleware on the documents; over the handler it is [auth]. *)

(** What the middleware reads of the request. *)
Module Request.
Record t : Type := mk {
  authorization : option string;
  method : string;
  path : string;
  body : string;
  bodyTimestamp : option Z;
  queryTimestamp : option Z;
  signature : option string;
  bodyPlaceId : option string;
  queryPlaceId : option string
}.
End Request.

(** The JSON answer of a rejected request. *)
Record Rejection : Type := mkRejection {
  httpStatus : Z;
  errorText : string;
  errorCode : string
}.

(** What the middleware attaches to the request before it calls [next()]. *)
Record AuthContext : Type := mkAuthContext {
  robloxLink : Link.t;
  contextServerId : string;
  contextGroupId : string;
  contextPlaceId : option string
}.

Inductive AuthResult : Type :=
| Rejected (r : Rejection)
| Next (ctx : AuthContext).

Section Auth.

Variable hashApiKey : string -> string.

(** [encryption.verifyRequestSignature(method, path, body, timestamp,
    signature, apiKey)] *)
Variable verifyRequestSignature :
  string -> string -> string -> Z -> string -> string -> bool.

(** [a || b] on possibly missing numbers. *)
Definition orElseZ (a b : option Z) : option Z :=
  match a with
  | Some v => if v =? 0 then b else Some v
  | None => b
  end.

Definition truthyZ (a : option Z) : bool :=
  match a with
  | Some v => negb (v =? 0)
  | None => false
  end.

(** [a || b] on possibly missing strings. *)
Definition orElseString (a b : option string) : option string :=
  if truthyString a then a else b.

(** [authMiddleware] *)
Definition authMiddleware (req : Request.t) (now : Z) (w : World)
  : AuthResult * World :=
  match Request.authorization req with
  | None =>
      (Rejected (mkRejection 401 "Authentication required" "NO_API_KEY"), w)
  | Some authHeader =>
      if negb (truthyString (Some authHeader))
         || negb (startsWith "Bearer " authHeader) then
        (Rejected (mkRejection 401 "Authentication required" "NO_API_KEY"),
         w)
      else
        let apiKey := substringFrom 7 authHeader in
        if Z.of_nat (String.length apiKey) <? 32 then
          (Rejected
             (mkRejection 401 "Invalid API key format" "INVALID_API_KEY"),
           w)
        else
          let '(found, ls') :=
            validateApiKey hashApiKey apiKey now (roblox_links w) in
          let w1 := setLinks ls' w in
          match found with
          | None =>
              (Rejected
                 (mkRejection 401 "Invalid or expired API key"
                    "INVALID_API_KEY"),
               w1)
          | Some link =>
              if negb (Link.verified link) then
                (Rejected
                   (mkRejection 403 "Roblox group not verified"
                      "NOT_VERIFIED"),
                 w1)
              else
                let timestamp :=
                  orElseZ (Request.bodyTimestamp req)
                    (Request.queryTimestamp req) in
                match timestamp with
                | None =>
                    (Rejected
                       (mkRejection 400 "Timestamp required" "NO_TIMESTAMP"),
                     w1)
                | Some ts =>
                    if negb (truthyZ timestamp) then
                      (Rejected
                         (mkRejection 400 "Timestamp required"
                            "NO_TIMESTAMP"),
                       w1)
                    else if negb (validateTimestamp ts 300 now) then
                      (Rejected
                         (mkRejection 400
                            "Request timestamp is invalid or expired"
                            "INVALID_TIMESTAMP"),
                       w1)
                    else if truthyString (Request.signature req)
                            && negb (verifyRequestSignature
                                       (Request.method req)
                                       (Request.path req)
                                       (Request.body req) ts
                                       (orString (Request.signature req) "")
                                       apiKey) then
                      (Rejected
                         (mkRejection 401 "Invalid request signature"
                            "INVALID_SIGNATURE"),
                       w1)
                    else
                      let placeId :=
                        orElseString (Request.bodyPlaceId req)
                          (Request.queryPlaceId req) in
                      if truthyString placeId
                         && negb (existsb
                                    (String.eqb (orString placeId ""))
                                    (Link.placeIds link)) then
                        (Rejected
                           (mkRejection 403
                              "Place ID not authorized for this server"
                              "UNAUTHORIZED_PLACE"),
                         w1)
                      else
                        (Next
                           {| robloxLink := link;
                              contextServerId := Link.serverId link;
                              contextGroupId := Link.groupId link;
                              contextPlaceId := placeId |},
                         w1)
                end
          end
  end.

End Auth.

(** ** The operations that reach the queue

    The entry points through which the rest of the program touches the sync
    queue: [queueSync] (the only caller of [addJob]), the timer of
    [startAutoSync] (which calls [processPendingJobs()] with its default batch
    size), [cancelSync], [cleanCompletedJobs] and the operator's
    [retryFailed].  [LinksChanged] stands for whatever else happens to the
    links document in between (onboarding, verification, removal, key
    usage). *)

Module System.

Inductive Operation : Type :=
| QueueSync (syncData : SyncData.t) (newId : string) (now : Z)
| ProcessPending (now : Z) (observe : string -> Observation)
| CancelSync (serverId robloxUserId : string)
| CleanCompleted (hoursOld now : Z)
| RetryFailed (serverId : option string) (now : Z)
| LinksChanged (ls : dict Link.t).

Definition run (op : Operation) (w : World) : World :=
  match op with
  | QueueSync syncData newId now =>
      snd (RoleSync.queueSync syncData newId now w)
  | ProcessPending now observe =>
      snd (RoleSync.processPendingJobs 5 now observe w)
  | CancelSync serverId robloxUserId =>
      snd (RoleSync.cancelSync serverId robloxUserId w)
  | CleanCompleted hoursOld now =>
      snd (RoleSync.cleanCompletedJobs hoursOld now w)
  | RetryFailed serverId now => snd (RoleSync.retryFailed serverId now w)
  | LinksChanged ls => setLinks ls w
  end.

Definition isRetryFailed (op : Operation) : bool :=
  match op with
  | RetryFailed _ _ => true
  | _ => false
  end.

(** [db.generateId()] is a version 4 UUID: the id of a new job is not the
    id of a job of the queue. *)
Definition freshId (op : Operation) (w : World) : bool :=
  match op with
  | QueueSync _ newId _ =>
      negb (existsb (SyncQueue.hasId newId) (sync_queue w))
  | _ => true
  end.

Fixpoint runAll (ops : list Operation) (w : World) : World :=
  match ops with
  | [] => w
  | op :: rest => runAll rest (run op w)
  end.

Fixpoint freshIds (ops : list Operation) (w : World) : bool :=
  match ops with
  | [] => true
  | op :: rest => freshId op w && freshIds rest (run op w)
  end.

(** The process starts with an empty queue. *)
Definition initial (w : World) : bool :=
  match sync_queue w with
  | [] => true
  | _ => false
  end.

(** The jobs of a tenant and identity that are queued, in progress or
    retrying. *)
Definition activeJobs (serverId robloxUserId : string) (q : SyncQueue.queue)
  : list Job.t :=
  filter (fun j => (Job.serverId j =? serverId)%string
                   && (Job.robloxUserId j =? robloxUserId)%string
                   && SyncQueue.nonTerminal (Job.status j)) q.

End System.

(** The example of the ordering of [getPendingJobs]: a queued job with the
    given id, priority and creation time. *)
Definition exampleJob (jobId : string) (priority createdAt : Z) : Job.t :=
  SyncQueue.newJob
    {| JobData.serverId := "server";
       JobData.robloxUserId := jobId;
       JobData.robloxUsername := None;
       JobData.groupId := "group";
       JobData.newRank := 1;
       JobData.discordUserId := None;
       JobData.discordRoleId := None;
       JobData.priority := Some priority;
       JobData.maxAttempts := None;
       JobData.reason := None;
       JobData.applicationId := None |} jobId createdAt.

(** A link of the given tenant and group, with the given key hash and
    verification flag, as [createLink] and [verifyLink] leave it. *)
Definition exampleLink (serverId groupId hashedKey : string) (verified : bool)
  : Link.t :=
  {| Link.serverId := serverId;
     Link.groupId := groupId;
     Link.placeIds := ["4001"];
     Link.apiKeyHash := hashedKey;
     Link.apiKeyCreated := 0;
     Link.apiKeyLastUsed := None;
     Link.status := if verified then VERIFIED else PENDING_VERIFICATION;
     Link.verified := verified;
     Link.verifiedAt := if verified then Some 0 else None;
     Link.enabledTemplates := [];
     Link.roleMappings := [];
     Link.settings := mkLinkSettings 60 60 true true 5;
     Link.analytics := mkLinkAnalytics 0 0 None 0;
     Link.createdAt := 0;
     Link.updatedAt := 0 |}.

(** A hash for the examples: the key followed by the default salt. *)
Definition exampleHash (apiKey : string) : string :=
  (apiKey ++ "default_salt_change_this")%string.

Definition exampleKey : string :=
  "ks_roblox_1001_00112233445566778899aabbccddeeff".

(** A world with an empty queue and the given links. *)
Definition worldWithLinks (ls : dict Link.t) : World :=
  {| sync_queue := [];
     roblox_links := ls;
     roblox_verifications := [];
     processing := false;
     setRankCalls := [] |}.




(** A request that presents [exampleKey] with the given timestamp and
    nothing else. *)
Definition exampleRequest (timestamp : Z) : Request.t :=
  {| Request.authorization := Some ("Bearer " ++ exampleKey)%string;
     Request.method := "POST";
     Request.path := "/api/roblox/validate";
     Request.body := "{}";
     Request.bodyTimestamp := Some timestamp;
     Request.queryTimestamp := None;
     Request.signature := None;
     Request.bodyPlaceId := None;
     Request.queryPlaceId := None |}.

(** A signature check for the examples. *)
Definition exampleVerify (method path body : string) (timestamp : Z)
  (signature apiKey : string) : bool :=
  (signature =? apiKey)%string.

(** A Directory Service whose group has the given description, ranks and
    member rank, and that accepts every rank change. *)
Definition exampleDirectory (description : string) (roles : list Role)
  (member : option Role) : Directory :=
  {| getGroupRoles := fun _ => Ret roles;
     getUserRoleInGroup := fun _ _ => Ret member;
     setUserRank := fun _ _ _ => Ret tt;
     getGroupDescription := fun _ => Ret description |}.

(** A Directory Service that does not answer. *)
Definition unreachableDirectory : Directory :=
  {| getGroupRoles := fun _ => Throw "Request timeout";
     getUserRoleInGroup := fun _ _ => Throw "Request timeout";
     setUserRank := fun _ _ _ => Throw "Request timeout";
     getGroupDescription := fun _ => Throw "Request timeout" |}.

(** The verifications document after [startVerification] at instant 0 for
    tenant 1001. *)
Definition exampleVerifications : dict Verification.t :=
  snd (RobloxVerification.startVerification "1001" "G" "Group" "ABCD1234"
         "42" 0 []).

(** A check whose description does not hold the code, at the given
    instant. *)
Definition failedCheck (now : Z) : Directory * Z :=
  (exampleDirectory "Welcome to the group" [] None, now).

(** A check by [checkVerification] that does not find the code: it is made
    no later than the expiry, the description is read, and the code is not in
    it. *)
Definition codeNotFound (v : Verification.t) (c : Directory * Z) : Prop :=
  snd c <= Verification.expiresAt v
  /\ exists description,
      getGroupDescription (fst c) (Verification.groupId v) = Ret description
      /\ includes description (Verification.code v) = false.

(** The non-retryable domain errors of the worker, as [processJob] meets
    them after [markInProgress]: the message that is thrown when the link of
    the tenant is missing, the tenant is not verified, the requested rank is
    not in the role catalog of the group, or the subject is not a member of
    the group; [None] when there is no such error. *)
Definition domainError (dir : Directory) (job : Job.t) (w : World)
  : option string :=
  match getLink (Job.serverId job) (roblox_links w) with
  | None => Some "Roblox link not found for server"
  | Some link =>
      if negb (Link.verified link) then Some "Roblox group not verified"
      else
        match getGroupRoles dir (Link.groupId link) with
        | Throw _ => None
        | Ret roles =>
            match RoleSync.findRole (Job.newRank job) roles with
            | None =>
                Some ("Role with rank " ++ numberToString (Job.newRank job)
                      ++ " not found in group")%string
            | Some _ =>
                match getUserRoleInGroup dir (Job.robloxUserId job)
                        (Link.groupId link) with
                | Ret None => Some "User is not in the Roblox group"
                | _ => None
                end
            end
        end
  end.

(** The rank that the subject of a job holds in the group of the tenant, as
    the Directory Service answers it. *)
Definition currentRank (dir : Directory) (job : Job.t) (w : World)
  : option Z :=
  match getLink (Job.serverId job) (roblox_links w) with
  | None => None
  | Some link =>
      match getUserRoleInGroup dir (Job.robloxUserId job)
              (Link.groupId link) with
      | Ret (Some role) => Some (rank role)
      | _ => None
      end
  end.

(** The requested rank of a job is in the role catalog of the group of a
    verified tenant. *)
Definition rankResolves (dir : Directory) (job : Job.t) (w : World) : bool :=
  match getLink (Job.serverId job) (roblox_links w) with
  | None => false
  | Some link =>
      Link.verified link
      && match getGroupRoles dir (Link.groupId link) with
         | Ret roles =>
             match RoleSync.findRole (Job.newRank job) roles with
             | Some _ => true
             | None => false
             end
         | Throw _ => false
         end
  end.

(** [q'] is [q] with the job that [getJob jobId] finds replaced by [new]. *)
Definition replaced (jobId : string) (q q' : SyncQueue.queue)
  (old new : Job.t) : Prop :=
  exists l1 l2,
    q = l1 ++ old :: l2
    /\ q' = l1 ++ new :: l2
    /\ Forall (fun j => SyncQueue.hasId jobId j = false) l1
    /\ SyncQueue.hasId jobId old = true.

(** What [updateJob] never changes. *)
Definition sameRequest (old new : Job.t) : Prop :=
  Job.id new = Job.id old
  /\ Job.serverId new = Job.serverId old
  /\ Job.robloxUserId new = Job.robloxUserId old
  /\ Job.newRank new = Job.newRank old
  /\ Job.priority new = Job.priority old
  /\ Job.maxAttempts new = Job.maxAttempts old
  /\ Job.createdAt new = Job.createdAt old.

(** The two ways in which [markFailed] leaves a job whose attempts were
    [attempts]: retrying with a retry time, or failed with a completion
    time. *)
Definition failedOnce (retry : bool) (now : Z) (attempts : Z) (new : Job.t)
  : Prop :=
  Job.attempts new = attempts + 1
  /\ if retry && (attempts + 1 <? Job.maxAttempts new)
     then Job.status new = RETRYING
          /\ Job.nextRetryAt new =
             Some (now + SyncQueue.delayMinutes (attempts + 1) * 60 * 1000)
     else Job.status new = FAILED /\ Job.completedAt new = Some now.

(** The [updates] objects of [markInProgress] and [markCompleted]. *)
Definition inProgressUpdate (now : Z) : JobUpdates.t :=
  {| JobUpdates.status := Some IN_PROGRESS;
     JobUpdates.attempts := None;
     JobUpdates.lastAttemptAt := Some (Some now);
     JobUpdates.nextRetryAt := None;
     JobUpdates.errors := None;
     JobUpdates.lastError := None;
     JobUpdates.completedAt := None |}.

Definition completedUpdate (now : Z) : JobUpdates.t :=
  {| JobUpdates.status := Some COMPLETED;
     JobUpdates.attempts := None;
     JobUpdates.lastAttemptAt := None;
     JobUpdates.nextRetryAt := None;
     JobUpdates.errors := None;
     JobUpdates.lastError := None;
     JobUpdates.completedAt := Some (Some now) |}.

(** The counters of a job are in range: the attempts lie between 0 and
    [maxAttempts], which is at least 1, and a job that is queued, in progress
    or retrying has attempts left. *)
Definition jobOk (j : Job.t) : Prop :=
  0 <= Job.attempts j <= Job.maxAttempts j
  /\ 1 <= Job.maxAttempts j
  /\ (SyncQueue.nonTerminal (Job.status j) = true ->
      Job.attempts j < Job.maxAttempts j).

(** The ids of the queue are distinct and the counters of every job are in
    range. *)
Definition wellFormed (q : SyncQueue.queue) : Prop :=
  NoDup (map Job.id q) /\ Forall jobOk q.

(** No tenant and identity has two jobs that are queued, in progress or
    retrying. *)
Definition atMostOne (q : SyncQueue.queue) : Prop :=
  forall serverId robloxUserId,
    (List.length (System.activeJobs serverId robloxUserId q) <= 1)%nat.

(** No operation of the list is the operator's re-queue. *)
Definition noRetryFailed (ops : list System.Operation) : bool :=
  forallb (fun op => negb (System.isRetryFailed op)) ops.

(** A run of the program for the examples: tenant 1001 is verified; a sync
    is queued for identity 77 and fails three times because the Directory
    Service does not answer; a second sync is then queued for the same
    identity. *)
Definition exampleWorld : World :=
  worldWithLinks [("1001", exampleLink "1001" "G" "h" true)].

Definition exampleSyncData : SyncData.t :=
  {| SyncData.serverId := "1001";
     SyncData.robloxUserId := "77";
     SyncData.robloxUsername := Some "builder";
     SyncData.newRank := 5;
     SyncData.discordUserId := None;
     SyncData.discordRoleId := None;
     SyncData.reason := None;
     SyncData.applicationId := None;
     SyncData.priority := None |}.

Definition unreachableAt (now : Z) (jobId : string) : Observation :=
  mkObservation now unreachableDirectory.



(** The order of [getPendingJobs]: higher priority first, then older
    first. *)
Definition pendingOrder (a b : Job.t) : Prop :=
  Job.priority a > Job.priority b
  \/ (Job.priority a = Job.priority b /\ Job.createdAt a <= Job.createdAt b).

(** ** Roblox/database/sync_queue.js: statistics *)

Module SyncQueueDatabase.

(** The object that [getStatistics] returns.  [averageAttempts] is a decimal
    string made by [toFixed(2)] from a floating point quotient: the model
    keeps the sum of the attempts that it divides, [totalAttempts]. *)
Record Statistics : Type := mkStatistics {
  total : Z;
  queued : Z;
  inProgress : Z;
  retrying : Z;
  completed : Z;
  failed : Z;
  totalAttempts : Z;
  oldestPending : option Z
}.

Definition countStatus (s : SYNC_STATUS) (q : SyncQueue.queue) : Z :=
  Z.of_nat (List.length (filter (fun j => statusEqb (Job.status j) s) q)).

(** The comparator [new Date(a.createdAt) - new Date(b.createdAt)]. *)
Definition oldestFirst (a b : Job.t) : bool :=
  Job.createdAt a - Job.createdAt b <=? 0.

(** [getStatistics] *)
Definition getStatistics (serverId : option string) (q : SyncQueue.queue)
  : Statistics :=
  let queue :=
    match serverId with
    | Some sid =>
        if truthyString (Some sid)
        then filter (fun j => (Job.serverId j =? sid)%string) q
        else q
    | None => q
    end in
  let pending :=
    filter (fun j => statusEqb (Job.status j) QUEUED
                     || statusEqb (Job.status j) RETRYING) queue in
  {| total := Z.of_nat (List.length queue);
     queued := countStatus QUEUED queue;
     inProgress := countStatus IN_PROGRESS queue;
     retrying := countStatus RETRYING queue;
     completed := countStatus COMPLETED queue;
     failed := countStatus FAILED queue;
     totalAttempts := fold_left (fun sum j => sum + Job.attempts j) queue 0;
     oldestPending :=
       match sortBy oldestFirst pending with
       | [] => None
       | first :: _ => Some (Job.createdAt first)
       end |}.

End SyncQueueDatabase.

(** ** Roblox/utils/role_sync.js: the other methods of the manager *)

(** The entries that [getSyncHistory] returns. *)
Record HistoryEntry : Type := mkHistoryEntry {
  historyId : string;
  historyStatus : SYNC_STATUS;
  historyNewRank : Z;
  historyReason : string;
  historyAttempts : Z;
  historyCreatedAt : Z;
  historyCompletedAt : option Z;
  historyError : option string
}.

(** The object that [estimateCompletionTime] returns. *)
Record Estimate : Type := mkEstimate {
  pendingCount : Z;
  estimatedMinutes : Z;
  estimatedSeconds : option Z;
  estimateMessage : string
}.

Module RoleSyncManager.

(** [Math.ceil(a / b)] on integers, [b] positive. *)
Definition ceilDiv (a b : Z) : Z := - ((- a) / b).

(** [estimateCompletionTime], on the statistics of the queue. *)
Definition estimateCompletionTime (serverId : option string)
  (q : SyncQueue.queue) : Estimate :=
  let stats := SyncQueueDatabase.getStatistics serverId q in
  let pendingCount :=
    SyncQueueDatabase.queued stats + SyncQueueDatabase.retrying stats in
  if pendingCount =? 0 then
    {| pendingCount := 0;
       estimatedMinutes := 0;
       estimatedSeconds := None;
       estimateMessage := "No pending syncs" |}
  else
    let estimatedSeconds := pendingCount * 10 in
    let estimatedMinutes := ceilDiv estimatedSeconds 60 in
    {| pendingCount := pendingCount;
       estimatedMinutes := estimatedMinutes;
       estimatedSeconds := Some estimatedSeconds;
       estimateMessage :=
         ("Approximately " ++ numberToString estimatedMinutes ++ " minute"
          ++ (if (estimatedMinutes =? 1)%Z then "" else "s"))%string |}.

(** [a.completedAt || a.updatedAt] *)
Definition historyTime (j : Job.t) : Z :=
  match Job.completedAt j with
  | Some t => t
  | None => Job.updatedAt j
  end.

(** The comparator [new Date(bTime) - new Date(aTime)]. *)
Definition latestFirst (a b : Job.t) : bool :=
  historyTime b - historyTime a <=? 0.

Definition isHistory (j : Job.t) : bool :=
  statusEqb (Job.status j) COMPLETED || statusEqb (Job.status j) FAILED.

Definition historyEntry (j : Job.t) : HistoryEntry :=
  {| historyId := Job.id j;
     historyStatus := Job.status j;
     historyNewRank := Job.newRank j;
     historyReason := Job.reason j;
     historyAttempts := Job.attempts j;
     historyCreatedAt := Job.createdAt j;
     historyCompletedAt := Job.completedAt j;
     historyError := Job.lastError j |}.

(** The jobs of [getSyncHistory], before they are mapped to entries. *)
Definition historyJobs (serverId robloxUserId : string) (limit : Z)
  (q : SyncQueue.queue) : list Job.t :=
  let jobs := SyncQueue.getUserJobs serverId robloxUserId q in
  let history := filter isHistory jobs in
  slice0 (sortBy latestFirst history) limit.

(** [getSyncHistory] *)
Definition getSyncHistory (serverId robloxUserId : string) (limit : Z)
  (q : SyncQueue.queue) : list HistoryEntry :=
  map historyEntry (historyJobs serverId robloxUserId limit q).

(** The temporary job of [syncImmediately]; the members that the object
    literal leaves out are not read by [processJob]. *)
Definition immediateJob (syncData : SyncData.t) (now : Z) : Job.t :=
  {| Job.id := ("immediate_" ++ numberToString now)%string;
     Job.serverId := SyncData.serverId syncData;
     Job.robloxUserId := SyncData.robloxUserId syncData;
     Job.robloxUsername := SyncData.robloxUsername syncData;
     Job.groupId := "";
     Job.newRank := SyncData.newRank syncData;
     Job.discordUserId := None;
     Job.discordRoleId := None;
     Job.status := QUEUED;
     Job.priority := 0;
     Job.attempts := 0;
     Job.maxAttempts := 0;
     Job.lastAttemptAt := None;
     Job.nextRetryAt := None;
     Job.errors := [];
     Job.lastError := None;
     Job.reason := orString (SyncData.reason syncData) "Immediate sync";
     Job.applicationId := None;
     Job.createdAt := now;
     Job.updatedAt := now;
     Job.completedAt := None |}.

End RoleSyncManager.

(** ** Roblox/utils/role_sync.js: the status of an identity *)

(** What [getSyncStatus] shows of a job. *)
Record JobSummary : Type := mkJobSummary {
  summaryId : string;
  summaryStatus : SYNC_STATUS;
  summaryNewRank : Z;
  summaryAttempts : Z;
  summaryCreatedAt : Z;
  summaryLastError : option string
}.

(** The object that [getSyncStatus] returns; the two counts are missing when
    the identity has no job. *)
Record SyncStatusView : Type := mkSyncStatusView {
  hasPending : bool;
  statusPendingCount : option Z;
  statusTotalJobs : option Z;
  statusJobs : list JobSummary
}.

Definition jobSummary (j : Job.t) : JobSummary :=
  {| summaryId := Job.id j;
     summaryStatus := Job.status j;
     summaryNewRank := Job.newRank j;
     summaryAttempts := Job.attempts j;
     summaryCreatedAt := Job.createdAt j;
     summaryLastError := Job.lastError j |}.

(** [getSyncStatus] *)
Definition getSyncStatus (serverId robloxUserId : string)
  (q : SyncQueue.queue) : SyncStatusView :=
  let jobs := SyncQueue.getUserJobs serverId robloxUserId q in
  match jobs with
  | [] =>
      {| hasPending := false;
         statusPendingCount := None;
         statusTotalJobs := None;
         statusJobs := [] |}
  | _ =>
      let pending :=
        filter (fun j => statusEqb (Job.status j) QUEUED
                         || statusEqb (Job.status j) IN_PROGRESS
                         || statusEqb (Job.status j) RETRYING) jobs in
      {| hasPending := 0 <? Z.of_nat (List.length pending);
         statusPendingCount := Some (Z.of_nat (List.length pending));
         statusTotalJobs := Some (Z.of_nat (List.length jobs));
         statusJobs := map jobSummary jobs |}
  end.

(** ** Roblox/database/roblox_links.js: the failed verification *)

Module RobloxLinksDatabase.

(** [markVerificationFailed] *)
Definition markVerificationFailed (serverId : string) (now : Z)
  (ls : dict Link.t) : outcome (Link.t * dict Link.t) :=
  updateLink serverId
    {| LinkUpdates.apiKeyHash := None;
       LinkUpdates.apiKeyCreated := None;
       LinkUpdates.apiKeyLastUsed := None;
       LinkUpdates.status := Some VERIFICATION_FAILED;
       LinkUpdates.verified := None;
       LinkUpdates.verifiedAt := None;
       LinkUpdates.analytics := None |} now ls.

End RobloxLinksDatabase.

(** ** Roblox/api/auth.js: the optional middleware and the rate limiter *)

Section OptionalAuth.

Variable hashApiKey : string -> string.

(** [optionalAuthMiddleware]: what it attaches to the request, if anything,
    before it calls [next()]; it does not set [req.placeId]. *)
Definition optionalAuthMiddleware (req : Request.t) (now : Z) (w : World)
  : option AuthContext * World :=
  match Request.authorization req with
  | None => (None, w)
  | Some authHeader =>
      if negb (truthyString (Some authHeader))
         || negb (startsWith "Bearer " authHeader) then (None, w)
      else
        let apiKey := substringFrom 7 authHeader in
        let '(found, ls') :=
          validateApiKey hashApiKey apiKey now (roblox_links w) in
        let w1 := setLinks ls' w in
        match found with
        | Some link =>
            if Link.verified link then
              (Some {| robloxLink := link;
                       contextServerId := Link.serverId link;
                       contextGroupId := Link.groupId link;
                       contextPlaceId := None |},
               w1)
            else (None, w1)
        | None => (None, w1)
        end
  end.

End OptionalAuth.

(** The records of the [Map] of [createRateLimiter]. *)
Record RateRecord : Type := mkRateRecord {
  count : Z;
  resetAt : Z
}.

(** What the rate limiter does with a request: the 429 answer with its
    [resetIn], or [next()] with the three headers. *)
Inductive RateResult : Type :=
| Limited (resetIn : Z)
| Passed (limit remaining reset : Z).

(** The middleware that [createRateLimiter(maxRequests, windowMinutes)]
    returns, on the request of [key] ([req.serverId || req.ip]) at [now]. *)
Definition createRateLimiter (maxRequests windowMinutes : Z) (key : string)
  (now : Z) (requests : dict RateRecord) : RateResult * dict RateRecord :=
  let windowMs := windowMinutes * 60 * 1000 in
  let fresh := {| count := 0; resetAt := now + windowMs |} in
  let '(record, requests1) :=
    match dictGet key requests with
    | Some record =>
        if windowMs <? now - resetAt record
        then (fresh, dictSet key fresh requests)
        else (record, requests)
    | None => (fresh, dictSet key fresh requests)
    end in
  if maxRequests <=? count record then
    (Limited (RoleSyncManager.ceilDiv (resetAt record - now) 1000), requests1)
  else
    let record' := {| count := count record + 1; resetAt := resetAt record |} in
    (Passed maxRequests (maxRequests - count record') (resetAt record / 1000),
     dictSet key record' requests1).

(** The requests of a list, served in order by one rate limiter. *)
Fixpoint serve (maxRequests windowMinutes : Z) (calls : list (string * Z))
  (requests : dict RateRecord) : list RateResult * dict RateRecord :=
  match calls with
  | [] => ([], requests)
  | (key, now) :: rest =>
      let '(r, requests1) :=
        createRateLimiter maxRequests windowMinutes key now requests in
      let '(rs, requests2) := serve maxRequests windowMinutes rest requests1 in
      (r :: rs, requests2)
  end.

Definition isPassed (r : RateResult) : bool :=
  match r with
  | Passed _ _ _ => true
  | Limited _ => false
  end.

(** The number of requests of [key] that were passed, given the calls and
    their results. *)
Fixpoint passedFor (key : string) (calls : list (string * Z))
  (results : list RateResult) : Z :=
  match calls, results with
  | (k, _) :: calls', r :: results' =>
      (if (k =? key)%string && isPassed r then 1 else 0)
      + passedFor key calls' results'
  | _, _ => 0
  end.

(** ** Roblox/utils/verification.js: status, extension, cleaning *)

(** The object that [getVerificationStatus] returns for a verification in
    progress. *)
Record StatusView : Type := mkStatusView {
  statusVerified : bool;
  statusAttempts : Z;
  statusMaxAttempts : Z;
  statusAttemptsRemaining : Z;
  timeRemaining : Z;
  expired : bool
}.

(** The object that [extendVerification] returns. *)
Inductive ExtendResult : Type :=
| ExtendFailed (error : string)
| Extended (newExpiresAt : Z).

Module VerificationManager.

(** [getVerificationStatus]; [None] is the answer with [active: false]. *)
Definition getVerificationStatus (serverId : string) (now : Z)
  (vs : RobloxVerification.verifications) : option StatusView :=
  match RobloxVerification.getVerification serverId vs with
  | None => None
  | Some verification =>
      let timeRemaining :=
        Z.max 0 ((Verification.expiresAt verification - now) / 1000) in
      Some {| statusVerified := Verification.verified verification;
              statusAttempts := Verification.attempts verification;
              statusMaxAttempts := Verification.maxAttempts verification;
              statusAttemptsRemaining :=
                Verification.maxAttempts verification
                - Verification.attempts verification;
              timeRemaining := timeRemaining;
              expired := timeRemaining =? 0 |}
  end.

(** [updateVerification], called with [{ expiresAt }]. *)
Definition updateExpiresAt (serverId : string) (expiresAt : Z)
  (vs : RobloxVerification.verifications) : RobloxVerification.verifications :=
  match dictGet serverId vs with
  | Some v =>
      dictSet serverId
        {| Verification.serverId := Verification.serverId v;
           Verification.groupId := Verification.groupId v;
           Verification.groupName := Verification.groupName v;
           Verification.code := Verification.code v;
           Verification.initiatedBy := Verification.initiatedBy v;
           Verification.createdAt := Verification.createdAt v;
           Verification.expiresAt := expiresAt;
           Verification.verified := Verification.verified v;
           Verification.attempts := Verification.attempts v;
           Verification.maxAttempts := Verification.maxAttempts v;
           Verification.verifiedAt := Verification.verifiedAt v |} vs
  | None => vs
  end.

(** [extendVerification] *)
Definition extendVerification (serverId : string) (additionalMinutes now : Z)
  (vs : RobloxVerification.verifications)
  : ExtendResult * RobloxVerification.verifications :=
  match RobloxVerification.getVerification serverId vs with
  | None => (ExtendFailed "No verification in progress", vs)
  | Some verification =>
      if Verification.verified verification then
        (ExtendFailed "Group is already verified", vs)
      else
        let newExpiresAt := now + additionalMinutes * 60 * 1000 in
        (Extended newExpiresAt, updateExpiresAt serverId newExpiresAt vs)
  end.

(** [cleanExpiredVerifications]: the loop runs over the entries as they were
    when it started, and deletes from the document. *)
Definition cleanExpiredVerifications (now : Z)
  (vs : RobloxVerification.verifications)
  : Z * RobloxVerification.verifications :=
  fold_left
    (fun state entry =>
       if Verification.expiresAt (snd entry) <? now
       then (fst state + 1, dictDelete (fst entry) (snd state))
       else state)
    vs (0, vs).

End VerificationManager.

(** ** Roblox/utils/encryption.js and shared/utils/logger.js: codes and
    previews *)

Module EncryptionUtils.

Definition chars : string :=
  "ABCDEFGHIJKLMNOPQRSTUVWXYZabcdefghijklmnopqrstuvwxyz0123456789".

(** [chars[byte % chars.length]] *)
Definition pick (byte : Byte.byte) : Ascii.ascii :=
  match String.get (N.to_nat (Byte.to_N byte mod 62)) chars with
  | Some c => c
  | None => Ascii.zero
  end.

(** [generateRandomString(length)], with [bytes] the result of
    [crypto.randomBytes(length)]. *)
Fixpoint generateRandomString (bytes : list Byte.byte) : string :=
  match bytes with
  | [] => EmptyString
  | byte :: rest => String (pick byte) (generateRandomString rest)
  end.

(** [toUpperCase] on a character of [chars]. *)
Definition upper (c : Ascii.ascii) : Ascii.ascii :=
  let n := Ascii.N_of_ascii c in
  if ((97 <=? n) && (n <=? 122))%N then Ascii.ascii_of_N (n - 32) else c.

Fixpoint toUpperCase (s : string) : string :=
  match s with
  | EmptyString => EmptyString
  | String c s' => String (upper c) (toUpperCase s')
  end.

(** [generateVerificationCode(length)] *)
Definition generateVerificationCode (bytes : list Byte.byte) : string :=
  toUpperCase (generateRandomString bytes).

(** The [apiKeyPreview] that [logger.apiKeyUsed] writes to the log. *)
Definition apiKeyPreview (apiKey : string) : string :=
  (String.substring 0 20 apiKey ++ "...")%string.

End EncryptionUtils.

(** ** Notions used by the further properties *)

(** The completion time that [cleanCompletedJobs] reads: [new Date(null)] is
    the epoch. *)
Definition completionDate (j : Job.t) : Z :=
  match Job.completedAt j with
  | Some t => t
  | None => 0
  end.

(** The one call of [setUserRank] that [processJob] may make for a job: to
    the group of the verified link of the tenant, for the subject of the job,
    with the role that the catalog of the group gives the requested rank,
    after the Directory Service said that the subject holds another rank. *)
Definition rankChangeOf (dir : Directory) (job : Job.t) (w : World)
  (c : SetRankCall) : Prop :=
  exists link roles target current,
    getLink (Job.serverId job) (roblox_links w) = Some link
    /\ Link.verified link = true
    /\ getGroupRoles dir (Link.groupId link) = Ret roles
    /\ RoleSync.findRole (Job.newRank job) roles = Some target
    /\ getUserRoleInGroup dir (Job.robloxUserId job) (Link.groupId link)
       = Ret (Some current)
    /\ rank current <> Job.newRank job
    /\ c = mkSetRankCall (Link.groupId link) (Job.robloxUserId job)
             (roleId target).

(** ** data/db_handler.js

    The store as [DatabaseHandler] has it: for each path a JSON file, an entry
    of [this.locks] and an entry of [this.cache].  What an [await] gives back
    is a [promise]: fulfilled with a value, rejected with a thrown error, or
    never settled. *)

Inductive promise (A : Type) : Type :=
| Fulfilled (a : A)
| Thrown (msg : string)
| Pending.
Arguments Fulfilled {A} a.
Arguments Thrown {A} msg.
Arguments Pending {A}.

Definition settled {A : Type} (o : outcome A) : promise A :=
  match o with
  | Ret a => Fulfilled a
  | Throw msg => Thrown msg
  end.

Module db.

(** An entry of [this.cache]: [{ data, timestamp }]. *)
Record Cached (D : Type) : Type := mkCached {
  data : D;
  timestamp : Z
}.
Arguments mkCached {D} data timestamp.
Arguments data {D} c.
Arguments timestamp {D} c.

(** One path: the JSON document in the file, [this.locks.get(filePath)] and
    [this.cache.get(filePath)]. *)
Record File (D : Type) : Type := mkFile {
  content : D;
  locked : bool;
  cached : option (Cached D)
}.
Arguments mkFile {D} content locked cached.
Arguments content {D} f.
Arguments locked {D} f.
Arguments cached {D} f.

(** [waitForLock], and the loop of [acquireLock]:
    [while (this.locks.get(filePath)) await sleep(10)].  The caller is
    suspended while it sleeps and nothing else releases the lock on its
    behalf, so every turn of the loop finds the entry as the first turn found
    it; [fuel] is the number of turns that are watched, and the answer is
    whether the loop has been left by then. *)
Fixpoint waitForLock (fuel : nat) (locked : bool) : bool :=
  match fuel with
  | O => negb locked
  | S fuel' => if locked then waitForLock fuel' locked else true
  end.

(** [acquireLock]: [None] while the loop has not been left. *)
Definition acquireLock {D : Type} (fuel : nat) (f : File D)
  : option (File D) :=
  if waitForLock fuel (locked f)
  then Some (mkFile (content f) true (cached f))
  else None.

(** [releaseLock] *)
Definition releaseLock {D : Type} (f : File D) : File D :=
  mkFile (content f) false (cached f).

(** [read], after the look into the cache: the wait for the lock, then
    [fs.readJson] and, with [useCache], [this.cache.set].  [wait] is the
    outcome of that [waitForLock] for the state of the lock. *)
Definition readFile {D : Type} (wait : bool -> bool) (useCache : bool)
  (now : Z) (f : File D) : promise D * File D :=
  if wait (locked f) then
    let data := content f in
    (Fulfilled data,
     if useCache
     then mkFile (content f) (locked f) (Some (mkCached data now))
     else f)
  else (Pending, f).

(** [read]: an entry of the cache that is less than 5000 ms old is returned
    as it is: the object that the caller gets is the object of the cache. *)
Definition read {D : Type} (wait : bool -> bool) (useCache : bool) (now : Z)
  (f : File D) : promise D * File D :=
  if useCache then
    match cached f with
    | Some c =>
        if now - timestamp c <? 5000 then (Fulfilled (data c), f)
        else readFile wait useCache now f
    | None => readFile wait useCache now f
    end
  else readFile wait useCache now f.

(** [modify]: [acquireLock], then [read(filePath, false)], the modifier,
    [fs.writeJson], [this.cache.delete] and [releaseLock].  The read is the
    one that every caller uses, only now the lock is the one that [modify]
    itself has just taken: [wait] is what the wait of that read does.  With
    the method as it is written, [wait] is [waitForLock fuel].  The modifier
    answers with what it has captured for its caller and the document to
    write; when it throws, nothing is written and nothing releases the
    lock.  Without [useCache] the read does not look at the clock. *)
Definition modify {D A : Type} (wait : bool -> bool) (fuel : nat)
  (modifier : D -> outcome (A * D)) (f : File D)
  : promise (A * D) * File D :=
  match acquireLock fuel f with
  | None => (Pending, f)
  | Some f1 =>
      match read wait false 0 f1 with
      | (Fulfilled data, f2) =>
          match modifier data with
          | Ret (a, modified) =>
              (Fulfilled (a, modified),
               releaseLock (mkFile modified (locked f2) None))
          | Throw msg => (Thrown msg, f2)
          end
      | (Thrown msg, f2) => (Thrown msg, f2)
      | (Pending, f2) => (Pending, f2)
      end
  end.

(** The wait of the read inside [modify] finds the lock set, by [modify]
    itself; [returns wait] says that this wait comes back all the same. *)
Definition returns (wait : bool -> bool) : Prop := wait true = true.

(** A change made in place to an object that a cached [read] has returned:
    the object is the one that the cache holds. *)
Definition mutate {D : Type} (change : D -> D) (f : File D) : File D :=
  mkFile (content f) (locked f)
    (match cached f with
     | Some c => Some (mkCached (change (data c)) (timestamp c))
     | None => None
     end).

(** A file that nobody holds and whose cache, if any, is the document. *)
Definition idle {D : Type} (f : File D) : Prop :=
  locked f = false
  /\ match cached f with
     | Some c => data c = content f
     | None => True
     end.

(** The file after [initializeFiles] or a completed [modify]. *)
Definition fresh {D : Type} (d : D) : File D := mkFile d false None.

End db.

(** ** The state of the process, with the store as the handler has it *)

Module Runtime.

Record t : Type := mk {
  sync_queue : db.File SyncQueue.queue;
  roblox_links : db.File (dict Link.t);
  roblox_verifications : db.File (dict Verification.t);
  processing : bool;
  setRankCalls : list SetRankCall
}.

Definition setProcessing (b : bool) (r : t) : t :=
  {| sync_queue := sync_queue r;
     roblox_links := roblox_links r;
     roblox_verifications := roblox_verifications r;
     processing := b;
     setRankCalls := setRankCalls r |}.

Definition logSetRank (c : SetRankCall) (r : t) : t :=
  {| sync_queue := sync_queue r;
     roblox_links := roblox_links r;
     roblox_verifications := roblox_verifications r;
     processing := processing r;
     setRankCalls := setRankCalls r ++ [c] |}.

End Runtime.

(** The three documents as they are on disk. *)
Definition documents (r : Runtime.t) : World :=
  {| sync_queue := db.content (Runtime.sync_queue r);
     roblox_links := db.content (Runtime.roblox_links r);
     roblox_verifications := db.content (Runtime.roblox_verifications r);
     processing := Runtime.processing r;
     setRankCalls := Runtime.setRankCalls r |}.

(** The process that starts on the given documents: no lock is held and the
    cache is empty. *)
Definition started (w : World) : Runtime.t :=
  {| Runtime.sync_queue := db.fresh (sync_queue w);
     Runtime.roblox_links := db.fresh (roblox_links w);
     Runtime.roblox_verifications := db.fresh (roblox_verifications w);
     Runtime.processing := processing w;
     Runtime.setRankCalls := setRankCalls w |}.

(** No lock is held, and what the cache holds is what the files hold. *)
Definition idle (r : Runtime.t) : Prop :=
  db.idle (Runtime.sync_queue r) /\ db.idle (Runtime.roblox_links r)
  /\ db.idle (Runtime.roblox_verifications r).

(** [PATHS.ROBLOX]: a path selects its file in the state. *)
Module PATHS.

Record t (D : Type) : Type := mk {
  get : Runtime.t -> db.File D;
  put : db.File D -> Runtime.t -> Runtime.t
}.
Arguments get {D} _ _.
Arguments put {D} _ _ _.

Definition SYNC_QUEUE : t SyncQueue.queue :=
  {| get := Runtime.sync_queue;
     put := fun f r =>
       {| Runtime.sync_queue := f;
          Runtime.roblox_links := Runtime.roblox_links r;
          Runtime.roblox_verifications := Runtime.roblox_verifications r;
          Runtime.processing := Runtime.processing r;
          Runtime.setRankCalls := Runtime.setRankCalls r |} |}.

Definition LINKS : t (dict Link.t) :=
  {| get := Runtime.roblox_links;
     put := fun f r =>
       {| Runtime.sync_queue := Runtime.sync_queue r;
          Runtime.roblox_links := f;
          Runtime.roblox_verifications := Runtime.roblox_verifications r;
          Runtime.processing := Runtime.processing r;
          Runtime.setRankCalls := Runtime.setRankCalls r |} |}.

Definition VERIFICATIONS : t (dict Verification.t) :=
  {| get := Runtime.roblox_verifications;
     put := fun f r =>
       {| Runtime.sync_queue := Runtime.sync_queue r;
          Runtime.roblox_links := Runtime.roblox_links r;
          Runtime.roblox_verifications := f;
          Runtime.processing := Runtime.processing r;
          Runtime.setRankCalls := Runtime.setRankCalls r |} |}.

End PATHS.

(** An [async] method: it runs on the state of the process and gives a
    promise; a promise that never settles keeps its caller waiting, and no
    [catch] or [finally] of the caller runs. *)
Definition Async (A : Type) : Type := Runtime.t -> promise A * Runtime.t.

Module Async.

Definition ret {A : Type} (a : A) : Async A := fun r => (Fulfilled a, r).

Definition throw {A : Type} (msg : string) : Async A :=
  fun r => (Thrown msg, r).

Definition bind {A B : Type} (m : Async A) (f : A -> Async B) : Async B :=
  fun r =>
    match m r with
    | (Fulfilled a, r') => f a r'
    | (Thrown msg, r') => (Thrown msg, r')
    | (Pending, r') => (Pending, r')
    end.

Definition tryCatch {A : Type} (m : Async A) (handler : string -> Async A)
  : Async A :=
  fun r =>
    match m r with
    | (Fulfilled a, r') => (Fulfilled a, r')
    | (Thrown msg, r') => handler msg r'
    | (Pending, r') => (Pending, r')
    end.

(** [await db.read(path)] *)
Definition read {D : Type} (fuel : nat) (p : PATHS.t D) (now : Z) : Async D :=
  fun r =>
    let '(x, f) := db.read (db.waitForLock fuel) true now (PATHS.get p r) in
    (x, PATHS.put p f r).

(** [await db.modify(path, modifier)] *)
Definition modify {D A : Type} (wait : bool -> bool) (fuel : nat)
  (p : PATHS.t D) (modifier : D -> outcome (A * D)) : Async (A * D) :=
  fun r =>
    let '(x, f) := db.modify wait fuel modifier (PATHS.get p r) in
    (x, PATHS.put p f r).

(** A change in place to the object of the last cached read of a path. *)
Definition mutate {D : Type} (p : PATHS.t D) (change : D -> D) : Async unit :=
  fun r => (Fulfilled tt, PATHS.put p (db.mutate change (PATHS.get p r)) r).

(** A call of the Directory Service that does not change the group. *)
Definition call {A : Type} (answer : outcome A) : Async A :=
  fun r => (settled answer, r).

(** [robloxAPI.setUserRank]: the call is recorded, then answered. *)
Definition callSetUserRank (dir : Directory) (groupId userId : string)
  (role : Z) : Async unit :=
  fun r =>
    (settled (setUserRank dir groupId userId role),
     Runtime.logSetRank (mkSetRankCall groupId userId role) r).

End Async.

Declare Scope async_scope.
Delimit Scope async_scope with async.
Notation "x <- m ;; k" := (Async.bind m (fun x => k))
  (at level 61, m at next level, right associativity) : async_scope.
Notation "m ;;; k" := (Async.bind m (fun _ => k))
  (at level 61, right associativity) : async_scope.

(** [arr.find(p)] followed by a change in place of the object found. *)
Fixpoint changeFirst {A : Type} (p : A -> bool) (change : A -> A)
  (l : list A) : list A :=
  match l with
  | [] => []
  | x :: l' => if p x then change x :: l' else x :: changeFirst p change l'
  end.

(** [d[k]] followed by a change in place of the object found. *)
Fixpoint dictChange {V : Type} (k : string) (change : V -> V) (d : dict V)
  : dict V :=
  match d with
  | [] => []
  | (k', v) :: d' =>
      if (k' =? k)%string then (k', change v) :: d'
      else (k', v) :: dictChange k change d'
  end.

(** ** Roblox/database/sync_queue.js on the handler *)

Module syncQueue.

Section Methods.

Variable wait : bool -> bool.
Variable fuel : nat.

Local Open Scope async_scope.

(** [getAllJobs] *)
Definition getAllJobs (now : Z) : Async SyncQueue.queue :=
  Async.tryCatch (Async.read fuel PATHS.SYNC_QUEUE now)
    (fun _ => Async.ret []).

(** [addJob] *)
Definition addJob (jobData : JobData.t) (newId : string) (now : Z)
  : Async Job.t :=
  let job := SyncQueue.newJob jobData newId now in
  Async.modify wait fuel PATHS.SYNC_QUEUE
    (fun queue => Ret (tt, queue ++ [job])) ;;;
  Async.ret job.

(** [getJob] *)
Definition getJob (jobId : string) (now : Z) : Async (option Job.t) :=
  Async.tryCatch
    (queue <- getAllJobs now ;;
     Async.ret (find (SyncQueue.hasId jobId) queue))
    (fun _ => Async.ret None).

(** [updateJob]: the modifier is [SyncQueue.updateJob], which captures the
    updated job. *)
Definition updateJob (jobId : string) (updates : JobUpdates.t) (now : Z)
  : Async Job.t :=
  written <- Async.modify wait fuel PATHS.SYNC_QUEUE
               (SyncQueue.updateJob jobId updates now) ;;
  Async.ret (fst written).

(** [markInProgress] *)
Definition markInProgress (jobId : string) (now : Z) : Async Job.t :=
  updateJob jobId
    {| JobUpdates.status := Some IN_PROGRESS;
       JobUpdates.attempts := None;
       JobUpdates.lastAttemptAt := Some (Some now);
       JobUpdates.nextRetryAt := None;
       JobUpdates.errors := None;
       JobUpdates.lastError := None;
       JobUpdates.completedAt := None |} now.

(** [markCompleted] *)
Definition markCompleted (jobId : string) (now : Z) : Async Job.t :=
  updateJob jobId
    {| JobUpdates.status := Some COMPLETED;
       JobUpdates.attempts := None;
       JobUpdates.lastAttemptAt := None;
       JobUpdates.nextRetryAt := None;
       JobUpdates.errors := None;
       JobUpdates.lastError := None;
       JobUpdates.completedAt := Some (Some now) |} now.

(** [job.attempts++; job.errors.push(...); job.lastError = errorMessage] *)
Definition recordFailure (errorMessage : string) (now : Z) (job : Job.t)
  : Job.t :=
  {| Job.id := Job.id job;
     Job.serverId := Job.serverId job;
     Job.robloxUserId := Job.robloxUserId job;
     Job.robloxUsername := Job.robloxUsername job;
     Job.groupId := Job.groupId job;
     Job.newRank := Job.newRank job;
     Job.discordUserId := Job.discordUserId job;
     Job.discordRoleId := Job.discordRoleId job;
     Job.status := Job.status job;
     Job.priority := Job.priority job;
     Job.attempts := Job.attempts job + 1;
     Job.maxAttempts := Job.maxAttempts job;
     Job.lastAttemptAt := Job.lastAttemptAt job;
     Job.nextRetryAt := Job.nextRetryAt job;
     Job.errors := Job.errors job ++ [mkErrorEntry errorMessage now];
     Job.lastError := Some errorMessage;
     Job.reason := Job.reason job;
     Job.applicationId := Job.applicationId job;
     Job.createdAt := Job.createdAt job;
     Job.updatedAt := Job.updatedAt job;
     Job.completedAt := Job.completedAt job |}.

(** [markFailed]: the job that [getJob] returns is an object of the cached
    queue, and it is changed in place before [updateJob] is asked to store
    the change. *)
Definition markFailed (jobId : string) (errorMessage : string) (retry : bool)
  (now : Z) : Async Job.t :=
  found <- getJob jobId now ;;
  match found with
  | None => Async.throw "Job not found"
  | Some read =>
      Async.mutate PATHS.SYNC_QUEUE
        (changeFirst (SyncQueue.hasId jobId)
           (recordFailure errorMessage now)) ;;;
      let job := recordFailure errorMessage now read in
      if retry && (Job.attempts job <? Job.maxAttempts job) then
        let nextRetryAt :=
          now + SyncQueue.delayMinutes (Job.attempts job) * 60 * 1000 in
        updateJob jobId
          {| JobUpdates.status := Some RETRYING;
             JobUpdates.attempts := Some (Job.attempts job);
             JobUpdates.lastAttemptAt := None;
             JobUpdates.nextRetryAt := Some (Some nextRetryAt);
             JobUpdates.errors := Some (Job.errors job);
             JobUpdates.lastError := Some (Job.lastError job);
             JobUpdates.completedAt := None |} now
      else
        updateJob jobId
          {| JobUpdates.status := Some FAILED;
             JobUpdates.attempts := Some (Job.attempts job);
             JobUpdates.lastAttemptAt := None;
             JobUpdates.nextRetryAt := None;
             JobUpdates.errors := Some (Job.errors job);
             JobUpdates.lastError := Some (Job.lastError job);
             JobUpdates.completedAt := Some (Some now) |} now
  end.

(** [deleteJob] *)
Definition deleteJob (jobId : string) : Async unit :=
  Async.modify wait fuel PATHS.SYNC_QUEUE
    (fun queue => Ret (tt, SyncQueue.deleteJob jobId queue)) ;;;
  Async.ret tt.

(** [getPendingJobs]: the filter makes a new array, which is the one that is
    sorted. *)
Definition getPendingJobs (limit : Z) (now : Z) : Async (list Job.t) :=
  Async.tryCatch
    (queue <- getAllJobs now ;;
     Async.ret (SyncQueue.getPendingJobs limit now queue))
    (fun _ => Async.ret []).

(** [getServerJobs], with the only filter that the program passes. *)
Definition getServerJobs (serverId : string) (robloxUserId : option string)
  (now : Z) : Async (list Job.t) :=
  Async.tryCatch
    (queue <- getAllJobs now ;;
     Async.ret (SyncQueue.getServerJobs serverId robloxUserId queue))
    (fun _ => Async.ret []).

(** [getUserJobs] *)
Definition getUserJobs (serverId robloxUserId : string) (now : Z)
  : Async (list Job.t) :=
  Async.tryCatch (getServerJobs serverId (Some robloxUserId) now)
    (fun _ => Async.ret []).

(** [hasPendingSync] *)
Definition hasPendingSync (serverId robloxUserId : string) (now : Z)
  : Async bool :=
  Async.tryCatch
    (jobs <- getUserJobs serverId robloxUserId now ;;
     Async.ret (existsb (fun j => SyncQueue.nonTerminal (Job.status j)) jobs))
    (fun _ => Async.ret false).

(** [cleanCompletedJobs] *)
Definition cleanCompletedJobs (hoursOld : Z) (now : Z) : Async Z :=
  Async.tryCatch
    (written <- Async.modify wait fuel PATHS.SYNC_QUEUE
                  (fun queue =>
                     Ret (SyncQueue.cleanCompletedJobs hoursOld now queue)) ;;
     Async.ret (fst written))
    (fun _ => Async.ret 0).

(** [retryFailedJobs] *)
Definition retryFailedJobs (serverId : option string) (now : Z) : Async Z :=
  Async.tryCatch
    (written <- Async.modify wait fuel PATHS.SYNC_QUEUE
                  (fun queue =>
                     Ret (SyncQueue.retryFailedJobs serverId now queue)) ;;
     Async.ret (fst written))
    (fun _ => Async.ret 0).

(** [cancelUserJobs] *)
Definition cancelUserJobs (serverId robloxUserId : string) : Async Z :=
  Async.tryCatch
    (written <- Async.modify wait fuel PATHS.SYNC_QUEUE
                  (fun queue =>
                     Ret (SyncQueue.cancelUserJobs serverId robloxUserId
                            queue)) ;;
     Async.ret (fst written))
    (fun _ => Async.ret 0).

End Methods.

End syncQueue.

(** ** Roblox/database/roblox_links.js on the handler *)

(** [link.analytics = a], on the object of a link. *)
Definition withAnalytics (a : LinkAnalytics) (l : Link.t) : Link.t :=
  {| Link.serverId := Link.serverId l;
     Link.groupId := Link.groupId l;
     Link.placeIds := Link.placeIds l;
     Link.apiKeyHash := Link.apiKeyHash l;
     Link.apiKeyCreated := Link.apiKeyCreated l;
     Link.apiKeyLastUsed := Link.apiKeyLastUsed l;
     Link.status := Link.status l;
     Link.verified := Link.verified l;
     Link.verifiedAt := Link.verifiedAt l;
     Link.enabledTemplates := Link.enabledTemplates l;
     Link.roleMappings := Link.roleMappings l;
     Link.settings := Link.settings l;
     Link.analytics := a;
     Link.createdAt := Link.createdAt l;
     Link.updatedAt := Link.updatedAt l |}.

(** The counters after the assignments of [updateLastSync]. *)
Definition lastSyncAnalytics (success : bool) (now : Z) (a : LinkAnalytics)
  : LinkAnalytics :=
  {| totalSubmissions := totalSubmissions a;
     totalSyncs := totalSyncs a + 1;
     lastSyncAt := Some now;
     failedSyncs := if success then failedSyncs a else failedSyncs a + 1 |}.

(** The counters after the assignments of [incrementAnalytics]. *)
Definition incrementedAnalytics (counter : AnalyticsCounter) (amount : Z)
  (a : LinkAnalytics) : LinkAnalytics :=
  match counter with
  | CounterTotalSubmissions =>
      {| totalSubmissions := totalSubmissions a + amount;
         totalSyncs := totalSyncs a;
         lastSyncAt := lastSyncAt a;
         failedSyncs := failedSyncs a |}
  | CounterTotalSyncs =>
      {| totalSubmissions := totalSubmissions a;
         totalSyncs := totalSyncs a + amount;
         lastSyncAt := lastSyncAt a;
         failedSyncs := failedSyncs a |}
  | CounterFailedSyncs =>
      {| totalSubmissions := totalSubmissions a;
         totalSyncs := totalSyncs a;
         lastSyncAt := lastSyncAt a;
         failedSyncs := failedSyncs a + amount |}
  end.

Module robloxLinks.

Section Methods.

Variable hashApiKey : string -> string.
Variable wait : bool -> bool.
Variable fuel : nat.

Local Open Scope async_scope.

(** [getAllLinks] *)
Definition getAllLinks (now : Z) : Async (dict Link.t) :=
  Async.tryCatch (Async.read fuel PATHS.LINKS now) (fun _ => Async.ret []).

(** [getLink] *)
Definition getLink (serverId : string) (now : Z) : Async (option Link.t) :=
  Async.tryCatch
    (links <- getAllLinks now ;;
     Async.ret (dictGet serverId links))
    (fun _ => Async.ret None).

(** [createLink]: the link with the plain key. *)
Definition createLink (serverId : string) (linkData : LinkData.t)
  (randomHex : string) (now : Z) : Async (Link.t * string) :=
  let apiKey := generateApiKey serverId randomHex in
  let hashedKey := hashApiKey apiKey in
  let link := newLink serverId linkData hashedKey now in
  Async.modify wait fuel PATHS.LINKS
    (fun links => Ret (tt, dictSet serverId link links)) ;;;
  Async.ret (link, apiKey).

(** [updateLink]: the modifier is [updateLink] on the document, and what is
    returned is [updatedLink[serverId]]. *)
Definition updateLink (serverId : string) (updates : LinkUpdates.t) (now : Z)
  : Async Link.t :=
  written <- Async.modify wait fuel PATHS.LINKS
               (updateLink serverId updates now) ;;
  Async.ret (fst written).

(** [deleteLink] *)
Definition deleteLink (serverId : string) : Async unit :=
  Async.modify wait fuel PATHS.LINKS
    (fun links => Ret (tt, deleteLink serverId links)) ;;;
  Async.ret tt.

(** [verifyLink] *)
Definition verifyLink (serverId : string) (now : Z) : Async Link.t :=
  updateLink serverId
    {| LinkUpdates.apiKeyHash := None;
       LinkUpdates.apiKeyCreated := None;
       LinkUpdates.apiKeyLastUsed := None;
       LinkUpdates.status := Some VERIFIED;
       LinkUpdates.verified := Some true;
       LinkUpdates.verifiedAt := Some (Some now);
       LinkUpdates.analytics := None |} now.

(** [markVerificationFailed] *)
Definition markVerificationFailed (serverId : string) (now : Z)
  : Async Link.t :=
  updateLink serverId
    {| LinkUpdates.apiKeyHash := None;
       LinkUpdates.apiKeyCreated := None;
       LinkUpdates.apiKeyLastUsed := None;
       LinkUpdates.status := Some VERIFICATION_FAILED;
       LinkUpdates.verified := None;
       LinkUpdates.verifiedAt := None;
       LinkUpdates.analytics := None |} now.

(** [incrementAnalytics]: the counters of the link that [getLink] returns,
    an object of the cached document, are changed in place before
    [updateLink] is asked to store them. *)
Definition incrementAnalytics (serverId : string) (counter : AnalyticsCounter)
  (amount : Z) (now : Z) : Async Link.t :=
  found <- getLink serverId now ;;
  match found with
  | None => Async.throw "Roblox link not found"
  | Some link =>
      let a := incrementedAnalytics counter amount (Link.analytics link) in
      Async.mutate PATHS.LINKS (dictChange serverId (withAnalytics a)) ;;;
      updateLink serverId (analyticsUpdate a) now
  end.

(** [updateLastSync], with the same change in place. *)
Definition updateLastSync (serverId : string) (success : bool) (now : Z)
  : Async Link.t :=
  found <- getLink serverId now ;;
  match found with
  | None => Async.throw "Roblox link not found"
  | Some link =>
      let a := lastSyncAnalytics success now (Link.analytics link) in
      Async.mutate PATHS.LINKS (dictChange serverId (withAnalytics a)) ;;;
      updateLink serverId (analyticsUpdate a) now
  end.

(** [updateApiKeyUsage]: an error of [updateLink] is logged and swallowed. *)
Definition updateApiKeyUsage (serverId : string) (now : Z) : Async unit :=
  Async.tryCatch
    (updateLink serverId
       {| LinkUpdates.apiKeyHash := None;
          LinkUpdates.apiKeyCreated := None;
          LinkUpdates.apiKeyLastUsed := Some (Some now);
          LinkUpdates.status := None;
          LinkUpdates.verified := None;
          LinkUpdates.verifiedAt := None;
          LinkUpdates.analytics := None |} now ;;;
     Async.ret tt)
    (fun _ => Async.ret tt).

(** [regenerateApiKey]: the updated link with the plain key. *)
Definition regenerateApiKey (serverId randomHex : string) (now : Z)
  : Async (Link.t * string) :=
  let apiKey := generateApiKey serverId randomHex in
  let hashedKey := hashApiKey apiKey in
  updatedLink <- updateLink serverId
                   {| LinkUpdates.apiKeyHash := Some hashedKey;
                      LinkUpdates.apiKeyCreated := Some now;
                      LinkUpdates.apiKeyLastUsed := Some None;
                      LinkUpdates.status := None;
                      LinkUpdates.verified := None;
                      LinkUpdates.verifiedAt := None;
                      LinkUpdates.analytics := None |} now ;;
  Async.ret (updatedLink, apiKey).

(** [validateApiKey]: the first entry with the hash; its usage time is
    updated before the link, as it was read, is returned. *)
Definition validateApiKey (apiKey : string) (now : Z)
  : Async (option Link.t) :=
  Async.tryCatch
    (let hashedKey := hashApiKey apiKey in
     links <- getAllLinks now ;;
     match findByHash hashedKey links with
     | Some (serverId, link) =>
         updateApiKeyUsage serverId now ;;;
         Async.ret (Some link)
     | None => Async.ret None
     end)
    (fun _ => Async.ret None).

End Methods.

End robloxLinks.

(** ** Roblox/utils/verification.js on the handler *)

(** [verification.attempts++], on the object of a verification. *)
Definition countAttempt (v : Verification.t) : Verification.t :=
  {| Verification.serverId := Verification.serverId v;
     Verification.groupId := Verification.groupId v;
     Verification.groupName := Verification.groupName v;
     Verification.code := Verification.code v;
     Verification.initiatedBy := Verification.initiatedBy v;
     Verification.createdAt := Verification.createdAt v;
     Verification.expiresAt := Verification.expiresAt v;
     Verification.verified := Verification.verified v;
     Verification.attempts := Verification.attempts v + 1;
     Verification.maxAttempts := Verification.maxAttempts v;
     Verification.verifiedAt := Verification.verifiedAt v |}.

Module verification.

Section Methods.

Variable wait : bool -> bool.
Variable fuel : nat.

Local Open Scope async_scope.

(** [getAllVerifications] *)
Definition getAllVerifications (now : Z) : Async (dict Verification.t) :=
  Async.tryCatch (Async.read fuel PATHS.VERIFICATIONS now)
    (fun _ => Async.ret []).

(** [getVerification] *)
Definition getVerification (serverId : string) (now : Z)
  : Async (option Verification.t) :=
  Async.tryCatch
    (verifications <- getAllVerifications now ;;
     Async.ret (dictGet serverId verifications))
    (fun _ => Async.ret None).

(** [startVerification], with [groupName] read from the Directory Service
    and [code] the result of [generateVerificationCode()]. *)
Definition startVerification
  (serverId groupId groupName code userId : string) (now : Z)
  : Async Verification.t :=
  let verification :=
    RobloxVerification.newVerification serverId groupId groupName code userId
      now in
  Async.modify wait fuel PATHS.VERIFICATIONS
    (fun verifications =>
       Ret (tt, dictSet serverId verification verifications)) ;;;
  Async.ret verification.

(** [updateVerification], called with [{ attempts }]. *)
Definition updateVerification (serverId : string) (attempts : Z)
  : Async unit :=
  Async.modify wait fuel PATHS.VERIFICATIONS
    (fun verifications =>
       Ret (tt,
            RobloxVerification.updateVerification serverId attempts
              verifications)) ;;;
  Async.ret tt.

(** [completeVerification] *)
Definition completeVerification (serverId : string) (now : Z) : Async unit :=
  Async.modify wait fuel PATHS.VERIFICATIONS
    (fun verifications =>
       Ret (tt,
            RobloxVerification.completeVerification serverId now
              verifications)) ;;;
  Async.ret tt.

(** [cancelVerification] *)
Definition cancelVerification (serverId : string) : Async unit :=
  Async.modify wait fuel PATHS.VERIFICATIONS
    (fun verifications =>
       Ret (tt, RobloxVerification.cancelVerification serverId verifications))
  ;;;
  Async.ret tt.

(** [checkVerification]: the verification that [getVerification] returns is
    an object of the cached document, and its attempts are counted in place
    before [updateVerification] is asked to store them. *)
Definition checkVerification (dir : Directory) (serverId : string) (now : Z)
  : Async CheckResult :=
  Async.tryCatch
    (found <- getVerification serverId now ;;
     match found with
     | None =>
         Async.ret (RobloxVerification.failure
                      RobloxVerification.NO_VERIFICATION)
     | Some read =>
         if Verification.expiresAt read <? now then
           cancelVerification serverId ;;;
           Async.ret (RobloxVerification.failure RobloxVerification.EXPIRED)
         else if Verification.maxAttempts read
                 <=? Verification.attempts read then
           cancelVerification serverId ;;;
           Async.ret (RobloxVerification.failure
                        RobloxVerification.MAX_ATTEMPTS)
         else
           Async.mutate PATHS.VERIFICATIONS
             (dictChange serverId countAttempt) ;;;
           let verification := countAttempt read in
           updateVerification serverId (Verification.attempts verification)
           ;;;
           description <- Async.call
                            (getGroupDescription dir
                               (Verification.groupId verification)) ;;
           if includes description (Verification.code verification) then
             completeVerification serverId now ;;;
             Async.ret
               {| checkSuccess := true;
                  checkError := None;
                  checkMessage :=
                    Some "Group ownership verified successfully!";
                  attemptsRemaining := None |}
           else
             Async.ret
               {| checkSuccess := false;
                  checkError := Some RobloxVerification.CODE_NOT_FOUND;
                  checkMessage := None;
                  attemptsRemaining :=
                    Some (Verification.maxAttempts verification
                          - Verification.attempts verification) |}
     end)
    (fun _ =>
       Async.ret (RobloxVerification.failure RobloxVerification.CHECK_FAILED)).

(** [getVerificationStatus]; [None] is the answer with [active: false]. *)
Definition getVerificationStatus (serverId : string) (now : Z)
  : Async (option StatusView) :=
  Async.tryCatch
    (found <- getVerification serverId now ;;
     match found with
     | None => Async.ret None
     | Some verification =>
         let timeRemaining :=
           Z.max 0 ((Verification.expiresAt verification - now) / 1000) in
         Async.ret
           (Some {| statusVerified := Verification.verified verification;
                    statusAttempts := Verification.attempts verification;
                    statusMaxAttempts := Verification.maxAttempts verification;
                    statusAttemptsRemaining :=
                      Verification.maxAttempts verification
                      - Verification.attempts verification;
                    timeRemaining := timeRemaining;
                    expired := timeRemaining =? 0 |})
     end)
    (fun _ => Async.ret None).

(** [cleanExpiredVerifications]: the modifier counts what it deletes. *)
Definition cleanExpiredVerifications (now : Z) : Async Z :=
  Async.tryCatch
    (written <- Async.modify wait fuel PATHS.VERIFICATIONS
                  (fun verifications =>
                     Ret (VerificationManager.cleanExpiredVerifications now
                            verifications)) ;;
     Async.ret (fst written))
    (fun _ => Async.ret 0).

(** [extendVerification], with [updateVerification] called with
    [{ expiresAt }]. *)
Definition extendVerification (serverId : string)
  (additionalMinutes now : Z) : Async ExtendResult :=
  Async.tryCatch
    (found <- getVerification serverId now ;;
     match found with
     | None => Async.ret (ExtendFailed "No verification in progress")
     | Some verification =>
         if Verification.verified verification then
           Async.ret (ExtendFailed "Group is already verified")
         else
           let newExpiresAt := now + additionalMinutes * 60 * 1000 in
           Async.modify wait fuel PATHS.VERIFICATIONS
             (fun verifications =>
                Ret (tt,
                     VerificationManager.updateExpiresAt serverId newExpiresAt
                       verifications)) ;;;
           Async.ret (Extended newExpiresAt)
     end)
    (fun _ => Async.ret (ExtendFailed "Failed to extend verification time")).

(** Consecutive calls of [checkVerification], one per element of [calls]:
    what each call gave back, in order, and the final state.  A call that
    never settles does not keep the next one from being made. *)
Fixpoint checkRepeatedly (serverId : string) (calls : list (Directory * Z))
  (r : Runtime.t) : list (promise CheckResult) * Runtime.t :=
  match calls with
  | [] => ([], r)
  | (dir, now) :: rest =>
      let '(x, r1) := checkVerification dir serverId now r in
      let '(xs, r2) := checkRepeatedly serverId rest r1 in
      (x :: xs, r2)
  end.

End Methods.

End verification.

(** ** Roblox/utils/role_sync.js on the handler *)

(** What [queueSync] decides before it calls [addJob]: the answer of a
    refusal, or the argument of [addJob]. *)
Inductive Admission : Type :=
| Refused (answer : QueueSyncResult)
| Accepted (jobData : JobData.t).

Module roleSync.

Section Methods.

Variable wait : bool -> bool.
Variable fuel : nat.

Local Open Scope async_scope.

(** The [try] block of [processJob]. *)
Definition processJobBody (dir : Directory) (now : Z) (job : Job.t)
  : Async ProcessResult :=
  syncQueue.markInProgress wait fuel (Job.id job) now ;;;
  link <- robloxLinks.getLink fuel (Job.serverId job) now ;;
  match link with
  | None => Async.throw "Roblox link not found for server"
  | Some link =>
      if negb (Link.verified link) then Async.throw "Roblox group not verified"
      else
        roles <- Async.call (getGroupRoles dir (Link.groupId link)) ;;
        match RoleSync.findRole (Job.newRank job) roles with
        | None =>
            Async.throw ("Role with rank " ++ numberToString (Job.newRank job)
                         ++ " not found in group")%string
        | Some targetRole =>
            userRole <- Async.call
                          (getUserRoleInGroup dir (Job.robloxUserId job)
                             (Link.groupId link)) ;;
            match userRole with
            | None => Async.throw "User is not in the Roblox group"
            | Some userRole =>
                if rank userRole =? Job.newRank job then
                  syncQueue.markCompleted wait fuel (Job.id job) now ;;;
                  robloxLinks.updateLastSync wait fuel (Job.serverId job) true
                    now ;;;
                  Async.ret
                    (mkProcessResult true "User already has target rank")
                else
                  Async.callSetUserRank dir (Link.groupId link)
                    (Job.robloxUserId job) (roleId targetRole) ;;;
                  syncQueue.markCompleted wait fuel (Job.id job) now ;;;
                  robloxLinks.updateLastSync wait fuel (Job.serverId job) true
                    now ;;;
                  robloxLinks.incrementAnalytics wait fuel (Job.serverId job)
                    CounterTotalSyncs 1 now ;;;
                  Async.ret
                    (mkProcessResult true "Role synchronized successfully")
            end
        end
  end.

(** The [catch] block of [processJob]: the message of the error is handed to
    [markFailed] with [retry] set. *)
Definition processJobCatch (now : Z) (job : Job.t) (message : string)
  : Async ProcessResult :=
  syncQueue.markFailed wait fuel (Job.id job) message true now ;;;
  robloxLinks.updateLastSync wait fuel (Job.serverId job) false now ;;;
  Async.ret (mkProcessResult false message).

(** [processJob] *)
Definition processJob (dir : Directory) (now : Z) (job : Job.t)
  : Async ProcessResult :=
  Async.tryCatch (processJobBody dir now job) (processJobCatch now job).

(** The [for] loop of [processPendingJobs]: [None] when the loop waits for a
    job that never settles. *)
Fixpoint processAll (observe : string -> Observation) (jobs : list Job.t)
  (succeeded failed : Z) (r : Runtime.t) : option (Z * Z) * Runtime.t :=
  match jobs with
  | [] => (Some (succeeded, failed), r)
  | job :: rest =>
      let o := observe (Job.id job) in
      match processJob (observedDirectory o) (observedNow o) job r with
      | (Fulfilled result, r') =>
          if success result
          then processAll observe rest (succeeded + 1) failed r'
          else processAll observe rest succeeded (failed + 1) r'
      | (Thrown _, r') => processAll observe rest succeeded (failed + 1) r'
      | (Pending, r') => (None, r')
      end
  end.

(** [processPendingJobs]: the [finally] that resets [this.processing] runs
    when the [try] block is left, which a wait that never ends does not
    do. *)
Definition processPendingJobs (batchSize : Z) (now : Z)
  (observe : string -> Observation) : Async BatchResult :=
  fun r =>
    if Runtime.processing r then (Fulfilled (mkBatchResult 0 0 0), r)
    else
      let r1 := Runtime.setProcessing true r in
      match syncQueue.getPendingJobs fuel batchSize now r1 with
      | (Fulfilled [], r2) =>
          (Fulfilled (mkBatchResult 0 0 0), Runtime.setProcessing false r2)
      | (Fulfilled pendingJobs, r2) =>
          match processAll observe pendingJobs 0 0 r2 with
          | (Some (succeeded, failed), r3) =>
              (Fulfilled
                 (mkBatchResult (Z.of_nat (List.length pendingJobs))
                    succeeded failed),
               Runtime.setProcessing false r3)
          | (None, r3) => (Pending, r3)
          end
      | (Thrown _, r2) =>
          (Fulfilled (mkBatchResult 0 0 0), Runtime.setProcessing false r2)
      | (Pending, r2) => (Pending, r2)
      end.

(** [queueSync], up to the call of [addJob]. *)
Definition admission (syncData : SyncData.t) (now : Z) : Async Admission :=
  link <- robloxLinks.getLink fuel (SyncData.serverId syncData) now ;;
  match link with
  | None =>
      Async.ret
        (Refused
           (mkQueueSyncResult false None
              "Roblox integration not set up for this server"))
  | Some link =>
      if negb (Link.verified link) then
        Async.ret
          (Refused (mkQueueSyncResult false None "Roblox group not verified"))
      else
        hasPending <- syncQueue.hasPendingSync fuel
                        (SyncData.serverId syncData)
                        (SyncData.robloxUserId syncData) now ;;
        if hasPending then
          Async.ret
            (Refused
               (mkQueueSyncResult false None
                  "User already has a pending role sync"))
        else
          Async.ret
            (Accepted
               {| JobData.serverId := SyncData.serverId syncData;
                  JobData.robloxUserId := SyncData.robloxUserId syncData;
                  JobData.robloxUsername := SyncData.robloxUsername syncData;
                  JobData.groupId := Link.groupId link;
                  JobData.newRank := SyncData.newRank syncData;
                  JobData.discordUserId := SyncData.discordUserId syncData;
                  JobData.discordRoleId := SyncData.discordRoleId syncData;
                  JobData.priority :=
                    Some (orZ (SyncData.priority syncData) 0);
                  JobData.maxAttempts := None;
                  JobData.reason :=
                    Some (orString (SyncData.reason syncData)
                            "Application approved");
                  JobData.applicationId := SyncData.applicationId syncData |})
  end.

(** [queueSync], from the call of [addJob], with [newId] the result of
    [db.generateId()]. *)
Definition enqueue (accepted : Admission) (newId : string) (now : Z)
  : Async QueueSyncResult :=
  match accepted with
  | Refused answer => Async.ret answer
  | Accepted jobData =>
      job <- syncQueue.addJob wait fuel jobData newId now ;;
      Async.ret
        (mkQueueSyncResult true (Some (Job.id job))
           "Role sync queued successfully")
  end.

(** [queueSync] *)
Definition queueSync (syncData : SyncData.t) (newId : string) (now : Z)
  : Async QueueSyncResult :=
  Async.tryCatch
    (accepted <- admission syncData now ;;
     enqueue accepted newId now)
    (fun _ =>
       Async.ret (mkQueueSyncResult false None "Failed to queue role sync")).

(** [cancelSync]: the number that it answers with. *)
Definition cancelSync (serverId robloxUserId : string) : Async Z :=
  syncQueue.cancelUserJobs wait fuel serverId robloxUserId.

(** [retryFailed] *)
Definition retryFailed (serverId : option string) (now : Z) : Async Z :=
  syncQueue.retryFailedJobs wait fuel serverId now.

(** [cleanCompletedJobs] *)
Definition cleanCompletedJobs (hoursOld : Z) (now : Z) : Async Z :=
  syncQueue.cleanCompletedJobs wait fuel hoursOld now.

(** [getSyncStatus] *)
Definition getSyncStatus (serverId robloxUserId : string) (now : Z)
  : Async SyncStatusView :=
  Async.tryCatch
    (jobs <- syncQueue.getUserJobs fuel serverId robloxUserId now ;;
     match jobs with
     | [] =>
         Async.ret
           {| hasPending := false;
              statusPendingCount := None;
              statusTotalJobs := None;
              statusJobs := [] |}
     | _ =>
         let pending :=
           filter (fun j => statusEqb (Job.status j) QUEUED
                            || statusEqb (Job.status j) IN_PROGRESS
                            || statusEqb (Job.status j) RETRYING) jobs in
         Async.ret
           {| hasPending := 0 <? Z.of_nat (List.length pending);
              statusPendingCount := Some (Z.of_nat (List.length pending));
              statusTotalJobs := Some (Z.of_nat (List.length jobs));
              statusJobs := map jobSummary jobs |}
     end)
    (fun _ =>
       Async.ret
         {| hasPending := false;
            statusPendingCount := None;
            statusTotalJobs := None;
            statusJobs := [] |}).

(** [syncImmediately]: [processJob] on a temporary job that is not added to
    the queue. *)
Definition syncImmediately (dir : Directory) (syncData : SyncData.t) (now : Z)
  : Async ProcessResult :=
  Async.tryCatch
    (processJob dir now (RoleSyncManager.immediateJob syncData now))
    (fun _ => Async.ret (mkProcessResult false "Failed to sync role")).

End Methods.

End roleSync.

(** ** Roblox/api/auth.js on the handler *)

Module auth.

Section Methods.

Variable hashApiKey : string -> string.
Variable verifyRequestSignature :
  string -> string -> string -> Z -> string -> string -> bool.
Variable wait : bool -> bool.
Variable fuel : nat.

Local Open Scope async_scope.

(** [authMiddleware], after [validateApiKey] has answered. *)
Definition authorize (req : Request.t) (now : Z) (apiKey : string)
  (found : option Link.t) : AuthResult :=
  match found with
  | None =>
      Rejected (mkRejection 401 "Invalid or expired API key" "INVALID_API_KEY")
  | Some link =>
      if negb (Link.verified link) then
        Rejected (mkRejection 403 "Roblox group not verified" "NOT_VERIFIED")
      else
        let timestamp :=
          orElseZ (Request.bodyTimestamp req) (Request.queryTimestamp req) in
        match timestamp with
        | None => Rejected (mkRejection 400 "Timestamp required" "NO_TIMESTAMP")
        | Some ts =>
            if negb (truthyZ timestamp) then
              Rejected (mkRejection 400 "Timestamp required" "NO_TIMESTAMP")
            else if negb (validateTimestamp ts 300 now) then
              Rejected
                (mkRejection 400 "Request timestamp is invalid or expired"
                   "INVALID_TIMESTAMP")
            else if truthyString (Request.signature req)
                    && negb (verifyRequestSignature (Request.method req)
                               (Request.path req) (Request.body req) ts
                               (orString (Request.signature req) "") apiKey)
            then
              Rejected
                (mkRejection 401 "Invalid request signature"
                   "INVALID_SIGNATURE")
            else
              let placeId :=
                orElseString (Request.bodyPlaceId req)
                  (Request.queryPlaceId req) in
              if truthyString placeId
                 && negb (existsb (String.eqb (orString placeId ""))
                            (Link.placeIds link)) then
                Rejected
                  (mkRejection 403 "Place ID not authorized for this server"
                     "UNAUTHORIZED_PLACE")
              else
                Next
                  {| robloxLink := link;
                     contextServerId := Link.serverId link;
                     contextGroupId := Link.groupId link;
                     contextPlaceId := placeId |}
        end
  end.

(** [authMiddleware] *)
Definition authMiddleware (req : Request.t) (now : Z) : Async AuthResult :=
  Async.tryCatch
    (match Request.authorization req with
     | None =>
         Async.ret
           (Rejected (mkRejection 401 "Authentication required" "NO_API_KEY"))
     | Some authHeader =>
         if negb (truthyString (Some authHeader))
            || negb (startsWith "Bearer " authHeader) then
           Async.ret
             (Rejected
                (mkRejection 401 "Authentication required" "NO_API_KEY"))
         else
           let apiKey := substringFrom 7 authHeader in
           if Z.of_nat (String.length apiKey) <? 32 then
             Async.ret
               (Rejected
                  (mkRejection 401 "Invalid API key format" "INVALID_API_KEY"))
           else
             found <- robloxLinks.validateApiKey hashApiKey wait fuel apiKey
                        now ;;
             Async.ret (authorize req now apiKey found)
     end)
    (fun _ =>
       Async.ret (Rejected (mkRejection 500 "Authentication failed" "AUTH_ERROR"))).

(** [optionalAuthMiddleware]: what it attaches to the request, if anything,
    before it calls [next()]; it does not set [req.placeId]. *)
Definition optionalAuthMiddleware (req : Request.t) (now : Z)
  : Async (option AuthContext) :=
  Async.tryCatch
    (match Request.authorization req with
     | None => Async.ret None
     | Some authHeader =>
         if negb (truthyString (Some authHeader))
            || negb (startsWith "Bearer " authHeader) then Async.ret None
         else
           let apiKey := substringFrom 7 authHeader in
           found <- robloxLinks.validateApiKey hashApiKey wait fuel apiKey
                      now ;;
           match found with
           | Some link =>
               if Link.verified link then
                 Async.ret
                   (Some {| robloxLink := link;
                            contextServerId := Link.serverId link;
                            contextGroupId := Link.groupId link;
                            contextPlaceId := None |})
               else Async.ret None
           | None => Async.ret None
           end
     end)
    (fun _ => Async.ret None).

End Methods.

End auth.

(** ** The operations that reach the queue, on the handler

    The entry points of [System], run on the handler.  An operation that
    never settles leaves the state as it is when it starts to wait, and the
    next operation is run from there: the program goes on serving while a
    promise is pending. *)

Module Program.

Section Methods.

Variable wait : bool -> bool.
Variable fuel : nat.

Definition setLinks (ls : dict Link.t) (r : Runtime.t) : Runtime.t :=
  PATHS.put PATHS.LINKS (db.fresh ls) r.

Definition run (op : System.Operation) (r : Runtime.t) : Runtime.t :=
  match op with
  | System.QueueSync syncData newId now =>
      snd (roleSync.queueSync wait fuel syncData newId now r)
  | System.ProcessPending now observe =>
      snd (roleSync.processPendingJobs wait fuel 5 now observe r)
  | System.CancelSync serverId robloxUserId =>
      snd (roleSync.cancelSync wait fuel serverId robloxUserId r)
  | System.CleanCompleted hoursOld now =>
      snd (roleSync.cleanCompletedJobs wait fuel hoursOld now r)
  | System.RetryFailed serverId now =>
      snd (roleSync.retryFailed wait fuel serverId now r)
  | System.LinksChanged ls => setLinks ls r
  end.

Fixpoint runAll (ops : list System.Operation) (r : Runtime.t) : Runtime.t :=
  match ops with
  | [] => r
  | op :: rest => runAll rest (run op r)
  end.

End Methods.

End Program.

(** The ids that [db.generateId()] gives along a run are not ids of jobs of
    the queue. *)
Module Fresh.

Section Methods.

Variable wait : bool -> bool.
Variable fuel : nat.

Fixpoint freshIds (ops : list System.Operation) (r : Runtime.t) : bool :=
  match ops with
  | [] => true
  | op :: rest =>
      System.freshId op (documents r)
      && freshIds rest (Program.run wait fuel op r)
  end.

End Methods.

End Fresh.

(** For the examples: a wait that comes back. *)
Definition returningWait : bool -> bool := fun _ => true.

(** ** Notions used by the properties of the handler *)

(** The file with its lock taken. *)
Definition held {D : Type} (f : db.File D) : db.File D :=
  db.mkFile (db.content f) true (db.cached f).

(** [simulates P m old]: from a state in which no lock is held and the cache
    agrees with the files, and whose queue satisfies [P], the method [m] on
    the handler settles as the method [old] on the documents answers, leaves
    the documents as [old] leaves them, and ends in such a state again. *)
Definition simulates {A : Type} (P : SyncQueue.queue -> Prop) (m : Async A)
  (old : M A) : Prop :=
  forall r,
    idle r ->
    P (sync_queue (documents r)) ->
    exists r',
      m r = (settled (fst (old (documents r))), r')
      /\ documents r' = snd (old (documents r))
      /\ idle r'
      /\ P (sync_queue (documents r')).

(** The jobs with the ids [ids] are in the queue. *)
Definition present (ids : list string) (q : SyncQueue.queue) : Prop :=
  incl ids (map Job.id q).

Definition setVerifications (vs : dict Verification.t) (w : World) : World :=
  {| sync_queue := sync_queue w;
     roblox_links := roblox_links w;
     roblox_verifications := vs;
     processing := processing w;
     setRankCalls := setRankCalls w |}.

(** The three documents on disk. *)
Definition stored (r : Runtime.t)
  : SyncQueue.queue * dict Link.t * dict Verification.t :=
  (db.content (Runtime.sync_queue r), db.content (Runtime.roblox_links r),
   db.content (Runtime.roblox_verifications r)).

(** A method that leaves the three documents as they are. *)
Definition keeps {A : Type} (m : Async A) : Prop :=
  forall r, stored (snd (m r)) = stored r.

(** A method that records no call of [setUserRank]. *)
Definition quiet {A : Type} (m : Async A) : Prop :=
  forall r, Runtime.setRankCalls (snd (m r)) = Runtime.setRankCalls r.


(** The state of a process whose only document is the verifications. *)
Definition worldWithVerifications (vs : dict Verification.t) : World :=
  {| sync_queue := [];
     roblox_links := [];
     roblox_verifications := vs;
     processing := false;
     setRankCalls := [] |}.

(** * Properties *)

(** ** Lists *)

Section SortBy.

Context {A : Type}.
Variable before : A -> A -> bool.
Variable R : A -> A -> Prop.
Hypothesis before_sound : forall a b, before a b = true -> R a b.
Hypothesis before_total : forall a b, before a b = false -> R b a.
Hypothesis R_trans : forall a b c, R a b -> R b c -> R a c.

Lemma insertBy_perm (x : A) (l : list A) :
  Permutation (insertBy before x l) (x :: l).
Proof.
  induction l as [|y l IH]; simpl.
  - apply Permutation_refl.
  - destruct (before x y).
    + apply Permutation_refl.
    + eapply perm_trans.
      * apply perm_skip, IH.
      * apply perm_swap.
Qed.

Lemma sortBy_perm (l : list A) : Permutation (sortBy before l) l.
Proof.
  induction l as [|x l IH]; simpl.
  - constructor.
  - eapply perm_trans.
    + apply insertBy_perm.
    + apply perm_skip, IH.
Qed.

Lemma insertBy_sorted (x : A) (l : list A) :
  StronglySorted R l -> StronglySorted R (insertBy before x l).
Proof.
  induction 1 as [|y l Hs IH Hall]; simpl.
  - repeat constructor.
  - destruct (before x y) eqn:E.
    + constructor.
      * constructor; assumption.
      * constructor.
        -- apply before_sound; exact E.
        -- eapply Forall_impl; [|exact Hall].
           intros z Hyz. eapply R_trans; [|exact Hyz].
           apply before_sound; exact E.
    + constructor.
      * exact IH.
      * eapply Permutation_Forall.
        -- apply Permutation_sym, insertBy_perm.
        -- constructor; [apply before_total; exact E | exact Hall].
Qed.

Lemma sortBy_sorted (l : list A) : StronglySorted R (sortBy before l).
Proof.
  induction l as [|x l IH]; simpl.
  - constructor.
  - apply insertBy_sorted, IH.
Qed.

End SortBy.

Lemma sortBy_In {A : Type} (before : A -> A -> bool) (l : list A) (x : A) :
  In x (sortBy before l) <-> In x l.
Proof.
  split; apply Permutation_in.
  - apply sortBy_perm.
  - apply Permutation_sym, sortBy_perm.
Qed.

Lemma slice0_firstn {A : Type} (l : list A) (stop : Z) :
  0 <= stop -> slice0 l stop = firstn (Z.to_nat stop) l.
Proof.
  intros H. unfold slice0.
  destruct (stop <? 0) eqn:E; [apply Z.ltb_lt in E; lia|].
  destruct (Z.le_gt_cases stop (Z.of_nat (List.length l))) as [Hle|Hgt].
  - rewrite Z.min_l by lia. reflexivity.
  - rewrite Z.min_r by lia. rewrite Nat2Z.id.
    rewrite firstn_all. symmetry. apply firstn_all2. lia.
Qed.

(** ** The sync queue *)

Lemma pendingBefore_true (a b : Job.t) :
  SyncQueue.pendingBefore a b = true -> pendingOrder a b.
Proof.
  unfold SyncQueue.pendingBefore, SyncQueue.comparePending, pendingOrder.
  destruct (Job.priority b =? Job.priority a) eqn:E; simpl; intros H;
    apply Z.leb_le in H.
  - apply Z.eqb_eq in E. right. lia.
  - apply Z.eqb_neq in E. left. lia.
Qed.

Lemma pendingBefore_false (a b : Job.t) :
  SyncQueue.pendingBefore a b = false -> pendingOrder b a.
Proof.
  unfold SyncQueue.pendingBefore, SyncQueue.comparePending, pendingOrder.
  destruct (Job.priority b =? Job.priority a) eqn:E; simpl; intros H;
    apply Z.leb_gt in H.
  - apply Z.eqb_eq in E. right. lia.
  - apply Z.eqb_neq in E. left. lia.
Qed.

Lemma pendingOrder_trans (a b c : Job.t) :
  pendingOrder a b -> pendingOrder b c -> pendingOrder a c.
Proof. unfold pendingOrder. lia. Qed.

Lemma isPending_iff (now : Z) (j : Job.t) :
  SyncQueue.isPending now j = true <->
  Job.status j = QUEUED
  \/ (Job.status j = RETRYING
      /\ exists t, Job.nextRetryAt j = Some t /\ t <= now).
Proof.
  unfold SyncQueue.isPending.
  destruct (Job.status j); try (split; [discriminate|];
    intros [H|[H _]]; discriminate).
  - split; auto.
  - destruct (Job.nextRetryAt j) as [t|].
    + rewrite Z.leb_le. split.
      * intros H. right. split; [reflexivity|]. exists t. auto.
      * intros [H|[_ [t' [Ht Hle]]]]; [discriminate|].
        injection Ht as <-. exact Hle.
    + split; [discriminate|].
      intros [H|[_ [t' [Ht _]]]]; discriminate.
Qed.

(** [updateJob] replaces the job that [getJob] finds, in place. *)
Lemma updateJob_spec (jobId : string) (u : JobUpdates.t) (now : Z)
  (q : SyncQueue.queue) :
  match SyncQueue.getJob jobId q with
  | None => SyncQueue.updateJob jobId u now q = Throw "Job not found"
  | Some job =>
      exists l1 l2,
        q = l1 ++ job :: l2
        /\ Forall (fun j => SyncQueue.hasId jobId j = false) l1
        /\ SyncQueue.hasId jobId job = true
        /\ SyncQueue.updateJob jobId u now q =
           Ret (SyncQueue.applyUpdates job u now,
                l1 ++ SyncQueue.applyUpdates job u now :: l2)
  end.
Proof.
  unfold SyncQueue.getJob, SyncQueue.updateJob.
  induction q as [|j q IH]; simpl.
  - reflexivity.
  - destruct (SyncQueue.hasId jobId j) eqn:E.
    + exists [], q. simpl. repeat split; auto.
    + destruct (find (SyncQueue.hasId jobId) q) as [job|].
      * destruct IH as (l1 & l2 & Hq & Hl1 & Hid & Hupd).
        exists (j :: l1), l2.
        destruct (findIndex (SyncQueue.hasId jobId) q) as [i|];
          [|discriminate].
        simpl. destruct (nth_error q i) as [old|]; [|discriminate].
        remember (SyncQueue.applyUpdates old u now) as x eqn:Ex.
        remember (SyncQueue.applyUpdates job u now) as y eqn:Ey.
        injection Hupd as Hj Hq'.
        repeat split.
        -- rewrite Hq at 1. reflexivity.
        -- constructor; assumption.
        -- exact Hid.
        -- rewrite Hq', Hj. reflexivity.
      * destruct (findIndex (SyncQueue.hasId jobId) q) as [i|].
        -- simpl. destruct (nth_error q i); [discriminate|reflexivity].
        -- reflexivity.
Qed.

Lemma getJob_middle (jobId : string) (l1 l2 : list Job.t) (job : Job.t) :
  Forall (fun j => SyncQueue.hasId jobId j = false) l1 ->
  SyncQueue.hasId jobId job = true ->
  SyncQueue.getJob jobId (l1 ++ job :: l2) = Some job.
Proof.
  unfold SyncQueue.getJob. induction 1 as [|j l1 Hj _ IH]; simpl; intros H.
  - rewrite H. reflexivity.
  - rewrite Hj. apply IH, H.
Qed.

Lemma hasId_applyUpdates (jobId : string) (job : Job.t) (u : JobUpdates.t)
  (now : Z) :
  SyncQueue.hasId jobId (SyncQueue.applyUpdates job u now) =
  SyncQueue.hasId jobId job.
Proof. reflexivity. Qed.

(** [updateJob] on a job that is in the queue. *)
Lemma updateJob_found (jobId : string) (u : JobUpdates.t) (now : Z)
  (q : SyncQueue.queue) (job : Job.t) :
  SyncQueue.getJob jobId q = Some job ->
  exists q',
    SyncQueue.updateJob jobId u now q =
    Ret (SyncQueue.applyUpdates job u now, q')
    /\ SyncQueue.getJob jobId q' = Some (SyncQueue.applyUpdates job u now).
Proof.
  intros H. pose proof (updateJob_spec jobId u now q) as S.
  rewrite H in S. destruct S as (l1 & l2 & _ & Hl1 & Hid & Hupd).
  eexists. split; [exact Hupd|].
  apply getJob_middle; [exact Hl1|]. rewrite hasId_applyUpdates. exact Hid.
Qed.

Lemma delayMinutes_table :
  SyncQueue.delayMinutes 1 = 5
  /\ SyncQueue.delayMinutes 2 = 10
  /\ SyncQueue.delayMinutes 3 = 20
  /\ SyncQueue.delayMinutes 4 = 30
  /\ SyncQueue.delayMinutes 5 = 30.
Proof. repeat split. Qed.

Lemma delayMinutes_cap (attempts : Z) : SyncQueue.delayMinutes attempts <= 30.
Proof. unfold SyncQueue.delayMinutes. lia. Qed.

Lemma delayMinutes_monotone (a b : Z) :
  1 <= a -> a <= b -> SyncQueue.delayMinutes a <= SyncQueue.delayMinutes b.
Proof.
  intros Ha Hab. unfold SyncQueue.delayMinutes.
  assert (2 ^ (a - 1) <= 2 ^ (b - 1)) by (apply Z.pow_le_mono_r; lia).
  lia.
Qed.

(** On the documents.  When [markFailed] schedules a retry (retry allowed and the
    incremented attempts below [maxAttempts]), the job becomes retrying with
    [nextRetryAt] the current instant plus [min(5 * 2^(attempts-1), 30)]
    minutes, where [attempts] is the incremented count; that delay is 5, 10,
    20, 30, 30 minutes for attempts 1 to 5, never decreases as attempts grow,
    and never exceeds 30 minutes. *)
Theorem markFailed_backoff
  (jobId errorMessage : string) (now : Z) (q : SyncQueue.queue) (job : Job.t) :
  SyncQueue.getJob jobId q = Some job ->
  0 <= Job.attempts job ->
  Job.attempts job + 1 < Job.maxAttempts job ->
  (exists job' q',
      SyncQueue.markFailed jobId errorMessage true now q = Ret (job', q')
      /\ SyncQueue.getJob jobId q' = Some job'
      /\ Job.status job' = RETRYING
      /\ Job.attempts job' = Job.attempts job + 1
      /\ Job.nextRetryAt job' =
         Some (now + Z.min (5 * 2 ^ (Job.attempts job' - 1)) 30 * 60 * 1000))
  /\ (Z.min (5 * 2 ^ (1 - 1)) 30 = 5
      /\ Z.min (5 * 2 ^ (2 - 1)) 30 = 10
      /\ Z.min (5 * 2 ^ (3 - 1)) 30 = 20
      /\ Z.min (5 * 2 ^ (4 - 1)) 30 = 30
      /\ Z.min (5 * 2 ^ (5 - 1)) 30 = 30)
  /\ (forall a b,
         1 <= a -> a <= b ->
         SyncQueue.delayMinutes a <= SyncQueue.delayMinutes b)
  /\ (forall a, SyncQueue.delayMinutes a <= 30).
Proof.
  intros Hget Hnonneg Hlt. split; [|split; [|split]].
  - unfold SyncQueue.markFailed. rewrite Hget. simpl.
    assert (E : (Job.attempts job + 1 <? Job.maxAttempts job) = true)
      by (apply Z.ltb_lt; exact Hlt).
    rewrite E.
    match goal with
    | |- context [SyncQueue.updateJob jobId ?u now q] =>
        destruct (updateJob_found jobId u now q job Hget) as (q' & Hupd & Hget')
    end.
    eexists. exists q'. split; [exact Hupd|].
    split; [exact Hget'|]. simpl. repeat split.
  - exact delayMinutes_table.
  - exact delayMinutes_monotone.
  - exact delayMinutes_cap.
Qed.

(** C6.  For a non-negative limit, [getPendingJobs] returns the first [limit]
    elements of a list that holds exactly the jobs of the queue that are
    queued, or retrying with [nextRetryAt <= now], ordered by priority
    descending and then by creation time ascending; the jobs A (priority 0,
    created at 1), B (priority 1, created at 2) and C (priority 0, created at
    0) come out as B, C, A. *)
Theorem getPendingJobs_order (q : SyncQueue.queue) (now limit : Z) :
  0 <= limit ->
  (exists ready,
      SyncQueue.getPendingJobs limit now q = firstn (Z.to_nat limit) ready
      /\ Permutation ready (filter (SyncQueue.isPending now) q)
      /\ (forall j,
             In j ready <->
             In j q
             /\ (Job.status j = QUEUED
                 \/ (Job.status j = RETRYING
                     /\ exists t, Job.nextRetryAt j = Some t /\ t <= now)))
      /\ StronglySorted
           (fun a b =>
              Job.priority a > Job.priority b
              \/ (Job.priority a = Job.priority b
                  /\ Job.createdAt a <= Job.createdAt b)) ready)
  /\ SyncQueue.getPendingJobs 10 now
       [exampleJob "A" 0 1; exampleJob "B" 1 2; exampleJob "C" 0 0] =
     [exampleJob "B" 1 2; exampleJob "C" 0 0; exampleJob "A" 0 1].
Proof.
  intros Hlimit. split.
  - exists (sortBy SyncQueue.pendingBefore (filter (SyncQueue.isPending now) q)).
    split; [|split; [|split]].
    + unfold SyncQueue.getPendingJobs. apply slice0_firstn, Hlimit.
    + apply sortBy_perm.
    + intros j. rewrite sortBy_In, filter_In, isPending_iff. reflexivity.
    + apply (sortBy_sorted SyncQueue.pendingBefore pendingOrder).
      * exact pendingBefore_true.
      * exact pendingBefore_false.
      * exact pendingOrder_trans.
  - reflexivity.
Qed.

Lemma getPendingJobs_order_witness :
  exists ready,
    SyncQueue.getPendingJobs 2 7
      [exampleJob "A" 0 1; exampleJob "B" 1 2; exampleJob "C" 0 0] =
    firstn 2 ready
    /\ Permutation ready
         [exampleJob "A" 0 1; exampleJob "B" 1 2; exampleJob "C" 0 0].
Proof.
  destruct (getPendingJobs_order
              [exampleJob "A" 0 1; exampleJob "B" 1 2; exampleJob "C" 0 0]
              7 2) as [(ready & Hrun & Hperm & _) _].
  - lia.
  - exists ready. split; [exact Hrun | exact Hperm].
Defined.

(** The order of [getPendingJobs] is that of a stable sort: two ready jobs
    with the same priority and creation time keep the order of the queue. *)
Lemma getPendingJobs_stable_example :
  SyncQueue.getPendingJobs 10 7
    [exampleJob "A" 0 1; exampleJob "B" 0 1; exampleJob "C" 5 9] =
  [exampleJob "C" 5 9; exampleJob "A" 0 1; exampleJob "B" 0 1].
Proof. reflexivity. Qed.

(** ** Dictionaries *)

Section Dict.

Context {V : Type}.

Lemma dictGet_dictSet_same (k : string) (v : V) (d : dict V) :
  dictGet k (dictSet k v d) = Some v.
Proof.
  induction d as [|[k' v'] d IH]; simpl.
  - rewrite String.eqb_refl. reflexivity.
  - destruct (k' =? k)%string eqn:E; simpl.
    + rewrite String.eqb_refl. reflexivity.
    + rewrite E. exact IH.
Qed.

Lemma dictSet_dictSet (k : string) (v1 v2 : V) (d : dict V) :
  dictSet k v2 (dictSet k v1 d) = dictSet k v2 d.
Proof.
  induction d as [|[k' v'] d IH]; simpl.
  - rewrite String.eqb_refl. reflexivity.
  - destruct (k' =? k)%string eqn:E; simpl.
    + rewrite String.eqb_refl. reflexivity.
    + rewrite E, IH. reflexivity.
Qed.

(** With distinct keys, the entries after an assignment are the entry
    assigned and the entries of the other keys. *)
Lemma In_dictSet (k : string) (v : V) (d : dict V) (k' : string) (v' : V) :
  NoDup (map fst d) ->
  In (k', v') (dictSet k v d) ->
  (k' = k /\ v' = v) \/ (k' <> k /\ In (k', v') d).
Proof.
  induction d as [|[k0 v0] d IH]; simpl; intros Hnd H.
  - destruct H as [H|[]]. left. split; congruence.
  - inversion Hnd as [|? ? Hnotin Hnd']; subst.
    destruct (k0 =? k)%string eqn:E.
    + apply String.eqb_eq in E. subst k0.
      destruct H as [H|H].
      * left. split; congruence.
      * right. split; [|right; exact H].
        intros ->. apply Hnotin.
        change k with (fst (k, v')). apply in_map, H.
    + apply String.eqb_neq in E.
      destruct H as [H|H].
      * right. split; [congruence|left; exact H].
      * destruct (IH Hnd' H) as [Hl|[Hne Hin]]; [left; exact Hl|].
        right. split; [exact Hne|right; exact Hin].
Qed.

End Dict.

(** ** The links database *)

Section RobloxLinksProperties.

Variable hashApiKey : string -> string.

Lemma findByHash_none (h : string) (ls : dict Link.t) :
  (forall k l, In (k, l) ls -> Link.apiKeyHash l <> h) ->
  findByHash h ls = None.
Proof.
  induction ls as [|[k l] ls IH]; simpl; intros H; [reflexivity|].
  destruct (Link.apiKeyHash l =? h)%string eqn:E.
  - apply String.eqb_eq in E. exfalso. apply (H k l); auto.
  - apply IH. intros k' l' Hin. apply (H k' l'). auto.
Qed.

(** The link stored for a tenant is the one that [validateApiKey] finds
    when no link of another tenant carries the hash. *)
Lemma findByHash_dictSet (h serverId : string) (link : Link.t)
  (ls : dict Link.t) :
  Link.apiKeyHash link = h ->
  (forall k l, In (k, l) ls -> k <> serverId -> Link.apiKeyHash l <> h) ->
  findByHash h (dictSet serverId link ls) = Some (serverId, link).
Proof.
  intros Hh. induction ls as [|[k l] ls IH]; simpl; intros H.
  - rewrite Hh, String.eqb_refl. reflexivity.
  - destruct (k =? serverId)%string eqn:E; simpl.
    + rewrite Hh, String.eqb_refl. reflexivity.
    + apply String.eqb_neq in E.
      destruct (Link.apiKeyHash l =? h)%string eqn:E'.
      * apply String.eqb_eq in E'. exfalso. apply (H k l); auto.
      * apply IH. intros k' l' Hin. apply (H k' l'). auto.
Qed.

Lemma updateLink_dictSet (serverId : string) (u : LinkUpdates.t) (now : Z)
  (link : Link.t) (ls : dict Link.t) :
  updateLink serverId u now (dictSet serverId link ls) =
  Ret (applyLinkUpdates link u now,
       dictSet serverId (applyLinkUpdates link u now) ls).
Proof.
  unfold updateLink. rewrite dictGet_dictSet_same, dictSet_dictSet.
  reflexivity.
Qed.

(** On the documents.  After [createLink] for a tenant, [validateApiKey] on the plain key
    that was returned finds the link that was stored for that tenant; after
    [regenerateApiKey], [validateApiKey] finds nothing for the first key and
    finds the tenant's link for the new key.  The keys of the document are
    distinct, and the hash is assumed to tell the two keys apart from each
    other and from the keys of the other tenants. *)
Theorem issue_validate_regenerate
  (serverId : string) (linkData : LinkData.t) (randomHex1 randomHex2 : string)
  (t1 t2 t3 t4 : Z) (ls : dict Link.t) :
  let key1 := generateApiKey serverId randomHex1 in
  let key2 := generateApiKey serverId randomHex2 in
  NoDup (map fst ls) ->
  (forall k l,
      In (k, l) ls -> k <> serverId ->
      Link.apiKeyHash l <> hashApiKey key1
      /\ Link.apiKeyHash l <> hashApiKey key2) ->
  hashApiKey key2 <> hashApiKey key1 ->
  exists link1 ls1 ls1' link2 ls2,
    createLink hashApiKey serverId linkData randomHex1 t1 ls =
    ((link1, key1), ls1)
    /\ getLink serverId ls1 = Some link1
    /\ validateApiKey hashApiKey key1 t2 ls1 = (Some link1, ls1')
    /\ Link.serverId link1 = serverId
    /\ regenerateApiKey hashApiKey serverId randomHex2 t3 ls1' =
       Ret ((link2, key2), ls2)
    /\ getLink serverId ls2 = Some link2
    /\ validateApiKey hashApiKey key1 t4 ls2 = (None, ls2)
    /\ fst (validateApiKey hashApiKey key2 t4 ls2) = Some link2
    /\ Link.serverId link2 = serverId.
Proof.
  intros key1 key2 Hnd Hfresh Hdiff.
  set (link1 := newLink serverId linkData (hashApiKey key1) t1).
  assert (Hfind1 : findByHash (hashApiKey key1) (dictSet serverId link1 ls)
                   = Some (serverId, link1)).
  { apply findByHash_dictSet; [reflexivity|].
    intros k l Hin Hk. apply (Hfresh k l Hin Hk). }
  exists link1, (dictSet serverId link1 ls).
  unfold validateApiKey at 1. rewrite Hfind1.
  unfold updateApiKeyUsage. rewrite updateLink_dictSet.
  match goal with
  | |- context [dictSet serverId (applyLinkUpdates link1 ?u t2) ls] =>
      set (link1' := applyLinkUpdates link1 u t2)
  end.
  exists (dictSet serverId link1' ls).
  unfold regenerateApiKey. fold key2. rewrite updateLink_dictSet.
  match goal with
  | |- context [dictSet serverId (applyLinkUpdates link1' ?u t3) ls] =>
      set (link2 := applyLinkUpdates link1' u t3)
  end.
  exists link2, (dictSet serverId link2 ls).
  assert (Hfind_old : findByHash (hashApiKey key1) (dictSet serverId link2 ls)
                      = None).
  { apply findByHash_none. intros k l Hin.
    destruct (In_dictSet _ _ _ _ _ Hnd Hin) as [[_ ->]|[Hk Hin']].
    - exact Hdiff.
    - apply (Hfresh k l Hin' Hk). }
  assert (Hfind_new : findByHash (hashApiKey key2) (dictSet serverId link2 ls)
                      = Some (serverId, link2)).
  { apply findByHash_dictSet; [reflexivity|].
    intros k l Hin Hk. apply (Hfresh k l Hin Hk). }
  unfold validateApiKey. rewrite Hfind_old, Hfind_new.
  unfold createLink, getLink. fold key1. fold link1.
  rewrite !dictGet_dictSet_same.
  repeat split.
Qed.

End RobloxLinksProperties.

(** ** The authentication middleware *)

Section AuthProperties.

Variable hashApiKey : string -> string.
Variable verifyRequestSignature :
  string -> string -> string -> Z -> string -> string -> bool.

Lemma findByHash_dictGet (h : string) (ls : dict Link.t) (serverId : string)
  (link : Link.t) :
  findByHash h ls = Some (serverId, link) ->
  exists old, dictGet serverId ls = Some old.
Proof.
  induction ls as [|[k l] ls IH]; simpl; [discriminate|].
  destruct (Link.apiKeyHash l =? h)%string.
  - intros H. injection H as -> ->. rewrite String.eqb_refl. eauto.
  - intros H. destruct (k =? serverId)%string; eauto.
Qed.



End AuthProperties.

(** ** The group verification *)

Lemma dictGet_dictDelete {V : Type} (k : string) (d : dict V) :
  dictGet k (dictDelete k d) = None.
Proof.
  induction d as [|[k' v'] d IH]; simpl; [reflexivity|].
  destruct (k' =? k)%string eqn:E; [exact IH|].
  simpl. rewrite E. exact IH.
Qed.

(** One check that does not find the code, below the maximum of attempts:
    the answer is [CODE_NOT_FOUND] and the attempt is counted. *)
Lemma checkVerification_code_not_found (c : Directory * Z) (serverId : string)
  (vs : dict Verification.t) (v : Verification.t) :
  RobloxVerification.getVerification serverId vs = Some v ->
  Verification.attempts v < Verification.maxAttempts v ->
  codeNotFound v c ->
  exists v' vs',
    RobloxVerification.checkVerification (fst c) serverId (snd c) vs =
    ({| checkSuccess := false;
        checkError := Some RobloxVerification.CODE_NOT_FOUND;
        checkMessage := None;
        attemptsRemaining :=
          Some (Verification.maxAttempts v - (Verification.attempts v + 1)) |},
     vs')
    /\ RobloxVerification.getVerification serverId vs' = Some v'
    /\ Verification.attempts v' = Verification.attempts v + 1
    /\ Verification.maxAttempts v' = Verification.maxAttempts v
    /\ Verification.expiresAt v' = Verification.expiresAt v
    /\ Verification.groupId v' = Verification.groupId v
    /\ Verification.code v' = Verification.code v.
Proof.
  intros Hget Hlt (Hnow & description & Hdesc & Hcode).
  unfold RobloxVerification.checkVerification. rewrite Hget.
  assert (E1 : (Verification.expiresAt v <? snd c) = false)
    by (apply Z.ltb_ge; exact Hnow).
  assert (E2 : (Verification.maxAttempts v <=? Verification.attempts v) = false)
    by (apply Z.leb_gt; exact Hlt).
  rewrite E1, E2, Hdesc, Hcode.
  unfold RobloxVerification.updateVerification.
  unfold RobloxVerification.getVerification in Hget. rewrite Hget.
  eexists. eexists. split; [reflexivity|].
  unfold RobloxVerification.getVerification. rewrite dictGet_dictSet_same.
  repeat split.
Qed.

(** On the documents.  On a pending challenge with no attempt used
    and a maximum of 5, five consecutive checks that do not find the code are
    each answered [CODE_NOT_FOUND], with 4, 3, 2, 1 and 0 attempts remaining;
    the sixth check is answered [MAX_ATTEMPTS] when it is made no later than
    the expiry, and [EXPIRED] when it is made after the expiry; either way it
    deletes the challenge, and any later check is answered
    [NO_VERIFICATION]. *)
Theorem checkVerification_max_attempts
  (serverId : string) (vs : dict Verification.t) (v : Verification.t)
  (c1 c2 c3 c4 c5 : Directory * Z) :
  RobloxVerification.getVerification serverId vs = Some v ->
  Verification.attempts v = 0 ->
  Verification.maxAttempts v = 5 ->
  codeNotFound v c1 -> codeNotFound v c2 -> codeNotFound v c3 ->
  codeNotFound v c4 -> codeNotFound v c5 ->
  let results :=
    fst (RobloxVerification.checkRepeatedly serverId [c1; c2; c3; c4; c5] vs) in
  let vs5 :=
    snd (RobloxVerification.checkRepeatedly serverId [c1; c2; c3; c4; c5] vs) in
  map checkError results =
  [Some RobloxVerification.CODE_NOT_FOUND;
   Some RobloxVerification.CODE_NOT_FOUND;
   Some RobloxVerification.CODE_NOT_FOUND;
   Some RobloxVerification.CODE_NOT_FOUND;
   Some RobloxVerification.CODE_NOT_FOUND]
  /\ map attemptsRemaining results = [Some 4; Some 3; Some 2; Some 1; Some 0]
  /\ forall dir now,
      fst (RobloxVerification.checkVerification dir serverId now vs5) =
      RobloxVerification.failure
        (if Verification.expiresAt v <? now
         then RobloxVerification.EXPIRED
         else RobloxVerification.MAX_ATTEMPTS)
      /\ RobloxVerification.getVerification serverId
           (snd (RobloxVerification.checkVerification dir serverId now vs5)) =
         None
      /\ forall dir' now',
          fst (RobloxVerification.checkVerification dir' serverId now'
                 (snd (RobloxVerification.checkVerification dir serverId now
                         vs5))) =
          RobloxVerification.failure RobloxVerification.NO_VERIFICATION.
Proof.
  intros Hget Ha Hm H1 H2 H3 H4 H5.
  assert (step : forall c vs0 v0,
             RobloxVerification.getVerification serverId vs0 = Some v0 ->
             Verification.attempts v0 < 5 ->
             Verification.maxAttempts v0 = 5 ->
             Verification.expiresAt v0 = Verification.expiresAt v ->
             Verification.groupId v0 = Verification.groupId v ->
             Verification.code v0 = Verification.code v ->
             codeNotFound v c ->
             exists v' vs',
               RobloxVerification.checkVerification (fst c) serverId (snd c)
                 vs0 =
               ({| checkSuccess := false;
                   checkError := Some RobloxVerification.CODE_NOT_FOUND;
                   checkMessage := None;
                   attemptsRemaining :=
                     Some (5 - (Verification.attempts v0 + 1)) |}, vs')
               /\ RobloxVerification.getVerification serverId vs' = Some v'
               /\ Verification.attempts v' = Verification.attempts v0 + 1
               /\ Verification.maxAttempts v' = 5
               /\ Verification.expiresAt v' = Verification.expiresAt v
               /\ Verification.groupId v' = Verification.groupId v
               /\ Verification.code v' = Verification.code v).
  { intros c vs0 v0 G A Mx Ex Gr Co Hc.
    destruct (checkVerification_code_not_found c serverId vs0 v0 G)
      as (v' & vs' & R & G' & A' & M' & E' & Gr' & Co').
    - lia.
    - unfold codeNotFound in *. rewrite Ex, Gr, Co. exact Hc.
    - exists v', vs'. rewrite Mx in R. repeat split; try assumption;
        congruence. }
  destruct (step c1 vs v Hget ltac:(lia) Hm eq_refl eq_refl eq_refl H1)
    as (v1 & vs1 & R1 & G1 & A1 & M1 & E1 & Gr1 & Co1).
  destruct (step c2 vs1 v1 G1 ltac:(lia) M1 E1 Gr1 Co1 H2)
    as (v2 & vs2 & R2 & G2 & A2 & M2 & E2 & Gr2 & Co2).
  destruct (step c3 vs2 v2 G2 ltac:(lia) M2 E2 Gr2 Co2 H3)
    as (v3 & vs3 & R3 & G3 & A3 & M3 & E3 & Gr3 & Co3).
  destruct (step c4 vs3 v3 G3 ltac:(lia) M3 E3 Gr3 Co3 H4)
    as (v4 & vs4 & R4 & G4 & A4 & M4 & E4 & Gr4 & Co4).
  destruct (step c5 vs4 v4 G4 ltac:(lia) M4 E4 Gr4 Co4 H5)
    as (v5 & vs5' & R5 & G5 & A5 & M5 & E5 & Gr5 & Co5).
  destruct c1 as [d1 n1], c2 as [d2 n2], c3 as [d3 n3], c4 as [d4 n4],
    c5 as [d5 n5].
  rewrite Ha in R1. rewrite A1, Ha in R2. rewrite A2, A1, Ha in R3.
  rewrite A3, A2, A1, Ha in R4. rewrite A4, A3, A2, A1, Ha in R5.
  simpl in R1, R2, R3, R4, R5. simpl.
  rewrite R1, R2, R3, R4, R5. simpl.
  split; [reflexivity|]. split; [reflexivity|].
  intros dir now.
  assert (R6 : RobloxVerification.checkVerification dir serverId now vs5' =
               (RobloxVerification.failure
                  (if Verification.expiresAt v <? now
                   then RobloxVerification.EXPIRED
                   else RobloxVerification.MAX_ATTEMPTS),
                RobloxVerification.cancelVerification serverId vs5')).
  { unfold RobloxVerification.checkVerification. rewrite G5, E5.
    destruct (Verification.expiresAt v <? now); [reflexivity|].
    assert (E : (Verification.maxAttempts v5 <=? Verification.attempts v5)
                = true) by (apply Z.leb_le; lia).
    rewrite E. reflexivity. }
  rewrite R6. simpl.
  assert (G6 : RobloxVerification.getVerification serverId
                 (RobloxVerification.cancelVerification serverId vs5') = None)
    by apply dictGet_dictDelete.
  split; [reflexivity|]. split; [exact G6|].
  intros dir' now'. unfold RobloxVerification.checkVerification.
  rewrite G6. reflexivity.
Qed.

(** ** The worker *)

Lemma replaced_getJob (jobId : string) (q q' : SyncQueue.queue)
  (old new : Job.t) :
  replaced jobId q q' old new ->
  Job.id new = Job.id old ->
  SyncQueue.getJob jobId q = Some old /\ SyncQueue.getJob jobId q' = Some new.
Proof.
  intros (l1 & l2 & -> & -> & Hl1 & Hid) Hnew. split.
  - apply getJob_middle; assumption.
  - apply getJob_middle; [assumption|].
    unfold SyncQueue.hasId in *. rewrite Hnew. exact Hid.
Qed.

Lemma replaced_trans (jobId : string) (q q1 q2 : SyncQueue.queue)
  (old mid new : Job.t) :
  replaced jobId q q1 old mid ->
  replaced jobId q1 q2 mid new ->
  Job.id mid = Job.id old ->
  replaced jobId q q2 old new.
Proof.
  intros R1 R2 Hid.
  destruct (replaced_getJob _ _ _ _ _ R1 Hid) as [_ G1].
  destruct R1 as (l1 & l2 & Hq & Hq1 & Hl1 & Hold).
  destruct R2 as (m1 & m2 & Hq1' & Hq2 & Hm1 & Hmid).
  assert (E : l1 = m1 /\ l2 = m2).
  { subst q1. clear - Hq1' Hl1 Hm1 Hold Hmid Hid.
    assert (Hmid' : SyncQueue.hasId jobId mid = true) by exact Hmid.
    revert m1 Hq1' Hm1.
    induction Hl1 as [|x l1 Hx _ IH]; intros m1 Heq Hm1.
    - destruct m1 as [|y m1]; simpl in Heq.
      + injection Heq as ->. auto.
      + injection Heq as <- _. inversion Hm1; subst. congruence.
    - destruct m1 as [|y m1]; simpl in Heq.
      + injection Heq as -> _. congruence.
      + injection Heq as <- Heq. inversion Hm1; subst.
        destruct (IH m1 Heq) as [-> ->]; auto. }
  destruct E as [<- <-].
  exists l1, l2. repeat split; assumption.
Qed.

Lemma sameRequest_refl (j : Job.t) : sameRequest j j.
Proof. repeat split. Qed.

Lemma sameRequest_trans (a b c : Job.t) :
  sameRequest a b -> sameRequest b c -> sameRequest a c.
Proof. unfold sameRequest. intuition congruence. Qed.

Lemma sameRequest_applyUpdates (j : Job.t) (u : JobUpdates.t) (now : Z) :
  sameRequest j (SyncQueue.applyUpdates j u now).
Proof. repeat split. Qed.

(** [updateJob], run on the state, on a job that is in the queue. *)
Lemma onQueue_updateJob (jobId : string) (u : JobUpdates.t) (now : Z)
  (w : World) (old : Job.t) :
  SyncQueue.getJob jobId (sync_queue w) = Some old ->
  exists q',
    onQueue (SyncQueue.updateJob jobId u now) w =
    (Ret (SyncQueue.applyUpdates old u now), setQueue q' w)
    /\ replaced jobId (sync_queue w) q' old (SyncQueue.applyUpdates old u now).
Proof.
  intros H. pose proof (updateJob_spec jobId u now (sync_queue w)) as S.
  rewrite H in S. destruct S as (l1 & l2 & Hq & Hl1 & Hid & Hupd).
  exists (l1 ++ SyncQueue.applyUpdates old u now :: l2). split.
  - unfold onQueue. rewrite Hupd. reflexivity.
  - exists l1, l2. repeat split; assumption.
Qed.

(** [markFailed], run on the state, on a job that is in the queue. *)
Lemma onQueue_markFailed (jobId message : string) (retry : bool) (now : Z)
  (w : World) (old : Job.t) :
  SyncQueue.getJob jobId (sync_queue w) = Some old ->
  exists new q',
    onQueue (SyncQueue.markFailed jobId message retry now) w =
    (Ret new, setQueue q' w)
    /\ replaced jobId (sync_queue w) q' old new
    /\ sameRequest old new
    /\ failedOnce retry now (Job.attempts old) new
    /\ Job.lastError new = Some message.
Proof.
  intros H. unfold SyncQueue.markFailed. unfold onQueue at 1. rewrite H.
  destruct (retry && (Job.attempts old + 1 <? Job.maxAttempts old)) eqn:E.
  - match goal with
    | |- context [SyncQueue.updateJob jobId ?u now] =>
        destruct (onQueue_updateJob jobId u now w old H) as (q' & Hrun & Hrep);
        exists (SyncQueue.applyUpdates old u now), q'
    end.
    unfold onQueue in Hrun. split; [exact Hrun|]. split; [exact Hrep|].
    split; [apply sameRequest_applyUpdates|].
    unfold failedOnce. simpl. rewrite E. repeat split.
  - match goal with
    | |- context [SyncQueue.updateJob jobId ?u now] =>
        destruct (onQueue_updateJob jobId u now w old H) as (q' & Hrun & Hrep);
        exists (SyncQueue.applyUpdates old u now), q'
    end.
    unfold onQueue in Hrun. split; [exact Hrun|]. split; [exact Hrep|].
    split; [apply sameRequest_applyUpdates|].
    unfold failedOnce. simpl. rewrite E. repeat split.
Qed.

(** The links operations of the worker write the links document only. *)
Lemma onLinks_frame {A : Type}
  (op : dict Link.t -> outcome (A * dict Link.t)) (w : World) :
  sync_queue (snd (onLinks op w)) = sync_queue w
  /\ setRankCalls (snd (onLinks op w)) = setRankCalls w
  /\ processing (snd (onLinks op w)) = processing w
  /\ roblox_verifications (snd (onLinks op w)) = roblox_verifications w.
Proof.
  unfold onLinks. destruct (op (roblox_links w)) as [[a ls']|e]; simpl; auto.
Qed.

Lemma catch_effect (now : Z) (job : Job.t) (message : string) (w : World) (cur : Job.t) :
  SyncQueue.getJob (Job.id job) (sync_queue w) = Some cur ->
  exists new,
    replaced (Job.id job) (sync_queue w)
      (sync_queue (snd (RoleSync.processJobCatch now job message w))) cur new
    /\ sameRequest cur new
    /\ failedOnce true now (Job.attempts cur) new
    /\ Job.lastError new = Some message
    /\ setRankCalls (snd (RoleSync.processJobCatch now job message w)) = setRankCalls w
    /\ processing (snd (RoleSync.processJobCatch now job message w)) = processing w
    /\ roblox_verifications (snd (RoleSync.processJobCatch now job message w)) = roblox_verifications w.
Proof.
  intros H.
  destruct (onQueue_markFailed (Job.id job) message true now w cur H)
    as (new & q' & Hrun & Hrep & Hsame & Hfail & Herr).
  exists new. unfold RoleSync.processJobCatch, bind. rewrite Hrun.
  match goal with
  | |- context [onLinks ?op ?w0] =>
      pose proof (onLinks_frame op w0) as F;
      destruct (onLinks op w0) as [[a|e] w2]
  end; simpl in F |- *; destruct F as (F1 & F2 & F3 & F4);
    rewrite F1, F2, F3, F4;
    (split; [exact Hrep|]); (split; [exact Hsame|]); (split; [exact Hfail|]);
    (split; [exact Herr|]); auto.
Qed.

Lemma updateJob_replaced (jobId : string) (u : JobUpdates.t) (now : Z)
  (q : SyncQueue.queue) (old : Job.t) :
  SyncQueue.getJob jobId q = Some old ->
  exists q',
    SyncQueue.updateJob jobId u now q = Ret (SyncQueue.applyUpdates old u now, q')
    /\ replaced jobId q q' old (SyncQueue.applyUpdates old u now)
    /\ SyncQueue.getJob jobId q' = Some (SyncQueue.applyUpdates old u now).
Proof.
  intros H. pose proof (updateJob_spec jobId u now q) as S.
  rewrite H in S. destruct S as (l1 & l2 & Hq & Hl1 & Hid & Hupd).
  exists (l1 ++ SyncQueue.applyUpdates old u now :: l2).
  split; [exact Hupd|]. split.
  - exists l1, l2. repeat split; assumption.
  - apply getJob_middle; assumption.
Qed.

Lemma onLinks_updateLastSync (serverId : string) (ok : bool) (now : Z)
  (w : World) (link : Link.t) :
  getLink serverId (roblox_links w) = Some link ->
  exists link',
    onLinks (updateLastSync serverId ok now) w =
    (Ret link', setLinks (dictSet serverId link' (roblox_links w)) w).
Proof.
  intros H. unfold onLinks, updateLastSync, updateLink.
  unfold getLink in *. repeat rewrite H. eexists. reflexivity.
Qed.

Lemma onLinks_incrementAnalytics (serverId : string) (counter : AnalyticsCounter)
  (amount now : Z) (w : World) (link : Link.t) :
  getLink serverId (roblox_links w) = Some link ->
  exists link',
    onLinks (incrementAnalytics serverId counter amount now) w =
    (Ret link', setLinks (dictSet serverId link' (roblox_links w)) w).
Proof.
  intros H. unfold onLinks, incrementAnalytics, updateLink.
  unfold getLink in *. repeat rewrite H. eexists. reflexivity.
Qed.

Ltac rank_part EQ :=
  let Hc := fresh "Hc" in
  intros Hc;
  first
    [ discriminate Hc
    | injection Hc as Hc; apply Z.eqb_neq in EQ; contradiction
    | split;
      [ reflexivity
      | try (match goal with
             | |- context [Link.verified ?l] => destruct (Link.verified l)
             end);
        simpl in *; try discriminate; try reflexivity ] ].

Ltac leaf cur Rep EQ :=
  exists cur; cbn;
  split; [exact Rep|];
  split; [repeat split|];
  split; [reflexivity|];
  split; [repeat split|];
  split; [reflexivity|];
  split; [reflexivity|];
  split;
  [ let msg := fresh "msg" in
    let Hm := fresh "Hm" in
    intros msg Hm; first [discriminate Hm | injection Hm as <-; reflexivity]
  | rank_part EQ ].

Lemma body_effect (dir : Directory) (now : Z) (job : Job.t) (w : World) (old : Job.t) :
  SyncQueue.getJob (Job.id job) (sync_queue w) = Some old ->
  exists cur,
    replaced (Job.id job) (sync_queue w)
      (sync_queue (snd (RoleSync.processJobBody dir now job w))) old cur
    /\ sameRequest old cur
    /\ Job.attempts cur = Job.attempts old
    /\ match fst (RoleSync.processJobBody dir now job w) with
       | Ret r => Job.status cur = COMPLETED /\ Job.completedAt cur = Some now /\ success r = true
       | Throw _ => Job.status cur = IN_PROGRESS
       end
    /\ processing (snd (RoleSync.processJobBody dir now job w)) = processing w
    /\ roblox_verifications (snd (RoleSync.processJobBody dir now job w)) = roblox_verifications w
    /\ (forall msg, domainError dir job w = Some msg ->
          fst (RoleSync.processJobBody dir now job w) = Throw msg)
    /\ (currentRank dir job w = Some (Job.newRank job) ->
          setRankCalls (snd (RoleSync.processJobBody dir now job w)) = setRankCalls w
          /\ (rankResolves dir job w = true ->
              fst (RoleSync.processJobBody dir now job w) =
              Ret (mkProcessResult true "User already has target rank"))).
Proof.
  intros H.
  destruct (updateJob_replaced (Job.id job) (inProgressUpdate now) now _ _ H)
    as (q1 & E1 & Rep1 & G1).
  destruct (updateJob_replaced (Job.id job) (completedUpdate now) now _ _ G1)
    as (q2 & E2 & Rep2 & G2).
  set (j1 := SyncQueue.applyUpdates old (inProgressUpdate now) now) in *.
  set (j2 := SyncQueue.applyUpdates j1 (completedUpdate now) now) in *.
  assert (Rep12 : replaced (Job.id job) (sync_queue w) q2 old j2)
    by (eapply replaced_trans; [exact Rep1 | exact Rep2 | reflexivity]).
  unfold RoleSync.processJobBody, domainError, currentRank, rankResolves, bind, onQueue, call,
    callSetUserRank, throw, ret, SyncQueue.markInProgress, SyncQueue.markCompleted.
  fold (inProgressUpdate now). fold (completedUpdate now).
  rewrite E1. cbn [sync_queue roblox_links setQueue logSetRank fst snd].
  assert (EQ0 : (0 =? 1) = false) by reflexivity.
  destruct (getLink (Job.serverId job) (roblox_links w)) as [link|] eqn:EL.
  2: { leaf j1 Rep1 EQ0. }
  destruct (negb (Link.verified link)) eqn:EV.
  { leaf j1 Rep1 EQ0. }
  destruct (getGroupRoles dir (Link.groupId link)) as [roles|e] eqn:ER.
  2: { leaf j1 Rep1 EQ0. }
  destruct (RoleSync.findRole (Job.newRank job) roles) as [target|] eqn:EF.
  2: { leaf j1 Rep1 EQ0. }
  destruct (getUserRoleInGroup dir (Job.robloxUserId job) (Link.groupId link))
    as [[userRole|]|e] eqn:EU.
  2, 3: leaf j1 Rep1 EQ0.
  destruct (rank userRole =? Job.newRank job) eqn:EQ.
  - cbn [sync_queue roblox_links setQueue logSetRank fst snd].
    rewrite E2. cbv beta iota zeta.
    match goal with
    | |- context [onLinks (updateLastSync _ _ _) ?w0] =>
        destruct (onLinks_updateLastSync (Job.serverId job) true now w0 link EL)
          as (link' & EL')
    end.
    rewrite EL'. cbv beta iota zeta.
    leaf j2 Rep12 EQ0.
  - cbn [sync_queue roblox_links setQueue logSetRank fst snd].
    destruct (setUserRank dir (Link.groupId link) (Job.robloxUserId job)
                (roleId target)) as [[]|e] eqn:ES.
    + rewrite E2. cbv beta iota zeta.
      match goal with
      | |- context [onLinks (updateLastSync _ _ _) ?w0] =>
          destruct (onLinks_updateLastSync (Job.serverId job) true now w0 link EL)
            as (link' & EL')
      end.
      rewrite EL'. cbv beta iota zeta.
      match goal with
      | |- context [onLinks (incrementAnalytics _ _ _ _) ?w0] =>
          destruct (onLinks_incrementAnalytics (Job.serverId job)
                      CounterTotalSyncs 1 now w0 link')
            as (link'' & EL''); [apply dictGet_dictSet_same|]
      end.
      rewrite EL''. cbv beta iota zeta.
      leaf j2 Rep12 EQ.
    + leaf j1 Rep1 EQ.
Qed.

(** [processJob] on a job that is not in the queue changes neither the queue
    nor the group. *)
Lemma processJob_missing (dir : Directory) (now : Z) (job : Job.t) (w : World) :
  SyncQueue.getJob (Job.id job) (sync_queue w) = None ->
  snd (RoleSync.processJob dir now job w) = w.
Proof.
  intros H.
  pose proof (updateJob_spec (Job.id job) (inProgressUpdate now) now
                (sync_queue w)) as S.
  rewrite H in S.
  unfold RoleSync.processJob, tryCatch, RoleSync.processJobBody, bind, onQueue.
  unfold SyncQueue.markInProgress. fold (inProgressUpdate now).
  rewrite S.
  unfold RoleSync.processJobCatch, bind, onQueue, SyncQueue.markFailed.
  rewrite H. reflexivity.
Qed.

(** [processJob] on a job that is in the queue: the stored job is either
    completed, when the [try] block returns, or handed once to [markFailed],
    when it throws. *)
Lemma processJob_effect (dir : Directory) (now : Z) (job : Job.t) (w : World)
  (old : Job.t) :
  SyncQueue.getJob (Job.id job) (sync_queue w) = Some old ->
  exists new,
    replaced (Job.id job) (sync_queue w)
      (sync_queue (snd (RoleSync.processJob dir now job w))) old new
    /\ sameRequest old new
    /\ match fst (RoleSync.processJobBody dir now job w) with
       | Ret _ =>
           Job.status new = COMPLETED
           /\ Job.attempts new = Job.attempts old
           /\ Job.completedAt new = Some now
       | Throw message =>
           failedOnce true now (Job.attempts old) new
           /\ Job.lastError new = Some message
       end
    /\ processing (snd (RoleSync.processJob dir now job w)) = processing w
    /\ roblox_verifications (snd (RoleSync.processJob dir now job w)) =
       roblox_verifications w
    /\ (fst (RoleSync.processJob dir now job w) =
        fst (RoleSync.processJobBody dir now job w)
        \/ exists message,
            fst (RoleSync.processJobBody dir now job w) = Throw message)
    /\ setRankCalls (snd (RoleSync.processJob dir now job w)) =
       setRankCalls (snd (RoleSync.processJobBody dir now job w)).
Proof.
  intros H.
  destruct (body_effect dir now job w old H)
    as (cur & Rep & Same & Att & Res & Fp & Fv & _ & _).
  unfold RoleSync.processJob, tryCatch.
  destruct (RoleSync.processJobBody dir now job w) as [[r|message] w1] eqn:E;
    simpl in Rep, Res, Fp, Fv |- *.
  - exists cur. destruct Res as (Hs & Hc & _).
    split; [exact Rep|]. split; [exact Same|].
    split; [repeat split; assumption|].
    split; [exact Fp|]. split; [exact Fv|].
    split; [left; reflexivity | reflexivity].
  - assert (G : SyncQueue.getJob (Job.id job) (sync_queue w1) = Some cur).
    { apply (replaced_getJob _ _ _ _ _ Rep). apply Same. }
    destruct (catch_effect now job message w1 cur G)
      as (new & Rep' & Same' & Fail & Err & Fc & Fp' & Fv').
    exists new.
    split; [eapply replaced_trans; [exact Rep | exact Rep' | apply Same]|].
    split; [eapply sameRequest_trans; eassumption|].
    split; [split; [rewrite <- Att; exact Fail | exact Err]|].
    split; [congruence|]. split; [congruence|].
    split; [right; eauto | exact Fc].
Qed.

(** On the documents.  When [processJob] meets a non-retryable domain
    error (link missing, tenant unverified, rank absent from the catalog,
    subject not a member), the error goes through [markFailed] with retry
    allowed like any other: the attempts are incremented, and the job becomes
    retrying with a retry time while the incremented attempts are below
    [maxAttempts], and failed only once they reach it. *)
Theorem processJob_domain_error (dir : Directory) (now : Z) (job : Job.t)
  (w : World) (old : Job.t) (message : string) :
  SyncQueue.getJob (Job.id job) (sync_queue w) = Some old ->
  domainError dir job w = Some message ->
  exists new,
    SyncQueue.getJob (Job.id job)
      (sync_queue (snd (RoleSync.processJob dir now job w))) = Some new
    /\ Job.lastError new = Some message
    /\ Job.attempts new = Job.attempts old + 1
    /\ if Job.attempts old + 1 <? Job.maxAttempts old
       then Job.status new = RETRYING
            /\ Job.nextRetryAt new =
               Some (now
                     + SyncQueue.delayMinutes (Job.attempts old + 1) * 60 * 1000)
       else Job.status new = FAILED /\ Job.completedAt new = Some now.
Proof.
  intros H Hd.
  destruct (processJob_effect dir now job w old H)
    as (new & Rep & Same & Res & _).
  destruct (body_effect dir now job w old H)
    as (_ & _ & _ & _ & _ & _ & _ & Hthrow & _).
  rewrite (Hthrow message Hd) in Res. destruct Res as ((Ha & Hf) & He).
  exists new.
  split; [apply (replaced_getJob _ _ _ _ _ Rep); apply Same|].
  split; [exact He|]. split; [exact Ha|].
  simpl in Hf. destruct Same as (_ & _ & _ & _ & _ & Hm & _).
  rewrite Hm in Hf. exact Hf.
Qed.

(** On the documents.  When the rank that the subject holds in the group equals the rank
    that a job requests, [processJob] does not call [setUserRank]; and when
    moreover the job is in the queue, the tenant is verified and the rank is
    in the catalog of the group, the job is marked completed and the worker
    answers that the user already has the target rank. *)
Theorem processJob_idempotent (dir : Directory) (now : Z) (job : Job.t)
  (w : World) :
  currentRank dir job w = Some (Job.newRank job) ->
  setRankCalls (snd (RoleSync.processJob dir now job w)) = setRankCalls w
  /\ forall old,
      SyncQueue.getJob (Job.id job) (sync_queue w) = Some old ->
      rankResolves dir job w = true ->
      fst (RoleSync.processJob dir now job w) =
      Ret (mkProcessResult true "User already has target rank")
      /\ exists new,
          SyncQueue.getJob (Job.id job)
            (sync_queue (snd (RoleSync.processJob dir now job w))) = Some new
          /\ Job.status new = COMPLETED
          /\ Job.completedAt new = Some now
          /\ Job.attempts new = Job.attempts old.
Proof.
  intros Hrank.
  destruct (SyncQueue.getJob (Job.id job) (sync_queue w)) as [old|] eqn:H.
  - destruct (processJob_effect dir now job w old H)
      as (new & Rep & Same & Res & _ & _ & Hfst & Hcalls).
    destruct (body_effect dir now job w old H)
      as (_ & _ & _ & _ & _ & _ & _ & _ & Hidem).
    destruct (Hidem Hrank) as (Hnocall & Hdone).
    split; [congruence|].
    intros old' Hold Hres. injection Hold as <-.
    rewrite (Hdone Hres) in Res, Hfst.
    destruct Res as (Hs & Ha & Hc).
    split.
    + destruct Hfst as [E|(message & E)]; [exact E | discriminate E].
    + exists new.
      split; [apply (replaced_getJob _ _ _ _ _ Rep); apply Same|].
      repeat split; assumption.
  - rewrite (processJob_missing dir now job w H).
    split; [reflexivity|]. intros old Hold. discriminate Hold.
Qed.

(** ** The queue under the operations of the program *)

Lemma hasId_true (jobId : string) (j : Job.t) :
  SyncQueue.hasId jobId j = true <-> Job.id j = jobId.
Proof. unfold SyncQueue.hasId. apply String.eqb_eq. Qed.

Lemma replaced_ids (jobId : string) (q q' : SyncQueue.queue) (old new : Job.t) :
  replaced jobId q q' old new ->
  Job.id new = Job.id old ->
  map Job.id q' = map Job.id q.
Proof.
  intros (l1 & l2 & -> & -> & _ & _) H.
  rewrite !map_app. simpl. rewrite H. reflexivity.
Qed.

Lemma replaced_Forall (P : Job.t -> Prop) (jobId : string)
  (q q' : SyncQueue.queue) (old new : Job.t) :
  replaced jobId q q' old new -> Forall P q -> P new -> Forall P q'.
Proof.
  intros (l1 & l2 & -> & -> & _ & _) H Hnew.
  apply Forall_app in H. destruct H as [H1 H2].
  apply Forall_app. split; [exact H1|].
  inversion H2; subst. constructor; assumption.
Qed.

Lemma replaced_In_other (jobId : string) (q q' : SyncQueue.queue)
  (old new j : Job.t) :
  replaced jobId q q' old new -> In j q -> j <> old -> In j q'.
Proof.
  intros (l1 & l2 & -> & -> & _ & _) H Hne.
  apply in_app_or in H. apply in_or_app.
  destruct H as [H|[H|H]]; [left; exact H | congruence | right; right; exact H].
Qed.

Lemma getJob_other (jobId other : string) (q q' : SyncQueue.queue)
  (old new : Job.t) :
  replaced jobId q q' old new ->
  Job.id new = Job.id old ->
  other <> jobId ->
  SyncQueue.getJob other q' = SyncQueue.getJob other q.
Proof.
  intros (l1 & l2 & -> & -> & _ & Hold) Hnew Hne.
  apply hasId_true in Hold.
  unfold SyncQueue.getJob. induction l1 as [|x l1 IH]; simpl.
  - assert (E1 : SyncQueue.hasId other new = false).
    { apply not_true_is_false. rewrite hasId_true. congruence. }
    assert (E2 : SyncQueue.hasId other old = false).
    { apply not_true_is_false. rewrite hasId_true. congruence. }
    rewrite E1, E2. reflexivity.
  - destruct (SyncQueue.hasId other x); [reflexivity | exact IH].
Qed.

Lemma getJob_In (jobId : string) (q : SyncQueue.queue) (j : Job.t) :
  SyncQueue.getJob jobId q = Some j -> In j q /\ Job.id j = jobId.
Proof.
  unfold SyncQueue.getJob. intros H. apply find_some in H.
  destruct H as [Hin Hid]. split; [exact Hin | apply hasId_true, Hid].
Qed.

(** With distinct ids, [getJob] on the id of a job of the queue finds that
    job. *)
Lemma getJob_NoDup (q : SyncQueue.queue) (j : Job.t) :
  NoDup (map Job.id q) -> In j q -> SyncQueue.getJob (Job.id j) q = Some j.
Proof.
  unfold SyncQueue.getJob. induction q as [|x q IH]; simpl; intros Hnd Hin.
  - contradiction.
  - inversion Hnd as [|? ? Hnotin Hnd']; subst.
    destruct Hin as [->|Hin].
    + unfold SyncQueue.hasId. rewrite String.eqb_refl. reflexivity.
    + destruct (SyncQueue.hasId (Job.id j) x) eqn:E.
      * apply hasId_true in E. exfalso. apply Hnotin. rewrite E.
        apply in_map, Hin.
      * apply IH; assumption.
Qed.

Lemma activeJobs_replaced (serverId robloxUserId jobId : string)
  (q q' : SyncQueue.queue) (old new : Job.t) :
  replaced jobId q q' old new ->
  sameRequest old new ->
  SyncQueue.nonTerminal (Job.status old) = true ->
  (List.length (System.activeJobs serverId robloxUserId q')
   <= List.length (System.activeJobs serverId robloxUserId q))%nat.
Proof.
  intros (l1 & l2 & -> & -> & _ & _) (_ & Hs & Hu & _) Hnt.
  unfold System.activeJobs. rewrite !filter_app, !length_app. simpl.
  rewrite Hs, Hu, Hnt.
  destruct ((Job.serverId old =? serverId)%string
            && (Job.robloxUserId old =? robloxUserId)%string); simpl.
  - destruct (SyncQueue.nonTerminal (Job.status new)); simpl; lia.
  - lia.
Qed.

(** Dropping jobs keeps the ids distinct. *)
Lemma filter_ids_NoDup (keep : Job.t -> bool) (q : SyncQueue.queue) :
  NoDup (map Job.id q) -> NoDup (map Job.id (filter keep q)).
Proof.
  induction q as [|job q IH]; simpl; intros Hnd; [constructor|].
  inversion Hnd as [|? ? Hfresh Hrest]; subst.
  specialize (IH Hrest).
  destruct (keep job); simpl; [|exact IH].
  constructor; [|exact IH].
  intros Hin. apply Hfresh.
  apply in_map_iff in Hin. destruct Hin as (other & Hid & Hother).
  rewrite <- Hid. apply in_map. apply filter_In in Hother. apply Hother.
Qed.

(** [slice(0, stop)] is a prefix. *)
Lemma slice0_split {A : Type} (l : list A) (stop : Z) :
  exists dropped, l = slice0 l stop ++ dropped.
Proof. unfold slice0. eexists. symmetry. apply firstn_skipn. Qed.

(** The batch of [getPendingJobs]: jobs of the queue, with distinct ids, that
    are queued or retrying. *)
Lemma getPendingJobs_batch (limit now : Z) (q : SyncQueue.queue) :
  NoDup (map Job.id q) ->
  NoDup (map Job.id (SyncQueue.getPendingJobs limit now q))
  /\ forall b,
      In b (SyncQueue.getPendingJobs limit now q) ->
      In b q /\ SyncQueue.nonTerminal (Job.status b) = true.
Proof.
  intros Hnd. unfold SyncQueue.getPendingJobs.
  set (sorted := sortBy SyncQueue.pendingBefore
                   (filter (SyncQueue.isPending now) q)).
  destruct (slice0_split sorted limit) as [dropped Hsplit].
  assert (Hsorted : NoDup (map Job.id sorted)).
  { eapply Permutation_NoDup.
    - apply Permutation_map, Permutation_sym, sortBy_perm.
    - apply filter_ids_NoDup, Hnd. }
  split.
  - rewrite Hsplit, map_app in Hsorted.
    apply NoDup_app_remove_r in Hsorted. exact Hsorted.
  - intros b Hb.
    assert (Hin : In b sorted)
      by (rewrite Hsplit; apply in_or_app; left; exact Hb).
    apply sortBy_In in Hin. apply filter_In in Hin.
    destruct Hin as [Hin Hp]. split; [exact Hin|].
    unfold SyncQueue.isPending in Hp.
    destruct (Job.status b); try discriminate; reflexivity.
Qed.

(** A job that is queued, in progress or retrying and in range is in range
    after [processJob]. *)
Lemma processed_jobOk (now : Z) (body : outcome ProcessResult)
  (old new : Job.t) :
  jobOk old ->
  SyncQueue.nonTerminal (Job.status old) = true ->
  sameRequest old new ->
  match body with
  | Ret _ =>
      Job.status new = COMPLETED
      /\ Job.attempts new = Job.attempts old
      /\ Job.completedAt new = Some now
  | Throw message =>
      failedOnce true now (Job.attempts old) new
      /\ Job.lastError new = Some message
  end ->
  jobOk new.
Proof.
  intros (Hrange & Hmax & Hleft) Hnt (_ & _ & _ & _ & _ & Hm & _) Hres.
  specialize (Hleft Hnt). unfold jobOk. rewrite Hm.
  destruct body as [r|message].
  - destruct Hres as (Hs & Ha & _). rewrite Hs, Ha. simpl.
    repeat split; try lia; try discriminate.
  - destruct Hres as ((Ha & Hf) & _). rewrite Ha. rewrite Hm in Hf. simpl in Hf.
    destruct (Job.attempts old + 1 <? Job.maxAttempts old) eqn:E.
    + apply Z.ltb_lt in E. repeat split; lia.
    + destruct Hf as (Hs & _). rewrite Hs. simpl.
      repeat split; try lia; try discriminate.
Qed.

(** [processJob] on a job whose stored copy, if any, is queued, in progress
    or retrying. *)
Lemma processJob_preserves (dir : Directory) (now : Z) (job : Job.t)
  (w : World) :
  wellFormed (sync_queue w) ->
  (forall old,
      SyncQueue.getJob (Job.id job) (sync_queue w) = Some old ->
      SyncQueue.nonTerminal (Job.status old) = true) ->
  wellFormed (sync_queue (snd (RoleSync.processJob dir now job w)))
  /\ (forall serverId robloxUserId,
         (List.length
            (System.activeJobs serverId robloxUserId
               (sync_queue (snd (RoleSync.processJob dir now job w))))
          <= List.length
               (System.activeJobs serverId robloxUserId (sync_queue w)))%nat)
  /\ (forall j,
         In j (sync_queue w) -> Job.id j <> Job.id job ->
         In j (sync_queue (snd (RoleSync.processJob dir now job w))))
  /\ (forall other,
         other <> Job.id job ->
         SyncQueue.getJob other
           (sync_queue (snd (RoleSync.processJob dir now job w))) =
         SyncQueue.getJob other (sync_queue w))
  /\ processing (snd (RoleSync.processJob dir now job w)) = processing w.
Proof.
  intros (Hnd & Hok) Hnt.
  destruct (SyncQueue.getJob (Job.id job) (sync_queue w)) as [old|] eqn:H.
  - destruct (processJob_effect dir now job w old H)
      as (new & Rep & Same & Res & Fp & _).
    specialize (Hnt old eq_refl).
    destruct (getJob_In _ _ _ H) as [Hin Hid].
    assert (Hnew : Job.id new = Job.id old) by apply Same.
    split; [split|]; [| |split; [|split; [|split]]].
    + rewrite (replaced_ids _ _ _ _ _ Rep Hnew). exact Hnd.
    + apply (replaced_Forall jobOk _ _ _ _ _ Rep Hok).
      eapply processed_jobOk; try eassumption.
      rewrite Forall_forall in Hok. apply Hok, Hin.
    + intros serverId robloxUserId.
      eapply activeJobs_replaced; eassumption.
    + intros j Hj Hne. apply (replaced_In_other _ _ _ _ _ _ Rep Hj).
      intros ->. congruence.
    + intros other Hne. apply (getJob_other _ _ _ _ _ _ Rep Hnew Hne).
    + exact Fp.
  - rewrite (processJob_missing dir now job w H).
    repeat split; auto.
Qed.

(** The loop of [processPendingJobs] over a batch of jobs with distinct ids
    that are queued, in progress or retrying in the queue. *)
Lemma processAll_preserves (observe : string -> Observation)
  (jobs : list Job.t) :
  forall (succeeded failed : Z) (w : World),
    wellFormed (sync_queue w) ->
    NoDup (map Job.id jobs) ->
    (forall b,
        In b jobs ->
        exists old,
          SyncQueue.getJob (Job.id b) (sync_queue w) = Some old
          /\ SyncQueue.nonTerminal (Job.status old) = true) ->
    wellFormed
      (sync_queue (snd (RoleSync.processAll observe jobs succeeded failed w)))
    /\ (forall serverId robloxUserId,
           (List.length
              (System.activeJobs serverId robloxUserId
                 (sync_queue
                    (snd (RoleSync.processAll observe jobs succeeded failed
                            w))))
            <= List.length
                 (System.activeJobs serverId robloxUserId (sync_queue w)))%nat)
    /\ (forall j,
           In j (sync_queue w) ->
           (forall b, In b jobs -> Job.id j <> Job.id b) ->
           In j
             (sync_queue
                (snd (RoleSync.processAll observe jobs succeeded failed w))))
    /\ processing (snd (RoleSync.processAll observe jobs succeeded failed w)) =
       processing w.
Proof.
  induction jobs as [|job rest IH]; intros succeeded failed w Hwf Hnd Hpending.
  - simpl. split; [exact Hwf|]. repeat split; auto.
  - inversion Hnd as [|? ? Hnotin Hnd']; subst.
    destruct (processJob_preserves
                (observedDirectory (observe (Job.id job)))
                (observedNow (observe (Job.id job))) job w Hwf)
      as (Hwf1 & Hact1 & Hkeep1 & Hother1 & Hproc1).
    { intros old Hold. destruct (Hpending job (or_introl eq_refl))
        as (old' & Hold' & Hnt). congruence. }
    assert (Hpending1 :
              forall b,
                In b rest ->
                exists old,
                  SyncQueue.getJob (Job.id b)
                    (sync_queue
                       (snd (RoleSync.processJob
                               (observedDirectory (observe (Job.id job)))
                               (observedNow (observe (Job.id job))) job w))) =
                  Some old
                  /\ SyncQueue.nonTerminal (Job.status old) = true).
    { intros b Hb. rewrite Hother1.
      - apply Hpending. right. exact Hb.
      - intros E. apply Hnotin. rewrite <- E. apply in_map, Hb. }
    simpl.
    destruct (RoleSync.processJob (observedDirectory (observe (Job.id job)))
                (observedNow (observe (Job.id job))) job w)
      as [[result|message] w1] eqn:E; simpl in *.
    + destruct (success result).
      * destruct (IH (succeeded + 1) failed w1 Hwf1 Hnd' Hpending1)
          as (Hwf2 & Hact2 & Hkeep2 & Hproc2).
        split; [exact Hwf2|]. split; [|split].
        -- intros s u. eapply Nat.le_trans; [apply Hact2 | apply Hact1].
        -- intros j Hj Hne. apply Hkeep2.
           ++ apply Hkeep1; [exact Hj | apply Hne; left; reflexivity].
           ++ intros b Hb. apply Hne. right. exact Hb.
        -- congruence.
      * destruct (IH succeeded (failed + 1) w1 Hwf1 Hnd' Hpending1)
          as (Hwf2 & Hact2 & Hkeep2 & Hproc2).
        split; [exact Hwf2|]. split; [|split].
        -- intros s u. eapply Nat.le_trans; [apply Hact2 | apply Hact1].
        -- intros j Hj Hne. apply Hkeep2.
           ++ apply Hkeep1; [exact Hj | apply Hne; left; reflexivity].
           ++ intros b Hb. apply Hne. right. exact Hb.
        -- congruence.
    + destruct (IH succeeded (failed + 1) w1 Hwf1 Hnd' Hpending1)
        as (Hwf2 & Hact2 & Hkeep2 & Hproc2).
      split; [exact Hwf2|]. split; [|split].
      * intros s u. eapply Nat.le_trans; [apply Hact2 | apply Hact1].
      * intros j Hj Hne. apply Hkeep2.
        -- apply Hkeep1; [exact Hj | apply Hne; left; reflexivity].
        -- intros b Hb. apply Hne. right. exact Hb.
      * congruence.
Qed.

Lemma wellFormed_same_id (q : SyncQueue.queue) (a b : Job.t) :
  NoDup (map Job.id q) -> In a q -> In b q -> Job.id a = Job.id b -> a = b.
Proof.
  intros Hnd Ha Hb E.
  pose proof (getJob_NoDup q a Hnd Ha) as Ga.
  pose proof (getJob_NoDup q b Hnd Hb) as Gb.
  rewrite E in Ga. congruence.
Qed.

(** One run of the worker keeps the queue well formed, adds no active job
    to any tenant and identity, and leaves the failed jobs as they are. *)
Lemma processPendingJobs_preserves (batchSize now : Z)
  (observe : string -> Observation) (w : World) :
  wellFormed (sync_queue w) ->
  wellFormed
    (sync_queue (snd (RoleSync.processPendingJobs batchSize now observe w)))
  /\ (forall serverId robloxUserId,
         (List.length
            (System.activeJobs serverId robloxUserId
               (sync_queue
                  (snd (RoleSync.processPendingJobs batchSize now observe w))))
          <= List.length
               (System.activeJobs serverId robloxUserId (sync_queue w)))%nat)
  /\ (forall j,
         In j (sync_queue w) -> Job.status j = FAILED ->
         In j
           (sync_queue
              (snd (RoleSync.processPendingJobs batchSize now observe w)))).
Proof.
  intros Hwf. unfold RoleSync.processPendingJobs.
  destruct (processing w); [simpl; auto|].
  change (sync_queue (setProcessing true w)) with (sync_queue w).
  destruct (getPendingJobs_batch batchSize now (sync_queue w) (proj1 Hwf))
    as (Hnd & Hbatch).
  destruct (SyncQueue.getPendingJobs batchSize now (sync_queue w))
    as [|job rest] eqn:E; [simpl; auto|].
  destruct (processAll_preserves observe (job :: rest) 0 0
              (setProcessing true w) Hwf Hnd)
    as (Hwf' & Hact & Hkeep & _).
  { intros b Hb. exists b. destruct (Hbatch b Hb) as [Hin Hnt].
    split; [|exact Hnt]. apply getJob_NoDup; [apply Hwf | exact Hin]. }
  destruct (RoleSync.processAll observe (job :: rest) 0 0
              (setProcessing true w)) as [[succeeded failed] w2].
  simpl in *. split; [exact Hwf'|]. split; [exact Hact|].
  intros j Hj Hfailed. apply Hkeep; [exact Hj|].
  intros b Hb Hid. destruct (Hbatch b Hb) as [Hin Hnt].
  assert (j = b) by (apply (wellFormed_same_id (sync_queue w)); tauto || apply Hwf).
  subst b. rewrite Hfailed in Hnt. discriminate.
Qed.

Lemma wellFormed_filter (p : Job.t -> bool) (q : SyncQueue.queue) :
  wellFormed q -> wellFormed (filter p q).
Proof.
  intros (Hnd & Hok). split.
  - apply filter_ids_NoDup, Hnd.
  - rewrite Forall_forall in *. intros j Hj. apply filter_In in Hj.
    apply Hok, Hj.
Qed.


Lemma requeue_jobOk (serverId : option string) (now : Z) (j : Job.t) :
  jobOk j -> jobOk (SyncQueue.requeue serverId now j).
Proof.
  intros (Hrange & Hmax & Hleft). unfold SyncQueue.requeue.
  match goal with |- context [if ?c then _ else _] => destruct c end.
  - unfold jobOk. simpl. repeat split; lia.
  - repeat split; tauto.
Qed.

Lemma requeue_id (serverId : option string) (now : Z) (j : Job.t) :
  Job.id (SyncQueue.requeue serverId now j) = Job.id j.
Proof.
  unfold SyncQueue.requeue.
  match goal with |- context [if ?c then _ else _] => destruct c end;
    reflexivity.
Qed.

Lemma retryFailedJobs_wellFormed (serverId : option string) (now : Z)
  (q : SyncQueue.queue) :
  wellFormed q -> wellFormed (snd (SyncQueue.retryFailedJobs serverId now q)).
Proof.
  intros (Hnd & Hok). simpl. split.
  - rewrite map_map.
    rewrite (map_ext _ Job.id (requeue_id serverId now)). exact Hnd.
  - rewrite Forall_forall in *. intros j Hj. apply in_map_iff in Hj.
    destruct Hj as (x & <- & Hx). apply requeue_jobOk, Hok, Hx.
Qed.

(** A job of the tenant and identity that is queued, in progress or retrying
    makes [hasPendingSync] answer true. *)
Lemma hasPendingSync_active (serverId robloxUserId : string)
  (q : SyncQueue.queue) :
  System.activeJobs serverId robloxUserId q <> [] ->
  SyncQueue.hasPendingSync serverId robloxUserId q = true.
Proof.
  intros H.
  destruct (System.activeJobs serverId robloxUserId q) as [|j rest] eqn:E;
    [congruence|].
  assert (Hj : In j (System.activeJobs serverId robloxUserId q))
    by (rewrite E; left; reflexivity).
  unfold System.activeJobs in Hj. apply filter_In in Hj.
  destruct Hj as [Hin Hp].
  apply andb_true_iff in Hp. destruct Hp as [Hp Hnt].
  apply andb_true_iff in Hp. destruct Hp as [Hs Hu].
  unfold SyncQueue.hasPendingSync, SyncQueue.getUserJobs,
    SyncQueue.getServerJobs.
  apply existsb_exists. exists j. split; [|exact Hnt].
  apply sortBy_In. unfold SyncQueue.getServerJobsUnsorted.
  destruct (truthyString (Some robloxUserId)).
  - apply filter_In. split; [|exact Hu]. apply filter_In. tauto.
  - apply filter_In. tauto.
Qed.

Lemma activeJobs_app (serverId robloxUserId : string)
  (q1 q2 : SyncQueue.queue) :
  System.activeJobs serverId robloxUserId (q1 ++ q2) =
  System.activeJobs serverId robloxUserId q1
  ++ System.activeJobs serverId robloxUserId q2.
Proof. unfold System.activeJobs. apply filter_app. Qed.

(** [queueSync] with a fresh id. *)
Lemma queueSync_preserves (syncData : SyncData.t) (newId : string) (now : Z)
  (w : World) :
  wellFormed (sync_queue w) ->
  existsb (SyncQueue.hasId newId) (sync_queue w) = false ->
  wellFormed (sync_queue (snd (RoleSync.queueSync syncData newId now w)))
  /\ (atMostOne (sync_queue w) ->
      atMostOne (sync_queue (snd (RoleSync.queueSync syncData newId now w))))
  /\ (forall j,
         In j (sync_queue w) ->
         In j (sync_queue (snd (RoleSync.queueSync syncData newId now w)))).
Proof.
  intros (Hnd & Hok) Hfresh. unfold RoleSync.queueSync.
  destruct (getLink (SyncData.serverId syncData) (roblox_links w)) as [link|];
    [|simpl; repeat split; auto].
  destruct (negb (Link.verified link)); [simpl; repeat split; auto|].
  destruct (SyncQueue.hasPendingSync (SyncData.serverId syncData)
              (SyncData.robloxUserId syncData) (sync_queue w)) eqn:Hp;
    [simpl; repeat split; auto|].
  unfold SyncQueue.addJob. simpl. split; [split|split].
  - rewrite map_app. simpl. apply NoDup_app.
    + exact Hnd.
    + repeat constructor. simpl. tauto.
    + intros x Hx [<-|[]].
      apply in_map_iff in Hx. destruct Hx as (j & Hj & Hin).
      assert (existsb (SyncQueue.hasId (Job.id j)) (sync_queue w) = true).
      { apply existsb_exists. exists j. split; [exact Hin|].
        apply hasId_true. reflexivity. }
      simpl in Hj. rewrite Hj in H. congruence.
  - apply Forall_app. split; [exact Hok|]. constructor; [|constructor].
    unfold jobOk. simpl. repeat split; lia.
  - intros Hone serverId robloxUserId. rewrite activeJobs_app, length_app.
    unfold System.activeJobs at 2. simpl.
    destruct ((SyncData.serverId syncData =? serverId)%string
              && (SyncData.robloxUserId syncData =? robloxUserId)%string)
      eqn:Hpair; simpl.
    + apply andb_true_iff in Hpair. destruct Hpair as [Hs Hu].
      apply String.eqb_eq in Hs, Hu. subst.
      destruct (System.activeJobs (SyncData.serverId syncData)
                  (SyncData.robloxUserId syncData) (sync_queue w)) eqn:Ha.
      * simpl. lia.
      * rewrite hasPendingSync_active in Hp; [discriminate|].
        rewrite Ha. discriminate.
    + specialize (Hone serverId robloxUserId). lia.
  - intros j Hj. apply in_or_app. left. exact Hj.
Qed.

(** Every operation keeps the queue well formed. *)
Lemma run_wellFormed (op : System.Operation) (w : World) :
  wellFormed (sync_queue w) ->
  System.freshId op w = true ->
  wellFormed (sync_queue (System.run op w)).
Proof.
  intros Hwf Hfresh. destruct op; simpl.
  - apply queueSync_preserves; [exact Hwf|].
    simpl in Hfresh. apply negb_true_iff in Hfresh. exact Hfresh.
  - apply processPendingJobs_preserves, Hwf.
  - unfold RoleSync.cancelSync. simpl. apply wellFormed_filter, Hwf.
  - unfold RoleSync.cleanCompletedJobs. simpl. apply wellFormed_filter, Hwf.
  - exact (retryFailedJobs_wellFormed serverId now (sync_queue w) Hwf).
  - exact Hwf.
Qed.


(** Every operation but the operator's re-queue leaves the failed jobs in
    the queue, as they are. *)
Lemma run_keeps_failed (op : System.Operation) (w : World) (j : Job.t) :
  wellFormed (sync_queue w) ->
  System.freshId op w = true ->
  System.isRetryFailed op = false ->
  In j (sync_queue w) ->
  Job.status j = FAILED ->
  In j (sync_queue (System.run op w)).
Proof.
  intros Hwf Hfresh Hop Hj Hfailed. destruct op; simpl; try discriminate.
  - apply queueSync_preserves; [exact Hwf| |exact Hj].
    simpl in Hfresh. apply negb_true_iff in Hfresh. exact Hfresh.
  - apply processPendingJobs_preserves; assumption.
  - unfold RoleSync.cancelSync. simpl. apply filter_In. split; [exact Hj|].
    unfold SyncQueue.shouldCancel. rewrite Hfailed. simpl.
    rewrite andb_false_r. reflexivity.
  - unfold RoleSync.cleanCompletedJobs. simpl. apply filter_In.
    split; [exact Hj|]. rewrite Hfailed. reflexivity.
  - exact Hj.
Qed.

Lemma initial_wellFormed (w : World) :
  System.initial w = true -> wellFormed (sync_queue w) /\ atMostOne (sync_queue w).
Proof.
  unfold System.initial. destruct (sync_queue w); [|discriminate].
  intros _. split.
  - split; constructor.
  - intros s u. simpl. lia.
Qed.

Lemma runAll_wellFormed (ops : list System.Operation) :
  forall w,
    wellFormed (sync_queue w) ->
    System.freshIds ops w = true ->
    wellFormed (sync_queue (System.runAll ops w)).
Proof.
  induction ops as [|op ops IH]; simpl; intros w Hwf Hfresh; [exact Hwf|].
  apply andb_true_iff in Hfresh. destruct Hfresh as [H1 H2].
  apply IH; [apply run_wellFormed; assumption | exact H2].
Qed.


Lemma runAll_keeps_failed (ops : list System.Operation) (j : Job.t) :
  forall w,
    wellFormed (sync_queue w) ->
    System.freshIds ops w = true ->
    noRetryFailed ops = true ->
    In j (sync_queue w) ->
    Job.status j = FAILED ->
    In j (sync_queue (System.runAll ops w)).
Proof.
  induction ops as [|op ops IH]; simpl; intros w Hwf Hfresh Hno Hj Hfailed;
    [exact Hj|].
  apply andb_true_iff in Hfresh. destruct Hfresh as [H1 H2].
  apply andb_true_iff in Hno. destruct Hno as [N1 N2].
  apply negb_true_iff in N1.
  apply IH; try assumption.
  - apply run_wellFormed; assumption.
  - apply run_keeps_failed; assumption.
Qed.

Lemma runAll_app (ops1 ops2 : list System.Operation) (w : World) :
  System.runAll (ops1 ++ ops2) w = System.runAll ops2 (System.runAll ops1 w).
Proof.
  revert w. induction ops1 as [|op ops1 IH]; simpl; intros w; [reflexivity|].
  apply IH.
Qed.

Lemma freshIds_app (ops1 ops2 : list System.Operation) (w : World) :
  System.freshIds (ops1 ++ ops2) w =
  System.freshIds ops1 w && System.freshIds ops2 (System.runAll ops1 w).
Proof.
  revert w. induction ops1 as [|op ops1 IH]; simpl; intros w; [reflexivity|].
  rewrite IH, andb_assoc. reflexivity.
Qed.


(** On the documents.  From an empty queue, whatever the operations, the attempts of a job
    never exceed its [maxAttempts]; when the incremented attempts reach
    [maxAttempts], [markFailed] leaves the job failed with a completion time,
    whether retry is allowed or not; a failed job stays in the queue as it is,
    with its status and its retry time, through every operation other than
    the operator's re-queue; the re-queue puts a failed job back to queued
    with no attempts and no retry time; and the two operations of the queue
    that no entry point calls, [deleteJob] and [clearServerJobs], only drop
    jobs. *)
Theorem failed_is_terminal (ops later : list System.Operation) (w0 : World) :
  System.initial w0 = true ->
  System.freshIds (ops ++ later) w0 = true ->
  noRetryFailed later = true ->
  Forall (fun j => Job.attempts j <= Job.maxAttempts j)
    (sync_queue (System.runAll ops w0))
  /\ (forall jobId errorMessage retry now q job,
         SyncQueue.getJob jobId q = Some job ->
         Job.maxAttempts job <= Job.attempts job + 1 ->
         exists job' q',
           SyncQueue.markFailed jobId errorMessage retry now q = Ret (job', q')
           /\ SyncQueue.getJob jobId q' = Some job'
           /\ Job.status job' = FAILED
           /\ Job.completedAt job' = Some now
           /\ Job.nextRetryAt job' = Job.nextRetryAt job)
  /\ (forall j,
         In j (sync_queue (System.runAll ops w0)) ->
         Job.status j = FAILED ->
         In j (sync_queue (System.runAll (ops ++ later) w0)))
  /\ (forall now j,
         Job.status j = FAILED ->
         Job.status (SyncQueue.requeue None now j) = QUEUED
         /\ Job.attempts (SyncQueue.requeue None now j) = 0
         /\ Job.nextRetryAt (SyncQueue.requeue None now j) = None)
  /\ (forall jobId serverId q j,
         (In j (SyncQueue.deleteJob jobId q) -> In j q)
         /\ (In j (snd (SyncQueue.clearServerJobs serverId q)) -> In j q)).
Proof.
  intros Hinit Hfresh Hno.
  rewrite freshIds_app in Hfresh. apply andb_true_iff in Hfresh.
  destruct Hfresh as [Hfresh1 Hfresh2].
  destruct (initial_wellFormed w0 Hinit) as [Hwf0 _].
  pose proof (runAll_wellFormed ops w0 Hwf0 Hfresh1) as Hwf.
  split; [|split; [|split; [|split]]].
  - destruct Hwf as [_ Hok]. eapply Forall_impl; [|exact Hok].
    intros j (Hrange & _). lia.
  - intros jobId errorMessage retry now q job Hget Hmax.
    unfold SyncQueue.markFailed. rewrite Hget.
    assert (E : (Job.attempts job + 1 <? Job.maxAttempts job) = false)
      by (apply Z.ltb_ge; exact Hmax).
    rewrite E, andb_false_r.
    match goal with
    | |- context [SyncQueue.updateJob jobId ?u now q] =>
        destruct (updateJob_found jobId u now q job Hget) as (q' & Hupd & Hget')
    end.
    eexists. exists q'. split; [exact Hupd|]. split; [exact Hget'|].
    repeat split.
  - intros j Hj Hfailed. rewrite runAll_app.
    apply runAll_keeps_failed; assumption.
  - intros now j Hfailed. unfold SyncQueue.requeue. rewrite Hfailed. simpl.
    repeat split.
  - intros jobId serverId q j.
    unfold SyncQueue.deleteJob, SyncQueue.clearServerJobs. simpl.
    split; intros Hin; apply filter_In in Hin; apply Hin.
Qed.

(** * Further properties *)

(** ** The sync queue: lookups, removals and reports *)

Lemma getJob_app_fresh (jobId : string) (q : SyncQueue.queue) (job : Job.t) :
  existsb (SyncQueue.hasId jobId) q = false ->
  SyncQueue.getJob jobId (q ++ [job]) =
  if SyncQueue.hasId jobId job then Some job else None.
Proof.
  unfold SyncQueue.getJob. induction q as [|x q IH]; simpl; intros H.
  - reflexivity.
  - apply orb_false_iff in H. destruct H as [Hx Hq]. rewrite Hx. apply IH, Hq.
Qed.

Lemma getJob_app_old (jobId : string) (q : SyncQueue.queue) (job : Job.t) :
  SyncQueue.hasId jobId job = false ->
  SyncQueue.getJob jobId (q ++ [job]) = SyncQueue.getJob jobId q.
Proof.
  unfold SyncQueue.getJob. intros H. induction q as [|x q IH]; simpl.
  - rewrite H. reflexivity.
  - destruct (SyncQueue.hasId jobId x); [reflexivity | exact IH].
Qed.

Lemma deleteJob_absent (jobId : string) (q : SyncQueue.queue) :
  existsb (SyncQueue.hasId jobId) q = false -> SyncQueue.deleteJob jobId q = q.
Proof.
  unfold SyncQueue.deleteJob. induction q as [|x q IH]; simpl; intros H.
  - reflexivity.
  - apply orb_false_iff in H. destruct H as [Hx Hq].
    unfold SyncQueue.hasId in Hx. rewrite Hx. simpl. rewrite IH; auto.
Qed.

(** On the documents.  With an id that no job of the queue carries, [addJob] followed by
    [getJob] on that id finds the new job, the lookups of the other ids are
    as before, and [deleteJob] on the id gives the queue back; and after
    [deleteJob], [getJob] on the deleted id finds nothing. *)
Theorem addJob_getJob_deleteJob (jobData : JobData.t) (newId : string) (now : Z)
  (q : SyncQueue.queue) :
  existsb (SyncQueue.hasId newId) q = false ->
  SyncQueue.getJob newId (snd (SyncQueue.addJob jobData newId now q)) =
  Some (fst (SyncQueue.addJob jobData newId now q))
  /\ (forall other,
         other <> newId ->
         SyncQueue.getJob other (snd (SyncQueue.addJob jobData newId now q)) =
         SyncQueue.getJob other q)
  /\ SyncQueue.deleteJob newId (snd (SyncQueue.addJob jobData newId now q)) = q
  /\ forall jobId queue,
      SyncQueue.getJob jobId (SyncQueue.deleteJob jobId queue) = None.
Proof.
  intros Hfresh. unfold SyncQueue.addJob. simpl. split; [|split; [|split]].
  - rewrite (getJob_app_fresh newId q _ Hfresh).
    unfold SyncQueue.hasId. simpl. rewrite String.eqb_refl. reflexivity.
  - intros other Hne. apply getJob_app_old.
    unfold SyncQueue.hasId. simpl. apply String.eqb_neq. congruence.
  - unfold SyncQueue.deleteJob. rewrite filter_app. simpl.
    rewrite String.eqb_refl. simpl. rewrite app_nil_r.
    apply deleteJob_absent, Hfresh.
  - intros jobId queue. unfold SyncQueue.getJob, SyncQueue.deleteJob.
    induction queue as [|x queue IH]; simpl; [reflexivity|].
    destruct (Job.id x =? jobId)%string eqn:E; simpl; [exact IH|].
    unfold SyncQueue.hasId at 1. rewrite E. exact IH.
Qed.

Lemma hasPendingSync_true (serverId robloxUserId : string)
  (q : SyncQueue.queue) :
  SyncQueue.hasPendingSync serverId robloxUserId q = true <->
  exists j,
    In j q
    /\ Job.serverId j = serverId
    /\ (robloxUserId = "" \/ Job.robloxUserId j = robloxUserId)
    /\ SyncQueue.nonTerminal (Job.status j) = true.
Proof.
  unfold SyncQueue.hasPendingSync, SyncQueue.getUserJobs,
    SyncQueue.getServerJobs, SyncQueue.getServerJobsUnsorted.
  rewrite existsb_exists. split.
  - intros (j & Hin & Hnt). exists j. apply sortBy_In in Hin.
    destruct robloxUserId as [|c rest]; simpl in Hin.
    + apply filter_In in Hin. destruct Hin as [Hin Hs].
      apply String.eqb_eq in Hs. auto.
    + apply filter_In in Hin. destruct Hin as [Hin Hu].
      apply filter_In in Hin. destruct Hin as [Hin Hs].
      apply String.eqb_eq in Hs, Hu. auto.
  - intros (j & Hin & Hs & Hu & Hnt). exists j. split; [|exact Hnt].
    apply sortBy_In. apply String.eqb_eq in Hs.
    destruct robloxUserId as [|c rest]; simpl.
    + apply filter_In. auto.
    + destruct Hu as [Hu|Hu]; [discriminate|].
      apply String.eqb_eq in Hu. apply filter_In. split; [|exact Hu].
      apply filter_In. auto.
Qed.

(** X2.  [hasPendingSync] answers true exactly when the queue holds a job of
    the tenant that is queued, in progress or retrying and that belongs to
    the identity; with an empty identity the filter on the identity is off,
    and any such job of the tenant counts.  It answers false exactly when
    every such job is completed or failed. *)
Theorem hasPendingSync_iff (serverId robloxUserId : string)
  (q : SyncQueue.queue) :
  (SyncQueue.hasPendingSync serverId robloxUserId q = true <->
   exists j,
     In j q
     /\ Job.serverId j = serverId
     /\ (robloxUserId = "" \/ Job.robloxUserId j = robloxUserId)
     /\ SyncQueue.nonTerminal (Job.status j) = true)
  /\ (SyncQueue.hasPendingSync serverId robloxUserId q = false <->
      forall j,
        In j q ->
        Job.serverId j = serverId ->
        robloxUserId = "" \/ Job.robloxUserId j = robloxUserId ->
        Job.status j = COMPLETED \/ Job.status j = FAILED).
Proof.
  pose proof (hasPendingSync_true serverId robloxUserId q) as Htrue.
  split; [exact Htrue|].
  destruct (SyncQueue.hasPendingSync serverId robloxUserId q).
  - split; [discriminate|]. intros Hall.
    destruct (proj1 Htrue eq_refl) as (j & Hin & Hs & Hu & Hnt).
    destruct (Hall j Hin Hs Hu) as [E|E]; rewrite E in Hnt; discriminate.
  - split; [|reflexivity]. intros _ j Hin Hs Hu.
    destruct (Job.status j) eqn:E; auto;
      assert (false = true)
        by (apply Htrue; exists j; rewrite E; auto);
      discriminate.
Qed.

(** On the documents.  [cancelUserJobs] returns the number of jobs that it removed, removes
    no job that is in progress, completed or failed, and leaves no queued or
    retrying job of the tenant and identity; after it, [hasPendingSync] of a
    non-empty identity is true exactly when a job of the tenant and identity
    is in progress. *)
Theorem cancelUserJobs_effect (serverId robloxUserId : string)
  (q : SyncQueue.queue) :
  let cancelled := fst (SyncQueue.cancelUserJobs serverId robloxUserId q) in
  let q' := snd (SyncQueue.cancelUserJobs serverId robloxUserId q) in
  cancelled = Z.of_nat (List.length q) - Z.of_nat (List.length q')
  /\ (forall j,
         In j q ->
         Job.status j = IN_PROGRESS \/ Job.status j = COMPLETED
         \/ Job.status j = FAILED ->
         In j q')
  /\ (forall j,
         In j q' ->
         In j q
         /\ ~ (Job.serverId j = serverId
               /\ Job.robloxUserId j = robloxUserId
               /\ (Job.status j = QUEUED \/ Job.status j = RETRYING)))
  /\ (robloxUserId <> "" ->
      (SyncQueue.hasPendingSync serverId robloxUserId q' = true <->
       exists j,
         In j q
         /\ Job.serverId j = serverId
         /\ Job.robloxUserId j = robloxUserId
         /\ Job.status j = IN_PROGRESS)).
Proof.
  simpl. split; [|split; [|split]].
  - induction q as [|x q IH]; [reflexivity|].
    cbn [filter].
    destruct (SyncQueue.shouldCancel serverId robloxUserId x);
      cbn [negb List.length]; lia.
  - intros j Hin Hst. apply filter_In. split; [exact Hin|].
    unfold SyncQueue.shouldCancel.
    destruct Hst as [H|[H|H]]; rewrite H; simpl; rewrite andb_false_r;
      reflexivity.
  - intros j Hin. apply filter_In in Hin. destruct Hin as [Hin Hc].
    split; [exact Hin|]. intros (Hs & Hu & Hst).
    apply negb_true_iff in Hc. unfold SyncQueue.shouldCancel in Hc.
    apply String.eqb_eq in Hs, Hu. rewrite Hs, Hu in Hc.
    destruct Hst as [H|H]; rewrite H in Hc; discriminate.
  - intros Hne. rewrite hasPendingSync_true. split.
    + intros (j & Hin & Hs & Hu & Hnt).
      destruct Hu as [Hu|Hu]; [contradiction|].
      apply filter_In in Hin. destruct Hin as [Hin Hc].
      exists j. repeat split; try assumption.
      apply negb_true_iff in Hc. unfold SyncQueue.shouldCancel in Hc.
      apply String.eqb_eq in Hs, Hu. rewrite Hs, Hu in Hc.
      destruct (Job.status j); try discriminate; reflexivity.
    + intros (j & Hin & Hs & Hu & Hst). exists j.
      split; [|rewrite Hst; auto].
      apply filter_In. split; [exact Hin|].
      unfold SyncQueue.shouldCancel. rewrite Hst. simpl.
      rewrite andb_false_r. reflexivity.
Qed.

(** The test of [retryFailedJobs]: a failed job of the tenant, or of any
    tenant when no tenant is given. *)
Lemma requeue_status (serverId : option string) (now : Z) (j : Job.t) :
  Job.status (SyncQueue.requeue serverId now j) = FAILED ->
  SyncQueue.requeue serverId now j = j.
Proof.
  unfold SyncQueue.requeue.
  match goal with |- context [if ?c then _ else _] => destruct c end.
  - simpl. discriminate.
  - reflexivity.
Qed.

(** On the documents.  [retryFailedJobs] without a tenant leaves no failed job in the
    queue and keeps the number and the ids of the jobs; it returns 0 exactly
    when no job was failed; the jobs that were not failed are kept as they
    are; each failed job is queued again with no attempts and no retry time,
    for the same request and with its history of errors; and a second call
    right after it returns 0 and changes nothing. *)
Theorem retryFailedJobs_effect (now later : Z) (q : SyncQueue.queue) :
  let retried := fst (SyncQueue.retryFailedJobs None now q) in
  let q' := snd (SyncQueue.retryFailedJobs None now q) in
  (forall j, In j q' -> Job.status j <> FAILED)
  /\ map Job.id q' = map Job.id q
  /\ (retried = 0 <-> forall j, In j q -> Job.status j <> FAILED)
  /\ (forall j, In j q -> Job.status j <> FAILED -> In j q')
  /\ (forall j,
         In j q ->
         Job.status j = FAILED ->
         exists j',
           In j' q'
           /\ sameRequest j j'
           /\ Job.status j' = QUEUED
           /\ Job.attempts j' = 0
           /\ Job.nextRetryAt j' = None
           /\ Job.errors j' = Job.errors j)
  /\ SyncQueue.retryFailedJobs None later q' = (0, q').
Proof.
  unfold SyncQueue.retryFailedJobs. cbn [fst snd].
  match goal with
  | |- context [filter ?f q] => set (test := f)
  end.
  assert (Htest : forall j, test j = statusEqb (Job.status j) FAILED).
  { intros j. unfold test. simpl. apply andb_true_r. }
  assert (Hnone : forall j,
             In j (map (SyncQueue.requeue None now) q) ->
             Job.status j <> FAILED).
  { intros j Hin. apply in_map_iff in Hin. destruct Hin as (x & <- & _).
    unfold SyncQueue.requeue.
    match goal with
    | |- context [if ?c then _ else _] => destruct c eqn:E
    end.
    - simpl. discriminate.
    - intros H. rewrite H in E. simpl in E. discriminate. }
  assert (Hid : forall l,
             (forall j, In j l -> Job.status j <> FAILED) ->
             filter test l = []
             /\ map (SyncQueue.requeue None later) l = l).
  { induction l as [|x l IH]; simpl; intros H; [auto|].
    assert (Hx : statusEqb (Job.status x) FAILED = false).
    { destruct (Job.status x) eqn:E; try reflexivity.
      exfalso. apply (H x); auto. }
    destruct IH as [IH1 IH2]; [intros j Hj; apply H; auto|].
    rewrite Htest, Hx. split; [exact IH1|].
    unfold SyncQueue.requeue at 1. rewrite Hx. simpl. rewrite IH2.
    reflexivity. }
  split; [exact Hnone|]. split; [|split; [|split; [|split]]].
  - rewrite map_map. apply map_ext. intros j. unfold SyncQueue.requeue.
    match goal with |- context [if ?c then _ else _] => destruct c end;
      reflexivity.
  - split.
    + intros H j Hin Hf.
      assert (Hj : In j (filter test q)).
      { apply filter_In. split; [exact Hin|]. rewrite Htest, Hf.
        reflexivity. }
      destruct (filter test q); [contradiction|].
      cbn [List.length] in H. lia.
    + intros H. destruct (Hid q H) as [-> _]. reflexivity.
  - intros j Hin Hf. apply in_map_iff. exists j. split; [|exact Hin].
    unfold SyncQueue.requeue.
    destruct (statusEqb (Job.status j) FAILED) eqn:E; [|reflexivity].
    destruct (Job.status j); try discriminate. congruence.
  - intros j Hin Hf. exists (SyncQueue.requeue None now j).
    split; [apply in_map, Hin|].
    unfold SyncQueue.requeue. rewrite Hf. cbn. repeat split.
  - fold test. destruct (Hid _ Hnone) as [-> ->]. reflexivity.
Qed.

(** On the documents.  [cleanCompletedJobs] returns the number of jobs that it removed;
    every job that is not completed, and every job completed at or after the
    cutoff ([now] minus [hoursOld] hours), stays; every job that stays was in
    the queue; and a second call with the same cutoff removes nothing. *)
Theorem cleanCompletedJobs_effect (hoursOld now : Z) (q : SyncQueue.queue) :
  let deleted := fst (SyncQueue.cleanCompletedJobs hoursOld now q) in
  let q' := snd (SyncQueue.cleanCompletedJobs hoursOld now q) in
  deleted = Z.of_nat (List.length q) - Z.of_nat (List.length q')
  /\ 0 <= deleted
  /\ (forall j,
         In j q' <->
         In j q
         /\ (Job.status j <> COMPLETED
             \/ now - hoursOld * 60 * 60 * 1000 <= completionDate j))
  /\ SyncQueue.cleanCompletedJobs hoursOld now q' = (0, q').
Proof.
  unfold SyncQueue.cleanCompletedJobs. cbv zeta. cbn [fst snd].
  set (keep := fun job : Job.t =>
                 if negb (statusEqb (Job.status job) COMPLETED) then true
                 else match Job.completedAt job with
                      | Some completedDate =>
                          now - hoursOld * 60 * 60 * 1000 <=? completedDate
                      | None => now - hoursOld * 60 * 60 * 1000 <=? 0
                      end).
  assert (Hfix : filter keep (filter keep q) = filter keep q).
  { induction q as [|x q IH]; simpl; [reflexivity|].
    destruct (keep x) eqn:E; simpl; [rewrite E; f_equal|]; exact IH. }
  assert (Hlen : (List.length (filter keep q) <= List.length q)%nat)
    by apply filter_length_le.
  split; [reflexivity|]. split; [clear Hfix; clearbody keep; lia|]. split.
  - intros j. rewrite filter_In. unfold keep, completionDate.
    destruct (Job.status j) eqn:Hs; simpl;
      try (split; [intros [H _]; split; [exact H|left; discriminate]
                  | intros [H _]; split; [exact H|reflexivity]]).
    destruct (Job.completedAt j); rewrite Z.leb_le;
      (split; [intros [H H']; split; [exact H|right; exact H']
              | intros [H [H'|H']]; [congruence|split; assumption]]).
  - rewrite Hfix, Z.sub_diag. reflexivity.
Qed.

(** The statistics of the whole queue. *)
Lemma getStatistics_whole (q : SyncQueue.queue) :
  let stats := SyncQueueDatabase.getStatistics None q in
  SyncQueueDatabase.queued stats + SyncQueueDatabase.inProgress stats
  + SyncQueueDatabase.retrying stats + SyncQueueDatabase.completed stats
  + SyncQueueDatabase.failed stats = SyncQueueDatabase.total stats
  /\ SyncQueueDatabase.total stats = Z.of_nat (List.length q)
  /\ match SyncQueueDatabase.oldestPending stats with
     | Some t =>
         (exists j,
             In j q
             /\ (Job.status j = QUEUED \/ Job.status j = RETRYING)
             /\ Job.createdAt j = t)
         /\ forall j,
             In j q ->
             Job.status j = QUEUED \/ Job.status j = RETRYING ->
             t <= Job.createdAt j
     | None =>
         forall j, In j q -> Job.status j <> QUEUED /\ Job.status j <> RETRYING
     end.
Proof.
  cbn zeta. unfold SyncQueueDatabase.getStatistics. cbn -[sortBy filter].
  split; [|split; [reflexivity|]].
  - unfold SyncQueueDatabase.countStatus.
    induction q as [|x q IH]; [reflexivity|].
    cbn [filter]. destruct (Job.status x); cbn [statusEqb List.length]; lia.
  - set (pending := filter (fun j => statusEqb (Job.status j) QUEUED
                                     || statusEqb (Job.status j) RETRYING) q).
    assert (Hp : forall j,
               In j pending <->
               In j q /\ (Job.status j = QUEUED \/ Job.status j = RETRYING)).
    { intros j. unfold pending. rewrite filter_In.
      destruct (Job.status j); simpl; intuition discriminate. }
    assert (Hsorted :
              StronglySorted (fun a b => Job.createdAt a <= Job.createdAt b)
                (sortBy SyncQueueDatabase.oldestFirst pending)).
    { apply sortBy_sorted; unfold SyncQueueDatabase.oldestFirst.
      - intros a b H. apply Z.leb_le in H. lia.
      - intros a b H. apply Z.leb_gt in H. lia.
      - intros a b c. lia. }
    pose proof (sortBy_In SyncQueueDatabase.oldestFirst pending) as Hin.
    destruct (sortBy SyncQueueDatabase.oldestFirst pending) as [|first rest].
    + intros j Hj. split; intros Hs;
        apply (proj2 (Hin j)); apply Hp; auto.
    + split.
      * exists first.
        assert (H : In first pending) by (apply Hin; left; reflexivity).
        apply Hp in H. tauto.
      * intros j Hj Hs.
        assert (H : In j (first :: rest)) by (apply Hin, Hp; auto).
        inversion Hsorted as [|? ? _ Hall]; subst.
        destruct H as [<-|H]; [lia|].
        rewrite Forall_forall in Hall. apply Hall, H.
Qed.

(** X6.  [getStatistics] counts the jobs of the queue, or those of the tenant
    when a non-empty tenant is given: the five counters by status add up to
    the total; and [oldestPending] is the creation time of a queued or
    retrying job among them that is no later than the creation time of every
    such job, and is absent exactly when there is none. *)
Theorem getStatistics_counters (serverId : option string)
  (q : SyncQueue.queue) :
  let stats := SyncQueueDatabase.getStatistics serverId q in
  let counted :=
    fun j =>
      In j q
      /\ match serverId with
         | Some (String c rest) => Job.serverId j = String c rest
         | _ => True
         end in
  SyncQueueDatabase.queued stats + SyncQueueDatabase.inProgress stats
  + SyncQueueDatabase.retrying stats + SyncQueueDatabase.completed stats
  + SyncQueueDatabase.failed stats = SyncQueueDatabase.total stats
  /\ 0 <= SyncQueueDatabase.total stats <= Z.of_nat (List.length q)
  /\ (truthyString serverId = false ->
      SyncQueueDatabase.total stats = Z.of_nat (List.length q))
  /\ match SyncQueueDatabase.oldestPending stats with
     | Some t =>
         (exists j,
             counted j
             /\ (Job.status j = QUEUED \/ Job.status j = RETRYING)
             /\ Job.createdAt j = t)
         /\ forall j,
             counted j ->
             Job.status j = QUEUED \/ Job.status j = RETRYING ->
             t <= Job.createdAt j
     | None =>
         forall j,
           counted j -> Job.status j <> QUEUED /\ Job.status j <> RETRYING
     end.
Proof.
  cbv zeta.
  destruct serverId as [[|c rest]|].
  - change (SyncQueueDatabase.getStatistics (Some "") q)
      with (SyncQueueDatabase.getStatistics None q).
    destruct (getStatistics_whole q) as (Hsum & Htotal & Hold).
    cbv zeta in *. split; [exact Hsum|]. split; [lia|].
    split; [intros _; exact Htotal|].
    destruct (SyncQueueDatabase.oldestPending
                (SyncQueueDatabase.getStatistics None q)) as [t|].
    + destruct Hold as [(j & Hin & Hs & Ht) Hmin]. split.
      * exists j. tauto.
      * intros j' [Hin' _]. apply Hmin, Hin'.
    + intros j [Hin _]. apply Hold, Hin.
  - set (mine := filter (fun j => (Job.serverId j =? String c rest)%string) q).
    change (SyncQueueDatabase.getStatistics (Some (String c rest)) q)
      with (SyncQueueDatabase.getStatistics None mine).
    destruct (getStatistics_whole mine) as (Hsum & Htotal & Hold).
    cbv zeta in *.
    assert (Hmine : forall j,
               In j mine <-> In j q /\ Job.serverId j = String c rest).
    { intros j. unfold mine. rewrite filter_In, String.eqb_eq. tauto. }
    pose proof (filter_length_le
                  (fun j => (Job.serverId j =? String c rest)%string) q)
      as Hle.
    fold mine in Hle.
    split; [exact Hsum|]. split; [lia|].
    split; [discriminate|].
    destruct (SyncQueueDatabase.oldestPending
                (SyncQueueDatabase.getStatistics None mine)) as [t|].
    + destruct Hold as [(j & Hin & Hs & Ht) Hmin]. split.
      * exists j. apply Hmine in Hin. tauto.
      * intros j' Hj'. apply Hmin, Hmine, Hj'.
    + intros j Hj. apply Hold, Hmine, Hj.
  - destruct (getStatistics_whole q) as (Hsum & Htotal & Hold).
    cbv zeta in *. split; [exact Hsum|]. split; [lia|].
    split; [intros _; exact Htotal|].
    destruct (SyncQueueDatabase.oldestPending
                (SyncQueueDatabase.getStatistics None q)) as [t|].
    + destruct Hold as [(j & Hin & Hs & Ht) Hmin]. split.
      * exists j. tauto.
      * intros j' [Hin' _]. apply Hmin, Hin'.
    + intros j [Hin _]. apply Hold, Hin.
Qed.

Lemma ceilDiv_bounds (a b : Z) :
  0 < b ->
  a <= b * RoleSyncManager.ceilDiv a b < a + b.
Proof.
  intros Hb. unfold RoleSyncManager.ceilDiv.
  pose proof (Z.div_mod (- a) b ltac:(lia)) as Hdm.
  pose proof (Z.mod_pos_bound (- a) b Hb) as Hmod. nia.
Qed.

(** X7.  [estimateCompletionTime] counts the queued and the retrying jobs,
    allows ten seconds for each, and rounds up to whole minutes: the minutes
    cover the seconds, with less than a minute to spare; with no pending job
    the estimate is zero. *)
Theorem estimateCompletionTime_bounds (serverId : option string)
  (q : SyncQueue.queue) :
  let stats := SyncQueueDatabase.getStatistics serverId q in
  let estimate := RoleSyncManager.estimateCompletionTime serverId q in
  pendingCount estimate =
  SyncQueueDatabase.queued stats + SyncQueueDatabase.retrying stats
  /\ 0 <= pendingCount estimate
  /\ 10 * pendingCount estimate <= 60 * estimatedMinutes estimate
     < 10 * pendingCount estimate + 60
  /\ (pendingCount estimate = 0 ->
      estimatedMinutes estimate = 0
      /\ estimateMessage estimate = "No pending syncs").
Proof.
  cbn zeta. unfold RoleSyncManager.estimateCompletionTime.
  set (stats := SyncQueueDatabase.getStatistics serverId q).
  assert (Hnonneg : 0 <= SyncQueueDatabase.queued stats
                         + SyncQueueDatabase.retrying stats).
  { unfold stats, SyncQueueDatabase.getStatistics,
      SyncQueueDatabase.countStatus. cbn [SyncQueueDatabase.queued
      SyncQueueDatabase.retrying]. lia. }
  destruct (SyncQueueDatabase.queued stats + SyncQueueDatabase.retrying stats
            =? 0) eqn:E.
  - apply Z.eqb_eq in E. cbn [pendingCount estimatedMinutes estimateMessage].
    repeat split; first [lia | reflexivity].
  - apply Z.eqb_neq in E. cbn [pendingCount estimatedMinutes estimateMessage].
    pose proof (ceilDiv_bounds
                  ((SyncQueueDatabase.queued stats
                    + SyncQueueDatabase.retrying stats) * 10) 60 ltac:(lia)).
    repeat split; lia.
Qed.

(** ** The manager: history and batches *)

(** X8.  [getSyncHistory] returns entries of completed and failed jobs of the
    tenant (and of the identity, unless the identity is empty), the most
    recently finished first, at most [limit] of them; a job that qualifies is
    left out only when the limit is reached. *)
Theorem getSyncHistory_spec (serverId robloxUserId : string) (limit : Z)
  (q : SyncQueue.queue) :
  0 <= limit ->
  exists jobs,
    RoleSyncManager.getSyncHistory serverId robloxUserId limit q =
    map RoleSyncManager.historyEntry jobs
    /\ Z.of_nat (List.length jobs) <= limit
    /\ StronglySorted
         (fun a b =>
            RoleSyncManager.historyTime b <= RoleSyncManager.historyTime a)
         jobs
    /\ (forall j,
           In j jobs ->
           In j q
           /\ Job.serverId j = serverId
           /\ (robloxUserId = "" \/ Job.robloxUserId j = robloxUserId)
           /\ (Job.status j = COMPLETED \/ Job.status j = FAILED))
    /\ (forall j,
           In j q ->
           Job.serverId j = serverId ->
           Job.robloxUserId j = robloxUserId ->
           Job.status j = COMPLETED \/ Job.status j = FAILED ->
           In j jobs \/ Z.of_nat (List.length jobs) = limit).
Proof.
  intros Hlimit.
  exists (RoleSyncManager.historyJobs serverId robloxUserId limit q).
  split; [reflexivity|].
  unfold RoleSyncManager.historyJobs.
  set (history := filter RoleSyncManager.isHistory
                    (SyncQueue.getUserJobs serverId robloxUserId q)).
  set (sorted := sortBy RoleSyncManager.latestFirst history).
  assert (Hsorted :
            StronglySorted
              (fun a b =>
                 RoleSyncManager.historyTime b <= RoleSyncManager.historyTime a)
              sorted).
  { apply sortBy_sorted; unfold RoleSyncManager.latestFirst.
    - intros a b H. apply Z.leb_le in H. lia.
    - intros a b H. apply Z.leb_gt in H. lia.
    - intros a b c. lia. }
  assert (Hhistory : forall j,
             In j sorted <->
             In j q
             /\ Job.serverId j = serverId
             /\ (robloxUserId = "" \/ Job.robloxUserId j = robloxUserId)
             /\ (Job.status j = COMPLETED \/ Job.status j = FAILED)).
  { intros j. unfold sorted, history. rewrite sortBy_In, filter_In.
    unfold SyncQueue.getUserJobs, SyncQueue.getServerJobs,
      SyncQueue.getServerJobsUnsorted, RoleSyncManager.isHistory.
    rewrite sortBy_In.
    assert (Hst : statusEqb (Job.status j) COMPLETED
                  || statusEqb (Job.status j) FAILED = true <->
                  Job.status j = COMPLETED \/ Job.status j = FAILED)
      by (destruct (Job.status j); simpl; intuition discriminate).
    rewrite Hst.
    destruct robloxUserId as [|c rest]; cbn [truthyString].
    - rewrite filter_In, String.eqb_eq. tauto.
    - rewrite !filter_In, !String.eqb_eq. intuition discriminate. }
  rewrite slice0_firstn by exact Hlimit.
  destruct (slice0_split sorted limit) as [dropped Hsplit].
  rewrite slice0_firstn in Hsplit by exact Hlimit.
  pose proof (length_firstn (Z.to_nat limit) sorted) as Hlen.
  split; [lia|]. split.
  - rewrite Hsplit in Hsorted. clear - Hsorted.
    induction (firstn (Z.to_nat limit) sorted) as [|x l IH]; [constructor|].
    simpl in Hsorted. inversion Hsorted as [|? ? Hl Hall]; subst.
    constructor; [apply IH, Hl|].
    apply Forall_app in Hall. apply Hall.
  - split.
    + intros j Hj. apply Hhistory. rewrite Hsplit.
      apply in_or_app. left. exact Hj.
    + intros j Hin Hs Hu Hst.
      destruct (Nat.le_gt_cases (List.length sorted) (Z.to_nat limit))
        as [Hle|Hgt].
      * left. rewrite firstn_all2 by exact Hle. apply Hhistory. auto.
      * right. rewrite Hlen. lia.
Qed.

Lemma getSyncHistory_spec_witness :
  exists jobs,
    RoleSyncManager.getSyncHistory "server" "A" 10 [exampleJob "A" 0 1] =
    map RoleSyncManager.historyEntry jobs
    /\ Z.of_nat (List.length jobs) <= 10
    /\ StronglySorted
         (fun a b =>
            RoleSyncManager.historyTime b <= RoleSyncManager.historyTime a)
         jobs
    /\ (forall j,
           In j jobs ->
           In j [exampleJob "A" 0 1]
           /\ Job.serverId j = "server"
           /\ ("A" = "" \/ Job.robloxUserId j = "A")
           /\ (Job.status j = COMPLETED \/ Job.status j = FAILED))
    /\ (forall j,
           In j [exampleJob "A" 0 1] ->
           Job.serverId j = "server" ->
           Job.robloxUserId j = "A" ->
           Job.status j = COMPLETED \/ Job.status j = FAILED ->
           In j jobs \/ Z.of_nat (List.length jobs) = 10).
Proof.
  apply (getSyncHistory_spec "server" "A" 10 [exampleJob "A" 0 1]). lia.
Defined.

(** ** The worker: what it asks of the Directory Service *)

Ltac split_body :=
  repeat match goal with
         | |- context [match ?x with _ => _ end] =>
             lazymatch x with
             | context [match _ with _ => _ end] => fail
             | _ => destruct x eqn:?
             end;
             cbn [fst snd setRankCalls setQueue setLinks logSetRank
                    roblox_links sync_queue processing roblox_verifications]
               in *
         end.

(** X10.  [processJob] calls [setUserRank] at most once, and only for a
    verified tenant, for the role that the catalog of the group gives the
    requested rank, and for a subject that the Directory Service reported at
    another rank; whatever happens afterwards, the call stays the only
    one. *)
Theorem processJob_rank_calls (dir : Directory) (now : Z) (job : Job.t)
  (w : World) :
  exists calls,
    setRankCalls (snd (RoleSync.processJob dir now job w)) =
    setRankCalls w ++ calls
    /\ (calls = [] \/ exists c, calls = [c] /\ rankChangeOf dir job w c).
Proof.
  unfold RoleSync.processJob, tryCatch, RoleSync.processJobBody,
    RoleSync.processJobCatch, bind, onQueue, onLinks, call,
    callSetUserRank, throw, ret.
  split_body.
  all: first
         [ exists []; split; [rewrite app_nil_r; reflexivity | left; reflexivity]
         | eexists; split;
           [ reflexivity
           | right; eexists; split; [reflexivity|];
             unfold rankChangeOf; do 4 eexists;
             repeat match goal with
                    | H : negb _ = false |- _ => apply negb_false_iff in H
                    | H : (_ =? _) = false |- _ => apply Z.eqb_neq in H
                    end;
             repeat split; eassumption ] ].
Qed.

Lemma processJob_flag (dir : Directory) (now : Z) (job : Job.t) (w : World) :
  processing (snd (RoleSync.processJob dir now job w)) = processing w.
Proof.
  unfold RoleSync.processJob, tryCatch, RoleSync.processJobBody,
    RoleSync.processJobCatch, bind, onQueue, onLinks, call,
    callSetUserRank, throw, ret.
  split_body. all: reflexivity.
Qed.

Lemma processJob_calls_length (dir : Directory) (now : Z) (job : Job.t)
  (w : World) :
  exists calls,
    setRankCalls (snd (RoleSync.processJob dir now job w)) =
    setRankCalls w ++ calls
    /\ (List.length calls <= 1)%nat.
Proof.
  unfold RoleSync.processJob, tryCatch, RoleSync.processJobBody,
    RoleSync.processJobCatch, bind, onQueue, onLinks, call,
    callSetUserRank, throw, ret.
  split_body.
  all: first
         [ exists []; split; [rewrite app_nil_r; reflexivity | simpl; lia]
         | eexists; split; [reflexivity | simpl; lia] ].
Qed.

Lemma processAll_counters (observe : string -> Observation)
  (jobs : list Job.t) (succeeded failed : Z) (w : World) :
  let result := RoleSync.processAll observe jobs succeeded failed w in
  fst (fst result) + snd (fst result) =
  succeeded + failed + Z.of_nat (List.length jobs)
  /\ succeeded <= fst (fst result)
  /\ failed <= snd (fst result)
  /\ processing (snd result) = processing w
  /\ exists calls,
      setRankCalls (snd result) = setRankCalls w ++ calls
      /\ (List.length calls <= List.length jobs)%nat.
Proof.
  revert succeeded failed w.
  induction jobs as [|job rest IH]; intros succeeded failed w.
  - simpl. repeat split; try lia. exists []. rewrite app_nil_r. auto.
  - cbn [RoleSync.processAll].
    set (o := observe (Job.id job)). cbv zeta.
    pose proof (processJob_flag (observedDirectory o) (observedNow o) job w)
      as Hflag.
    destruct (processJob_calls_length (observedDirectory o) (observedNow o)
                job w) as (calls & Hcalls & Hone).
    destruct (RoleSync.processJob (observedDirectory o) (observedNow o) job w)
      as [[result|e] w1]; cbn [fst snd] in Hflag, Hcalls.
    + destruct (success result).
      * destruct (IH (succeeded + 1) failed w1)
          as (Hsum & Hs & Hf & Hp & calls' & Hc' & Hl').
        cbv zeta in *. rewrite Hp, Hflag, Hc', Hcalls.
        cbn [List.length]. repeat split; try lia.
        exists (calls ++ calls'). rewrite app_assoc, length_app.
        split; [reflexivity | lia].
      * destruct (IH succeeded (failed + 1) w1)
          as (Hsum & Hs & Hf & Hp & calls' & Hc' & Hl').
        cbv zeta in *. rewrite Hp, Hflag, Hc', Hcalls.
        cbn [List.length]. repeat split; try lia.
        exists (calls ++ calls'). rewrite app_assoc, length_app.
        split; [reflexivity | lia].
    + destruct (IH succeeded (failed + 1) w1)
        as (Hsum & Hs & Hf & Hp & calls' & Hc' & Hl').
      cbv zeta in *. rewrite Hp, Hflag, Hc', Hcalls.
      cbn [List.length]. repeat split; try lia.
      exists (calls ++ calls'). rewrite app_assoc, length_app.
      split; [reflexivity | lia].
Qed.

(** On the documents.  A run of [processPendingJobs] that finds the worker idle takes at
    most [batchSize] jobs, counts each of them as succeeded or as failed,
    asks the Directory Service for at most one rank change per job, and
    leaves the worker idle; a run that finds the worker busy does nothing and
    reports zeros. *)
Theorem processPendingJobs_counters (batchSize now : Z)
  (observe : string -> Observation) (w : World) :
  processing w = false ->
  0 <= batchSize ->
  let result := fst (RoleSync.processPendingJobs batchSize now observe w) in
  let w' := snd (RoleSync.processPendingJobs batchSize now observe w) in
  processed result =
  Z.of_nat (List.length (SyncQueue.getPendingJobs batchSize now (sync_queue w)))
  /\ 0 <= processed result <= batchSize
  /\ succeeded result + failed result = processed result
  /\ 0 <= succeeded result
  /\ 0 <= failed result
  /\ processing w' = false
  /\ (exists calls,
         setRankCalls w' = setRankCalls w ++ calls
         /\ Z.of_nat (List.length calls) <= processed result)
  /\ RoleSync.processPendingJobs batchSize now observe (setProcessing true w)
     = (mkBatchResult 0 0 0, setProcessing true w).
Proof.
  intros Hidle Hbatch. cbv zeta.
  unfold RoleSync.processPendingJobs. rewrite Hidle.
  cbn [processing setProcessing sync_queue].
  assert (Hlen : Z.of_nat (List.length (SyncQueue.getPendingJobs batchSize now
                                          (sync_queue w))) <= batchSize).
  { unfold SyncQueue.getPendingJobs. rewrite slice0_firstn by exact Hbatch.
    match goal with
    | |- context [firstn ?n ?l] => pose proof (length_firstn n l)
    end. lia. }
  destruct (SyncQueue.getPendingJobs batchSize now (sync_queue w))
    as [|job rest] eqn:E.
  - cbn. repeat split; try lia. exists []. rewrite app_nil_r. split; [auto|].
    simpl. lia.
  - pose proof (processAll_counters observe (job :: rest) 0 0
                  (setProcessing true w)) as H.
    cbv zeta in H.
    destruct (RoleSync.processAll observe (job :: rest) 0 0
                (setProcessing true w)) as [[s f] w2].
    cbn [fst snd processed succeeded failed processing setProcessing
           setRankCalls] in *.
    destruct H as (Hsum & Hs & Hf & _ & calls & Hcalls & Hl).
    repeat split; try lia.
    exists calls. split; [exact Hcalls | lia].
Qed.

(** On the documents.  When [processJob] asks for the rank change of a job that is in the
    queue, the call is recorded once.  If the Directory Service accepts it,
    the job is completed with its attempts unchanged and the link counts two
    syncs: one by [updateLastSync], one by [incrementAnalytics].  If the
    Directory Service refuses, the answer carries its message, the job goes
    once through [markFailed] with retry allowed, and the link counts one sync
    and one failed sync. *)
Theorem processJob_rank_change (dir : Directory) (now : Z) (job : Job.t)
  (w : World) (old : Job.t) (link : Link.t) (c : SetRankCall) :
  SyncQueue.getJob (Job.id job) (sync_queue w) = Some old ->
  getLink (Job.serverId job) (roblox_links w) = Some link ->
  rankChangeOf dir job w c ->
  let result := fst (RoleSync.processJob dir now job w) in
  let w' := snd (RoleSync.processJob dir now job w) in
  setRankCalls w' = setRankCalls w ++ [c]
  /\ exists new link',
      SyncQueue.getJob (Job.id job) (sync_queue w') = Some new
      /\ getLink (Job.serverId job) (roblox_links w') = Some link'
      /\ lastSyncAt (Link.analytics link') = Some now
      /\ match setUserRank dir (callGroupId c) (callUserId c) (callRoleId c)
         with
         | Ret _ =>
             result = Ret (mkProcessResult true "Role synchronized successfully")
             /\ Job.status new = COMPLETED
             /\ Job.completedAt new = Some now
             /\ Job.attempts new = Job.attempts old
             /\ totalSyncs (Link.analytics link') =
                totalSyncs (Link.analytics link) + 2
             /\ failedSyncs (Link.analytics link') =
                failedSyncs (Link.analytics link)
         | Throw message =>
             result = Ret (mkProcessResult false message)
             /\ failedOnce true now (Job.attempts old) new
             /\ Job.lastError new = Some message
             /\ totalSyncs (Link.analytics link') =
                totalSyncs (Link.analytics link) + 1
             /\ failedSyncs (Link.analytics link') =
                failedSyncs (Link.analytics link) + 1
         end.
Proof.
  intros H EL (link0 & roles & target & current & EL0 & EV & ER & EF & EU
               & Hneq & ->).
  rewrite EL in EL0. injection EL0 as <-.
  destruct (updateJob_replaced (Job.id job) (inProgressUpdate now) now _ _ H)
    as (q1 & E1 & Rep1 & G1).
  apply Z.eqb_neq in Hneq.
  cbv zeta.
  unfold RoleSync.processJob, tryCatch, RoleSync.processJobBody, bind, onQueue,
    call, callSetUserRank, throw, ret, SyncQueue.markInProgress.
  fold (inProgressUpdate now). rewrite E1.
  cbn [sync_queue roblox_links setQueue logSetRank fst snd].
  rewrite EL, EV. cbn [negb]. rewrite ER, EF, EU, Hneq.
  cbn [callGroupId callUserId callRoleId].
  set (c := mkSetRankCall (Link.groupId link) (Job.robloxUserId job)
              (roleId target)).
  destruct (setUserRank dir (Link.groupId link) (Job.robloxUserId job)
              (roleId target)) as [[]|message].
  - destruct (updateJob_replaced (Job.id job) (completedUpdate now) now _ _ G1)
      as (q2 & E2 & Rep2 & G2).
    unfold SyncQueue.markCompleted. fold (completedUpdate now).
    cbn [sync_queue setQueue]. rewrite E2.
    unfold onLinks, updateLastSync, incrementAnalytics, updateLink.
    unfold getLink in *.
    cbn [sync_queue roblox_links setQueue setLinks logSetRank fst snd].
    rewrite EL. cbn [sync_queue roblox_links setQueue setLinks logSetRank].
    rewrite dictGet_dictSet_same.
    cbn [sync_queue roblox_links setQueue setLinks logSetRank fst snd
           setRankCalls].
    split; [reflexivity|].
    eexists. eexists. split; [exact G2|].
    split; [apply dictGet_dictSet_same|].
    cbn. repeat split. lia.
  - match goal with
    | |- context [RoleSync.processJobCatch now job message ?w0] =>
        destruct (onQueue_markFailed (Job.id job) message true now w0 _ G1)
          as (new & q2 & Hrun & Rep2 & Same & Fail & Herr)
    end.
    unfold RoleSync.processJobCatch, bind. rewrite Hrun.
    unfold onLinks, updateLastSync, updateLink, ret. unfold getLink in *.
    cbn [sync_queue roblox_links setQueue setLinks logSetRank fst snd].
    rewrite EL.
    cbn [sync_queue roblox_links setQueue setLinks logSetRank fst snd
           setRankCalls].
    split; [reflexivity|].
    exists new. eexists.
    split; [apply (replaced_getJob _ _ _ _ _ Rep2), Same|].
    split; [apply dictGet_dictSet_same|].
    cbn. repeat split; try assumption. apply Fail. apply Fail.
Qed.

(** ** The links: removal and verification *)

(** Assigning or deleting a key leaves the other keys of a dictionary. *)
Lemma dictGet_dictSet_other {V : Type} (k other : string) (v : V)
  (d : dict V) :
  other <> k -> dictGet other (dictSet k v d) = dictGet other d.
Proof.
  intros Hne. induction d as [|[k' v'] d IH]; simpl.
  - destruct (k =? other)%string eqn:E; [|reflexivity].
    apply String.eqb_eq in E. congruence.
  - destruct (k' =? k)%string eqn:E; simpl.
    + apply String.eqb_eq in E. subst k'.
      destruct (k =? other)%string eqn:E'; [|reflexivity].
      apply String.eqb_eq in E'. congruence.
    + destruct (k' =? other)%string; [reflexivity | exact IH].
Qed.

Lemma dictGet_dictDelete_other {V : Type} (k other : string) (d : dict V) :
  other <> k -> dictGet other (dictDelete k d) = dictGet other d.
Proof.
  intros Hne. induction d as [|[k' v'] d IH]; simpl; [reflexivity|].
  destruct (k' =? k)%string eqn:E; simpl.
  - apply String.eqb_eq in E. subst k'.
    destruct (k =? other)%string eqn:E'; [|exact IH].
    apply String.eqb_eq in E'. congruence.
  - destruct (k' =? other)%string; [reflexivity | exact IH].
Qed.

Lemma In_dictDelete {V : Type} (k other : string) (v : V) (d : dict V) :
  In (other, v) (dictDelete k d) -> In (other, v) d /\ other <> k.
Proof.
  induction d as [|[k' v'] d IH]; simpl; [tauto|].
  destruct (k' =? k)%string eqn:E.
  - intros H. destruct (IH H). auto.
  - apply String.eqb_neq in E. intros [H|H].
    + injection H as -> ->. auto.
    + destruct (IH H). auto.
Qed.

(** On the documents.  [deleteLink] revokes the key of a tenant.  After it the tenant has
    no link and the other tenants keep theirs; a key whose hash no other
    link holds is not found by [validateApiKey]; [authMiddleware] answers a
    request that presents it with 401 and [INVALID_API_KEY], whatever else
    the request carries; and [queueSync] refuses the tenant. *)
Theorem deleteLink_revokes (hashApiKey : string -> string)
  (verifyRequestSignature :
     string -> string -> string -> Z -> string -> string -> bool)
  (serverId apiKey : string) (req : Request.t) (syncData : SyncData.t)
  (newId : string) (now : Z) (w : World) :
  (forall other link,
      In (other, link) (roblox_links w) ->
      other <> serverId ->
      Link.apiKeyHash link <> hashApiKey apiKey) ->
  Request.authorization req = Some ("Bearer " ++ apiKey)%string ->
  SyncData.serverId syncData = serverId ->
  let w' := setLinks (deleteLink serverId (roblox_links w)) w in
  getLink serverId (roblox_links w') = None
  /\ (forall other,
         other <> serverId ->
         getLink other (roblox_links w') = getLink other (roblox_links w))
  /\ validateApiKey hashApiKey apiKey now (roblox_links w') =
     (None, roblox_links w')
  /\ (exists text,
         authMiddleware hashApiKey verifyRequestSignature req now w' =
         (Rejected (mkRejection 401 text "INVALID_API_KEY"), w'))
  /\ RoleSync.queueSync syncData newId now w' =
     (mkQueueSyncResult false None
        "Roblox integration not set up for this server", w').
Proof.
  intros Hothers Hauth Hsid. cbv zeta.
  cbn [roblox_links setLinks]. unfold deleteLink, getLink.
  assert (Hfind : findByHash (hashApiKey apiKey)
                    (dictDelete serverId (roblox_links w)) = None).
  { apply findByHash_none. intros k l Hin.
    apply In_dictDelete in Hin. destruct Hin as [Hin Hne].
    apply (Hothers k l Hin Hne). }
  assert (Hvalidate :
            validateApiKey hashApiKey apiKey now
              (dictDelete serverId (roblox_links w)) =
            (None, dictDelete serverId (roblox_links w))).
  { unfold validateApiKey. rewrite Hfind. reflexivity. }
  split; [apply dictGet_dictDelete|].
  split; [intros other Hne; apply dictGet_dictDelete_other, Hne|].
  split; [exact Hvalidate|].
  split.
  - unfold authMiddleware. rewrite Hauth.
    replace (truthyString (Some ("Bearer " ++ apiKey)%string)) with true
      by reflexivity.
    replace (startsWith "Bearer " ("Bearer " ++ apiKey)) with true
      by reflexivity.
    cbn [negb orb].
    replace (substringFrom 7 ("Bearer " ++ apiKey)) with apiKey
      by reflexivity.
    cbv zeta.
    destruct (Z.of_nat (String.length apiKey) <? 32).
    + eexists. reflexivity.
    + cbn [roblox_links setLinks]. rewrite Hvalidate.
      eexists. unfold setLinks. cbn. reflexivity.
  - unfold RoleSync.queueSync, getLink. cbn [roblox_links setLinks].
    rewrite Hsid, dictGet_dictDelete. reflexivity.
Qed.


(** ** The middleware *)

Lemma startsWith_split (p s : string) :
  startsWith p s = true ->
  s = (p ++ substringFrom (String.length p) s)%string.
Proof.
  revert s. induction p as [|a p IH]; intros s H; [reflexivity|].
  destruct s as [|b s]; [discriminate|].
  cbn in H. apply andb_true_iff in H. destruct H as [Hab Hrest].
  apply Ascii.eqb_eq in Hab. subst b.
  cbn. f_equal. apply IH, Hrest.
Qed.

Lemma findByHash_found (h : string) (ls : dict Link.t) (serverId : string)
  (link : Link.t) :
  findByHash h ls = Some (serverId, link) ->
  In (serverId, link) ls /\ Link.apiKeyHash link = h.
Proof.
  induction ls as [|[k l] ls IH]; simpl; [discriminate|].
  destruct (Link.apiKeyHash l =? h)%string eqn:E.
  - intros H. injection H as -> ->. apply String.eqb_eq in E. auto.
  - intros H. destruct (IH H). auto.
Qed.

(** X20.  What [authMiddleware] lets through.  A request reaches [next()]
    only if it presents, after [Bearer ], a key of at least 32 characters
    whose hash is the hash of a link of the document; the link is verified;
    the request carries a non-zero timestamp within 300 seconds of the
    clock; its signature, when it has one, verifies under the key; and its
    place, when it names one, is listed by the link.  The context that the
    handlers see is that link; only the links document may differ
    afterwards. *)
Theorem authMiddleware_accepts (hashApiKey : string -> string)
  (verifyRequestSignature :
     string -> string -> string -> Z -> string -> string -> bool)
  (req : Request.t) (now : Z) (w : World) (ctx : AuthContext) (w' : World) :
  authMiddleware hashApiKey verifyRequestSignature req now w = (Next ctx, w') ->
  exists apiKey serverId timestamp,
    Request.authorization req = Some ("Bearer " ++ apiKey)%string
    /\ 32 <= Z.of_nat (String.length apiKey)
    /\ In (serverId, robloxLink ctx) (roblox_links w)
    /\ Link.apiKeyHash (robloxLink ctx) = hashApiKey apiKey
    /\ Link.verified (robloxLink ctx) = true
    /\ (Request.bodyTimestamp req = Some timestamp
        \/ Request.queryTimestamp req = Some timestamp)
    /\ timestamp <> 0
    /\ Z.abs (now / 1000 - timestamp) <= 300
    /\ (forall signature,
           Request.signature req = Some signature ->
           signature <> "" ->
           verifyRequestSignature (Request.method req) (Request.path req)
             (Request.body req) timestamp signature apiKey = true)
    /\ (forall placeId,
           contextPlaceId ctx = Some placeId ->
           placeId <> "" ->
           In placeId (Link.placeIds (robloxLink ctx)))
    /\ contextServerId ctx = Link.serverId (robloxLink ctx)
    /\ contextGroupId ctx = Link.groupId (robloxLink ctx)
    /\ sync_queue w' = sync_queue w
    /\ setRankCalls w' = setRankCalls w.
Proof.
  unfold authMiddleware.
  destruct (Request.authorization req) as [authHeader|] eqn:EA;
    [|discriminate].
  destruct (negb (truthyString (Some authHeader))
            || negb (startsWith "Bearer " authHeader)) eqn:EB;
    [discriminate|].
  apply orb_false_iff in EB. destruct EB as [_ EB].
  apply negb_false_iff in EB. apply startsWith_split in EB.
  cbn [String.length] in EB.
  set (apiKey := substringFrom 7 authHeader) in *. cbv zeta.
  destruct (Z.of_nat (String.length apiKey) <? 32) eqn:ELen; [discriminate|].
  apply Z.ltb_ge in ELen.
  unfold validateApiKey.
  destruct (findByHash (hashApiKey apiKey) (roblox_links w))
    as [[serverId link]|] eqn:EF; [|discriminate].
  destruct (findByHash_found _ _ _ _ EF) as [Hin Hhash].
  destruct (negb (Link.verified link)) eqn:EV; [discriminate|].
  apply negb_false_iff in EV.
  destruct (orElseZ (Request.bodyTimestamp req) (Request.queryTimestamp req))
    as [timestamp|] eqn:ET; [|discriminate].
  destruct (negb (truthyZ (Some timestamp))) eqn:ETZ; [discriminate|].
  destruct (negb (validateTimestamp timestamp 300 now)) eqn:EW; [discriminate|].
  match goal with
  | |- context [if ?c then (Rejected (mkRejection 401 _ _), _) else _] =>
      destruct c eqn:ES; [discriminate|]
  end.
  match goal with
  | |- context [if ?c then (Rejected (mkRejection 403 _ _), _) else _] =>
      destruct c eqn:EP; [discriminate|]
  end.
  intros H. injection H as <- <-.
  exists apiKey, serverId, timestamp.
  split; [rewrite EB at 1; reflexivity|].
  split; [lia|]. split; [exact Hin|]. split; [exact Hhash|].
  split; [exact EV|].
  split.
  { unfold orElseZ in ET.
    destruct (Request.bodyTimestamp req) as [b|].
    - destruct (b =? 0); [right; exact ET | left; exact ET].
    - right. exact ET. }
  apply negb_false_iff in ETZ. cbn in ETZ. apply negb_true_iff in ETZ.
  apply Z.eqb_neq in ETZ.
  split; [exact ETZ|].
  apply negb_false_iff in EW. unfold validateTimestamp in EW.
  apply Z.leb_le in EW.
  split; [exact EW|].
  split.
  { intros signature Hsig Hne. rewrite Hsig in ES.
    destruct signature as [|c rest]; [contradiction|].
    cbn in ES. apply negb_false_iff in ES. exact ES. }
  split.
  { cbn [contextPlaceId]. intros placeId Hplace Hne. rewrite Hplace in EP.
    destruct placeId as [|c rest]; [contradiction|].
    cbn [truthyString andb orString] in EP. apply negb_false_iff in EP.
    apply existsb_exists in EP. destruct EP as (x & Hx & Heq).
    apply String.eqb_eq in Heq. subst x. exact Hx. }
  cbn. repeat split.
Qed.

Lemma authMiddleware_accepts_witness :
  let w :=
    worldWithLinks
      [("1001", exampleLink "1001" "G" (exampleHash exampleKey) true)] in
  exists ctx w',
    authMiddleware exampleHash exampleVerify (exampleRequest 1000) 1000000 w
    = (Next ctx, w')
    /\ Link.verified (robloxLink ctx) = true.
Proof.
  intros w.
  destruct (authMiddleware exampleHash exampleVerify (exampleRequest 1000)
              1000000 w) as [[r|ctx] w'] eqn:E; [discriminate E|].
  exists ctx, w'. split; [reflexivity|].
  destruct (authMiddleware_accepts exampleHash exampleVerify
              (exampleRequest 1000) 1000000 w ctx w' E)
    as (apiKey & serverId & timestamp & _ & _ & _ & _ & Hv & _).
  exact Hv.
Defined.

(** On the documents.  [optionalAuthMiddleware] attaches a link only for a key whose hash
    is the hash of a verified link of the document, but asks for nothing
    else: neither a length of the key, nor a timestamp, a signature or a
    place.  Whenever [authMiddleware] lets a request through, the optional
    middleware attaches the same link and leaves the same state. *)
Theorem optionalAuthMiddleware_attaches (hashApiKey : string -> string)
  (verifyRequestSignature :
     string -> string -> string -> Z -> string -> string -> bool)
  (req : Request.t) (now : Z) (w : World) :
  let attached := fst (optionalAuthMiddleware hashApiKey req now w) in
  let w1 := snd (optionalAuthMiddleware hashApiKey req now w) in
  (forall ctx,
      attached = Some ctx <->
      exists apiKey serverId link,
        Request.authorization req = Some ("Bearer " ++ apiKey)%string
        /\ findByHash (hashApiKey apiKey) (roblox_links w)
           = Some (serverId, link)
        /\ Link.verified link = true
        /\ ctx = mkAuthContext link (Link.serverId link) (Link.groupId link)
                   None)
  /\ (forall ctx w',
         authMiddleware hashApiKey verifyRequestSignature req now w
         = (Next ctx, w') ->
         attached = Some (mkAuthContext (robloxLink ctx) (contextServerId ctx)
                            (contextGroupId ctx) None)
         /\ w1 = w')
  /\ sync_queue w1 = sync_queue w
  /\ setRankCalls w1 = setRankCalls w.
Proof.
  cbv zeta. unfold optionalAuthMiddleware, authMiddleware.
  destruct (Request.authorization req) as [authHeader|] eqn:EA.
  2: { cbn. split; [|split; [intros; discriminate | split; reflexivity]].
       intros ctx. split; [discriminate|].
       intros (k & s & l & H & _). discriminate. }
  destruct (negb (truthyString (Some authHeader))
            || negb (startsWith "Bearer " authHeader)) eqn:EB.
  { cbn. split; [|split; [intros; discriminate | split; reflexivity]].
    intros ctx. split; [discriminate|].
    intros (k & s & l & H & _). injection H as ->.
    replace (truthyString (Some ("Bearer " ++ k)%string)) with true in EB
      by reflexivity.
    replace (startsWith "Bearer " ("Bearer " ++ k)) with true in EB
      by reflexivity.
    discriminate. }
  apply orb_false_iff in EB. destruct EB as [_ EB].
  apply negb_false_iff in EB. apply startsWith_split in EB.
  cbn [String.length] in EB.
  set (apiKey := substringFrom 7 authHeader) in *. cbv zeta.
  assert (Hkey : forall k, Some authHeader = Some ("Bearer " ++ k)%string ->
                           k = apiKey).
  { intros k H. injection H as H. unfold apiKey. rewrite H. reflexivity. }
  unfold validateApiKey.
  destruct (findByHash (hashApiKey apiKey) (roblox_links w))
    as [[serverId link]|] eqn:EF.
  2: { cbn [fst snd]. split; [|split].
       - intros ctx. split; [discriminate|].
         intros (k & s & l & H & Hf & _). apply Hkey in H. subst k.
         congruence.
       - destruct (Z.of_nat (String.length apiKey) <? 32); intros; discriminate.
       - split; reflexivity. }
  destruct (Link.verified link) eqn:EV; cbn [negb fst snd].
  2: { split; [|split].
       - intros ctx. split; [discriminate|].
         intros (k & s & l & H & Hf & Hv & _). apply Hkey in H. subst k.
         rewrite EF in Hf. injection Hf as _ <-. congruence.
       - destruct (Z.of_nat (String.length apiKey) <? 32); intros; discriminate.
       - split; reflexivity. }
  split; [|split].
  - intros ctx. split.
    + intros H. injection H as <-. exists apiKey, serverId, link.
      split; [rewrite EB at 1; reflexivity|]. auto.
    + intros (k & s & l & H & Hf & Hv & ->). apply Hkey in H. subst k.
      rewrite EF in Hf. injection Hf as _ <-. reflexivity.
  - intros ctx w'.
    destruct (Z.of_nat (String.length apiKey) <? 32); [discriminate|].
    destruct (orElseZ (Request.bodyTimestamp req) (Request.queryTimestamp req))
      as [timestamp|]; [|discriminate].
    destruct (negb (truthyZ (Some timestamp))); [discriminate|].
    destruct (negb (validateTimestamp timestamp 300 now)); [discriminate|].
    match goal with
    | |- context [if ?c then (Rejected (mkRejection 401 _ _), _) else _] =>
        destruct c; [discriminate|]
    end.
    match goal with
    | |- context [if ?c then (Rejected (mkRejection 403 _ _), _) else _] =>
        destruct c; [discriminate|]
    end.
    intros H. injection H as <- <-. split; reflexivity.
  - split; reflexivity.
Qed.

(** ** The rate limiter *)

(** Requests served within two windows of [t0], by records made at or after
    [t0]: what a key may still pass. *)
Lemma serve_window (maxRequests windowMinutes t0 : Z)
  (calls : list (string * Z)) (requests : dict RateRecord) (key : string) :
  0 <= windowMinutes ->
  (forall k now,
      In (k, now) calls ->
      t0 <= now <= t0 + 2 * (windowMinutes * 60 * 1000)) ->
  (forall k record,
      dictGet k requests = Some record ->
      t0 + windowMinutes * 60 * 1000 <= resetAt record) ->
  passedFor key calls (fst (serve maxRequests windowMinutes calls requests))
  <= Z.max 0 (maxRequests
              - match dictGet key requests with
                | Some record => count record
                | None => 0
                end).
Proof.
  intros Hwin. revert requests.
  induction calls as [|[k now] calls IH]; intros requests Htimes Hinv.
  - cbn. lia.
  - cbn [serve].
    assert (Hnow : t0 <= now <= t0 + 2 * (windowMinutes * 60 * 1000))
      by (apply (Htimes k); left; reflexivity).
    assert (Hrest : forall k' now',
               In (k', now') calls ->
               t0 <= now' <= t0 + 2 * (windowMinutes * 60 * 1000))
      by (intros k' now' Hin; apply (Htimes k'); right; exact Hin).
    unfold createRateLimiter. cbv zeta.
    set (windowMs := windowMinutes * 60 * 1000) in *.
    set (fresh := mkRateRecord 0 (now + windowMs)).
    assert (Hstate :
              exists record requests1,
                match dictGet k requests with
                | Some record =>
                    if windowMs <? now - resetAt record
                    then (fresh, dictSet k fresh requests)
                    else (record, requests)
                | None => (fresh, dictSet k fresh requests)
                end = (record, requests1)
                /\ dictGet k requests1 = Some record
                /\ (forall other, other <> k ->
                                  dictGet other requests1 =
                                  dictGet other requests)
                /\ count record =
                   match dictGet k requests with
                   | Some r => count r
                   | None => 0
                   end
                /\ t0 + windowMs <= resetAt record).
    { destruct (dictGet k requests) as [record|] eqn:EG.
      - pose proof (Hinv k record EG) as Hr.
        destruct (windowMs <? now - resetAt record) eqn:EW;
          [apply Z.ltb_lt in EW; lia|].
        exists record, requests. repeat split; auto.
      - exists fresh, (dictSet k fresh requests).
        split; [reflexivity|]. split; [apply dictGet_dictSet_same|].
        split; [intros other Hne; apply dictGet_dictSet_other, Hne|].
        split; [reflexivity|]. cbn. lia. }
    destruct Hstate as (record & requests1 & -> & Hget & Hother & Hcount & Hreset).
    destruct (maxRequests <=? count record) eqn:EM.
    + apply Z.leb_le in EM.
      specialize (IH requests1 Hrest).
      destruct (serve maxRequests windowMinutes calls requests1)
        as [results requests2].
      cbn [fst passedFor isPassed] in *. rewrite andb_false_r.
      assert (Hinv1 : forall k' r',
                 dictGet k' requests1 = Some r' -> t0 + windowMs <= resetAt r').
      { intros k' r' Hk'. destruct (String.eqb_spec k' k) as [->|Hne].
        - rewrite Hget in Hk'. injection Hk' as <-. exact Hreset.
        - rewrite Hother in Hk' by exact Hne. apply (Hinv k' r' Hk'). }
      specialize (IH Hinv1).
      destruct (String.eqb_spec key k) as [->|Hne].
      * rewrite Hget in IH. rewrite <- Hcount. lia.
      * rewrite Hother in IH by exact Hne. lia.
    + apply Z.leb_gt in EM.
      set (record' := mkRateRecord (count record + 1) (resetAt record)).
      specialize (IH (dictSet k record' requests1) Hrest).
      destruct (serve maxRequests windowMinutes calls
                  (dictSet k record' requests1)) as [results requests2].
      cbn [fst passedFor isPassed] in *. rewrite andb_true_r.
      assert (Hinv1 : forall k' r',
                 dictGet k' (dictSet k record' requests1) = Some r' ->
                 t0 + windowMs <= resetAt r').
      { intros k' r' Hk'. destruct (String.eqb_spec k' k) as [->|Hne].
        - rewrite dictGet_dictSet_same in Hk'. injection Hk' as <-.
          exact Hreset.
        - rewrite dictGet_dictSet_other in Hk' by exact Hne.
          rewrite Hother in Hk' by exact Hne. apply (Hinv k' r' Hk'). }
      specialize (IH Hinv1).
      destruct (String.eqb_spec key k) as [->|Hne].
      * rewrite dictGet_dictSet_same in IH. rewrite String.eqb_refl.
        rewrite <- Hcount. cbn [count record'] in IH. lia.
      * rewrite dictGet_dictSet_other in IH by exact Hne.
        rewrite Hother in IH by exact Hne.
        destruct (String.eqb_spec k key) as [E|_]; [congruence|]. lia.
Qed.

(** X22.  A rate limiter made by [createRateLimiter], starting with its empty
    [Map], passes at most [maxRequests] requests of a key among requests
    that fall within two windows of each other, in whatever order and for
    whatever keys they arrive. *)
Theorem createRateLimiter_bound (maxRequests windowMinutes t0 : Z)
  (calls : list (string * Z)) (key : string) :
  0 <= maxRequests ->
  0 <= windowMinutes ->
  (forall k now,
      In (k, now) calls ->
      t0 <= now <= t0 + 2 * (windowMinutes * 60 * 1000)) ->
  passedFor key calls (fst (serve maxRequests windowMinutes calls []))
  <= maxRequests.
Proof.
  intros Hmax Hwin Htimes.
  pose proof (serve_window maxRequests windowMinutes t0 calls [] key Hwin
                Htimes) as H.
  cbn [dictGet] in H.
  assert (Hempty : forall k record,
             @dictGet RateRecord k [] = Some record ->
             t0 + windowMinutes * 60 * 1000 <= resetAt record)
    by (intros k record E; discriminate E).
  specialize (H Hempty). lia.
Qed.

Lemma createRateLimiter_bound_witness :
  passedFor "1001" [("1001", 0); ("1001", 1); ("1001", 2)]
    (fst (serve 2 1 [("1001", 0); ("1001", 1); ("1001", 2)] []))
  <= 2.
Proof.
  apply (createRateLimiter_bound 2 1 0
           [("1001", 0); ("1001", 1); ("1001", 2)] "1001").
  - lia.
  - lia.
  - intros k now [H|[H|[H|[]]]]; injection H as <- <-; lia.
Defined.

(** X23.  A key that has used up its requests stays limited for two windows,
    not one: the record is replaced only when the clock is more than a
    window past [resetAt], which itself lies a window after the first
    request.  Between [resetAt] and that instant the answer is still 429,
    with a [resetIn] that is zero or negative; after it, the next request
    passes and starts a new record. *)
Theorem createRateLimiter_outlasts_window (maxRequests windowMinutes : Z)
  (key : string) (now : Z) (requests : dict RateRecord)
  (record : RateRecord) :
  dictGet key requests = Some record ->
  0 < maxRequests <= count record ->
  let windowMs := windowMinutes * 60 * 1000 in
  let answer := createRateLimiter maxRequests windowMinutes key now requests in
  (now <= resetAt record + windowMs ->
   exists resetIn,
     answer = (Limited resetIn, requests)
     /\ 1000 * resetIn - 1000 < resetAt record - now <= 1000 * resetIn
     /\ (resetAt record <= now -> resetIn <= 0))
  /\ (resetAt record + windowMs < now ->
      fst answer =
      Passed maxRequests (maxRequests - 1) ((now + windowMs) / 1000)
      /\ dictGet key (snd answer) = Some (mkRateRecord 1 (now + windowMs))).
Proof.
  intros EG [Hpos Hfull]. cbv zeta. unfold createRateLimiter. cbv zeta.
  rewrite EG. set (windowMs := windowMinutes * 60 * 1000).
  split.
  - intros Hnow.
    destruct (windowMs <? now - resetAt record) eqn:EW;
      [apply Z.ltb_lt in EW; lia|].
    destruct (maxRequests <=? count record) eqn:EM;
      [|apply Z.leb_gt in EM; lia].
    eexists. split; [reflexivity|].
    unfold RoleSyncManager.ceilDiv.
    pose proof (Z.div_mod (- (resetAt record - now)) 1000 ltac:(lia)) as Hdm.
    pose proof (Z.mod_pos_bound (- (resetAt record - now)) 1000 ltac:(lia))
      as Hmod.
    split; [lia|]. intros Hpast. lia.
  - intros Hnow.
    destruct (windowMs <? now - resetAt record) eqn:EW;
      [|apply Z.ltb_ge in EW; lia].
    cbn [count resetAt].
    destruct (maxRequests <=? 0) eqn:EM; [apply Z.leb_le in EM; lia|].
    cbn [fst snd]. split; [f_equal; lia|].
    rewrite dictGet_dictSet_same. reflexivity.
Qed.

Lemma createRateLimiter_outlasts_window_witness :
  exists resetIn,
    createRateLimiter 1 1 "1001" 90000 [("1001", mkRateRecord 1 60000)] =
    (Limited resetIn, [("1001", mkRateRecord 1 60000)])
    /\ resetIn <= 0.
Proof.
  destruct (createRateLimiter_outlasts_window 1 1 "1001" 90000
              [("1001", mkRateRecord 1 60000)] (mkRateRecord 1 60000)
              eq_refl ltac:(cbn; lia)) as [H _].
  destruct (H ltac:(cbn; lia)) as (resetIn & Hanswer & _ & Hpast).
  exists resetIn. split; [exact Hanswer | apply Hpast; cbn; lia].
Defined.

(** ** The ownership verification *)

Lemma startsWith_app (p rest : string) : startsWith p (p ++ rest) = true.
Proof.
  induction p as [|a p IH]; [reflexivity|].
  cbn. rewrite Ascii.eqb_refl. exact IH.
Qed.

Lemma includes_app (prefix p suffix : string) :
  includes (prefix ++ p ++ suffix) p = true.
Proof.
  induction prefix as [|a prefix IH].
  - cbn [String.append]. pose proof (startsWith_app p suffix) as H.
    destruct (p ++ suffix)%string; cbn [includes]; rewrite H; reflexivity.
  - cbn [String.append includes]. rewrite IH. apply orb_true_r.
Qed.

(** On the documents.  The round trip of the ownership check.  After [startVerification],
    whatever the document held for the tenant before, a [checkVerification]
    made no later than ten minutes afterwards that reads a description
    holding the code succeeds: the verification is marked verified at that
    instant, with one attempt counted.  Made later, it answers [EXPIRED] and
    removes the verification, so that the next check finds none. *)
Theorem startVerification_checkVerification (dir : Directory)
  (serverId groupId groupName code userId : string) (start now : Z)
  (vs : RobloxVerification.verifications) (prefix suffix : string) :
  getGroupDescription dir groupId =
  Ret (prefix ++ ("KS_VERIFY_" ++ code) ++ suffix)%string ->
  let started :=
    RobloxVerification.startVerification serverId groupId groupName code
      userId start vs in
  let checked :=
    RobloxVerification.checkVerification dir serverId now (snd started) in
  Verification.code (fst started) = ("KS_VERIFY_" ++ code)%string
  /\ (now <= start + 10 * 60 * 1000 ->
      checkSuccess (fst checked) = true
      /\ exists v,
          RobloxVerification.getVerification serverId (snd checked) = Some v
          /\ Verification.verified v = true
          /\ Verification.verifiedAt v = Some now
          /\ Verification.attempts v = 1
          /\ Verification.groupId v = groupId)
  /\ (start + 10 * 60 * 1000 < now ->
      fst checked = RobloxVerification.failure RobloxVerification.EXPIRED
      /\ RobloxVerification.getVerification serverId (snd checked) = None
      /\ fst (RobloxVerification.checkVerification dir serverId now
                (snd checked))
         = RobloxVerification.failure RobloxVerification.NO_VERIFICATION).
Proof.
  intros Hdesc. cbv zeta.
  unfold RobloxVerification.startVerification. cbn [fst snd].
  set (v0 := RobloxVerification.newVerification serverId groupId groupName
               code userId start).
  split; [reflexivity|].
  split.
  - intros Hnow.
    assert (Hc : exists v,
               RobloxVerification.checkVerification dir serverId now
                 (dictSet serverId v0 vs)
               = (mkCheckResult true None
                    (Some "Group ownership verified successfully!") None,
                  dictSet serverId v
                    (dictSet serverId
                       (RobloxVerification.newVerification serverId groupId
                          groupName code userId start) vs))
               /\ Verification.verified v = true
               /\ Verification.verifiedAt v = Some now
               /\ Verification.attempts v = 1
               /\ Verification.groupId v = groupId).
    { unfold RobloxVerification.checkVerification,
        RobloxVerification.getVerification.
      rewrite dictGet_dictSet_same.
      replace (Verification.expiresAt v0) with (start + 10 * 60 * 1000)
        by reflexivity.
      destruct (start + 10 * 60 * 1000 <? now) eqn:E;
        [apply Z.ltb_lt in E; lia|].
      replace (Verification.maxAttempts v0 <=? Verification.attempts v0)
        with false by reflexivity.
      cbv zeta.
      replace (Verification.groupId v0) with groupId by reflexivity.
      rewrite Hdesc.
      replace (Verification.code v0) with ("KS_VERIFY_" ++ code)%string
        by reflexivity.
      rewrite includes_app.
      unfold RobloxVerification.updateVerification,
        RobloxVerification.completeVerification.
      rewrite !dictGet_dictSet_same, dictSet_dictSet.
      eexists. split; [reflexivity|]. cbn. repeat split. }
    destruct Hc as (v & -> & Hv & Hat & Hatt & Hg). cbn [fst snd checkSuccess].
    split; [reflexivity|]. exists v.
    split; [apply dictGet_dictSet_same|]. auto.
  - intros Hnow.
    assert (Hc : RobloxVerification.checkVerification dir serverId now
                   (dictSet serverId v0 vs)
                 = (RobloxVerification.failure RobloxVerification.EXPIRED,
                    dictDelete serverId (dictSet serverId v0 vs))).
    { unfold RobloxVerification.checkVerification,
        RobloxVerification.getVerification.
      rewrite dictGet_dictSet_same.
      replace (Verification.expiresAt v0) with (start + 10 * 60 * 1000)
        by reflexivity.
      destruct (start + 10 * 60 * 1000 <? now) eqn:E;
        [|apply Z.ltb_ge in E; lia].
      reflexivity. }
    rewrite Hc. cbn [fst snd].
    split; [reflexivity|].
    split; [apply dictGet_dictDelete|].
    unfold RobloxVerification.checkVerification,
      RobloxVerification.getVerification.
    rewrite dictGet_dictDelete. reflexivity.
Qed.

Lemma dictDelete_absent {V : Type} (k : string) (d : dict V) :
  ~ In k (map fst d) -> dictDelete k d = d.
Proof.
  induction d as [|[k' v'] d IH]; simpl; intros Hnot; [reflexivity|].
  destruct (k' =? k)%string eqn:E.
  - apply String.eqb_eq in E. tauto.
  - f_equal. apply IH. tauto.
Qed.

Lemma dictDelete_middle {V : Type} (k : string) (v : V) (d1 d2 : dict V) :
  NoDup (map fst (d1 ++ (k, v) :: d2)) ->
  dictDelete k (d1 ++ (k, v) :: d2) = d1 ++ d2.
Proof.
  intros Hnd. rewrite map_app in Hnd. cbn in Hnd.
  pose proof (NoDup_remove_2 _ _ _ Hnd) as Hnot.
  induction d1 as [|[k1 v1] d1 IH]; cbn.
  - rewrite String.eqb_refl. apply dictDelete_absent.
    intros Hin. apply Hnot. exact Hin.
  - destruct (k1 =? k)%string eqn:E.
    + apply String.eqb_eq in E. subst k1. exfalso. apply Hnot.
      left. reflexivity.
    + f_equal. apply IH.
      * cbn in Hnd. inversion Hnd. assumption.
      * intros Hin. apply Hnot. right. exact Hin.
Qed.

(** The loop of [cleanExpiredVerifications] over the entries that are left,
    when the keys of the document are distinct. *)
Lemma cleanLoop (now : Z) (kept rest : RobloxVerification.verifications)
  (cleaned : Z) :
  NoDup (map fst (kept ++ rest)) ->
  fold_left
    (fun (state : Z * RobloxVerification.verifications)
         (entry : string * Verification.t) =>
       if Verification.expiresAt (snd entry) <? now
       then (fst state + 1, dictDelete (fst entry) (snd state))
       else state)
    rest (cleaned, kept ++ rest)
  = (cleaned
     + Z.of_nat (List.length
                   (filter (fun entry =>
                              Verification.expiresAt (snd entry) <? now) rest)),
     kept
     ++ filter (fun entry => negb (Verification.expiresAt (snd entry) <? now))
          rest).
Proof.
  revert kept cleaned.
  induction rest as [|[k v] rest IH]; intros kept cleaned Hnd.
  - cbn. f_equal. lia.
  - cbn [fold_left filter fst snd].
    destruct (Verification.expiresAt v <? now) eqn:E; cbn [negb].
    + rewrite dictDelete_middle by exact Hnd.
      rewrite IH.
      * cbn [List.length]. f_equal. lia.
      * rewrite map_app in *. cbn in Hnd.
        apply NoDup_remove_1 in Hnd. exact Hnd.
    + replace (kept ++ (k, v) :: rest) with ((kept ++ [(k, v)]) ++ rest)
        by (rewrite <- app_assoc; reflexivity).
      rewrite IH.
      * rewrite <- app_assoc. reflexivity.
      * rewrite <- app_assoc. exact Hnd.
Qed.

Lemma dictGet_filter {V : Type} (keep : V -> bool) (k : string) (d : dict V) :
  NoDup (map fst d) ->
  dictGet k (filter (fun entry => keep (snd entry)) d) =
  match dictGet k d with
  | Some v => if keep v then Some v else None
  | None => None
  end.
Proof.
  induction d as [|[k' v'] d IH]; intros Hnd; [reflexivity|].
  cbn in Hnd. inversion Hnd as [|? ? Hnot Hnd']; subst.
  cbn [filter snd dictGet].
  destruct (k' =? k)%string eqn:E.
  - apply String.eqb_eq in E. subst k'.
    destruct (keep v') eqn:Ek.
    + cbn. rewrite String.eqb_refl. reflexivity.
    + rewrite IH by exact Hnd'.
      destruct (dictGet k d) as [v|] eqn:Eg; [|reflexivity].
      exfalso. apply Hnot. clear - Eg.
      induction d as [|[k1 v1] d IHd]; [discriminate|].
      cbn in *. destruct (k1 =? k)%string eqn:E1.
      * apply String.eqb_eq in E1. auto.
      * right. apply IHd, Eg.
  - destruct (keep v'); [cbn; rewrite E|]; apply IH, Hnd'.
Qed.

(** On the documents.  [cleanExpiredVerifications], on a document with distinct keys,
    returns the number of verifications whose expiry lies before the clock,
    removes exactly those and keeps the others in their order; afterwards a
    tenant has a verification exactly when it had an unexpired one, and
    cleaning again at the same instant removes nothing. *)
Theorem cleanExpiredVerifications_effect (now : Z)
  (vs : RobloxVerification.verifications) :
  NoDup (map fst vs) ->
  let cleaned := fst (VerificationManager.cleanExpiredVerifications now vs) in
  let vs' := snd (VerificationManager.cleanExpiredVerifications now vs) in
  cleaned = Z.of_nat (List.length vs) - Z.of_nat (List.length vs')
  /\ 0 <= cleaned
  /\ vs' = filter (fun entry =>
                     negb (Verification.expiresAt (snd entry) <? now)) vs
  /\ (forall serverId,
         RobloxVerification.getVerification serverId vs' =
         match RobloxVerification.getVerification serverId vs with
         | Some v => if Verification.expiresAt v <? now then None else Some v
         | None => None
         end)
  /\ VerificationManager.cleanExpiredVerifications now vs' = (0, vs').
Proof.
  intros Hnd. cbv zeta.
  set (expiredEntry := fun entry : string * Verification.t =>
                         Verification.expiresAt (snd entry) <? now).
  set (kept := filter (fun entry => negb (expiredEntry entry)) vs).
  assert (H : VerificationManager.cleanExpiredVerifications now vs =
              (0 + Z.of_nat (List.length (filter expiredEntry vs)), kept))
    by exact (cleanLoop now [] vs 0 Hnd).
  rewrite H. cbn [fst snd].
  assert (Hlen : List.length vs =
                 (List.length (filter expiredEntry vs) + List.length kept)%nat).
  { unfold kept. clear. induction vs as [|x l IH]; [reflexivity|].
    cbn [filter]. destruct (expiredEntry x); cbn [negb List.length]; lia. }
  assert (Hnd' : NoDup (map fst kept)).
  { unfold kept. clear - Hnd. induction vs as [|[k v] l IH]; [constructor|].
    cbn in Hnd. inversion Hnd as [|? ? Hnot Hl]; subst.
    cbn [filter]. destruct (negb (expiredEntry (k, v))); [|apply IH, Hl].
    cbn. constructor; [|apply IH, Hl].
    intros Hin. apply Hnot. apply in_map_iff in Hin.
    destruct Hin as (x & Hx & Hin). apply filter_In in Hin.
    rewrite <- Hx. apply in_map, Hin. }
  split; [lia|]. split; [lia|]. split; [reflexivity|]. split.
  - intros serverId. unfold RobloxVerification.getVerification.
    pose proof (dictGet_filter
                  (fun v => negb (Verification.expiresAt v <? now)) serverId vs
                  Hnd) as Hget.
    change (dictGet serverId kept =
            match dictGet serverId vs with
            | Some v =>
                if negb (Verification.expiresAt v <? now) then Some v else None
            | None => None
            end) in Hget.
    rewrite Hget.
    destruct (dictGet serverId vs) as [v|]; [|reflexivity].
    destruct (Verification.expiresAt v <? now); reflexivity.
  - assert (H' : VerificationManager.cleanExpiredVerifications now kept =
                 (0 + Z.of_nat (List.length (filter expiredEntry kept)),
                  filter (fun entry => negb (expiredEntry entry)) kept))
      by exact (cleanLoop now [] kept 0 Hnd').
    rewrite H'.
    assert (Hnone : filter expiredEntry kept = []).
    { unfold kept. clear. induction vs as [|x l IH]; [reflexivity|].
      cbn [filter]. destruct (expiredEntry x) eqn:E; cbn [negb]; [exact IH|].
      cbn [filter]. rewrite E. exact IH. }
    assert (Hall : filter (fun entry => negb (expiredEntry entry)) kept = kept).
    { unfold kept. clear. induction vs as [|x l IH]; [reflexivity|].
      cbn [filter]. destruct (expiredEntry x) eqn:E; cbn [negb]; [exact IH|].
      cbn [filter]. rewrite E. cbn [negb]. f_equal. exact IH. }
    rewrite Hnone, Hall. reflexivity.
Qed.



(** ** Codes and what reaches the log *)

Lemma pick_upper (byte : Byte.byte) :
  let n := Ascii.N_of_ascii (EncryptionUtils.upper (EncryptionUtils.pick byte)) in
  ((65 <=? n) && (n <=? 90) || (48 <=? n) && (n <=? 57))%N = true.
Proof. destruct byte; reflexivity. Qed.

Lemma length_append (s1 s2 : string) :
  String.length (s1 ++ s2) = (String.length s1 + String.length s2)%nat.
Proof. induction s1 as [|c s1 IH]; cbn; [reflexivity | rewrite IH; reflexivity]. Qed.

(** X28.  [generateVerificationCode] gives one character for each random
    byte, and each character is an upper case letter or a digit; the code
    that [startVerification] stores is that string after the ten characters
    of its prefix. *)
Theorem generateVerificationCode_alphabet (bytes : list Byte.byte)
  (serverId groupId groupName userId : string) (now : Z) :
  let code := EncryptionUtils.generateVerificationCode bytes in
  String.length code = List.length bytes
  /\ (forall i c,
         String.get i code = Some c ->
         (65 <= Ascii.N_of_ascii c <= 90)%N
         \/ (48 <= Ascii.N_of_ascii c <= 57)%N)
  /\ Verification.code
       (RobloxVerification.newVerification serverId groupId groupName code
          userId now)
     = ("KS_VERIFY_" ++ code)%string
  /\ String.length
       (Verification.code
          (RobloxVerification.newVerification serverId groupId groupName code
             userId now))
     = (10 + List.length bytes)%nat.
Proof.
  cbv zeta. unfold EncryptionUtils.generateVerificationCode.
  assert (Hlen : String.length
                   (EncryptionUtils.toUpperCase
                      (EncryptionUtils.generateRandomString bytes))
                 = List.length bytes).
  { induction bytes as [|byte rest IH]; cbn; [reflexivity|].
    rewrite IH. reflexivity. }
  split; [exact Hlen|]. split.
  - induction bytes as [|byte rest IH]; intros i c Hget; [discriminate|].
    cbn in Hget. destruct i as [|i].
    + injection Hget as <-. pose proof (pick_upper byte) as H. cbv zeta in H.
      apply orb_true_iff in H.
      destruct H as [H|H]; apply andb_true_iff in H; destruct H as [H1 H2];
        apply N.leb_le in H1, H2; [left | right]; split; assumption.
    + apply (IH ltac:(clear; induction rest; cbn; congruence) i c Hget).
  - split; [reflexivity|].
    cbn [RobloxVerification.newVerification Verification.code].
    rewrite length_append, Hlen. reflexivity.
Qed.

Lemma substring_append (n : nat) (s rest : string) :
  (String.length s <= n)%nat ->
  String.substring 0 n (s ++ rest) =
  (s ++ String.substring 0 (n - String.length s) rest)%string.
Proof.
  revert n. induction s as [|c s IH]; intros n Hn.
  - cbn. rewrite Nat.sub_0_r. reflexivity.
  - destruct n as [|n]; cbn in Hn; [lia|].
    cbn. rewrite IH by lia. reflexivity.
Qed.

Lemma substring_within (n : nat) (s rest : string) :
  (n <= String.length s)%nat ->
  String.substring 0 n (s ++ rest) = String.substring 0 n s.
Proof.
  revert n. induction s as [|c s IH]; intros n Hn.
  - cbn in Hn. replace n with O by lia. destruct rest; reflexivity.
  - destruct n as [|n]; [reflexivity|].
    cbn in Hn. cbn. rewrite IH by lia. reflexivity.
Qed.

(** X29.  What [logger.apiKeyUsed] writes of a key made by [generateApiKey].
    For a tenant id of ten characters or more, as the ids of Discord are, the
    preview shows the prefix and the first ten characters of the id, and
    nothing of the random part: two keys of the tenant have the same preview.
    For an id of fewer than nine characters the preview reaches into the
    random part: keys whose random parts start differently have different
    previews. *)
Theorem apiKeyPreview_of_generated (serverId : string) :
  ((10 <= String.length serverId)%nat ->
   forall randomHex,
     EncryptionUtils.apiKeyPreview (generateApiKey serverId randomHex) =
     ("ks_roblox_" ++ String.substring 0 10 serverId ++ "...")%string)
  /\ ((10 <= String.length serverId)%nat ->
      forall random1 random2,
        EncryptionUtils.apiKeyPreview (generateApiKey serverId random1) =
        EncryptionUtils.apiKeyPreview (generateApiKey serverId random2))
  /\ ((String.length serverId < 9)%nat ->
      forall c1 c2 rest1 rest2,
        c1 <> c2 ->
        EncryptionUtils.apiKeyPreview
          (generateApiKey serverId (String c1 rest1)) <>
        EncryptionUtils.apiKeyPreview
          (generateApiKey serverId (String c2 rest2))).
Proof.
  assert (Hshape : forall randomHex,
             EncryptionUtils.apiKeyPreview (generateApiKey serverId randomHex)
             = ("ks_roblox_"
                ++ String.substring 0 10 (serverId ++ "_" ++ randomHex)
                ++ "...")%string)
    by reflexivity.
  assert (Hlong : (10 <= String.length serverId)%nat ->
                  forall randomHex,
                    EncryptionUtils.apiKeyPreview
                      (generateApiKey serverId randomHex) =
                    ("ks_roblox_" ++ String.substring 0 10 serverId ++ "...")%string).
  { intros Hlen randomHex. rewrite Hshape, substring_within by exact Hlen.
    reflexivity. }
  split; [exact Hlong|]. split.
  - intros Hlen random1 random2. rewrite !Hlong by exact Hlen. reflexivity.
  - intros Hlen c1 c2 rest1 rest2 Hne. rewrite !Hshape.
    rewrite (substring_append 10 serverId ("_" ++ String c1 rest1)) by lia.
    rewrite (substring_append 10 serverId ("_" ++ String c2 rest2)) by lia.
    remember (10 - String.length serverId)%nat as n eqn:En.
    destruct n as [|[|n]]; [lia | lia |].
    cbn [String.append String.substring]. intros H.
    injection H as H. clear - H Hne.
    induction serverId as [|c s IH]; cbn in H.
    + injection H as H _. contradiction.
    + injection H as H. apply IH, H.
Qed.

Lemma apiKeyPreview_of_generated_witness :
  EncryptionUtils.apiKeyPreview
    (generateApiKey "123456789012345678" "00112233445566778899aabbccddeeff") =
  "ks_roblox_1234567890...".
Proof.
  apply (proj1 (apiKeyPreview_of_generated "123456789012345678")).
  cbn. lia.
Defined.

(** ** The status that the manager shows *)


(** * The methods on the handler *)

(** ** The handler *)

Lemma waitForLock_spec (fuel : nat) (locked : bool) :
  db.waitForLock fuel locked = negb locked.
Proof.
  induction fuel as [|fuel IH]; simpl; [reflexivity|].
  destruct locked; [exact IH|reflexivity].
Qed.

Lemma modify_waits {D A : Type} (fuel : nat)
  (modifier : D -> outcome (A * D)) (f : db.File D) :
  db.modify (db.waitForLock fuel) fuel modifier f = (Pending, held f).
Proof.
  unfold db.modify, db.acquireLock, db.read, db.readFile, held.
  rewrite waitForLock_spec. destruct f as [d [|] c]; simpl.
  - reflexivity.
  - rewrite waitForLock_spec. reflexivity.
Qed.

Lemma modify_returns {D A : Type} (wait : bool -> bool) (fuel : nat)
  (modifier : D -> outcome (A * D)) (f : db.File D) :
  db.returns wait ->
  db.locked f = false ->
  db.modify wait fuel modifier f =
  match modifier (db.content f) with
  | Ret (a, modified) => (Fulfilled (a, modified), db.fresh modified)
  | Throw msg => (Thrown msg, held f)
  end.
Proof.
  intros Hwait Hfree.
  unfold db.modify, db.acquireLock, db.read, db.readFile, held, db.fresh.
  rewrite waitForLock_spec, Hfree. simpl. rewrite Hwait.
  destruct (modifier (db.content f)) as [[a d]|msg]; reflexivity.
Qed.

Lemma read_idle {D : Type} (fuel : nat) (now : Z) (f : db.File D) :
  db.idle f ->
  exists f',
    db.read (db.waitForLock fuel) true now f = (Fulfilled (db.content f), f')
    /\ db.content f' = db.content f
    /\ db.idle f'.
Proof.
  intros [Hfree Hcache]. unfold db.read, db.readFile.
  rewrite waitForLock_spec, Hfree. simpl.
  destruct (db.cached f) as [c|] eqn:E.
  - destruct (now - db.timestamp c <? 5000).
    + exists f. rewrite Hcache. split; [reflexivity|]. split; [reflexivity|].
      split; [exact Hfree|rewrite E; exact Hcache].
    + eexists. split; [reflexivity|]. split; [reflexivity|].
      split; reflexivity.
  - eexists. split; [reflexivity|]. split; [reflexivity|].
    split; reflexivity.
Qed.

(** ** The methods on the handler and the methods on the documents

    [simulates P m old]: from a state in which no lock is held and the cache
    agrees with the files, and whose queue satisfies [P], the method [m] on
    the handler settles as the method [old] on the documents answers, leaves
    the documents as [old] leaves them, and ends in such a state again. *)

Lemma simulates_ret {A : Type} (P : SyncQueue.queue -> Prop) (a : A) :
  simulates P (Async.ret a) (ret a).
Proof.
  intros r Hi HP. exists r. split; [reflexivity|]. split; [reflexivity|].
  split; assumption.
Qed.

Lemma simulates_throw {A : Type} (P : SyncQueue.queue -> Prop)
  (msg : string) :
  simulates P (Async.throw (A := A) msg) (throw msg).
Proof.
  intros r Hi HP. exists r. split; [reflexivity|]. split; [reflexivity|].
  split; assumption.
Qed.

Lemma simulates_call {A : Type} (P : SyncQueue.queue -> Prop)
  (answer : outcome A) :
  simulates P (Async.call answer) (call answer).
Proof.
  intros r Hi HP. exists r. split; [reflexivity|]. split; [reflexivity|].
  split; assumption.
Qed.

Lemma simulates_callSetUserRank (P : SyncQueue.queue -> Prop)
  (dir : Directory) (groupId userId : string) (role : Z) :
  simulates P (Async.callSetUserRank dir groupId userId role)
    (callSetUserRank dir groupId userId role).
Proof.
  intros r Hi HP. eexists. split; [reflexivity|]. split; [reflexivity|].
  split; [exact Hi | exact HP].
Qed.

Lemma simulates_bind {A B : Type} (P : SyncQueue.queue -> Prop)
  (m : Async A) (old : M A) (f : A -> Async B) (g : A -> M B) :
  simulates P m old ->
  (forall a, simulates P (f a) (g a)) ->
  simulates P (Async.bind m f) (bind old g).
Proof.
  intros Hm Hf r Hi HP.
  destruct (Hm r Hi HP) as (r1 & E & Hd & Hi1 & HP1).
  unfold Async.bind, bind. rewrite E.
  destruct (old (documents r)) as [[a|msg] w1]; simpl in *.
  - destruct (Hf a r1 Hi1 HP1) as (r2 & E2 & Hd2 & Hi2 & HP2).
    rewrite Hd in E2, Hd2. exists r2.
    split; [exact E2|]. split; [exact Hd2|]. split; [exact Hi2 | exact HP2].
  - exists r1. split; [reflexivity|]. split; [exact Hd|].
    split; [exact Hi1 | exact HP1].
Qed.

Lemma simulates_tryCatch {A : Type} (P : SyncQueue.queue -> Prop)
  (m : Async A) (old : M A) (f : string -> Async A) (g : string -> M A) :
  simulates P m old ->
  (forall msg, simulates P (f msg) (g msg)) ->
  simulates P (Async.tryCatch m f) (tryCatch old g).
Proof.
  intros Hm Hf r Hi HP.
  destruct (Hm r Hi HP) as (r1 & E & Hd & Hi1 & HP1).
  unfold Async.tryCatch, tryCatch. rewrite E.
  destruct (old (documents r)) as [[a|msg] w1]; simpl in *.
  - exists r1. split; [reflexivity|]. split; [exact Hd|].
    split; [exact Hi1 | exact HP1].
  - destruct (Hf msg r1 Hi1 HP1) as (r2 & E2 & Hd2 & Hi2 & HP2).
    rewrite Hd in E2, Hd2. exists r2.
    split; [exact E2|]. split; [exact Hd2|]. split; [exact Hi2 | exact HP2].
Qed.

(** A [try] whose block does not throw. *)
Lemma simulates_try {A : Type} (P : SyncQueue.queue -> Prop)
  (m : Async A) (old : M A) (f : string -> Async A) :
  simulates P m old ->
  (forall w, exists a, fst (old w) = Ret a) ->
  simulates P (Async.tryCatch m f) old.
Proof.
  intros Hm Hret r Hi HP.
  destruct (Hm r Hi HP) as (r1 & E & Hd & Hi1 & HP1).
  unfold Async.tryCatch. rewrite E.
  destruct (Hret (documents r)) as (a & Ha). rewrite Ha in *. simpl.
  exists r1. split; [reflexivity|]. split; [exact Hd|].
  split; [exact Hi1 | exact HP1].
Qed.

Lemma simulates_ext {A : Type} (P : SyncQueue.queue -> Prop)
  (m : Async A) (old old' : M A) :
  (forall w, old w = old' w) ->
  simulates P m old ->
  simulates P m old'.
Proof.
  intros E H r Hi HP. rewrite <- E. apply H; assumption.
Qed.

Section Reads.

Variable fuel : nat.
Variable P : SyncQueue.queue -> Prop.

Lemma simulates_read_queue (now : Z) :
  simulates P (Async.read fuel PATHS.SYNC_QUEUE now)
    (fun w => (Ret (sync_queue w), w)).
Proof.
  intros r (Hq & Hl & Hv) HP.
  destruct (read_idle fuel now (Runtime.sync_queue r) Hq)
    as (f' & E & Hc & Hi').
  unfold Async.read. simpl PATHS.get. rewrite E.
  eexists. split; [reflexivity|].
  destruct r; unfold documents, idle; simpl in *. rewrite Hc.
  repeat split; try assumption; try apply Hi'; try apply Hl; try apply Hv.
Qed.

Lemma simulates_read_links (now : Z) :
  simulates P (Async.read fuel PATHS.LINKS now)
    (fun w => (Ret (roblox_links w), w)).
Proof.
  intros r (Hq & Hl & Hv) HP.
  destruct (read_idle fuel now (Runtime.roblox_links r) Hl)
    as (f' & E & Hc & Hi').
  unfold Async.read. simpl PATHS.get. rewrite E.
  eexists. split; [reflexivity|].
  destruct r; unfold documents, idle; simpl in *. rewrite Hc.
  repeat split; try assumption; try apply Hi'; try apply Hq; try apply Hv.
Qed.

Lemma simulates_read_verifications (now : Z) :
  simulates P (Async.read fuel PATHS.VERIFICATIONS now)
    (fun w => (Ret (roblox_verifications w), w)).
Proof.
  intros r (Hq & Hl & Hv) HP.
  destruct (read_idle fuel now (Runtime.roblox_verifications r) Hv)
    as (f' & E & Hc & Hi').
  unfold Async.read. simpl PATHS.get. rewrite E.
  eexists. split; [reflexivity|].
  destruct r; unfold documents, idle; simpl in *. rewrite Hc.
  repeat split; try assumption; try apply Hi'; try apply Hq; try apply Hl.
Qed.

End Reads.

Lemma modify_run {D A : Type} (wait : bool -> bool) (fuel : nat)
  (p : PATHS.t D) (modifier : D -> outcome (A * D)) (r : Runtime.t) :
  db.returns wait ->
  db.locked (PATHS.get p r) = false ->
  Async.modify wait fuel p modifier r =
  match modifier (db.content (PATHS.get p r)) with
  | Ret (a, modified) =>
      (Fulfilled (a, modified), PATHS.put p (db.fresh modified) r)
  | Throw msg => (Thrown msg, PATHS.put p (held (PATHS.get p r)) r)
  end.
Proof.
  intros Hwait Hfree. unfold Async.modify.
  rewrite (modify_returns wait fuel modifier _ Hwait Hfree).
  destruct (modifier (db.content (PATHS.get p r))) as [[a d]|msg];
    reflexivity.
Qed.

Lemma modify_stuck {D A : Type} (fuel : nat) (p : PATHS.t D)
  (modifier : D -> outcome (A * D)) (r : Runtime.t) :
  Async.modify (db.waitForLock fuel) fuel p modifier r =
  (Pending, PATHS.put p (held (PATHS.get p r)) r).
Proof. unfold Async.modify. rewrite modify_waits. reflexivity. Qed.

Section Writes.

Variable wait : bool -> bool.
Variable fuel : nat.
Hypothesis wait_returns : db.returns wait.
Variable P : SyncQueue.queue -> Prop.

(** A modifier of the queue that does not throw on a queue with [P]. *)
Lemma simulates_modify_queue {A : Type}
  (modifier : SyncQueue.queue -> outcome (A * SyncQueue.queue)) :
  (forall q, P q -> exists a q', modifier q = Ret (a, q') /\ P q') ->
  simulates P
    (Async.bind (Async.modify wait fuel PATHS.SYNC_QUEUE modifier)
       (fun written => Async.ret (fst written)))
    (onQueue modifier).
Proof.
  intros Hm r Hi HP. destruct (Hm _ HP) as (a & q' & E & HP').
  unfold Async.bind. rewrite modify_run; [|exact wait_returns|apply Hi].
  unfold onQueue. simpl in E |- *. rewrite E. simpl.
  eexists. split; [reflexivity|].
  destruct r, Hi as (Hq & Hl & Hv); unfold documents, idle; simpl in *.
  split; [reflexivity|]. split; [|exact HP'].
  split; [split; reflexivity|]. split; assumption.
Qed.

End Writes.

(** ** Roblox/database/sync_queue.js on the handler *)

Lemma present_getJob (ids : list string) (q : SyncQueue.queue)
  (jobId : string) :
  present ids q -> In jobId ids ->
  exists job, SyncQueue.getJob jobId q = Some job.
Proof.
  intros Hp Hin. specialize (Hp jobId Hin).
  apply in_map_iff in Hp. destruct Hp as (j & Hid & Hj).
  unfold SyncQueue.getJob.
  destruct (find (SyncQueue.hasId jobId) q) as [job|] eqn:E; [eauto|].
  exfalso. pose proof (find_none _ _ E j Hj) as Hn.
  apply hasId_true in Hid. congruence.
Qed.

Lemma updateJob_ids (jobId : string) (u : JobUpdates.t) (now : Z)
  (q q' : SyncQueue.queue) (a : Job.t) :
  SyncQueue.updateJob jobId u now q = Ret (a, q') ->
  map Job.id q' = map Job.id q.
Proof.
  intros E. pose proof (updateJob_spec jobId u now q) as S.
  destruct (SyncQueue.getJob jobId q) as [old|]; [|congruence].
  destruct S as (l1 & l2 & Hq & _ & _ & Hupd).
  rewrite Hupd in E. injection E as _ <-. subst q.
  rewrite !map_app. reflexivity.
Qed.

Lemma updateJob_present (ids : list string) (jobId : string)
  (u : JobUpdates.t) (now : Z) (q q' : SyncQueue.queue) (a : Job.t) :
  present ids q ->
  SyncQueue.updateJob jobId u now q = Ret (a, q') ->
  present ids q'.
Proof.
  intros Hp E. unfold present. rewrite (updateJob_ids _ _ _ _ _ _ E).
  exact Hp.
Qed.

Section SyncQueueOnHandler.

Variable wait : bool -> bool.
Variable fuel : nat.
Hypothesis wait_returns : db.returns wait.

Lemma simulates_getAllJobs (P : SyncQueue.queue -> Prop) (now : Z) :
  simulates P (syncQueue.getAllJobs fuel now)
    (fun w => (Ret (sync_queue w), w)).
Proof.
  apply simulates_try; [apply simulates_read_queue|].
  intros w. eexists. reflexivity.
Qed.

Lemma simulates_getJob (P : SyncQueue.queue -> Prop) (jobId : string)
  (now : Z) :
  simulates P (syncQueue.getJob fuel jobId now)
    (fun w => (Ret (SyncQueue.getJob jobId (sync_queue w)), w)).
Proof.
  apply simulates_try; [|intros w; eexists; reflexivity].
  apply (simulates_ext P _
           (bind (fun w => (Ret (sync_queue w), w))
              (fun queue => ret (find (SyncQueue.hasId jobId) queue))));
    [reflexivity|].
  apply simulates_bind; [apply simulates_getAllJobs|].
  intros queue. apply simulates_ret.
Qed.

Lemma simulates_getPendingJobs (P : SyncQueue.queue -> Prop) (limit now : Z) :
  simulates P (syncQueue.getPendingJobs fuel limit now)
    (fun w => (Ret (SyncQueue.getPendingJobs limit now (sync_queue w)), w)).
Proof.
  apply simulates_try; [|intros w; eexists; reflexivity].
  apply (simulates_ext P _
           (bind (fun w => (Ret (sync_queue w), w))
              (fun queue =>
                 ret (SyncQueue.getPendingJobs limit now queue))));
    [reflexivity|].
  apply simulates_bind; [apply simulates_getAllJobs|].
  intros queue. apply simulates_ret.
Qed.

Lemma simulates_hasPendingSync (P : SyncQueue.queue -> Prop)
  (serverId robloxUserId : string) (now : Z) :
  simulates P (syncQueue.hasPendingSync fuel serverId robloxUserId now)
    (fun w =>
       (Ret (SyncQueue.hasPendingSync serverId robloxUserId (sync_queue w)),
        w)).
Proof.
  apply simulates_try; [|intros w; eexists; reflexivity].
  apply (simulates_ext P _
           (bind (fun w =>
                    (Ret (SyncQueue.getUserJobs serverId robloxUserId
                            (sync_queue w)), w))
              (fun jobs =>
                 ret (existsb (fun j => SyncQueue.nonTerminal (Job.status j))
                        jobs))));
    [reflexivity|].
  apply simulates_bind; [|intros jobs; apply simulates_ret].
  apply simulates_try; [|intros w; eexists; reflexivity].
  apply simulates_try; [|intros w; eexists; reflexivity].
  apply (simulates_ext P _
           (bind (fun w => (Ret (sync_queue w), w))
              (fun queue =>
                 ret (SyncQueue.getServerJobs serverId (Some robloxUserId)
                        queue))));
    [reflexivity|].
  apply simulates_bind; [apply simulates_getAllJobs|].
  intros queue. apply simulates_ret.
Qed.

Lemma simulates_updateJob (ids : list string) (jobId : string)
  (u : JobUpdates.t) (now : Z) :
  In jobId ids ->
  simulates (present ids) (syncQueue.updateJob wait fuel jobId u now)
    (onQueue (SyncQueue.updateJob jobId u now)).
Proof.
  intros Hin. apply simulates_modify_queue; [exact wait_returns|].
  intros q Hp. destruct (present_getJob ids q jobId Hp Hin) as (old & Hold).
  destruct (updateJob_replaced jobId u now q old Hold) as (q' & E & _).
  eexists. exists q'. split; [exact E|].
  eapply updateJob_present; eassumption.
Qed.

Lemma simulates_markInProgress (ids : list string) (jobId : string)
  (now : Z) :
  In jobId ids ->
  simulates (present ids) (syncQueue.markInProgress wait fuel jobId now)
    (onQueue (SyncQueue.markInProgress jobId now)).
Proof. intros Hin. apply simulates_updateJob. exact Hin. Qed.

Lemma simulates_markCompleted (ids : list string) (jobId : string)
  (now : Z) :
  In jobId ids ->
  simulates (present ids) (syncQueue.markCompleted wait fuel jobId now)
    (onQueue (SyncQueue.markCompleted jobId now)).
Proof. intros Hin. apply simulates_updateJob. exact Hin. Qed.

End SyncQueueOnHandler.

Section MoreSyncQueue.

Variable wait : bool -> bool.
Variable fuel : nat.
Hypothesis wait_returns : db.returns wait.

Lemma mutate_queue_view (change : SyncQueue.queue -> SyncQueue.queue)
  (r : Runtime.t) :
  let r' := PATHS.put PATHS.SYNC_QUEUE
              (db.mutate change (PATHS.get PATHS.SYNC_QUEUE r)) r in
  db.locked (PATHS.get PATHS.SYNC_QUEUE r')
  = db.locked (Runtime.sync_queue r)
  /\ db.content (PATHS.get PATHS.SYNC_QUEUE r')
     = db.content (Runtime.sync_queue r)
  /\ forall f, PATHS.put PATHS.SYNC_QUEUE f r' = PATHS.put PATHS.SYNC_QUEUE f r.
Proof. destruct r; simpl. repeat split. Qed.

Lemma put_queue_documents (q : SyncQueue.queue) (r : Runtime.t) :
  documents (PATHS.put PATHS.SYNC_QUEUE (db.fresh q) r)
  = setQueue q (documents r).
Proof. reflexivity. Qed.

Lemma put_queue_idle (q : SyncQueue.queue) (r : Runtime.t) :
  idle r -> idle (PATHS.put PATHS.SYNC_QUEUE (db.fresh q) r).
Proof.
  intros (Hq & Hl & Hv). split; [split; reflexivity|]. split; assumption.
Qed.

Lemma simulates_markFailed (ids : list string) (jobId message : string)
  (retry : bool) (now : Z) :
  simulates (present ids)
    (syncQueue.markFailed wait fuel jobId message retry now)
    (onQueue (SyncQueue.markFailed jobId message retry now)).
Proof.
  intros r Hi HP.
  destruct (simulates_getJob fuel (present ids) jobId now r Hi HP)
    as (r1 & E & Hd & Hi1 & HP1).
  unfold syncQueue.markFailed, Async.bind. rewrite E. cbn [fst settled].
  cbn [fst snd] in Hd. rewrite <- Hd. clear E HP Hi Hd.
  unfold onQueue, SyncQueue.markFailed.
  change (sync_queue (documents r1)) with (db.content (Runtime.sync_queue r1))
    in *.
  destruct (SyncQueue.getJob jobId (db.content (Runtime.sync_queue r1)))
    as [old|] eqn:G.
  - unfold Async.mutate.
    destruct (mutate_queue_view
                (changeFirst (SyncQueue.hasId jobId)
                   (syncQueue.recordFailure message now)) r1)
      as (Hl & Hc & Hput).
    cbv zeta in Hl, Hc, Hput.
    cbn [syncQueue.recordFailure Job.attempts Job.maxAttempts Job.errors
         Job.lastError].
    destruct (retry && (Job.attempts old + 1 <? Job.maxAttempts old)).
    + unfold syncQueue.updateJob, Async.bind.
      rewrite modify_run; [|exact wait_returns|rewrite Hl; apply Hi1].
      rewrite Hc, Hput.
      match goal with
      | |- context [SyncQueue.updateJob jobId ?u now _] =>
          destruct (updateJob_replaced jobId u now _ old G) as (q' & U & _)
      end.
      rewrite U. cbn [fst snd settled]. rewrite ?Hput.
      eexists. split; [reflexivity|]. split; [reflexivity|].
      split; [apply put_queue_idle; exact Hi1|].
      eapply updateJob_present; [exact HP1 | exact U].
    + unfold syncQueue.updateJob, Async.bind.
      rewrite modify_run; [|exact wait_returns|rewrite Hl; apply Hi1].
      rewrite Hc, Hput.
      match goal with
      | |- context [SyncQueue.updateJob jobId ?u now _] =>
          destruct (updateJob_replaced jobId u now _ old G) as (q' & U & _)
      end.
      rewrite U. cbn [fst snd settled]. rewrite ?Hput.
      eexists. split; [reflexivity|]. split; [reflexivity|].
      split; [apply put_queue_idle; exact Hi1|].
      eapply updateJob_present; [exact HP1 | exact U].
  - exists r1. split; [reflexivity|]. split; [reflexivity|].
    split; [exact Hi1 | exact HP1].
Qed.

End MoreSyncQueue.

Section QueueWrites.

Variable wait : bool -> bool.
Variable fuel : nat.
Hypothesis wait_returns : db.returns wait.

Lemma present_nil (q : SyncQueue.queue) : present [] q.
Proof. intros x []. Qed.

Lemma simulates_addJob (ids : list string) (jobData : JobData.t)
  (newId : string) (now : Z) :
  simulates (present ids) (syncQueue.addJob wait fuel jobData newId now)
    (fun w =>
       let '(job, q') := SyncQueue.addJob jobData newId now (sync_queue w) in
       (Ret job, setQueue q' w)).
Proof.
  intros r Hi HP. unfold syncQueue.addJob, Async.bind.
  rewrite modify_run; [|exact wait_returns|apply Hi].
  eexists. split; [reflexivity|]. split; [reflexivity|].
  split; [apply put_queue_idle; exact Hi|].
  intros x Hx. specialize (HP x Hx). cbn. rewrite map_app.
  apply in_or_app. left. exact HP.
Qed.

Lemma simulates_retryFailedJobs (serverId : option string) (now : Z) :
  simulates (present [])
    (syncQueue.retryFailedJobs wait fuel serverId now)
    (fun w =>
       let '(n, q') := SyncQueue.retryFailedJobs serverId now (sync_queue w) in
       (Ret n, setQueue q' w)).
Proof.
  intros r Hi HP. unfold syncQueue.retryFailedJobs, Async.tryCatch, Async.bind.
  rewrite modify_run; [|exact wait_returns|apply Hi].
  eexists. split; [reflexivity|]. split; [reflexivity|].
  split; [apply put_queue_idle; exact Hi|apply present_nil].
Qed.

Lemma simulates_cancelUserJobs (serverId robloxUserId : string) :
  simulates (present [])
    (syncQueue.cancelUserJobs wait fuel serverId robloxUserId)
    (fun w =>
       let '(n, q') :=
         SyncQueue.cancelUserJobs serverId robloxUserId (sync_queue w) in
       (Ret n, setQueue q' w)).
Proof.
  intros r Hi HP. unfold syncQueue.cancelUserJobs, Async.tryCatch, Async.bind.
  rewrite modify_run; [|exact wait_returns|apply Hi].
  eexists. split; [reflexivity|]. split; [reflexivity|].
  split; [apply put_queue_idle; exact Hi|apply present_nil].
Qed.

Lemma simulates_cleanCompletedJobs (hoursOld now : Z) :
  simulates (present [])
    (syncQueue.cleanCompletedJobs wait fuel hoursOld now)
    (fun w =>
       let '(n, q') :=
         SyncQueue.cleanCompletedJobs hoursOld now (sync_queue w) in
       (Ret n, setQueue q' w)).
Proof.
  intros r Hi HP.
  unfold syncQueue.cleanCompletedJobs, Async.tryCatch, Async.bind.
  rewrite modify_run; [|exact wait_returns|apply Hi].
  eexists. split; [reflexivity|]. split; [reflexivity|].
  split; [apply put_queue_idle; exact Hi|apply present_nil].
Qed.

End QueueWrites.

(** ** Roblox/database/roblox_links.js on the handler *)

Lemma put_links_idle (ls : dict Link.t) (r : Runtime.t) :
  idle r -> idle (PATHS.put PATHS.LINKS (db.fresh ls) r).
Proof.
  intros (Hq & Hl & Hv). split; [assumption|]. split; [split; reflexivity|].
  assumption.
Qed.

Lemma mutate_links_view (change : dict Link.t -> dict Link.t)
  (r : Runtime.t) :
  let r' := PATHS.put PATHS.LINKS
              (db.mutate change (PATHS.get PATHS.LINKS r)) r in
  db.locked (PATHS.get PATHS.LINKS r') = db.locked (Runtime.roblox_links r)
  /\ db.content (PATHS.get PATHS.LINKS r')
     = db.content (Runtime.roblox_links r)
  /\ forall f, PATHS.put PATHS.LINKS f r' = PATHS.put PATHS.LINKS f r.
Proof. destruct r; simpl. repeat split. Qed.

Section LinksOnHandler.

Variable hashApiKey : string -> string.
Variable wait : bool -> bool.
Variable fuel : nat.
Hypothesis wait_returns : db.returns wait.
Variable P : SyncQueue.queue -> Prop.

Lemma simulates_getAllLinks (now : Z) :
  simulates P (robloxLinks.getAllLinks fuel now)
    (fun w => (Ret (roblox_links w), w)).
Proof.
  apply simulates_try; [apply simulates_read_links|].
  intros w. eexists. reflexivity.
Qed.

Lemma simulates_getLink (serverId : string) (now : Z) :
  simulates P (robloxLinks.getLink fuel serverId now)
    (fun w => (Ret (getLink serverId (roblox_links w)), w)).
Proof.
  apply simulates_try; [|intros w; eexists; reflexivity].
  apply (simulates_ext P _
           (bind (fun w => (Ret (roblox_links w), w))
              (fun links => ret (dictGet serverId links))));
    [reflexivity|].
  apply simulates_bind; [apply simulates_getAllLinks|].
  intros links. apply simulates_ret.
Qed.

(** [updateLink] on a link that the document holds. *)
Lemma updateLink_run (serverId : string) (u : LinkUpdates.t) (now : Z)
  (r : Runtime.t) (old : Link.t) :
  db.locked (PATHS.get PATHS.LINKS r) = false ->
  dictGet serverId (db.content (PATHS.get PATHS.LINKS r)) = Some old ->
  robloxLinks.updateLink wait fuel serverId u now r =
  (Fulfilled (applyLinkUpdates old u now),
   PATHS.put PATHS.LINKS
     (db.fresh (dictSet serverId (applyLinkUpdates old u now)
                  (db.content (PATHS.get PATHS.LINKS r)))) r).
Proof.
  intros Hfree Hold. unfold robloxLinks.updateLink, Async.bind.
  rewrite modify_run; [|exact wait_returns|exact Hfree].
  unfold updateLink. rewrite Hold. reflexivity.
Qed.

Lemma simulates_links_change (serverId : string) (now : Z)
  (analytics : LinkAnalytics -> LinkAnalytics)
  (m : Async Link.t) (old : dict Link.t -> outcome (Link.t * dict Link.t)) :
  (forall r,
      m r =
      Async.bind (robloxLinks.getLink fuel serverId now)
        (fun found =>
           match found with
           | None => Async.throw "Roblox link not found"
           | Some link =>
               Async.bind
                 (Async.mutate PATHS.LINKS
                    (dictChange serverId
                       (withAnalytics (analytics (Link.analytics link)))))
                 (fun _ =>
                    robloxLinks.updateLink wait fuel serverId
                      (analyticsUpdate (analytics (Link.analytics link)))
                      now)
           end) r) ->
  (forall ls,
      old ls =
      match getLink serverId ls with
      | None => Throw "Roblox link not found"
      | Some link =>
          updateLink serverId
            (analyticsUpdate (analytics (Link.analytics link))) now ls
      end) ->
  simulates P m (onLinks old).
Proof.
  intros Hm Hold r Hi HP. rewrite Hm.
  destruct (simulates_getLink serverId now r Hi HP)
    as (r1 & E & Hd & Hi1 & HP1).
  unfold Async.bind. rewrite E. cbn [fst settled].
  cbn [fst snd] in Hd. rewrite <- Hd. clear E HP Hi Hd Hm.
  unfold onLinks. rewrite Hold. unfold getLink.
  change (roblox_links (documents r1))
    with (db.content (Runtime.roblox_links r1)) in *.
  destruct (dictGet serverId (db.content (Runtime.roblox_links r1)))
    as [link|] eqn:G.
  - unfold Async.mutate.
    destruct (mutate_links_view
                (dictChange serverId
                   (withAnalytics (analytics (Link.analytics link)))) r1)
      as (Hl & Hc & Hput).
    cbv zeta in Hl, Hc, Hput.
    rewrite (updateLink_run serverId _ now _ link);
      [|rewrite Hl; apply Hi1|rewrite Hc; exact G].
    unfold updateLink. rewrite G. cbn [fst snd settled].
    rewrite Hput, Hc.
    eexists. split; [reflexivity|]. split; [reflexivity|].
    split; [apply put_links_idle; exact Hi1 | exact HP1].
  - exists r1. split; [reflexivity|]. split; [reflexivity|].
    split; [exact Hi1 | exact HP1].
Qed.

Lemma simulates_updateLastSync (serverId : string) (ok : bool) (now : Z) :
  simulates P (robloxLinks.updateLastSync wait fuel serverId ok now)
    (onLinks (updateLastSync serverId ok now)).
Proof.
  apply (simulates_links_change serverId now (lastSyncAnalytics ok now)).
  - intros r. reflexivity.
  - intros ls. reflexivity.
Qed.

Lemma simulates_incrementAnalytics (serverId : string)
  (counter : AnalyticsCounter) (amount now : Z) :
  simulates P
    (robloxLinks.incrementAnalytics wait fuel serverId counter amount now)
    (onLinks (incrementAnalytics serverId counter amount now)).
Proof.
  apply (simulates_links_change serverId now
           (incrementedAnalytics counter amount)).
  - intros r. reflexivity.
  - intros ls. unfold incrementAnalytics.
    destruct (getLink serverId ls); [|reflexivity].
    destruct counter; reflexivity.
Qed.

End LinksOnHandler.

(** ** Roblox/utils/role_sync.js on the handler *)

Section WorkerOnHandler.

Variable wait : bool -> bool.
Variable fuel : nat.
Hypothesis wait_returns : db.returns wait.

Lemma simulates_processJob (ids : list string) (dir : Directory) (now : Z)
  (job : Job.t) :
  In (Job.id job) ids ->
  simulates (present ids) (roleSync.processJob wait fuel dir now job)
    (RoleSync.processJob dir now job).
Proof.
  intros Hin. unfold roleSync.processJob, RoleSync.processJob.
  apply simulates_tryCatch.
  - unfold roleSync.processJobBody, RoleSync.processJobBody.
    apply simulates_bind;
      [apply simulates_markInProgress; assumption|intros _].
    apply simulates_bind; [apply simulates_getLink|intros [link|]];
      [|apply simulates_throw].
    destruct (negb (Link.verified link)); [apply simulates_throw|].
    apply simulates_bind; [apply simulates_call|intros roles].
    destruct (RoleSync.findRole (Job.newRank job) roles) as [targetRole|];
      [|apply simulates_throw].
    apply simulates_bind; [apply simulates_call|intros [userRole|]];
      [|apply simulates_throw].
    destruct (rank userRole =? Job.newRank job).
    + apply simulates_bind;
        [apply simulates_markCompleted; assumption|intros _].
      apply simulates_bind;
        [apply simulates_updateLastSync; assumption|intros _].
      apply simulates_ret.
    + apply simulates_bind; [apply simulates_callSetUserRank|intros _].
      apply simulates_bind;
        [apply simulates_markCompleted; assumption|intros _].
      apply simulates_bind;
        [apply simulates_updateLastSync; assumption|intros _].
      apply simulates_bind;
        [apply simulates_incrementAnalytics; assumption|intros _].
      apply simulates_ret.
  - intros message. unfold roleSync.processJobCatch, RoleSync.processJobCatch.
    apply simulates_bind;
      [apply simulates_markFailed; assumption|intros _].
    apply simulates_bind;
      [apply simulates_updateLastSync; assumption|intros _].
    apply simulates_ret.
Qed.

Lemma simulates_processAll (ids : list string)
  (observe : string -> Observation) (jobs : list Job.t) :
  incl (map Job.id jobs) ids ->
  forall succeeded failed r,
    idle r ->
    present ids (sync_queue (documents r)) ->
    exists r',
      roleSync.processAll wait fuel observe jobs succeeded failed r =
      (Some (fst (RoleSync.processAll observe jobs succeeded failed
                    (documents r))), r')
      /\ documents r' =
         snd (RoleSync.processAll observe jobs succeeded failed (documents r))
      /\ idle r'.
Proof.
  induction jobs as [|job jobs IH]; intros Hincl succeeded failed r Hi HP.
  - exists r. split; [reflexivity|]. split; [reflexivity|exact Hi].
  - assert (Hin : In (Job.id job) ids) by (apply Hincl; left; reflexivity).
    assert (Hrest : incl (map Job.id jobs) ids)
      by (intros x Hx; apply Hincl; right; exact Hx).
    destruct (simulates_processJob ids
                (observedDirectory (observe (Job.id job)))
                (observedNow (observe (Job.id job))) job Hin r Hi HP)
      as (r1 & E & Hd & Hi1 & HP1).
    cbn [roleSync.processAll RoleSync.processAll]. rewrite E.
    destruct (RoleSync.processJob (observedDirectory (observe (Job.id job)))
                (observedNow (observe (Job.id job))) job (documents r))
      as [[result|msg] w1]; cbn [fst snd settled] in Hd |- *; subst w1.
    + destruct (success result); apply IH; assumption.
    + apply IH; assumption.
Qed.

Lemma getPendingJobs_ids (limit now : Z) (q : SyncQueue.queue) :
  incl (map Job.id (SyncQueue.getPendingJobs limit now q)) (map Job.id q).
Proof.
  intros x Hx. apply in_map_iff in Hx. destruct Hx as (j & <- & Hj).
  apply in_map. unfold SyncQueue.getPendingJobs in Hj.
  match type of Hj with
  | In j (slice0 ?sorted limit) =>
      destruct (slice0_split sorted limit) as [dropped Hsplit];
      assert (Hin : In j sorted)
        by (rewrite Hsplit; apply in_or_app; left; exact Hj)
  end.
  apply sortBy_In in Hin. apply filter_In in Hin. apply Hin.
Qed.

Lemma simulates_processPendingJobs (batchSize now : Z)
  (observe : string -> Observation) (r : Runtime.t) :
  idle r ->
  exists r',
    roleSync.processPendingJobs wait fuel batchSize now observe r =
    (Fulfilled (fst (RoleSync.processPendingJobs batchSize now observe
                       (documents r))), r')
    /\ documents r' =
       snd (RoleSync.processPendingJobs batchSize now observe (documents r))
    /\ idle r'.
Proof.
  intros Hi.
  unfold roleSync.processPendingJobs, RoleSync.processPendingJobs.
  change (processing (documents r)) with (Runtime.processing r).
  destruct (Runtime.processing r) eqn:Hp.
  - exists r. split; [reflexivity|]. split; [reflexivity|exact Hi].
  - assert (Hi0 : idle (Runtime.setProcessing true r)) by exact Hi.
    destruct (simulates_getPendingJobs fuel (present []) batchSize now
                (Runtime.setProcessing true r) Hi0 (present_nil _))
      as (r1 & E & Hd & Hi1 & _).
    rewrite E. cbn [fst snd settled] in Hd |- *.
    change (sync_queue (documents (Runtime.setProcessing true r)))
      with (sync_queue (setProcessing true (documents r))).
    destruct (SyncQueue.getPendingJobs batchSize now
                (sync_queue (setProcessing true (documents r))))
      as [|job jobs] eqn:Hjobs.
    + eexists. split; [reflexivity|].
      split; [|exact Hi1].
      change (documents (Runtime.setProcessing false r1))
        with (setProcessing false (documents r1)).
      rewrite Hd. reflexivity.
    + assert (HP : present (map Job.id (job :: jobs))
                     (sync_queue (documents r1))).
      { rewrite Hd, <- Hjobs. apply getPendingJobs_ids. }
      destruct (simulates_processAll (map Job.id (job :: jobs)) observe
                  (job :: jobs) (incl_refl _) 0 0 r1 Hi1 HP)
        as (r2 & E2 & Hd2 & Hi2).
      rewrite E2. rewrite Hd in E2, Hd2 |- *.
      change (documents (Runtime.setProcessing true r))
        with (setProcessing true (documents r)) in *.
      destruct (RoleSync.processAll observe (job :: jobs) 0 0
                  (setProcessing true (documents r)))
        as [[succeeded failed] w2].
      eexists. split; [reflexivity|]. split; [|exact Hi2].
      change (documents (Runtime.setProcessing false r2))
        with (setProcessing false (documents r2)).
      cbn [snd] in Hd2. rewrite Hd2. reflexivity.
Qed.

Lemma simulates_admission (syncData : SyncData.t) (now : Z) (r : Runtime.t) :
  idle r ->
  exists r' accepted,
    roleSync.admission fuel syncData now r = (Fulfilled accepted, r')
    /\ documents r' = documents r
    /\ idle r'
    /\ forall newId,
        match accepted with
        | Refused answer =>
            RoleSync.queueSync syncData newId now (documents r)
            = (answer, documents r)
        | Accepted jobData =>
            RoleSync.queueSync syncData newId now (documents r)
            = (mkQueueSyncResult true (Some newId)
                 "Role sync queued successfully",
               setQueue
                 (snd (SyncQueue.addJob jobData newId now
                         (sync_queue (documents r)))) (documents r))
        end.
Proof.
  intros Hi. unfold roleSync.admission, Async.bind.
  destruct (simulates_getLink fuel (present []) (SyncData.serverId syncData)
              now r Hi (present_nil _)) as (r1 & E & Hd & Hi1 & _).
  rewrite E. cbn [fst snd settled] in Hd |- *.
  unfold RoleSync.queueSync.
  destruct (getLink (SyncData.serverId syncData) (roblox_links (documents r)))
    as [link|].
  - destruct (negb (Link.verified link)).
    + exists r1. eexists. split; [reflexivity|]. split; [exact Hd|].
      split; [exact Hi1|]. intros newId. reflexivity.
    + destruct (simulates_hasPendingSync fuel (present [])
                  (SyncData.serverId syncData)
                  (SyncData.robloxUserId syncData) now r1 Hi1 (present_nil _))
        as (r2 & E2 & Hd2 & Hi2 & _).
      rewrite E2. cbn [fst snd settled] in Hd2 |- *. rewrite Hd in *.
      destruct (SyncQueue.hasPendingSync (SyncData.serverId syncData)
                  (SyncData.robloxUserId syncData) (sync_queue (documents r))).
      * exists r2. eexists. split; [reflexivity|]. split; [exact Hd2|].
        split; [exact Hi2|]. intros newId. reflexivity.
      * exists r2. eexists. split; [reflexivity|]. split; [exact Hd2|].
        split; [exact Hi2|]. intros newId. reflexivity.
  - exists r1. eexists. split; [reflexivity|]. split; [exact Hd|].
    split; [exact Hi1|]. intros newId. reflexivity.
Qed.

Lemma simulates_enqueue (jobData : JobData.t) (newId : string) (now : Z)
  (r : Runtime.t) :
  idle r ->
  exists r',
    roleSync.enqueue wait fuel (Accepted jobData) newId now r =
    (Fulfilled
       (mkQueueSyncResult true (Some newId) "Role sync queued successfully"),
     r')
    /\ documents r' =
       setQueue
         (snd (SyncQueue.addJob jobData newId now (sync_queue (documents r))))
         (documents r)
    /\ idle r'.
Proof.
  intros Hi. unfold roleSync.enqueue, Async.bind.
  destruct (simulates_addJob wait fuel wait_returns [] jobData newId now r Hi
              (present_nil _)) as (r1 & E & Hd & Hi1 & _).
  rewrite E. cbn [fst snd settled SyncQueue.addJob] in Hd |- *.
  exists r1. split; [reflexivity|]. split; [exact Hd | exact Hi1].
Qed.

Lemma simulates_queueSync (syncData : SyncData.t) (newId : string) (now : Z)
  (r : Runtime.t) :
  idle r ->
  exists r',
    roleSync.queueSync wait fuel syncData newId now r =
    (Fulfilled (fst (RoleSync.queueSync syncData newId now (documents r))),
     r')
    /\ documents r' = snd (RoleSync.queueSync syncData newId now (documents r))
    /\ idle r'.
Proof.
  intros Hi. unfold roleSync.queueSync, Async.tryCatch, Async.bind.
  destruct (simulates_admission syncData now r Hi)
    as (r1 & accepted & E & Hd & Hi1 & Hold).
  rewrite E. specialize (Hold newId). destruct accepted as [answer|jobData].
  - rewrite Hold. exists r1. split; [reflexivity|].
    split; [exact Hd | exact Hi1].
  - destruct (simulates_enqueue jobData newId now r1 Hi1)
      as (r2 & E2 & Hd2 & Hi2).
    rewrite E2, Hold. exists r2. split; [reflexivity|].
    split; [rewrite Hd2, Hd; reflexivity | exact Hi2].
Qed.

(** The operations of the program, one after another. *)
Lemma simulates_run (op : System.Operation) (r : Runtime.t) :
  idle r ->
  documents (Program.run wait fuel op r) = System.run op (documents r)
  /\ idle (Program.run wait fuel op r).
Proof.
  intros Hi. destruct op as [syncData newId now|now observe|serverId
                             robloxUserId|hoursOld now|serverId now|ls];
    cbn [Program.run System.run].
  - destruct (simulates_queueSync syncData newId now r Hi)
      as (r' & E & Hd & Hi').
    rewrite E. split; [exact Hd | exact Hi'].
  - destruct (simulates_processPendingJobs 5 now observe r Hi)
      as (r' & E & Hd & Hi').
    rewrite E. split; [exact Hd | exact Hi'].
  - destruct (simulates_cancelUserJobs wait fuel wait_returns serverId
                robloxUserId r Hi (present_nil _)) as (r' & E & Hd & Hi' & _).
    unfold roleSync.cancelSync, RoleSync.cancelSync. rewrite E.
    cbn [snd] in Hd |- *. split; [|exact Hi']. rewrite Hd.
    destruct (SyncQueue.cancelUserJobs serverId robloxUserId
                (sync_queue (documents r))); reflexivity.
  - destruct (simulates_cleanCompletedJobs wait fuel wait_returns hoursOld now
                r Hi (present_nil _)) as (r' & E & Hd & Hi' & _).
    unfold roleSync.cleanCompletedJobs, RoleSync.cleanCompletedJobs.
    rewrite E. cbn [snd] in Hd |- *. split; [|exact Hi']. rewrite Hd.
    destruct (SyncQueue.cleanCompletedJobs hoursOld now
                (sync_queue (documents r))); reflexivity.
  - destruct (simulates_retryFailedJobs wait fuel wait_returns serverId now
                r Hi (present_nil _)) as (r' & E & Hd & Hi' & _).
    unfold roleSync.retryFailed, RoleSync.retryFailed.
    rewrite E. cbn [snd] in Hd |- *. split; [|exact Hi']. rewrite Hd.
    destruct (SyncQueue.retryFailedJobs serverId now
                (sync_queue (documents r))); reflexivity.
  - split; [reflexivity|]. apply put_links_idle. exact Hi.
Qed.

Lemma simulates_runAll (ops : list System.Operation) :
  forall r,
    idle r ->
    documents (Program.runAll wait fuel ops r)
    = System.runAll ops (documents r)
    /\ idle (Program.runAll wait fuel ops r).
Proof.
  induction ops as [|op ops IH]; intros r Hi; cbn [Program.runAll
                                                     System.runAll].
  - split; [reflexivity | exact Hi].
  - destruct (simulates_run op r Hi) as (Hd & Hi'). rewrite <- Hd.
    apply IH. exact Hi'.
Qed.

End WorkerOnHandler.

(** ** Roblox/utils/verification.js on the handler *)

Lemma put_verifications_idle (vs : dict Verification.t) (r : Runtime.t) :
  idle r -> idle (PATHS.put PATHS.VERIFICATIONS (db.fresh vs) r).
Proof.
  intros (Hq & Hl & Hv). split; [assumption|]. split; [assumption|].
  split; reflexivity.
Qed.

Lemma mutate_verifications_view
  (change : dict Verification.t -> dict Verification.t) (r : Runtime.t) :
  let r' := PATHS.put PATHS.VERIFICATIONS
              (db.mutate change (PATHS.get PATHS.VERIFICATIONS r)) r in
  db.locked (PATHS.get PATHS.VERIFICATIONS r')
  = db.locked (PATHS.get PATHS.VERIFICATIONS r)
  /\ db.content (PATHS.get PATHS.VERIFICATIONS r')
     = db.content (PATHS.get PATHS.VERIFICATIONS r)
  /\ forall f,
      PATHS.put PATHS.VERIFICATIONS f r' = PATHS.put PATHS.VERIFICATIONS f r.
Proof. destruct r; simpl. repeat split. Qed.

Section VerificationOnHandler.

Variable wait : bool -> bool.
Variable fuel : nat.
Hypothesis wait_returns : db.returns wait.

Lemma simulates_getVerification (serverId : string) (now : Z) :
  simulates (present []) (verification.getVerification fuel serverId now)
    (fun w =>
       (Ret (RobloxVerification.getVerification serverId
               (roblox_verifications w)), w)).
Proof.
  apply simulates_try; [|intros w; eexists; reflexivity].
  apply (simulates_ext _ _
           (bind (fun w => (Ret (roblox_verifications w), w))
              (fun vs => ret (dictGet serverId vs))));
    [reflexivity|].
  apply simulates_bind; [|intros vs; apply simulates_ret].
  apply simulates_try; [apply simulates_read_verifications|].
  intros w. eexists. reflexivity.
Qed.

(** A modifier of the verifications that does not throw, on a state whose
    verifications file is free. *)
Lemma modify_verifications
  (modifier : dict Verification.t -> dict Verification.t) (r : Runtime.t) :
  db.locked (PATHS.get PATHS.VERIFICATIONS r) = false ->
  Async.modify wait fuel PATHS.VERIFICATIONS
    (fun vs => Ret (tt, modifier vs)) r =
  (Fulfilled (tt, modifier (db.content (PATHS.get PATHS.VERIFICATIONS r))),
   PATHS.put PATHS.VERIFICATIONS
     (db.fresh (modifier (db.content (PATHS.get PATHS.VERIFICATIONS r)))) r).
Proof.
  intros Hfree. rewrite modify_run; [reflexivity|exact wait_returns|exact Hfree].
Qed.

Lemma simulates_checkVerification (dir : Directory) (serverId : string)
  (now : Z) (r : Runtime.t) :
  idle r ->
  exists r',
    verification.checkVerification wait fuel dir serverId now r =
    (Fulfilled
       (fst (RobloxVerification.checkVerification dir serverId now
               (roblox_verifications (documents r)))), r')
    /\ documents r' =
       setVerifications
         (snd (RobloxVerification.checkVerification dir serverId now
                 (roblox_verifications (documents r)))) (documents r)
    /\ idle r'.
Proof.
  intros Hi.
  destruct (simulates_getVerification serverId now r Hi (present_nil _))
    as (r1 & E & Hd & Hi1 & _).
  unfold verification.checkVerification, Async.tryCatch, Async.bind.
  rewrite E. cbn [fst snd settled] in Hd |- *. rewrite <- Hd. clear E Hd Hi.
  unfold RobloxVerification.checkVerification.
  change (roblox_verifications (documents r1))
    with (db.content (PATHS.get PATHS.VERIFICATIONS r1)).
  assert (Hfree : db.locked (PATHS.get PATHS.VERIFICATIONS r1) = false)
    by apply Hi1.
  destruct (RobloxVerification.getVerification serverId
              (db.content (PATHS.get PATHS.VERIFICATIONS r1))) as [v|] eqn:G.
  - destruct (Verification.expiresAt v <? now).
    { unfold verification.cancelVerification, Async.bind.
      rewrite modify_verifications by exact Hfree.
      eexists. split; [reflexivity|]. split; [reflexivity|].
      apply put_verifications_idle. exact Hi1. }
    destruct (Verification.maxAttempts v <=? Verification.attempts v).
    { unfold verification.cancelVerification, Async.bind.
      rewrite modify_verifications by exact Hfree.
      eexists. split; [reflexivity|]. split; [reflexivity|].
      apply put_verifications_idle. exact Hi1. }
    unfold Async.mutate.
    destruct (mutate_verifications_view (dictChange serverId countAttempt) r1)
      as (Hl & Hc & Hput).
    cbv zeta in Hl, Hc, Hput.
    unfold verification.updateVerification, Async.bind.
    rewrite modify_verifications by (rewrite Hl; exact Hfree).
    rewrite Hc, Hput. unfold Async.call, Async.ret. cbn beta iota.
    cbn [countAttempt Verification.attempts Verification.groupId
         Verification.code Verification.maxAttempts].
    destruct (getGroupDescription dir (Verification.groupId v))
      as [description|msg]; cbn [settled].
    + destruct (includes description (Verification.code v)).
      * unfold verification.completeVerification, Async.bind.
        rewrite modify_verifications by reflexivity. cbn beta iota.
        eexists. split; [reflexivity|]. split; [reflexivity|].
        destruct r1, Hi1 as (Hq & Hl1 & Hv).
        split; [assumption|]. split; [assumption|]. split; reflexivity.
      * eexists. split; [reflexivity|]. split; [reflexivity|].
        apply put_verifications_idle. exact Hi1.
    + eexists. split; [reflexivity|]. split; [reflexivity|].
      apply put_verifications_idle. exact Hi1.
  - exists r1. split; [reflexivity|]. split; [|exact Hi1].
    destruct r1; reflexivity.
Qed.

Lemma simulates_checkRepeatedly (serverId : string)
  (calls : list (Directory * Z)) :
  forall r,
    idle r ->
    fst (verification.checkRepeatedly wait fuel serverId calls r) =
    map Fulfilled
      (fst (RobloxVerification.checkRepeatedly serverId calls
              (roblox_verifications (documents r))))
    /\ documents (snd (verification.checkRepeatedly wait fuel serverId calls
                         r)) =
       setVerifications
         (snd (RobloxVerification.checkRepeatedly serverId calls
                 (roblox_verifications (documents r)))) (documents r)
    /\ idle (snd (verification.checkRepeatedly wait fuel serverId calls r)).
Proof.
  induction calls as [|[dir now] calls IH]; intros r Hi.
  - split; [reflexivity|]. split; [destruct r; reflexivity | exact Hi].
  - cbn [verification.checkRepeatedly RobloxVerification.checkRepeatedly].
    destruct (simulates_checkVerification dir serverId now r Hi)
      as (r1 & E & Hd & Hi1).
    rewrite E.
    destruct (RobloxVerification.checkVerification dir serverId now
                (roblox_verifications (documents r))) as [res vs1].
    cbn [fst snd] in Hd |- *.
    destruct (IH r1 Hi1) as (H1 & H2 & H3).
    rewrite Hd in H1, H2. cbn [roblox_verifications setVerifications] in H1, H2.
    destruct (verification.checkRepeatedly wait fuel serverId calls r1)
      as [xs r2].
    destruct (RobloxVerification.checkRepeatedly serverId calls vs1)
      as [rs vs2].
    cbn [fst snd] in *. split; [rewrite H1; reflexivity|].
    split; [exact H2 | exact H3].
Qed.

End VerificationOnHandler.

(** ** Keys and the middleware on the handler *)

Section KeysOnHandler.

Variable hashApiKey : string -> string.
Variable verifyRequestSignature :
  string -> string -> string -> Z -> string -> string -> bool.
Variable wait : bool -> bool.
Variable fuel : nat.
Hypothesis wait_returns : db.returns wait.

Lemma simulates_createLink (serverId : string) (linkData : LinkData.t)
  (randomHex : string) (now : Z) (r : Runtime.t) :
  idle r ->
  exists r',
    robloxLinks.createLink hashApiKey wait fuel serverId linkData randomHex
      now r =
    (Fulfilled
       (fst (createLink hashApiKey serverId linkData randomHex now
               (roblox_links (documents r)))), r')
    /\ documents r' =
       setLinks
         (snd (createLink hashApiKey serverId linkData randomHex now
                 (roblox_links (documents r)))) (documents r)
    /\ idle r'.
Proof.
  intros Hi. unfold robloxLinks.createLink, Async.bind.
  rewrite modify_run; [|exact wait_returns|apply Hi].
  eexists. split; [reflexivity|]. split; [reflexivity|].
  apply put_links_idle. exact Hi.
Qed.

Lemma simulates_regenerateApiKey (serverId randomHex : string) (now : Z)
  (r : Runtime.t) (old : Link.t) :
  idle r ->
  getLink serverId (roblox_links (documents r)) = Some old ->
  exists r' answer ls',
    regenerateApiKey hashApiKey serverId randomHex now
      (roblox_links (documents r)) = Ret (answer, ls')
    /\ robloxLinks.regenerateApiKey hashApiKey wait fuel serverId randomHex
         now r = (Fulfilled answer, r')
    /\ documents r' = setLinks ls' (documents r)
    /\ idle r'.
Proof.
  intros Hi Hold. unfold robloxLinks.regenerateApiKey, Async.bind.
  rewrite (updateLink_run wait fuel wait_returns serverId _ now r old);
    [|apply Hi|exact Hold].
  unfold regenerateApiKey, updateLink. unfold getLink in Hold. rewrite Hold.
  eexists. eexists. eexists. split; [reflexivity|]. split; [reflexivity|].
  split; [reflexivity|]. apply put_links_idle. exact Hi.
Qed.

Lemma simulates_validateApiKey (apiKey : string) (now : Z) (r : Runtime.t) :
  idle r ->
  exists r',
    robloxLinks.validateApiKey hashApiKey wait fuel apiKey now r =
    (Fulfilled
       (fst (validateApiKey hashApiKey apiKey now
               (roblox_links (documents r)))), r')
    /\ documents r' =
       setLinks
         (snd (validateApiKey hashApiKey apiKey now
                 (roblox_links (documents r)))) (documents r)
    /\ idle r'.
Proof.
  intros Hi.
  destruct (simulates_getAllLinks fuel (present []) now r Hi (present_nil _))
    as (r1 & E & Hd & Hi1 & _).
  unfold robloxLinks.validateApiKey, Async.tryCatch, Async.bind.
  rewrite E. cbn [fst snd settled] in Hd |- *. rewrite <- Hd. clear E Hd Hi.
  unfold validateApiKey.
  change (roblox_links (documents r1))
    with (db.content (PATHS.get PATHS.LINKS r1)).
  destruct (findByHash (hashApiKey apiKey)
              (db.content (PATHS.get PATHS.LINKS r1)))
    as [[serverId link]|] eqn:F.
  - destruct (findByHash_dictGet _ _ _ _ F) as (old & Hold).
    unfold robloxLinks.updateApiKeyUsage, Async.tryCatch, Async.bind.
    rewrite (updateLink_run wait fuel wait_returns serverId _ now r1 old);
      [|apply Hi1|exact Hold].
    unfold updateApiKeyUsage, updateLink. rewrite Hold.
    eexists. split; [reflexivity|]. split; [reflexivity|].
    apply put_links_idle. exact Hi1.
  - exists r1. split; [reflexivity|]. split; [|exact Hi1].
    destruct r1; reflexivity.
Qed.

Lemma authorize_authMiddleware (req : Request.t) (now : Z) (w : World)
  (authHeader : string) :
  Request.authorization req = Some authHeader ->
  negb (truthyString (Some authHeader))
  || negb (startsWith "Bearer " authHeader) = false ->
  (Z.of_nat (String.length (substringFrom 7 authHeader)) <? 32) = false ->
  authMiddleware hashApiKey verifyRequestSignature req now w =
  (auth.authorize verifyRequestSignature req now (substringFrom 7 authHeader)
     (fst (validateApiKey hashApiKey (substringFrom 7 authHeader) now
             (roblox_links w))),
   setLinks
     (snd (validateApiKey hashApiKey (substringFrom 7 authHeader) now
             (roblox_links w))) w).
Proof.
  intros H1 H2 H3. unfold authMiddleware. rewrite H1, H2, H3.
  destruct (validateApiKey hashApiKey (substringFrom 7 authHeader) now
              (roblox_links w)) as [found ls'].
  cbn [fst snd]. unfold auth.authorize.
  destruct found as [link|]; [|reflexivity].
  destruct (negb (Link.verified link)); [reflexivity|].
  destruct (orElseZ (Request.bodyTimestamp req) (Request.queryTimestamp req))
    as [ts|]; [|reflexivity].
  destruct (negb (truthyZ (Some ts))); [reflexivity|].
  destruct (negb (validateTimestamp ts 300 now)); [reflexivity|].
  match goal with
  | |- context [if ?c then (Rejected (mkRejection 401 _ _), _) else _] =>
      destruct c; [reflexivity|]
  end.
  match goal with
  | |- context [if ?c then (Rejected (mkRejection 403 _ _), _) else _] =>
      destruct c; reflexivity
  end.
Qed.

Lemma simulates_authMiddleware (req : Request.t) (now : Z) (r : Runtime.t) :
  idle r ->
  exists r',
    auth.authMiddleware hashApiKey verifyRequestSignature wait fuel req now r =
    (Fulfilled
       (fst (authMiddleware hashApiKey verifyRequestSignature req now
               (documents r))), r')
    /\ documents r' =
       snd (authMiddleware hashApiKey verifyRequestSignature req now
              (documents r))
    /\ idle r'.
Proof.
  intros Hi. unfold auth.authMiddleware, Async.tryCatch.
  destruct (Request.authorization req) as [authHeader|] eqn:H1.
  - destruct (negb (truthyString (Some authHeader))
              || negb (startsWith "Bearer " authHeader)) eqn:H2.
    + exists r. unfold authMiddleware. rewrite H1, H2.
      split; [reflexivity|]. split; [reflexivity | exact Hi].
    + destruct (Z.of_nat (String.length (substringFrom 7 authHeader)) <? 32)
        eqn:H3.
      * exists r. unfold authMiddleware. rewrite H1, H2, H3.
        split; [reflexivity|]. split; [reflexivity | exact Hi].
      * rewrite (authorize_authMiddleware req now (documents r) authHeader
                   H1 H2 H3).
        destruct (simulates_validateApiKey (substringFrom 7 authHeader) now r
                    Hi) as (r1 & E & Hd & Hi1).
        unfold Async.bind. rewrite E.
        exists r1. split; [reflexivity|]. split; [exact Hd | exact Hi1].
  - exists r. unfold authMiddleware. rewrite H1.
    split; [reflexivity|]. split; [reflexivity | exact Hi].
Qed.

End KeysOnHandler.

(** ** The methods as they are written: nothing is stored *)

Lemma keeps_ret {A : Type} (a : A) : keeps (Async.ret a).
Proof. intros r. reflexivity. Qed.

Lemma keeps_throw {A : Type} (msg : string) : keeps (Async.throw (A := A) msg).
Proof. intros r. reflexivity. Qed.

Lemma keeps_call {A : Type} (answer : outcome A) : keeps (Async.call answer).
Proof. intros r. reflexivity. Qed.

Lemma keeps_callSetUserRank (dir : Directory) (groupId userId : string)
  (role : Z) : keeps (Async.callSetUserRank dir groupId userId role).
Proof. intros r. reflexivity. Qed.

Lemma keeps_bind {A B : Type} (m : Async A) (f : A -> Async B) :
  keeps m -> (forall a, keeps (f a)) -> keeps (Async.bind m f).
Proof.
  intros Hm Hf r. unfold Async.bind. specialize (Hm r).
  destruct (m r) as [[a|msg|] r1]; cbn [snd] in *; [|exact Hm|exact Hm].
  rewrite <- Hm. apply Hf.
Qed.

Lemma keeps_tryCatch {A : Type} (m : Async A) (f : string -> Async A) :
  keeps m -> (forall msg, keeps (f msg)) -> keeps (Async.tryCatch m f).
Proof.
  intros Hm Hf r. unfold Async.tryCatch. specialize (Hm r).
  destruct (m r) as [[a|msg|] r1]; cbn [snd] in *; [exact Hm| |exact Hm].
  rewrite <- Hm. apply Hf.
Qed.

Lemma read_content {D : Type} (wait : bool -> bool) (useCache : bool)
  (now : Z) (f : db.File D) :
  db.content (snd (db.read wait useCache now f)) = db.content f.
Proof.
  unfold db.read, db.readFile.
  destruct useCache; [destruct (db.cached f) as [c|];
                      [destruct (now - db.timestamp c <? 5000)|]|];
    try reflexivity; destruct (wait (db.locked f)); reflexivity.
Qed.

Lemma keeps_read_queue (fuel : nat) (now : Z) :
  keeps (Async.read fuel PATHS.SYNC_QUEUE now).
Proof.
  intros r. unfold Async.read.
  pose proof (read_content (db.waitForLock fuel) true now
                (PATHS.get PATHS.SYNC_QUEUE r)) as H.
  destruct (db.read (db.waitForLock fuel) true now
              (PATHS.get PATHS.SYNC_QUEUE r)) as [x f].
  destruct r; unfold stored; cbn in *. rewrite H. reflexivity.
Qed.

Lemma keeps_read_links (fuel : nat) (now : Z) :
  keeps (Async.read fuel PATHS.LINKS now).
Proof.
  intros r. unfold Async.read.
  pose proof (read_content (db.waitForLock fuel) true now
                (PATHS.get PATHS.LINKS r)) as H.
  destruct (db.read (db.waitForLock fuel) true now (PATHS.get PATHS.LINKS r))
    as [x f].
  destruct r; unfold stored; cbn in *. rewrite H. reflexivity.
Qed.

Lemma keeps_read_verifications (fuel : nat) (now : Z) :
  keeps (Async.read fuel PATHS.VERIFICATIONS now).
Proof.
  intros r. unfold Async.read.
  pose proof (read_content (db.waitForLock fuel) true now
                (PATHS.get PATHS.VERIFICATIONS r)) as H.
  destruct (db.read (db.waitForLock fuel) true now
              (PATHS.get PATHS.VERIFICATIONS r)) as [x f].
  destruct r; unfold stored; cbn in *. rewrite H. reflexivity.
Qed.

Lemma keeps_mutate_queue (change : SyncQueue.queue -> SyncQueue.queue) :
  keeps (Async.mutate PATHS.SYNC_QUEUE change).
Proof. intros r. destruct r; reflexivity. Qed.

Lemma keeps_mutate_links (change : dict Link.t -> dict Link.t) :
  keeps (Async.mutate PATHS.LINKS change).
Proof. intros r. destruct r; reflexivity. Qed.

Lemma keeps_mutate_verifications
  (change : dict Verification.t -> dict Verification.t) :
  keeps (Async.mutate PATHS.VERIFICATIONS change).
Proof. intros r. destruct r; reflexivity. Qed.

Lemma keeps_modify_queue {A : Type} (fuel : nat)
  (modifier : SyncQueue.queue -> outcome (A * SyncQueue.queue)) :
  keeps (Async.modify (db.waitForLock fuel) fuel PATHS.SYNC_QUEUE modifier).
Proof. intros r. rewrite modify_stuck. destruct r; reflexivity. Qed.

Lemma keeps_modify_links {A : Type} (fuel : nat)
  (modifier : dict Link.t -> outcome (A * dict Link.t)) :
  keeps (Async.modify (db.waitForLock fuel) fuel PATHS.LINKS modifier).
Proof. intros r. rewrite modify_stuck. destruct r; reflexivity. Qed.

Lemma keeps_modify_verifications {A : Type} (fuel : nat)
  (modifier : dict Verification.t -> outcome (A * dict Verification.t)) :
  keeps (Async.modify (db.waitForLock fuel) fuel PATHS.VERIFICATIONS modifier).
Proof. intros r. rewrite modify_stuck. destruct r; reflexivity. Qed.

Ltac keeps_step :=
  first
    [ apply keeps_ret | apply keeps_throw | apply keeps_call
    | apply keeps_callSetUserRank
    | apply keeps_read_queue | apply keeps_read_links
    | apply keeps_read_verifications
    | apply keeps_mutate_queue | apply keeps_mutate_links
    | apply keeps_mutate_verifications
    | apply keeps_modify_queue | apply keeps_modify_links
    | apply keeps_modify_verifications
    | apply keeps_bind; [|intros ?]
    | apply keeps_tryCatch; [|intros ?]
    | match goal with
      | |- keeps (match ?x with _ => _ end) => destruct x
      | |- keeps (if ?x then _ else _) => destruct x
      | |- keeps (let _ := _ in _) => cbv zeta
      end ].

Ltac keeps_all := repeat keeps_step.

Section Written.

Variable fuel : nat.

Lemma keeps_getJob (jobId : string) (now : Z) :
  keeps (syncQueue.getJob fuel jobId now).
Proof. unfold syncQueue.getJob, syncQueue.getAllJobs. keeps_all. Qed.

Lemma keeps_updateJob (jobId : string) (u : JobUpdates.t) (now : Z) :
  keeps (syncQueue.updateJob (db.waitForLock fuel) fuel jobId u now).
Proof. unfold syncQueue.updateJob. keeps_all. Qed.

Lemma keeps_markFailed (jobId message : string) (retry : bool) (now : Z) :
  keeps (syncQueue.markFailed (db.waitForLock fuel) fuel jobId message retry
           now).
Proof.
  unfold syncQueue.markFailed. apply keeps_bind; [apply keeps_getJob|].
  intros [job|]; keeps_all; apply keeps_updateJob.
Qed.

Lemma keeps_updateLink (serverId : string) (u : LinkUpdates.t) (now : Z) :
  keeps (robloxLinks.updateLink (db.waitForLock fuel) fuel serverId u now).
Proof. unfold robloxLinks.updateLink. keeps_all. Qed.

Lemma keeps_validateApiKey (hashApiKey : string -> string) (apiKey : string)
  (now : Z) :
  keeps (robloxLinks.validateApiKey hashApiKey (db.waitForLock fuel) fuel
           apiKey now).
Proof.
  unfold robloxLinks.validateApiKey, robloxLinks.getAllLinks,
    robloxLinks.updateApiKeyUsage.
  keeps_all; apply keeps_updateLink.
Qed.

End Written.

(** ** What no store call does: a call of [setUserRank] *)

Lemma quiet_ret {A : Type} (a : A) : quiet (Async.ret a).
Proof. intros r. reflexivity. Qed.

Lemma quiet_throw {A : Type} (msg : string) : quiet (Async.throw (A := A) msg).
Proof. intros r. reflexivity. Qed.

Lemma quiet_call {A : Type} (answer : outcome A) : quiet (Async.call answer).
Proof. intros r. reflexivity. Qed.

Lemma quiet_bind {A B : Type} (m : Async A) (f : A -> Async B) :
  quiet m -> (forall a, quiet (f a)) -> quiet (Async.bind m f).
Proof.
  intros Hm Hf r. unfold Async.bind. specialize (Hm r).
  destruct (m r) as [[a|msg|] r1]; cbn [snd] in *; [|exact Hm|exact Hm].
  rewrite <- Hm. apply Hf.
Qed.

Lemma quiet_tryCatch {A : Type} (m : Async A) (f : string -> Async A) :
  quiet m -> (forall msg, quiet (f msg)) -> quiet (Async.tryCatch m f).
Proof.
  intros Hm Hf r. unfold Async.tryCatch. specialize (Hm r).
  destruct (m r) as [[a|msg|] r1]; cbn [snd] in *; [exact Hm| |exact Hm].
  rewrite <- Hm. apply Hf.
Qed.

Ltac quiet_store :=
  intros r; unfold Async.read, Async.modify, Async.mutate;
  repeat match goal with
         | |- context [let '(_, _) := ?x in _] => destruct x
         end;
  destruct r; reflexivity.

Lemma quiet_read_queue (fuel : nat) (now : Z) :
  quiet (Async.read fuel PATHS.SYNC_QUEUE now).
Proof. quiet_store. Qed.

Lemma quiet_read_links (fuel : nat) (now : Z) :
  quiet (Async.read fuel PATHS.LINKS now).
Proof. quiet_store. Qed.

Lemma quiet_read_verifications (fuel : nat) (now : Z) :
  quiet (Async.read fuel PATHS.VERIFICATIONS now).
Proof. quiet_store. Qed.

Lemma quiet_mutate_queue (change : SyncQueue.queue -> SyncQueue.queue) :
  quiet (Async.mutate PATHS.SYNC_QUEUE change).
Proof. quiet_store. Qed.

Lemma quiet_mutate_links (change : dict Link.t -> dict Link.t) :
  quiet (Async.mutate PATHS.LINKS change).
Proof. quiet_store. Qed.

Lemma quiet_modify_queue {A : Type} (wait : bool -> bool) (fuel : nat)
  (modifier : SyncQueue.queue -> outcome (A * SyncQueue.queue)) :
  quiet (Async.modify wait fuel PATHS.SYNC_QUEUE modifier).
Proof. quiet_store. Qed.

Lemma quiet_modify_links {A : Type} (wait : bool -> bool) (fuel : nat)
  (modifier : dict Link.t -> outcome (A * dict Link.t)) :
  quiet (Async.modify wait fuel PATHS.LINKS modifier).
Proof. quiet_store. Qed.

Ltac quiet_step :=
  first
    [ apply quiet_ret | apply quiet_throw | apply quiet_call
    | apply quiet_read_queue | apply quiet_read_links
    | apply quiet_read_verifications
    | apply quiet_mutate_queue | apply quiet_mutate_links
    | apply quiet_modify_queue | apply quiet_modify_links
    | apply quiet_bind; [|intros ?]
    | apply quiet_tryCatch; [|intros ?]
    | match goal with
      | |- quiet (match ?x with _ => _ end) => destruct x
      | |- quiet (if ?x then _ else _) => destruct x
      | |- quiet (let _ := _ in _) => cbv zeta
      end ].

Ltac quiet_all := repeat quiet_step.

Section Quiet.

Variable wait : bool -> bool.
Variable fuel : nat.

Lemma quiet_updateJob (jobId : string) (u : JobUpdates.t) (now : Z) :
  quiet (syncQueue.updateJob wait fuel jobId u now).
Proof. unfold syncQueue.updateJob. quiet_all. Qed.

Lemma quiet_markFailed (jobId message : string) (retry : bool) (now : Z) :
  quiet (syncQueue.markFailed wait fuel jobId message retry now).
Proof.
  unfold syncQueue.markFailed, syncQueue.getJob, syncQueue.getAllJobs.
  quiet_all; apply quiet_updateJob.
Qed.

Lemma quiet_getLink (serverId : string) (now : Z) :
  quiet (robloxLinks.getLink fuel serverId now).
Proof. unfold robloxLinks.getLink, robloxLinks.getAllLinks. quiet_all. Qed.

Lemma quiet_updateLink (serverId : string) (u : LinkUpdates.t) (now : Z) :
  quiet (robloxLinks.updateLink wait fuel serverId u now).
Proof. unfold robloxLinks.updateLink. quiet_all. Qed.

Lemma quiet_updateLastSync (serverId : string) (ok : bool) (now : Z) :
  quiet (robloxLinks.updateLastSync wait fuel serverId ok now).
Proof.
  unfold robloxLinks.updateLastSync. apply quiet_bind; [apply quiet_getLink|].
  intros [link|]; quiet_all; apply quiet_updateLink.
Qed.

Lemma quiet_processJobCatch (now : Z) (job : Job.t) (message : string) :
  quiet (roleSync.processJobCatch wait fuel now job message).
Proof.
  unfold roleSync.processJobCatch.
  apply quiet_bind; [apply quiet_markFailed|intros _].
  apply quiet_bind; [apply quiet_updateLastSync|intros _].
  apply quiet_ret.
Qed.

End Quiet.

(** ** The number of turns watched does not matter *)









Section Turns.

Variable fuel : nat.



End Turns.

(** ** What the claims come to on the handler *)

Lemma idle_started (w : World) : idle (started w).
Proof. repeat split. Qed.

Lemma returningWait_returns : db.returns returningWait.
Proof. reflexivity. Qed.

(** [processJob] as it is written waits for [markInProgress], its first
    step, and never leaves it. *)
Lemma processJob_waits (fuel : nat) (dir : Directory) (now : Z) (job : Job.t)
  (r : Runtime.t) :
  roleSync.processJob (db.waitForLock fuel) fuel dir now job r =
  (Pending, PATHS.put PATHS.SYNC_QUEUE (held (Runtime.sync_queue r)) r).
Proof.
  unfold roleSync.processJob, Async.tryCatch, roleSync.processJobBody,
    Async.bind, syncQueue.markInProgress, syncQueue.updateJob, Async.bind.
  rewrite modify_stuck. reflexivity.
Qed.

(** C1, as the worker has it.  [processJob] has one [catch] for everything
    that its [try] block throws, and hands the error to [markFailed] with
    retry allowed: when the wait of [db.modify] comes back, so that the store
    carries out the updates it is asked for, a job of the queue that meets a
    domain error (link missing, tenant unverified, rank absent from the
    catalog, subject not a member) has its attempts incremented and becomes
    retrying with a retry time while the incremented attempts are below
    [maxAttempts], and failed only once they reach it. *)
Theorem processJob_domain_error_retried (wait : bool -> bool) (fuel : nat)
  (dir : Directory) (now : Z) (job : Job.t) (r : Runtime.t) (old : Job.t)
  (message : string) :
  db.returns wait ->
  idle r ->
  SyncQueue.getJob (Job.id job) (db.content (Runtime.sync_queue r))
  = Some old ->
  domainError dir job (documents r) = Some message ->
  exists new,
    fst (roleSync.processJob wait fuel dir now job r) <> Pending
    /\ SyncQueue.getJob (Job.id job)
         (db.content
            (Runtime.sync_queue
               (snd (roleSync.processJob wait fuel dir now job r))))
       = Some new
    /\ Job.lastError new = Some message
    /\ Job.attempts new = Job.attempts old + 1
    /\ if Job.attempts old + 1 <? Job.maxAttempts old
       then Job.status new = RETRYING
            /\ Job.nextRetryAt new =
               Some (now
                     + SyncQueue.delayMinutes (Job.attempts old + 1) * 60 * 1000)
       else Job.status new = FAILED /\ Job.completedAt new = Some now.
Proof.
  intros Hwait Hi Hold Hd.
  assert (Hp : present [Job.id job] (sync_queue (documents r))).
  { intros x [<-|[]]. apply getJob_In in Hold. destruct Hold as [Hin Hid].
    rewrite <- Hid. apply in_map. exact Hin. }
  destruct (simulates_processJob wait fuel Hwait [Job.id job] dir now job
              (or_introl eq_refl) r Hi Hp) as (r' & E & Hdoc & _ & _).
  destruct (processJob_domain_error dir now job (documents r) old message
              Hold Hd) as (new & Hget & Herr & Hatt & Hstat).
  exists new. rewrite E. cbn [fst snd].
  split.
  - destruct (fst (RoleSync.processJob dir now job (documents r)));
      discriminate.
  - change (db.content (Runtime.sync_queue r'))
      with (sync_queue (documents r')).
    rewrite Hdoc. repeat split; assumption.
Qed.

Lemma processJob_domain_error_retried_witness :
  exists new,
    SyncQueue.getJob "A"
      (db.content
         (Runtime.sync_queue
            (snd (roleSync.processJob returningWait 0
                    (exampleDirectory "" [] None) 1000 (exampleJob "A" 0 1)
                    (started
                       (setQueue [exampleJob "A" 0 1]
                          (worldWithLinks
                             [("server",
                               exampleLink "server" "G" "h" true)])))))))
    = Some new
    /\ Job.attempts new = 1
    /\ Job.status new = RETRYING.
Proof.
  destruct (processJob_domain_error_retried returningWait 0
              (exampleDirectory "" [] None) 1000 (exampleJob "A" 0 1)
              (started
                 (setQueue [exampleJob "A" 0 1]
                    (worldWithLinks
                       [("server", exampleLink "server" "G" "h" true)])))
              (exampleJob "A" 0 1) "Role with rank 1 not found in group")
    as (new & _ & Hget & _ & Hattempts & Hstatus).
  - reflexivity.
  - apply idle_started.
  - reflexivity.
  - reflexivity.
  - exists new. split; [exact Hget|]. split; [exact Hattempts|].
    apply Hstatus.
Defined.

(** A queued job of a tenant without a link, at its first attempt.  As
    [db.modify] is written, [processJob] never settles and the stored job
    stays queued with no attempt counted; when the wait of [db.modify] comes
    back, the job is left retrying, with a retry time five minutes later.
    Either way it is not failed. *)
Lemma processJob_domain_error_refuted :
  let job := exampleJob "A" 0 1 in
  let r := started (setQueue [job] (worldWithLinks [])) in
  let carried :=
    roleSync.processJob returningWait 0 unreachableDirectory 1000 job r in
  domainError unreachableDirectory job (documents r) =
  Some "Roblox link not found for server"
  /\ (forall fuel,
         let written :=
           roleSync.processJob (db.waitForLock fuel) fuel unreachableDirectory
             1000 job r in
         fst written = Pending
         /\ option_map Job.status
              (SyncQueue.getJob "A"
                 (db.content (Runtime.sync_queue (snd written))))
            = Some QUEUED
         /\ option_map Job.attempts
              (SyncQueue.getJob "A"
                 (db.content (Runtime.sync_queue (snd written))))
            = Some 0)
  /\ option_map Job.status
       (SyncQueue.getJob "A" (db.content (Runtime.sync_queue (snd carried))))
     = Some RETRYING
  /\ option_map Job.nextRetryAt
       (SyncQueue.getJob "A" (db.content (Runtime.sync_queue (snd carried))))
     = Some (Some 301000)
  /\ QUEUED <> FAILED
  /\ RETRYING <> FAILED.
Proof.
  cbv zeta. split; [reflexivity|]. split.
  - intros fuel. rewrite processJob_waits. repeat split.
  - vm_compute. repeat split; discriminate.
Qed.

(** [getLink] on a links file that nobody holds. *)
Lemma getLink_links_idle (fuel : nat) (serverId : string) (now : Z)
  (r : Runtime.t) :
  db.idle (Runtime.roblox_links r) ->
  exists r',
    robloxLinks.getLink fuel serverId now r =
    (Fulfilled (dictGet serverId (db.content (Runtime.roblox_links r))), r')
    /\ Runtime.setRankCalls r' = Runtime.setRankCalls r.
Proof.
  intros Hl.
  destruct (read_idle fuel now (Runtime.roblox_links r) Hl)
    as (f' & E & _ & _).
  unfold robloxLinks.getLink, robloxLinks.getAllLinks, Async.tryCatch,
    Async.bind, Async.read.
  cbn [PATHS.get PATHS.LINKS]. rewrite E.
  eexists. split; [reflexivity|]. destruct r; reflexivity.
Qed.

(** The [try] block of [processJob] records no call of [setUserRank] when the
    subject already holds the requested rank. *)
Lemma processJobBody_same_rank (wait : bool -> bool) (fuel : nat)
  (dir : Directory) (now : Z) (job : Job.t) (r : Runtime.t) :
  db.idle (Runtime.roblox_links r) ->
  currentRank dir job (documents r) = Some (Job.newRank job) ->
  Runtime.setRankCalls (snd (roleSync.processJobBody wait fuel dir now job r))
  = Runtime.setRankCalls r.
Proof.
  intros Hl Hrank. unfold roleSync.processJobBody.
  unfold Async.bind at 1.
  pose proof (quiet_updateJob wait fuel (Job.id job) (inProgressUpdate now)
                now r) as Q.
  assert (F : Runtime.roblox_links
                (snd (syncQueue.markInProgress wait fuel (Job.id job) now r))
              = Runtime.roblox_links r).
  { unfold syncQueue.markInProgress, syncQueue.updateJob, Async.bind,
      Async.modify.
    destruct (db.modify wait fuel _ (PATHS.get PATHS.SYNC_QUEUE r))
      as [[x| |] f]; destruct r; reflexivity. }
  unfold syncQueue.markInProgress in *. unfold inProgressUpdate in Q.
  destruct (syncQueue.updateJob wait fuel (Job.id job) _ now r)
    as [[x|msg|] r1]; cbn [snd] in *; [|exact Q|exact Q].
  rewrite <- Q. rewrite <- F in Hl.
  unfold currentRank in Hrank.
  change (roblox_links (documents r)) with (db.content (Runtime.roblox_links r))
    in Hrank.
  rewrite <- F in Hrank. unfold getLink in Hrank.
  destruct (getLink_links_idle fuel (Job.serverId job) now r1 Hl)
    as (r2 & E & C).
  unfold Async.bind at 1. rewrite E. rewrite <- C.
  destruct (dictGet (Job.serverId job) (db.content (Runtime.roblox_links r1)))
    as [link|]; [|discriminate].
  destruct (negb (Link.verified link)); [reflexivity|].
  unfold Async.bind at 1, Async.call at 1.
  destruct (getGroupRoles dir (Link.groupId link)) as [roles|msg];
    [|reflexivity].
  cbn [settled].
  destruct (RoleSync.findRole (Job.newRank job) roles) as [targetRole|];
    [|reflexivity].
  unfold Async.bind at 1, Async.call at 1.
  destruct (getUserRoleInGroup dir (Job.robloxUserId job) (Link.groupId link))
    as [[role|]|msg]; try discriminate.
  injection Hrank as Hrank. cbn [settled]. rewrite Hrank, Z.eqb_refl.
  assert (K : quiet
                (Async.bind
                   (syncQueue.markCompleted wait fuel (Job.id job) now)
                   (fun _ =>
                      Async.bind
                        (robloxLinks.updateLastSync wait fuel
                           (Job.serverId job) true now)
                        (fun _ =>
                           Async.ret
                             (mkProcessResult true
                                "User already has target rank"))))).
  { apply quiet_bind; [apply quiet_updateJob|intros _].
    apply quiet_bind; [apply quiet_updateLastSync|intros _].
    apply quiet_ret. }
  apply K.
Qed.

(** C8, as the worker has it.  When the rank that the subject holds in the
    group equals the rank that a job requests, [processJob] does not call
    [setUserRank], whatever the wait of [db.modify] does; and when moreover
    the job is in the queue, the tenant is verified, the rank is in the
    catalog of the group and the wait of [db.modify] comes back, so that the
    store carries out the updates it is asked for, the job is marked
    completed and the worker answers that the user already has the target
    rank. *)
Theorem processJob_same_rank (wait : bool -> bool) (fuel : nat)
  (dir : Directory) (now : Z) (job : Job.t) (r : Runtime.t) :
  idle r ->
  currentRank dir job (documents r) = Some (Job.newRank job) ->
  Runtime.setRankCalls (snd (roleSync.processJob wait fuel dir now job r))
  = Runtime.setRankCalls r
  /\ forall old,
      db.returns wait ->
      SyncQueue.getJob (Job.id job) (db.content (Runtime.sync_queue r))
      = Some old ->
      rankResolves dir job (documents r) = true ->
      fst (roleSync.processJob wait fuel dir now job r) =
      Fulfilled (mkProcessResult true "User already has target rank")
      /\ exists new,
          SyncQueue.getJob (Job.id job)
            (db.content
               (Runtime.sync_queue
                  (snd (roleSync.processJob wait fuel dir now job r))))
          = Some new
          /\ Job.status new = COMPLETED
          /\ Job.completedAt new = Some now
          /\ Job.attempts new = Job.attempts old.
Proof.
  intros Hi Hrank. split.
  - pose proof (processJobBody_same_rank wait fuel dir now job r
                  (proj1 (proj2 Hi)) Hrank) as B.
    unfold roleSync.processJob, Async.tryCatch.
    destruct (roleSync.processJobBody wait fuel dir now job r)
      as [[x|msg|] r1]; cbn [snd] in *; try exact B.
    rewrite <- B. apply quiet_processJobCatch.
  - intros old Hwait Hold Hres.
    destruct (processJob_idempotent dir now job (documents r) Hrank)
      as (_ & Hdone).
    destruct (Hdone old Hold Hres) as (Hfst & new & Hget & Hs & Hc & Ha).
    assert (Hp : present [Job.id job] (sync_queue (documents r))).
    { intros x [<-|[]]. apply getJob_In in Hold. destruct Hold as [Hin Hid].
      rewrite <- Hid. apply in_map. exact Hin. }
    destruct (simulates_processJob wait fuel Hwait [Job.id job] dir now job
                (or_introl eq_refl) r Hi Hp) as (r' & E & Hdoc & _ & _).
    rewrite E, Hfst. cbn [fst snd settled]. split; [reflexivity|].
    exists new.
    change (db.content (Runtime.sync_queue r'))
      with (sync_queue (documents r')).
    rewrite Hdoc. repeat split; assumption.
Qed.

Lemma processJob_same_rank_witness :
  let r :=
    started
      (setQueue [exampleJob "A" 0 1]
         (worldWithLinks [("server", exampleLink "server" "G" "h" true)])) in
  let dir :=
    exampleDirectory "" [mkRole 77 "Member" 1] (Some (mkRole 77 "Member" 1)) in
  Runtime.setRankCalls
    (snd (roleSync.processJob returningWait 0 dir 1000 (exampleJob "A" 0 1) r))
  = []
  /\ fst (roleSync.processJob returningWait 0 dir 1000 (exampleJob "A" 0 1) r)
     = Fulfilled (mkProcessResult true "User already has target rank").
Proof.
  intros r dir.
  destruct (processJob_same_rank returningWait 0 dir 1000 (exampleJob "A" 0 1)
              r) as (Hcalls & Hdone).
  - apply idle_started.
  - reflexivity.
  - split; [exact Hcalls|].
    apply (Hdone (exampleJob "A" 0 1)); reflexivity.
Defined.

(** A queued job for the rank that the subject already holds, in a group
    that the tenant has not verified.  As [db.modify] is written,
    [processJob] never settles and the job stays queued; when the wait of
    [db.modify] comes back, the worker answers that the group is not
    verified and the job is left retrying.  Either way the job is not
    completed. *)
Lemma processJob_same_rank_refuted :
  let job := exampleJob "A" 0 1 in
  let r :=
    started
      (setQueue [job]
         (worldWithLinks [("server", exampleLink "server" "G" "h" false)])) in
  let dir :=
    exampleDirectory "" [mkRole 77 "Member" 1] (Some (mkRole 77 "Member" 1)) in
  let carried := roleSync.processJob returningWait 0 dir 1000 job r in
  currentRank dir job (documents r) = Some (Job.newRank job)
  /\ (forall fuel,
         let written :=
           roleSync.processJob (db.waitForLock fuel) fuel dir 1000 job r in
         fst written = Pending
         /\ option_map Job.status
              (SyncQueue.getJob "A"
                 (db.content (Runtime.sync_queue (snd written))))
            = Some QUEUED)
  /\ fst carried = Fulfilled (mkProcessResult false "Roblox group not verified")
  /\ option_map Job.status
       (SyncQueue.getJob "A" (db.content (Runtime.sync_queue (snd carried))))
     = Some RETRYING
  /\ QUEUED <> COMPLETED
  /\ RETRYING <> COMPLETED.
Proof.
  cbv zeta. split; [reflexivity|]. split.
  - intros fuel. rewrite processJob_waits. repeat split.
  - vm_compute. repeat split; discriminate.
Qed.

(** A check that never throws back to its caller: [getVerification] catches
    what [db.read] throws. *)
Lemma getVerification_settles (fuel : nat) (serverId : string) (now : Z)
  (r : Runtime.t) (msg : string) :
  fst (verification.getVerification fuel serverId now r) <> Thrown msg.
Proof.
  unfold verification.getVerification, verification.getAllVerifications,
    Async.tryCatch, Async.bind, Async.read, Async.ret.
  destruct (db.read (db.waitForLock fuel) true now
              (PATHS.get PATHS.VERIFICATIONS r)) as [[x|e|] f];
    discriminate.
Qed.

(** [checkVerification] as it is written: whenever it finds a verification,
    every path goes through [db.modify], and the check never answers. *)
Lemma checkVerification_written (fuel : nat) (dir : Directory)
  (serverId : string) (now : Z) (r : Runtime.t) :
  fst (verification.checkVerification (db.waitForLock fuel) fuel dir serverId
         now r) = Pending
  \/ fst (verification.checkVerification (db.waitForLock fuel) fuel dir
            serverId now r)
     = Fulfilled (RobloxVerification.failure
                    RobloxVerification.NO_VERIFICATION).
Proof.
  pose proof (getVerification_settles fuel serverId now r) as Hs.
  unfold verification.checkVerification, Async.tryCatch, Async.bind.
  destruct (verification.getVerification fuel serverId now r)
    as [[[v|]|msg|] r1]; cbn [fst] in *.
  - left.
    destruct (Verification.expiresAt v <? now);
      [|destruct (Verification.maxAttempts v <=? Verification.attempts v)];
      unfold verification.cancelVerification, verification.updateVerification,
        Async.bind, Async.mutate; rewrite modify_stuck; reflexivity.
  - right. reflexivity.
  - exfalso. apply (Hs msg). reflexivity.
  - left. reflexivity.
Qed.

(** C2, as the verifier has it.  [checkVerification] tests the expiry first,
    then whether the attempts have reached the maximum, and only then counts
    the call.  When the wait of [db.modify] comes back, so that the store
    carries out the updates it is asked for: on a pending challenge with no
    attempt used and a maximum of 5, five consecutive checks that do not find
    the code are each answered [CODE_NOT_FOUND], with 4, 3, 2, 1 and 0
    attempts remaining; the sixth check is answered [MAX_ATTEMPTS] when it is
    made no later than the expiry, and [EXPIRED] when it is made after the
    expiry; either way it deletes the challenge, and any later check is
    answered [NO_VERIFICATION]. *)
Theorem checkVerification_sixth_check (wait : bool -> bool) (fuel : nat)
  (serverId : string) (r : Runtime.t) (v : Verification.t)
  (c1 c2 c3 c4 c5 : Directory * Z) :
  db.returns wait ->
  idle r ->
  RobloxVerification.getVerification serverId
    (db.content (Runtime.roblox_verifications r)) = Some v ->
  Verification.attempts v = 0 ->
  Verification.maxAttempts v = 5 ->
  codeNotFound v c1 -> codeNotFound v c2 -> codeNotFound v c3 ->
  codeNotFound v c4 -> codeNotFound v c5 ->
  let run :=
    verification.checkRepeatedly wait fuel serverId [c1; c2; c3; c4; c5] r in
  exists results,
    fst run = map Fulfilled results
    /\ map checkError results =
       [Some RobloxVerification.CODE_NOT_FOUND;
        Some RobloxVerification.CODE_NOT_FOUND;
        Some RobloxVerification.CODE_NOT_FOUND;
        Some RobloxVerification.CODE_NOT_FOUND;
        Some RobloxVerification.CODE_NOT_FOUND]
    /\ map attemptsRemaining results = [Some 4; Some 3; Some 2; Some 1; Some 0]
    /\ forall dir now,
        let sixth :=
          verification.checkVerification wait fuel dir serverId now (snd run)
        in
        fst sixth =
        Fulfilled
          (RobloxVerification.failure
             (if Verification.expiresAt v <? now
              then RobloxVerification.EXPIRED
              else RobloxVerification.MAX_ATTEMPTS))
        /\ RobloxVerification.getVerification serverId
             (db.content (Runtime.roblox_verifications (snd sixth))) = None
        /\ forall dir' now',
            fst (verification.checkVerification wait fuel dir' serverId now'
                   (snd sixth)) =
            Fulfilled
              (RobloxVerification.failure RobloxVerification.NO_VERIFICATION).
Proof.
  intros Hwait Hi Hget Ha Hm H1 H2 H3 H4 H5 run.
  destruct (checkVerification_max_attempts serverId
              (roblox_verifications (documents r)) v c1 c2 c3 c4 c5 Hget Ha Hm
              H1 H2 H3 H4 H5) as (He & Hr & Hsixth).
  destruct (simulates_checkRepeatedly wait fuel Hwait serverId
              [c1; c2; c3; c4; c5] r Hi) as (Hfst & Hdoc & Hi5).
  fold run in Hfst, Hdoc, Hi5.
  eexists. split; [exact Hfst|]. split; [exact He|]. split; [exact Hr|].
  intros dir now sixth.
  destruct (simulates_checkVerification wait fuel Hwait dir serverId now
              (snd run) Hi5) as (r6 & E6 & Hd6 & Hi6).
  fold sixth in E6. rewrite Hdoc in E6, Hd6.
  cbn [roblox_verifications setVerifications] in E6, Hd6.
  destruct (Hsixth dir now) as (S1 & S2 & S3).
  rewrite E6. cbn [fst snd]. split; [rewrite S1; reflexivity|].
  change (db.content (Runtime.roblox_verifications r6))
    with (roblox_verifications (documents r6)).
  rewrite Hd6. cbn [roblox_verifications setVerifications].
  split; [exact S2|].
  intros dir' now'.
  destruct (simulates_checkVerification wait fuel Hwait dir' serverId now'
              r6 Hi6) as (r7 & E7 & _ & _).
  rewrite E7, Hd6. cbn [fst roblox_verifications setVerifications].
  rewrite S3. reflexivity.
Qed.

Lemma checkVerification_sixth_check_witness :
  exists results,
    fst (verification.checkRepeatedly returningWait 0 "1001"
           [failedCheck 1000; failedCheck 2000; failedCheck 3000;
            failedCheck 4000; failedCheck 5000]
           (started (worldWithVerifications exampleVerifications)))
    = map Fulfilled results
    /\ map checkError results =
       [Some RobloxVerification.CODE_NOT_FOUND;
        Some RobloxVerification.CODE_NOT_FOUND;
        Some RobloxVerification.CODE_NOT_FOUND;
        Some RobloxVerification.CODE_NOT_FOUND;
        Some RobloxVerification.CODE_NOT_FOUND].
Proof.
  destruct (checkVerification_sixth_check returningWait 0 "1001"
              (started (worldWithVerifications exampleVerifications))
              (RobloxVerification.newVerification "1001" "G" "Group"
                 "ABCD1234" "42" 0)
              (failedCheck 1000) (failedCheck 2000) (failedCheck 3000)
              (failedCheck 4000) (failedCheck 5000))
    as (results & Hfst & Herr & _);
    try reflexivity;
    try (split; [simpl; lia | eexists; split; reflexivity]).
  - apply idle_started.
  - exists results. split; [exact Hfst | exact Herr].
Defined.

(** On a challenge started at instant 0, five consecutive checks that do not
    find the code.  As [db.modify] is written, no check ever answers, the
    fifth no more than the others, and the stored attempts stay 0; no check
    at all is ever answered [MAX_ATTEMPTS].  When the wait of [db.modify]
    comes back, the fifth check is answered [CODE_NOT_FOUND], not
    [MAX_ATTEMPTS]; and after five such checks, a check made after the expiry
    is answered [EXPIRED], not [MAX_ATTEMPTS]. *)
Lemma checkVerification_sixth_check_refuted :
  let calls :=
    [failedCheck 1000; failedCheck 2000; failedCheck 3000; failedCheck 4000;
     failedCheck 5000] in
  let r := started (worldWithVerifications exampleVerifications) in
  let written :=
    verification.checkRepeatedly (db.waitForLock 1000) 1000 "1001" calls r in
  let carried := verification.checkRepeatedly returningWait 0 "1001" calls r in
  fst written = [Pending; Pending; Pending; Pending; Pending]
  /\ option_map Verification.attempts
       (RobloxVerification.getVerification "1001"
          (db.content (Runtime.roblox_verifications (snd written)))) = Some 0
  /\ (forall fuel dir serverId now r0,
         fst (verification.checkVerification (db.waitForLock fuel) fuel dir
                serverId now r0)
         <> Fulfilled
              (RobloxVerification.failure RobloxVerification.MAX_ATTEMPTS))
  /\ nth_error (fst carried) 4 =
     Some (Fulfilled
             {| checkSuccess := false;
                checkError := Some RobloxVerification.CODE_NOT_FOUND;
                checkMessage := None;
                attemptsRemaining := Some 0 |})
  /\ Some RobloxVerification.CODE_NOT_FOUND
     <> Some RobloxVerification.MAX_ATTEMPTS
  /\ fst (verification.checkVerification returningWait 0
            (fst (failedCheck 700000)) "1001" 700000 (snd carried)) =
     Fulfilled (RobloxVerification.failure RobloxVerification.EXPIRED)
  /\ RobloxVerification.EXPIRED <> RobloxVerification.MAX_ATTEMPTS.
Proof.
  cbv zeta. split; [vm_compute; reflexivity|]. split; [vm_compute; reflexivity|].
  split.
  - intros fuel dir serverId now r0.
    destruct (checkVerification_written fuel dir serverId now r0) as [E|E];
      rewrite E; discriminate.
  - vm_compute. repeat split; discriminate.
Qed.

(** ** The middleware on the handler *)

Section MiddlewareOnHandler.

Variable hashApiKey : string -> string.
Variable verifyRequestSignature :
  string -> string -> string -> Z -> string -> string -> bool.

(** [validateApiKey] as it is written never returns a link: a key whose hash
    matches sends it into [updateApiKeyUsage], which waits for [db.modify]. *)
Lemma validateApiKey_written (fuel : nat) (apiKey : string) (now : Z)
  (r : Runtime.t) :
  fst (robloxLinks.validateApiKey hashApiKey (db.waitForLock fuel) fuel apiKey
         now r) = Pending
  \/ fst (robloxLinks.validateApiKey hashApiKey (db.waitForLock fuel) fuel
            apiKey now r) = Fulfilled None.
Proof.
  unfold robloxLinks.validateApiKey, robloxLinks.getAllLinks, Async.tryCatch,
    Async.bind, Async.read, Async.ret.
  destruct (db.read (db.waitForLock fuel) true now (PATHS.get PATHS.LINKS r))
    as [[links|msg|] f].
  - destruct (findByHash (hashApiKey apiKey) links) as [[serverId link]|].
    + left. unfold robloxLinks.updateApiKeyUsage, Async.tryCatch, Async.bind,
        robloxLinks.updateLink, Async.bind.
      rewrite modify_stuck. reflexivity.
    + right. reflexivity.
  - destruct (findByHash (hashApiKey apiKey) []) as [[serverId link]|] eqn:F;
      [discriminate F|]. right. reflexivity.
  - left. reflexivity.
Qed.


End MiddlewareOnHandler.



(** ** The queue under the operations of the program, on the handler *)

Section ProgramOnHandler.

Variable wait : bool -> bool.
Variable fuel : nat.
Hypothesis wait_returns : db.returns wait.

Lemma freshIds_documents (ops : list System.Operation) :
  forall r,
    idle r ->
    Fresh.freshIds wait fuel ops r = System.freshIds ops (documents r).
Proof.
  induction ops as [|op ops IH]; intros r Hi; [reflexivity|].
  cbn [Fresh.freshIds System.freshIds].
  destruct (simulates_run wait fuel wait_returns op r Hi) as (Hd & Hi').
  rewrite (IH _ Hi'), Hd. reflexivity.
Qed.

End ProgramOnHandler.





(** ** What the store never does *)



(** [getJob] in a process that has just started: the queue is read from the
    file and kept in the cache. *)
Lemma getJob_started (fuel : nat) (jobId : string) (now : Z) (w : World) :
  syncQueue.getJob fuel jobId now (started w) =
  (Fulfilled (SyncQueue.getJob jobId (sync_queue w)),
   PATHS.put PATHS.SYNC_QUEUE
     (db.mkFile (sync_queue w) false
        (Some (db.mkCached (sync_queue w) now))) (started w)).
Proof.
  unfold syncQueue.getJob, syncQueue.getAllJobs, Async.tryCatch, Async.bind,
    Async.read, db.read, db.readFile.
  cbn [PATHS.get PATHS.SYNC_QUEUE started Runtime.sync_queue db.fresh
       db.cached db.locked db.content].
  rewrite waitForLock_spec. reflexivity.
Qed.

(** C5.  [markFailed] computes the retry of a job as the claim has it: the
    delay is [min(5 * 2^(attempts-1), 30)] minutes on the incremented
    attempts, which is 5, 10, 20, 30, 30 minutes for attempts 1 to 5, never
    decreases and never exceeds 30 minutes.  But it hands the retry to
    [updateJob], which waits for [db.modify]: as [db.modify] is written,
    [markFailed] never returns a job and the queue file keeps its content;
    on a job that it finds, it never settles, and the stored job is neither
    retrying nor given a retry time.  When the wait of [db.modify] comes
    back, a job with attempts left becomes retrying with [nextRetryAt] the
    current instant plus the delay. *)
Theorem markFailed_never_schedules :
  (forall fuel jobId errorMessage retry now r,
      let run :=
        syncQueue.markFailed (db.waitForLock fuel) fuel jobId errorMessage
          retry now r in
      (forall job, fst run <> Fulfilled job)
      /\ db.content (Runtime.sync_queue (snd run))
         = db.content (Runtime.sync_queue r))
  /\ (forall fuel jobId errorMessage retry now w job,
         SyncQueue.getJob jobId (sync_queue w) = Some job ->
         let run :=
           syncQueue.markFailed (db.waitForLock fuel) fuel jobId errorMessage
             retry now (started w) in
         fst run = Pending
         /\ SyncQueue.getJob jobId (db.content (Runtime.sync_queue (snd run)))
            = Some job
         /\ db.locked (Runtime.sync_queue (snd run)) = true)
  /\ (forall wait fuel jobId errorMessage now r job,
         db.returns wait ->
         idle r ->
         SyncQueue.getJob jobId (db.content (Runtime.sync_queue r))
         = Some job ->
         0 <= Job.attempts job ->
         Job.attempts job + 1 < Job.maxAttempts job ->
         exists job' r',
           syncQueue.markFailed wait fuel jobId errorMessage true now r
           = (Fulfilled job', r')
           /\ SyncQueue.getJob jobId (db.content (Runtime.sync_queue r'))
              = Some job'
           /\ Job.status job' = RETRYING
           /\ Job.attempts job' = Job.attempts job + 1
           /\ Job.nextRetryAt job' =
              Some (now
                    + Z.min (5 * 2 ^ (Job.attempts job' - 1)) 30 * 60 * 1000))
  /\ (Z.min (5 * 2 ^ (1 - 1)) 30 = 5
      /\ Z.min (5 * 2 ^ (2 - 1)) 30 = 10
      /\ Z.min (5 * 2 ^ (3 - 1)) 30 = 20
      /\ Z.min (5 * 2 ^ (4 - 1)) 30 = 30
      /\ Z.min (5 * 2 ^ (5 - 1)) 30 = 30)
  /\ (forall a b,
         1 <= a -> a <= b ->
         SyncQueue.delayMinutes a <= SyncQueue.delayMinutes b)
  /\ (forall a, SyncQueue.delayMinutes a <= 30).
Proof.
  split; [|split; [|split; [|split; [|split]]]].
  - intros fuel jobId errorMessage retry now r. cbv zeta. split.
    + intros job.
      unfold syncQueue.markFailed, Async.bind.
      destruct (syncQueue.getJob fuel jobId now r) as [[[found|]|msg|] r1];
        try discriminate.
      destruct (retry && _); unfold syncQueue.updateJob, Async.bind,
        Async.mutate; rewrite modify_stuck; discriminate.
    + pose proof (keeps_markFailed fuel jobId errorMessage retry now r) as K.
      unfold stored in K. congruence.
  - intros fuel jobId errorMessage retry now w job Hget. cbv zeta.
    unfold syncQueue.markFailed, Async.bind.
    rewrite getJob_started, Hget. unfold Async.mutate.
    destruct (retry && _); unfold syncQueue.updateJob, Async.bind;
      rewrite modify_stuck;
      cbn [fst snd PATHS.put PATHS.get PATHS.SYNC_QUEUE Runtime.sync_queue
           held db.content db.locked db.mutate];
      (split; [reflexivity|]); (split; [exact Hget | reflexivity]).
  - intros wait fuel jobId errorMessage now r job Hwait Hi Hget Hnonneg Hlt.
    assert (Hp : present [] (sync_queue (documents r))) by apply present_nil.
    destruct (simulates_markFailed wait fuel Hwait [] jobId errorMessage true
                now r Hi Hp) as (r' & E & Hd & _ & _).
    destruct (markFailed_backoff jobId errorMessage now
                (sync_queue (documents r)) job Hget Hnonneg Hlt)
      as ((job' & q' & Hrun & Hget' & Hs & Ha & Hn) & _).
    unfold onQueue in E, Hd. rewrite Hrun in E, Hd. cbn [fst snd settled] in *.
    exists job', r'. split; [exact E|].
    change (db.content (Runtime.sync_queue r'))
      with (sync_queue (documents r')).
    rewrite Hd. repeat split; assumption.
  - exact delayMinutes_table.
  - exact delayMinutes_monotone.
  - exact delayMinutes_cap.
Qed.

(** The failing input of C5: [markFailed] with retry allowed, in a process
    that has just started, on a queued job at its first failure. *)
Lemma markFailed_never_schedules_witness :
  let job := exampleJob "A" 0 1 in
  let w := setQueue [job] (worldWithLinks []) in
  (forall fuel,
      let run :=
        syncQueue.markFailed (db.waitForLock fuel) fuel "A" "boom" true 1000
          (started w) in
      fst run = Pending
      /\ SyncQueue.getJob "A" (db.content (Runtime.sync_queue (snd run)))
         = Some job)
  /\ exists job' r',
      syncQueue.markFailed returningWait 0 "A" "boom" true 1000 (started w)
      = (Fulfilled job', r')
      /\ Job.status job' = RETRYING
      /\ Job.nextRetryAt job' = Some (1000 + 5 * 60 * 1000).
Proof.
  intros job w.
  destruct markFailed_never_schedules as (_ & W & D & _). split.
  - intros fuel run.
    destruct (W fuel "A" "boom" true 1000 w job eq_refl) as (H1 & H2 & _).
    split; [exact H1 | exact H2].
  - destruct (D returningWait 0%nat "A" "boom" 1000 (started w) job
                returningWait_returns (idle_started _) eq_refl)
      as (job' & r' & E & _ & Hs & Ha & Hn); [simpl; lia|simpl; lia|].
    exists job', r'. split; [exact E|]. split; [exact Hs|].
    rewrite Hn, Ha. reflexivity.
Defined.

Section KeysNeverIssued.

Variable hashApiKey : string -> string.

(** C9.  [createLink] and [regenerateApiKey] make a key and the link that
    holds its hash, and wait for [db.modify] to store the link before they
    return the key; as [db.modify] is written they never settle, so no key
    is ever returned and the links file keeps its content; and
    [validateApiKey] never returns a link, since a key whose hash matches
    sends it into [updateApiKeyUsage].  When the wait of [db.modify] comes
    back, the round trip is as the claim has it: after [createLink] for a
    tenant, [validateApiKey] on the key that was returned finds the link of
    that tenant; after [regenerateApiKey], [validateApiKey] finds nothing for
    the first key and the link of the tenant for the new key.  For the round
    trip the keys of the document are distinct and the hash is assumed to
    tell the two keys apart from each other and from the keys of the other
    tenants. *)
Theorem createLink_never_issues :
  (forall fuel serverId linkData randomHex now r,
      let run :=
        robloxLinks.createLink hashApiKey (db.waitForLock fuel) fuel serverId
          linkData randomHex now r in
      fst run = Pending
      /\ db.content (Runtime.roblox_links (snd run))
         = db.content (Runtime.roblox_links r)
      /\ db.locked (Runtime.roblox_links (snd run)) = true)
  /\ (forall fuel serverId randomHex now r,
         let run :=
           robloxLinks.regenerateApiKey hashApiKey (db.waitForLock fuel) fuel
             serverId randomHex now r in
         fst run = Pending
         /\ db.content (Runtime.roblox_links (snd run))
            = db.content (Runtime.roblox_links r))
  /\ (forall fuel apiKey now r link,
         let run :=
           robloxLinks.validateApiKey hashApiKey (db.waitForLock fuel) fuel
             apiKey now r in
         fst run <> Fulfilled (Some link)
         /\ db.content (Runtime.roblox_links (snd run))
            = db.content (Runtime.roblox_links r))
  /\ (forall wait fuel serverId linkData randomHex1 randomHex2 t1 t2 t3 t4 t5
             r,
         let key1 := generateApiKey serverId randomHex1 in
         let key2 := generateApiKey serverId randomHex2 in
         db.returns wait ->
         idle r ->
         NoDup (map fst (db.content (Runtime.roblox_links r))) ->
         (forall k l,
             In (k, l) (db.content (Runtime.roblox_links r)) ->
             k <> serverId ->
             Link.apiKeyHash l <> hashApiKey key1
             /\ Link.apiKeyHash l <> hashApiKey key2) ->
         hashApiKey key2 <> hashApiKey key1 ->
         exists link1 r1 r2 link2 r3 r4 r5,
           robloxLinks.createLink hashApiKey wait fuel serverId linkData
             randomHex1 t1 r = (Fulfilled (link1, key1), r1)
           /\ getLink serverId (db.content (Runtime.roblox_links r1))
              = Some link1
           /\ robloxLinks.validateApiKey hashApiKey wait fuel key1 t2 r1
              = (Fulfilled (Some link1), r2)
           /\ Link.serverId link1 = serverId
           /\ robloxLinks.regenerateApiKey hashApiKey wait fuel serverId
                randomHex2 t3 r2 = (Fulfilled (link2, key2), r3)
           /\ getLink serverId (db.content (Runtime.roblox_links r3))
              = Some link2
           /\ robloxLinks.validateApiKey hashApiKey wait fuel key1 t4 r3
              = (Fulfilled None, r4)
           /\ robloxLinks.validateApiKey hashApiKey wait fuel key2 t5 r4
              = (Fulfilled (Some link2), r5)
           /\ Link.serverId link2 = serverId).
Proof.
  split; [|split; [|split]].
  - intros fuel serverId linkData randomHex now r. cbv zeta.
    unfold robloxLinks.createLink, Async.bind. rewrite modify_stuck.
    destruct r; repeat split.
  - intros fuel serverId randomHex now r. cbv zeta.
    unfold robloxLinks.regenerateApiKey, Async.bind, robloxLinks.updateLink,
      Async.bind.
    rewrite modify_stuck. destruct r; repeat split.
  - intros fuel apiKey now r link. cbv zeta. split.
    + destruct (validateApiKey_written hashApiKey fuel apiKey now r) as [E|E];
        rewrite E; discriminate.
    + pose proof (keeps_validateApiKey fuel hashApiKey apiKey now r) as K.
      unfold stored in K. congruence.
  - intros wait fuel serverId linkData randomHex1 randomHex2 t1 t2 t3 t4 t5 r
      key1 key2 Hwait Hi Hnd Hfresh Hdiff.
    destruct (issue_validate_regenerate hashApiKey serverId linkData
                randomHex1 randomHex2 t1 t2 t3 t4
                (roblox_links (documents r)) Hnd Hfresh Hdiff)
      as (link1 & ls1 & ls1' & link2 & ls2 & C1 & G1 & V1 & S1 & R2 & G2 & V2
          & V3 & S2).
    fold key1 in C1, V1, V2. fold key2 in R2, V3.
    destruct (simulates_createLink hashApiKey wait fuel Hwait serverId
                linkData randomHex1 t1 r Hi) as (r1 & E1 & D1 & I1).
    rewrite C1 in E1, D1. cbn [fst snd] in E1, D1.
    destruct (simulates_validateApiKey hashApiKey wait fuel Hwait key1 t2 r1
                I1) as (r2 & E2 & D2 & I2).
    rewrite D1 in E2, D2. cbn [roblox_links setLinks] in E2, D2.
    rewrite V1 in E2, D2. cbn [fst snd] in E2, D2.
    assert (G1' : getLink serverId (roblox_links (documents r2)) <> None).
    { rewrite D2. cbn [roblox_links setLinks].
      unfold regenerateApiKey, updateLink in R2. unfold getLink.
      destruct (dictGet serverId ls1'); [discriminate|discriminate R2]. }
    destruct (getLink serverId (roblox_links (documents r2))) as [old|] eqn:O;
      [clear G1'|contradiction G1'; reflexivity].
    destruct (simulates_regenerateApiKey hashApiKey wait fuel Hwait serverId
                randomHex2 t3 r2 old I2 O)
      as (r3 & answer & ls3 & R3 & E3 & D3 & I3).
    rewrite D2 in R3. cbn [roblox_links setLinks] in R3.
    fold key2 in R3. rewrite R2 in R3. injection R3 as <- <-.
    destruct (simulates_validateApiKey hashApiKey wait fuel Hwait key1 t4 r3
                I3) as (r4 & E4 & D4 & I4).
    rewrite D3 in E4, D4. cbn [roblox_links setLinks] in E4, D4.
    rewrite V2 in E4, D4. cbn [fst snd] in E4, D4.
    destruct (simulates_validateApiKey hashApiKey wait fuel Hwait key2 t5 r4
                I4) as (r5 & E5 & _ & _).
    rewrite D4 in E5. cbn [roblox_links setLinks] in E5.
    assert (V3' : fst (validateApiKey hashApiKey key2 t5 ls2) = Some link2).
    { unfold validateApiKey in V3 |- *.
      destruct (findByHash (hashApiKey key2) ls2) as [[k l]|];
        cbn [fst] in *; exact V3. }
    rewrite V3' in E5.
    exists link1, r1, r2, link2, r3, r4, r5.
    split; [exact E1|].
    split; [change (db.content (Runtime.roblox_links r1))
              with (roblox_links (documents r1)); rewrite D1; exact G1|].
    split; [exact E2|]. split; [exact S1|]. split; [exact E3|].
    split; [change (db.content (Runtime.roblox_links r3))
              with (roblox_links (documents r3)); rewrite D3; exact G2|].
    split; [exact E4|]. split; [exact E5 | exact S2].
Qed.

End KeysNeverIssued.

(** The failing input of C9: [createLink] in a process that has just started
    with no link, and the round trip for tenant 1001 when the wait comes
    back. *)
Lemma createLink_never_issues_witness :
  let linkData := LinkData.mk "G" None None None None None None None None in
  let r := started (worldWithLinks []) in
  (forall fuel,
      let run :=
        robloxLinks.createLink exampleHash (db.waitForLock fuel) fuel "1001"
          linkData "aa" 0 r in
      fst run = Pending /\ db.content (Runtime.roblox_links (snd run)) = [])
  /\ exists link1 r1 r2,
      robloxLinks.createLink exampleHash returningWait 0 "1001" linkData "aa"
        0 r = (Fulfilled (link1, generateApiKey "1001" "aa"), r1)
      /\ robloxLinks.validateApiKey exampleHash returningWait 0
           (generateApiKey "1001" "aa") 1 r1 = (Fulfilled (Some link1), r2)
      /\ Link.serverId link1 = "1001".
Proof.
  intros linkData r.
  destruct (createLink_never_issues exampleHash) as (W & _ & _ & D). split.
  - intros fuel run.
    destruct (W fuel "1001" linkData "aa" 0 r) as (H1 & H2 & _).
    split; [exact H1 | exact H2].
  - destruct (D returningWait 0%nat "1001" linkData "aa" "bb" 0 1 2 3 4 r
                returningWait_returns (idle_started _))
      as (link1 & r1 & r2 & _ & _ & _ & _ & C1 & _ & V1 & S1 & _).
    + constructor.
    + intros k l [].
    + vm_compute. discriminate.
    + exists link1, r1, r2. split; [exact C1|]. split; [exact V1 | exact S1].
Defined.

(** C4.  The queue keeps the attempts of a job within its [maxAttempts] and
    a failed job failed, as the claim has it, through what [markFailed] and
    the operator's re-queue ask of the store; but both wait for [db.modify].
    As [db.modify] is written, [markFailed] on a job whose attempts would
    reach [maxAttempts] never settles and the stored job is not failed, and
    the re-queue never settles and leaves the failed jobs failed, with their
    attempts.  When the wait of [db.modify] comes back: [markFailed] leaves
    such a job failed with a completion time, whether retry is allowed or
    not; the re-queue for a tenant answers with the number of failed jobs of
    the tenant and puts each of them back to queued with no attempts and no
    retry time, leaving every other job as it is; from an empty queue,
    whatever the operations, the attempts of a job never exceed its
    [maxAttempts]; and a failed job stays in the queue as it is through
    every operation other than the re-queue. *)
Theorem failed_never_stored :
  (forall fuel jobId errorMessage retry now w job,
      SyncQueue.getJob jobId (sync_queue w) = Some job ->
      Job.maxAttempts job <= Job.attempts job + 1 ->
      let run :=
        syncQueue.markFailed (db.waitForLock fuel) fuel jobId errorMessage
          retry now (started w) in
      fst run = Pending
      /\ SyncQueue.getJob jobId (db.content (Runtime.sync_queue (snd run)))
         = Some job)
  /\ (forall fuel serverId now r,
         let run :=
           roleSync.retryFailed (db.waitForLock fuel) fuel serverId now r in
         fst run = Pending
         /\ db.content (Runtime.sync_queue (snd run))
            = db.content (Runtime.sync_queue r))
  /\ (forall wait fuel jobId errorMessage retry now r job,
         db.returns wait ->
         idle r ->
         SyncQueue.getJob jobId (db.content (Runtime.sync_queue r))
         = Some job ->
         Job.maxAttempts job <= Job.attempts job + 1 ->
         exists job' r',
           syncQueue.markFailed wait fuel jobId errorMessage retry now r
           = (Fulfilled job', r')
           /\ SyncQueue.getJob jobId (db.content (Runtime.sync_queue r'))
              = Some job'
           /\ Job.status job' = FAILED
           /\ Job.attempts job' = Job.attempts job + 1
           /\ Job.completedAt job' = Some now)
  /\ (forall wait fuel serverId now r,
         db.returns wait ->
         idle r ->
         serverId <> "" ->
         let mine j :=
           statusEqb (Job.status j) FAILED
           && (Job.serverId j =? serverId)%string in
         exists r',
           roleSync.retryFailed wait fuel (Some serverId) now r =
           (Fulfilled
              (Z.of_nat
                 (List.length
                    (filter mine (db.content (Runtime.sync_queue r))))), r')
           /\ db.content (Runtime.sync_queue r') =
              map (SyncQueue.requeue (Some serverId) now)
                (db.content (Runtime.sync_queue r))
           /\ forall j,
               (mine j = true ->
                let j' := SyncQueue.requeue (Some serverId) now j in
                Job.status j' = QUEUED
                /\ Job.attempts j' = 0
                /\ Job.nextRetryAt j' = None
                /\ Job.id j' = Job.id j
                /\ Job.maxAttempts j' = Job.maxAttempts j)
               /\ (mine j = false ->
                   SyncQueue.requeue (Some serverId) now j = j))
  /\ (forall wait fuel ops later r0,
         db.returns wait ->
         idle r0 ->
         System.initial (documents r0) = true ->
         Fresh.freshIds wait fuel (ops ++ later) r0 = true ->
         noRetryFailed later = true ->
         Forall (fun j => Job.attempts j <= Job.maxAttempts j)
           (db.content (Runtime.sync_queue (Program.runAll wait fuel ops r0)))
         /\ forall j,
             In j (db.content
                     (Runtime.sync_queue (Program.runAll wait fuel ops r0))) ->
             Job.status j = FAILED ->
             In j (db.content
                     (Runtime.sync_queue
                        (Program.runAll wait fuel (ops ++ later) r0)))).
Proof.
  split; [|split; [|split; [|split]]].
  - intros fuel jobId errorMessage retry now w job Hget Hmax. cbv zeta.
    unfold syncQueue.markFailed, Async.bind.
    rewrite getJob_started, Hget. unfold Async.mutate.
    destruct (retry && _); unfold syncQueue.updateJob, Async.bind;
      rewrite modify_stuck;
      cbn [fst snd PATHS.put PATHS.get PATHS.SYNC_QUEUE Runtime.sync_queue
           held db.content db.locked db.mutate];
      (split; [reflexivity | exact Hget]).
  - intros fuel serverId now r. cbv zeta.
    unfold roleSync.retryFailed, syncQueue.retryFailedJobs, Async.tryCatch,
      Async.bind.
    rewrite modify_stuck. destruct r; split; reflexivity.
  - intros wait fuel jobId errorMessage retry now r job Hwait Hi Hget Hmax.
    destruct (simulates_markFailed wait fuel Hwait [] jobId errorMessage retry
                now r Hi (present_nil _)) as (r' & E & Hd & _ & _).
    destruct (onQueue_markFailed jobId errorMessage retry now (documents r)
                job Hget)
      as (new & q' & Hrun & Hrep & Hsame & Hfail & _).
    rewrite Hrun in E, Hd. cbn [fst snd settled] in E, Hd.
    exists new, r'. split; [exact E|].
    change (db.content (Runtime.sync_queue r'))
      with (sync_queue (documents r')).
    rewrite Hd. cbn [sync_queue setQueue].
    split; [apply (replaced_getJob _ _ _ _ _ Hrep); apply Hsame|].
    destruct Hfail as (Ha & Hf).
    assert (Hm : Job.maxAttempts new = Job.maxAttempts job) by apply Hsame.
    assert (E2 : (Job.attempts job + 1 <? Job.maxAttempts new) = false)
      by (apply Z.ltb_ge; lia).
    rewrite E2, andb_false_r in Hf. destruct Hf as (Hs & Hc).
    repeat split; assumption.
  - intros wait fuel serverId now r Hwait Hi Hne mine.
    destruct (simulates_retryFailedJobs wait fuel Hwait (Some serverId) now r
                Hi (present_nil _)) as (r' & E & Hd & _ & _).
    unfold SyncQueue.retryFailedJobs in E, Hd. cbn [fst snd settled] in E, Hd.
    assert (Ht : truthyString (Some serverId) = true)
      by (destruct serverId; [contradiction Hne; reflexivity|reflexivity]).
    rewrite Ht in E. cbn [negb orb] in E.
    exists r'. split; [exact E|].
    split.
    + change (db.content (Runtime.sync_queue r'))
        with (sync_queue (documents r')).
      rewrite Hd. reflexivity.
    + intros j. unfold SyncQueue.requeue. rewrite Ht. cbn [negb orb].
      fold (mine j). split; intros Hj; rewrite Hj; [|reflexivity].
      cbv zeta. repeat split.
  - intros wait fuel ops later r0 Hwait Hi Hinit Hfresh Hno.
    rewrite (freshIds_documents wait fuel Hwait (ops ++ later) r0 Hi)
      in Hfresh.
    destruct (failed_is_terminal ops later (documents r0) Hinit Hfresh Hno)
      as (Hrange & _ & Hkeep & _).
    destruct (simulates_runAll wait fuel Hwait ops r0 Hi) as (Hd & _).
    destruct (simulates_runAll wait fuel Hwait (ops ++ later) r0 Hi)
      as (Hd' & _).
    change (db.content (Runtime.sync_queue (Program.runAll wait fuel ops r0)))
      with (sync_queue (documents (Program.runAll wait fuel ops r0))).
    change (db.content
              (Runtime.sync_queue
                 (Program.runAll wait fuel (ops ++ later) r0)))
      with (sync_queue
              (documents (Program.runAll wait fuel (ops ++ later) r0))).
    rewrite Hd, Hd'. split; [exact Hrange | exact Hkeep].
Qed.

(** The failing inputs of C4: [markFailed] on a job whose only attempt is
    used up by the failure, and the re-queue of the failed jobs of its
    tenant, in a process that has just started. *)
Lemma failed_never_stored_witness :
  let job :=
    SyncQueue.newJob
      (JobData.mk "1001" "77" None "G" 1 None None None (Some 1) None None)
      "A" 0 in
  let w := setQueue [job] (worldWithLinks []) in
  (forall fuel,
      let run :=
        syncQueue.markFailed (db.waitForLock fuel) fuel "A" "boom" true 1000
          (started w) in
      fst run = Pending
      /\ SyncQueue.getJob "A" (db.content (Runtime.sync_queue (snd run)))
         = Some job)
  /\ (forall fuel,
         fst (roleSync.retryFailed (db.waitForLock fuel) fuel (Some "1001")
                2000 (started w)) = Pending)
  /\ exists failed r1 r2,
      syncQueue.markFailed returningWait 0 "A" "boom" true 1000 (started w)
      = (Fulfilled failed, r1)
      /\ Job.status failed = FAILED
      /\ Job.completedAt failed = Some 1000
      /\ roleSync.retryFailed returningWait 0 (Some "1001") 2000 r1
         = (Fulfilled 1, r2)
      /\ map (fun j => (Job.status j, Job.attempts j))
           (db.content (Runtime.sync_queue r2)) = [(QUEUED, 0)].
Proof.
  intros job w.
  destruct failed_never_stored as (W1 & W2 & D1 & D2 & _). split; [|split].
  - intros fuel run.
    destruct (W1 fuel "A" "boom" true 1000 w job eq_refl) as (H1 & H2);
      [simpl; lia|].
    split; [exact H1 | exact H2].
  - intros fuel. apply (W2 fuel (Some "1001") 2000 (started w)).
  - destruct (D1 returningWait 0%nat "A" "boom" true 1000 (started w) job
                returningWait_returns (idle_started _) eq_refl)
      as (failed & r1 & E1 & G1 & Hs & _ & Hc); [simpl; lia|].
    exists failed, r1.
    assert (Hr1 : r1 = snd (syncQueue.markFailed returningWait 0 "A" "boom"
                             true 1000 (started w))) by (rewrite E1; reflexivity).
    assert (Hi1 : idle r1) by (rewrite Hr1; vm_compute; repeat split).
    destruct (D2 returningWait 0%nat "1001" 2000 r1 returningWait_returns Hi1)
      as (r2 & E2 & C2 & _); [discriminate|].
    exists r2. split; [exact E1|]. split; [exact Hs|]. split; [exact Hc|].
    split.
    + rewrite E2. rewrite Hr1. vm_compute. reflexivity.
    + rewrite C2, Hr1. vm_compute. reflexivity.
Defined.

(** * Further properties of the handler *)

(** ** The store *)

(** X31.  [db.read] and [db.modify].  A read with the cache is answered from
    an entry that is less than five seconds old without a look at the lock.
    Any other read waits for the lock: on a free file it answers with the
    document and, with the cache, records it; on a locked file it never
    settles.  [db.modify] as it is written never settles on any file: the
    modifier is not run, the document and the cache stay, and the lock is
    left set, so that every later [db.modify] of the path and every read
    that does not come from the cache never settle either.  When the wait of
    its read comes back, [db.modify] on a free file runs the modifier on the
    document, writes what it returns, empties the cache and frees the lock;
    and a modifier that throws leaves the document as it was and the lock
    set. *)
Theorem db_read_modify {D A : Type} (modifier : D -> outcome (A * D))
  (f : db.File D) :
  (forall wait now c,
      db.cached f = Some c ->
      now - db.timestamp c < 5000 ->
      db.read wait true now f = (Fulfilled (db.data c), f))
  /\ (forall fuel useCache now,
         (useCache = true ->
          forall c, db.cached f = Some c -> 5000 <= now - db.timestamp c) ->
         db.read (db.waitForLock fuel) useCache now f =
         if db.locked f then (Pending, f)
         else (Fulfilled (db.content f),
               if useCache
               then db.mkFile (db.content f) false
                      (Some (db.mkCached (db.content f) now))
               else f))
  /\ (forall fuel,
         let run := db.modify (db.waitForLock fuel) fuel modifier f in
         fst run = Pending
         /\ db.content (snd run) = db.content f
         /\ db.cached (snd run) = db.cached f
         /\ db.locked (snd run) = true
         /\ (forall wait' fuel' (modifier' : D -> outcome (A * D)),
                db.modify wait' fuel' modifier' (snd run) = (Pending, snd run))
         /\ (forall fuel' now,
                db.cached f = None ->
                db.read (db.waitForLock fuel') true now (snd run)
                = (Pending, snd run)))
  /\ (forall wait fuel,
         db.returns wait ->
         db.locked f = false ->
         match modifier (db.content f) with
         | Ret (a, modified) =>
             db.modify wait fuel modifier f =
             (Fulfilled (a, modified), db.mkFile modified false None)
         | Throw msg =>
             fst (db.modify wait fuel modifier f) = Thrown msg
             /\ db.content (snd (db.modify wait fuel modifier f))
                = db.content f
             /\ db.locked (snd (db.modify wait fuel modifier f)) = true
         end).
Proof.
  split; [|split; [|split]].
  - intros wait now c Hc Hage. unfold db.read. rewrite Hc.
    destruct (now - db.timestamp c <? 5000) eqn:E; [reflexivity|].
    apply Z.ltb_ge in E. lia.
  - intros fuel useCache now Hold. unfold db.read, db.readFile.
    rewrite waitForLock_spec.
    destruct useCache.
    + destruct (db.cached f) as [c|] eqn:Hc.
      * specialize (Hold eq_refl c eq_refl).
        destruct (now - db.timestamp c <? 5000) eqn:E;
          [apply Z.ltb_lt in E; lia|].
        destruct f as [d [|] c0]; reflexivity.
      * destruct f as [d [|] c0]; reflexivity.
    + destruct f as [d [|] c0]; reflexivity.
  - intros fuel. cbv zeta. rewrite modify_waits.
    cbn [fst snd held db.content db.cached db.locked].
    split; [reflexivity|]. split; [reflexivity|]. split; [reflexivity|].
    split; [reflexivity|]. split.
    + intros wait' fuel' modifier'. unfold db.modify, db.acquireLock.
      rewrite waitForLock_spec. reflexivity.
    + intros fuel' now Hc. unfold db.read, db.readFile, held.
      cbn [db.cached db.locked]. rewrite Hc, waitForLock_spec. reflexivity.
  - intros wait fuel Hwait Hfree.
    rewrite (modify_returns wait fuel modifier f Hwait Hfree).
    destruct (modifier (db.content f)) as [[a modified]|msg];
      [reflexivity|].
    repeat split.
Qed.

(** ** The sync queue on the handler *)

(** X1.  [addJob], [getJob] and [deleteJob] on the handler.  As [db.modify]
    is written, in a process that has just started, [addJob] never settles
    and pushes nothing, and it leaves the queue locked: a [getJob] after it
    never settles either, nor does a [deleteJob].  When the wait of
    [db.modify] comes back: with an id that no job of the queue carries,
    [addJob] followed by [getJob] on that id finds the new job, the lookups
    of the other ids are as before, [deleteJob] on the id gives the queue
    back, and [getJob] on the deleted id then finds nothing. *)
Theorem addJob_getJob_deleteJob_on_handler (jobData : JobData.t)
  (newId : string) (now later : Z) :
  (forall fuel w,
      let added :=
        syncQueue.addJob (db.waitForLock fuel) fuel jobData newId now
          (started w) in
      fst added = Pending
      /\ db.content (Runtime.sync_queue (snd added)) = sync_queue w
      /\ (forall jobId, fst (syncQueue.getJob fuel jobId later (snd added))
                        = Pending)
      /\ fst (syncQueue.deleteJob (db.waitForLock fuel) fuel newId
                (snd added)) = Pending)
  /\ (forall wait fuel r,
         db.returns wait ->
         idle r ->
         existsb (SyncQueue.hasId newId) (db.content (Runtime.sync_queue r))
         = false ->
         exists job r1 r2 r3,
           syncQueue.addJob wait fuel jobData newId now r = (Fulfilled job, r1)
           /\ Job.id job = newId
           /\ db.content (Runtime.sync_queue r1)
              = db.content (Runtime.sync_queue r) ++ [job]
           /\ syncQueue.getJob fuel newId later r1 = (Fulfilled (Some job), r2)
           /\ (forall other,
                  other <> newId ->
                  fst (syncQueue.getJob fuel other later r1) =
                  Fulfilled
                    (SyncQueue.getJob other
                       (db.content (Runtime.sync_queue r))))
           /\ syncQueue.deleteJob wait fuel newId r2 = (Fulfilled tt, r3)
           /\ db.content (Runtime.sync_queue r3)
              = db.content (Runtime.sync_queue r)
           /\ fst (syncQueue.getJob fuel newId later r3) = Fulfilled None).
Proof.
  split.
  - intros fuel w. cbv zeta.
    unfold syncQueue.addJob, Async.bind. rewrite modify_stuck.
    cbn [fst snd]. split; [reflexivity|]. split; [reflexivity|]. split.
    + intros jobId.
      unfold syncQueue.getJob, syncQueue.getAllJobs, Async.tryCatch,
        Async.bind, Async.read, db.read, db.readFile.
      cbn [PATHS.get PATHS.put PATHS.SYNC_QUEUE started Runtime.sync_queue
           held db.fresh db.cached db.locked db.content].
      rewrite waitForLock_spec. reflexivity.
    + unfold syncQueue.deleteJob, Async.bind. rewrite modify_stuck.
      reflexivity.
  - intros wait fuel r Hwait Hi Hfresh.
    pose proof (addJob_getJob_deleteJob jobData newId now
                  (sync_queue (documents r)) Hfresh)
      as (Hget & Hother & Hdel & Hnone).
    destruct (simulates_addJob wait fuel Hwait [] jobData newId now r Hi
                (present_nil _)) as (r1 & E1 & D1 & I1 & _).
    unfold SyncQueue.addJob in E1, D1, Hget, Hother, Hdel.
    cbn [fst snd settled] in E1, D1, Hget, Hother, Hdel.
    destruct (simulates_getJob fuel (present []) newId later r1 I1
                (present_nil _)) as (r2 & E2 & D2 & I2 & _).
    cbn [fst snd settled] in E2, D2.
    assert (Q1 : sync_queue (documents r1)
                 = sync_queue (documents r)
                   ++ [SyncQueue.newJob jobData newId now]).
    { rewrite D1. reflexivity. }
    rewrite Q1, Hget in E2.
    exists (SyncQueue.newJob jobData newId now), r1, r2.
    assert (Hdelete :
              exists r3,
                syncQueue.deleteJob wait fuel newId r2 = (Fulfilled tt, r3)
                /\ documents r3
                   = setQueue (SyncQueue.deleteJob newId
                                 (sync_queue (documents r2))) (documents r2)
                /\ idle r3).
    { unfold syncQueue.deleteJob, Async.bind.
      rewrite modify_run; [|exact Hwait|apply I2].
      eexists. split; [reflexivity|]. split.
      - apply put_queue_documents.
      - apply put_queue_idle, I2. }
    destruct Hdelete as (r3 & E3 & D3 & I3).
    exists r3. split; [exact E1|]. split; [reflexivity|].
    split; [exact Q1|]. split; [exact E2|]. split.
    + intros other Hne.
      destruct (simulates_getJob fuel (present []) other later r1 I1
                  (present_nil _)) as (r2' & E2' & _).
      rewrite E2'. cbn [fst snd settled]. rewrite Q1, (Hother other Hne).
      reflexivity.
    + split; [exact E3|].
      assert (Q3 : sync_queue (documents r3) = sync_queue (documents r)).
      { rewrite D3. cbn [sync_queue setQueue]. rewrite D2, Q1. exact Hdel. }
      split; [exact Q3|].
      destruct (simulates_getJob fuel (present []) newId later r3 I3
                  (present_nil _)) as (r4 & E4 & _).
      rewrite E4. cbn [fst snd settled].
      rewrite Q3. rewrite <- Hdel at 1. rewrite Hnone. reflexivity.
Qed.

(** A queue of one job, and a new job for another identity. *)
Lemma addJob_getJob_deleteJob_on_handler_witness :
  let jobData :=
    JobData.mk "1001" "77" None "G" 5 None None None None None None in
  let r := started (setQueue [exampleJob "job-1" 0 1] (worldWithLinks [])) in
  (forall fuel,
      fst (syncQueue.addJob (db.waitForLock fuel) fuel jobData "job-2" 10 r)
      = Pending)
  /\ exists job r1 r2,
      syncQueue.addJob returningWait 0 jobData "job-2" 10 r
      = (Fulfilled job, r1)
      /\ syncQueue.getJob 0 "job-2" 20 r1 = (Fulfilled (Some job), r2)
      /\ map Job.id (db.content (Runtime.sync_queue r1)) = ["job-1"; "job-2"].
Proof.
  intros jobData r.
  destruct (addJob_getJob_deleteJob_on_handler jobData "job-2" 10 20)
    as (W & D).
  split.
  - intros fuel. apply (W fuel).
  - destruct (D returningWait 0%nat r returningWait_returns (idle_started _)
                eq_refl)
      as (job & r1 & r2 & r3 & E1 & Hid & Q1 & E2 & _).
    exists job, r1, r2. split; [exact E1|]. split; [exact E2|].
    rewrite Q1, map_app. cbn [map]. rewrite Hid. reflexivity.
Defined.

(** [shouldCancel] picks the queued and the retrying jobs of the tenant and
    identity, and no other job. *)
Lemma shouldCancel_iff (serverId robloxUserId : string) (j : Job.t) :
  SyncQueue.shouldCancel serverId robloxUserId j = true <->
  Job.serverId j = serverId
  /\ Job.robloxUserId j = robloxUserId
  /\ (Job.status j = QUEUED \/ Job.status j = RETRYING).
Proof.
  unfold SyncQueue.shouldCancel.
  rewrite !andb_true_iff, orb_true_iff, !String.eqb_eq.
  split.
  - intros ((Hs & Hu) & Hst). split; [exact Hs|]. split; [exact Hu|].
    destruct (Job.status j); simpl in Hst; destruct Hst as [H|H];
      try discriminate; auto.
  - intros (Hs & Hu & [H|H]); rewrite H; simpl; auto.
Qed.

(** X3.  [cancelUserJobs] on the handler.  As [db.modify] is written it
    never settles and removes nothing.  When the wait of [db.modify] comes
    back, it returns the number of jobs that it removed and removes exactly
    the queued and the retrying jobs of the tenant and identity: every other
    job, of this or of another tenant or identity, stays; after it,
    [hasPendingSync] of a non-empty identity is true exactly when a job of
    the tenant and identity is in progress. *)
Theorem cancelUserJobs_on_handler (serverId robloxUserId : string) (later : Z) :
  (forall fuel r,
      let run :=
        syncQueue.cancelUserJobs (db.waitForLock fuel) fuel serverId
          robloxUserId r in
      fst run = Pending
      /\ db.content (Runtime.sync_queue (snd run))
         = db.content (Runtime.sync_queue r))
  /\ (forall wait fuel r,
         db.returns wait ->
         idle r ->
         exists cancelled r1,
           syncQueue.cancelUserJobs wait fuel serverId robloxUserId r
           = (Fulfilled cancelled, r1)
           /\ let q := db.content (Runtime.sync_queue r) in
              let q' := db.content (Runtime.sync_queue r1) in
              cancelled = Z.of_nat (List.length q) - Z.of_nat (List.length q')
              /\ (forall j,
                     In j q' <->
                     In j q
                     /\ ~ (Job.serverId j = serverId
                           /\ Job.robloxUserId j = robloxUserId
                           /\ (Job.status j = QUEUED
                               \/ Job.status j = RETRYING)))
              /\ (robloxUserId <> "" ->
                  exists pending,
                    fst (syncQueue.hasPendingSync fuel serverId robloxUserId
                           later r1) = Fulfilled pending
                    /\ (pending = true <->
                        exists j,
                          In j q
                          /\ Job.serverId j = serverId
                          /\ Job.robloxUserId j = robloxUserId
                          /\ Job.status j = IN_PROGRESS))).
Proof.
  split.
  - intros fuel r. cbv zeta.
    unfold syncQueue.cancelUserJobs, Async.tryCatch, Async.bind.
    rewrite modify_stuck. destruct r; split; reflexivity.
  - intros wait fuel r Hwait Hi.
    destruct (simulates_cancelUserJobs wait fuel Hwait serverId robloxUserId
                r Hi (present_nil _)) as (r1 & E1 & D1 & I1 & _).
    pose proof (cancelUserJobs_effect serverId robloxUserId
                  (sync_queue (documents r))) as T.
    cbv zeta in T. destruct T as (Hcount & _ & _ & Hpending).
    unfold SyncQueue.cancelUserJobs in *.
    cbn [fst snd settled] in E1, D1, Hcount, Hpending.
    eexists. exists r1. split; [exact E1|].
    assert (Q1 : db.content (Runtime.sync_queue r1)
                 = filter
                     (fun job =>
                        negb (SyncQueue.shouldCancel serverId robloxUserId job))
                     (db.content (Runtime.sync_queue r))).
    { change (db.content (Runtime.sync_queue r1))
        with (sync_queue (documents r1)).
      rewrite D1. reflexivity. }
    cbv zeta. rewrite Q1.
    split; [exact Hcount|]. split.
    + intros j. rewrite filter_In, negb_true_iff.
      rewrite <- (shouldCancel_iff serverId robloxUserId j).
      destruct (SyncQueue.shouldCancel serverId robloxUserId j);
        split; intros (Hin & H); split; try assumption; try discriminate;
        try reflexivity.
      exfalso. apply H. reflexivity.
    + intros Hne.
      destruct (simulates_hasPendingSync fuel (present []) serverId
                  robloxUserId later r1 I1 (present_nil _))
        as (r2 & E2 & _).
      rewrite E2. cbn [fst snd settled]. eexists. split; [reflexivity|].
      change (sync_queue (documents r1))
        with (db.content (Runtime.sync_queue r1)).
      rewrite Q1. exact (Hpending Hne).
Qed.

(** Two jobs of one identity, one queued and one in progress, beside a
    queued job of another identity. *)
Lemma cancelUserJobs_on_handler_witness :
  let started_job (j : Job.t) : Job.t :=
    SyncQueue.applyUpdates j
      {| JobUpdates.status := Some IN_PROGRESS;
         JobUpdates.attempts := None;
         JobUpdates.lastAttemptAt := None;
         JobUpdates.nextRetryAt := None;
         JobUpdates.errors := None;
         JobUpdates.lastError := None;
         JobUpdates.completedAt := None |} 5 in
  let r :=
    started
      (setQueue
         [exampleJob "77" 0 1; started_job (exampleJob "77" 0 2);
          exampleJob "78" 0 3] (worldWithLinks [])) in
  (forall fuel,
      fst (syncQueue.cancelUserJobs (db.waitForLock fuel) fuel "server" "77"
             r) = Pending)
  /\ exists r1,
      syncQueue.cancelUserJobs returningWait 0 "server" "77" r
      = (Fulfilled 1, r1)
      /\ map (fun j => (Job.robloxUserId j, Job.status j))
           (db.content (Runtime.sync_queue r1))
         = [("77", IN_PROGRESS); ("78", QUEUED)].
Proof.
  intros started_job r.
  destruct (cancelUserJobs_on_handler "server" "77" 10) as (W & D).
  split.
  - intros fuel. apply (W fuel).
  - destruct (D returningWait 0%nat r returningWait_returns (idle_started _))
      as (cancelled & r1 & E1 & _).
    assert (Hr1 : (Fulfilled cancelled, r1)
                  = syncQueue.cancelUserJobs returningWait 0 "server" "77" r)
      by (symmetry; exact E1).
    vm_compute in Hr1. injection Hr1 as Hc Hr. subst cancelled r1.
    eexists. split; [exact E1|]. vm_compute. reflexivity.
Defined.

(** X4.  [retryFailedJobs] on the handler.  As [db.modify] is written it
    never settles, and every failed job stays failed.  When the wait of
    [db.modify] comes back, the call without a tenant leaves no failed job
    in the queue and keeps the number and the ids of the jobs; it returns 0
    exactly when no job was failed; the jobs that were not failed are kept as
    they are; each failed job is queued again with no attempts and no retry
    time, for the same request and with its history of errors; and a second
    call right after it returns 0 and changes nothing. *)
Theorem retryFailedJobs_on_handler (now later : Z) :
  (forall fuel serverId r,
      let run :=
        syncQueue.retryFailedJobs (db.waitForLock fuel) fuel serverId now r in
      fst run = Pending
      /\ db.content (Runtime.sync_queue (snd run))
         = db.content (Runtime.sync_queue r))
  /\ (forall wait fuel r,
         db.returns wait ->
         idle r ->
         exists retried r1 r2,
           syncQueue.retryFailedJobs wait fuel None now r
           = (Fulfilled retried, r1)
           /\ let q := db.content (Runtime.sync_queue r) in
              let q' := db.content (Runtime.sync_queue r1) in
              (forall j, In j q' -> Job.status j <> FAILED)
              /\ map Job.id q' = map Job.id q
              /\ (retried = 0 <-> forall j, In j q -> Job.status j <> FAILED)
              /\ (forall j, In j q -> Job.status j <> FAILED -> In j q')
              /\ (forall j,
                     In j q ->
                     Job.status j = FAILED ->
                     exists j',
                       In j' q'
                       /\ sameRequest j j'
                       /\ Job.status j' = QUEUED
                       /\ Job.attempts j' = 0
                       /\ Job.nextRetryAt j' = None
                       /\ Job.errors j' = Job.errors j)
              /\ syncQueue.retryFailedJobs wait fuel None later r1
                 = (Fulfilled 0, r2)
              /\ db.content (Runtime.sync_queue r2) = q').
Proof.
  split.
  - intros fuel serverId r. cbv zeta.
    unfold syncQueue.retryFailedJobs, Async.tryCatch, Async.bind.
    rewrite modify_stuck. destruct r; split; reflexivity.
  - intros wait fuel r Hwait Hi.
    destruct (simulates_retryFailedJobs wait fuel Hwait None now r Hi
                (present_nil _)) as (r1 & E1 & D1 & I1 & _).
    destruct (simulates_retryFailedJobs wait fuel Hwait None later r1 I1
                (present_nil _)) as (r2 & E2 & D2 & I2 & _).
    pose proof (retryFailedJobs_effect now later (sync_queue (documents r)))
      as T.
    cbv zeta in T. destruct T as (T1 & T2 & T3 & T4 & T5 & T6).
    assert (Q1 : db.content (Runtime.sync_queue r1)
                 = snd (SyncQueue.retryFailedJobs None now
                          (sync_queue (documents r)))).
    { change (db.content (Runtime.sync_queue r1))
        with (sync_queue (documents r1)).
      rewrite D1.
      destruct (SyncQueue.retryFailedJobs None now (sync_queue (documents r)));
        reflexivity. }
    exists (fst (SyncQueue.retryFailedJobs None now
                   (sync_queue (documents r)))), r1, r2.
    split.
    { rewrite E1.
      destruct (SyncQueue.retryFailedJobs None now (sync_queue (documents r)));
        reflexivity. }
    cbv zeta. rewrite Q1.
    split; [exact T1|]. split; [exact T2|]. split; [exact T3|].
    split; [exact T4|]. split; [exact T5|].
    change (sync_queue (documents r1))
      with (db.content (Runtime.sync_queue r1)) in E2, D2.
    rewrite Q1, T6 in E2, D2. cbn [fst snd settled] in E2, D2.
    split; [exact E2|].
    change (db.content (Runtime.sync_queue r2))
      with (sync_queue (documents r2)).
    rewrite D2. reflexivity.
Qed.

(** X5.  [cleanCompletedJobs] on the handler.  As [db.modify] is written it
    never settles and removes nothing.  When the wait of [db.modify] comes
    back, it returns the number of jobs that it removed; a job stays exactly
    when it was in the queue and is not completed, or was completed at or
    after the cutoff ([now] minus [hoursOld] hours); and a second call with
    the same cutoff removes nothing. *)
Theorem cleanCompletedJobs_on_handler (hoursOld now : Z) :
  (forall fuel r,
      let run :=
        syncQueue.cleanCompletedJobs (db.waitForLock fuel) fuel hoursOld now
          r in
      fst run = Pending
      /\ db.content (Runtime.sync_queue (snd run))
         = db.content (Runtime.sync_queue r))
  /\ (forall wait fuel r,
         db.returns wait ->
         idle r ->
         exists deleted r1 r2,
           syncQueue.cleanCompletedJobs wait fuel hoursOld now r
           = (Fulfilled deleted, r1)
           /\ let q := db.content (Runtime.sync_queue r) in
              let q' := db.content (Runtime.sync_queue r1) in
              deleted = Z.of_nat (List.length q) - Z.of_nat (List.length q')
              /\ 0 <= deleted
              /\ (forall j,
                     In j q' <->
                     In j q
                     /\ (Job.status j <> COMPLETED
                         \/ now - hoursOld * 60 * 60 * 1000
                            <= completionDate j))
              /\ syncQueue.cleanCompletedJobs wait fuel hoursOld now r1
                 = (Fulfilled 0, r2)
              /\ db.content (Runtime.sync_queue r2) = q').
Proof.
  split.
  - intros fuel r. cbv zeta.
    unfold syncQueue.cleanCompletedJobs, Async.tryCatch, Async.bind.
    rewrite modify_stuck. destruct r; split; reflexivity.
  - intros wait fuel r Hwait Hi.
    destruct (simulates_cleanCompletedJobs wait fuel Hwait hoursOld now r Hi
                (present_nil _)) as (r1 & E1 & D1 & I1 & _).
    destruct (simulates_cleanCompletedJobs wait fuel Hwait hoursOld now r1 I1
                (present_nil _)) as (r2 & E2 & D2 & I2 & _).
    pose proof (cleanCompletedJobs_effect hoursOld now
                  (sync_queue (documents r))) as T.
    cbv zeta in T. destruct T as (T1 & T2 & T3 & T4).
    assert (Q1 : db.content (Runtime.sync_queue r1)
                 = snd (SyncQueue.cleanCompletedJobs hoursOld now
                          (sync_queue (documents r)))).
    { change (db.content (Runtime.sync_queue r1))
        with (sync_queue (documents r1)).
      rewrite D1.
      destruct (SyncQueue.cleanCompletedJobs hoursOld now
                  (sync_queue (documents r))); reflexivity. }
    exists (fst (SyncQueue.cleanCompletedJobs hoursOld now
                   (sync_queue (documents r)))), r1, r2.
    split.
    { rewrite E1.
      destruct (SyncQueue.cleanCompletedJobs hoursOld now
                  (sync_queue (documents r))); reflexivity. }
    cbv zeta. rewrite Q1.
    split; [exact T1|]. split; [exact T2|]. split; [exact T3|].
    change (sync_queue (documents r1))
      with (db.content (Runtime.sync_queue r1)) in E2, D2.
    rewrite Q1, T4 in E2, D2. cbn [fst snd settled] in E2, D2.
    split; [exact E2|].
    change (db.content (Runtime.sync_queue r2))
      with (sync_queue (documents r2)).
    rewrite D2. reflexivity.
Qed.

(** ** The worker on the handler *)

(** A run of [processPendingJobs] that finds the worker busy, whatever the
    store does. *)
Lemma processPendingJobs_busy (wait : bool -> bool) (fuel : nat)
  (batchSize now : Z) (observe : string -> Observation) (r : Runtime.t) :
  Runtime.processing r = true ->
  roleSync.processPendingJobs wait fuel batchSize now observe r
  = (Fulfilled (mkBatchResult 0 0 0), r).
Proof.
  intros H. unfold roleSync.processPendingJobs. rewrite H. reflexivity.
Qed.

(** X11.  [processPendingJobs] on the handler.  A run that finds the worker
    busy does nothing and reports zeros.  As [db.modify] is written, a run
    that finds the worker idle and a job to process never returns: it waits
    for the first job, asks nothing of the Directory Service, stores
    nothing, and leaves the worker marked as busy, so that every later run
    reports zeros.  When the wait of [db.modify] comes back, a run that finds
    the worker idle takes at most [batchSize] jobs, counts each of them as
    succeeded or as failed, asks the Directory Service for at most one rank
    change per job, and leaves the worker idle. *)
Theorem processPendingJobs_on_handler (batchSize now : Z)
  (observe : string -> Observation) :
  (forall wait fuel r,
      Runtime.processing r = true ->
      roleSync.processPendingJobs wait fuel batchSize now observe r
      = (Fulfilled (mkBatchResult 0 0 0), r))
  /\ (forall fuel r,
         idle r ->
         Runtime.processing r = false ->
         SyncQueue.getPendingJobs batchSize now
           (db.content (Runtime.sync_queue r)) <> [] ->
         let run :=
           roleSync.processPendingJobs (db.waitForLock fuel) fuel batchSize
             now observe r in
         fst run = Pending
         /\ Runtime.processing (snd run) = true
         /\ Runtime.setRankCalls (snd run) = Runtime.setRankCalls r
         /\ stored (snd run) = stored r
         /\ forall wait' fuel' batchSize' now' observe',
             roleSync.processPendingJobs wait' fuel' batchSize' now' observe'
               (snd run)
             = (Fulfilled (mkBatchResult 0 0 0), snd run))
  /\ (forall wait fuel r,
         db.returns wait ->
         idle r ->
         Runtime.processing r = false ->
         0 <= batchSize ->
         exists result r',
           roleSync.processPendingJobs wait fuel batchSize now observe r
           = (Fulfilled result, r')
           /\ processed result =
              Z.of_nat
                (List.length
                   (SyncQueue.getPendingJobs batchSize now
                      (db.content (Runtime.sync_queue r))))
           /\ 0 <= processed result <= batchSize
           /\ succeeded result + failed result = processed result
           /\ 0 <= succeeded result
           /\ 0 <= failed result
           /\ Runtime.processing r' = false
           /\ exists calls,
               Runtime.setRankCalls r' = Runtime.setRankCalls r ++ calls
               /\ Z.of_nat (List.length calls) <= processed result).
Proof.
  split; [|split].
  - intros wait fuel r H. apply processPendingJobs_busy, H.
  - intros fuel r Hi Hidle Hsome. cbv zeta.
    assert (Hi1 : idle (Runtime.setProcessing true r)).
    { destruct r; exact Hi. }
    destruct (simulates_getPendingJobs fuel (present []) batchSize now
                (Runtime.setProcessing true r) Hi1 (present_nil _))
      as (r2 & E2 & D2 & I2 & _).
    cbn [fst snd settled] in E2, D2.
    assert (R : roleSync.processPendingJobs (db.waitForLock fuel) fuel
                  batchSize now observe r
                = (Pending,
                   match SyncQueue.getPendingJobs batchSize now
                           (db.content (Runtime.sync_queue r)) with
                   | [] => r2
                   | job :: _ =>
                       PATHS.put PATHS.SYNC_QUEUE
                         (held (Runtime.sync_queue r2)) r2
                   end)).
    { unfold roleSync.processPendingJobs. rewrite Hidle, E2.
      change (sync_queue (documents (Runtime.setProcessing true r)))
        with (db.content (Runtime.sync_queue r)).
      destruct (SyncQueue.getPendingJobs batchSize now
                  (db.content (Runtime.sync_queue r))) as [|job rest];
        [contradiction|].
      cbn [roleSync.processAll]. rewrite processJob_waits. reflexivity. }
    rewrite R. cbn [fst snd].
    destruct (SyncQueue.getPendingJobs batchSize now
                (db.content (Runtime.sync_queue r))) as [|job rest];
      [contradiction|].
    assert (P2 : Runtime.processing r2 = true).
    { change (Runtime.processing r2) with (processing (documents r2)).
      rewrite D2. reflexivity. }
    assert (C2 : Runtime.setRankCalls r2 = Runtime.setRankCalls r).
    { change (Runtime.setRankCalls r2) with (setRankCalls (documents r2)).
      rewrite D2. reflexivity. }
    assert (S2 : stored r2 = stored r).
    { unfold stored.
      change (db.content (Runtime.sync_queue r2))
        with (sync_queue (documents r2)).
      change (db.content (Runtime.roblox_links r2))
        with (roblox_links (documents r2)).
      change (db.content (Runtime.roblox_verifications r2))
        with (roblox_verifications (documents r2)).
      rewrite D2. reflexivity. }
    split; [reflexivity|]. split; [exact P2|]. split; [exact C2|].
    split; [rewrite <- S2; destruct r2; reflexivity|].
    intros wait' fuel' batchSize' now' observe'.
    apply processPendingJobs_busy. exact P2.
  - intros wait fuel r Hwait Hi Hidle Hbatch.
    destruct (simulates_processPendingJobs wait fuel Hwait batchSize now
                observe r Hi) as (r' & E & D & _).
    pose proof (processPendingJobs_counters batchSize now observe
                  (documents r) Hidle Hbatch) as T.
    cbv zeta in T.
    destruct T as (T1 & T2 & T3 & T4 & T5 & T6 & T7 & _).
    eexists. exists r'. split; [exact E|].
    split; [exact T1|]. split; [exact T2|]. split; [exact T3|].
    split; [exact T4|]. split; [exact T5|].
    change (Runtime.processing r') with (processing (documents r')).
    change (Runtime.setRankCalls r') with (setRankCalls (documents r')).
    rewrite D. split; [exact T6 | exact T7].
Qed.

(** One request is queued and then processed, in a process that has just
    started. *)
Lemma processPendingJobs_on_handler_witness :
  let r :=
    started
      (setQueue [exampleJob "A" 0 1]
         (worldWithLinks [("server", exampleLink "server" "G" "h" true)])) in
  (forall fuel,
      let run :=
        roleSync.processPendingJobs (db.waitForLock fuel) fuel 5 1000
          (unreachableAt 1000) r in
      fst run = Pending /\ Runtime.processing (snd run) = true)
  /\ exists result r',
      roleSync.processPendingJobs returningWait 0 5 1000 (unreachableAt 1000)
        r = (Fulfilled result, r')
      /\ processed result = 1
      /\ succeeded result + failed result = 1
      /\ Runtime.processing r' = false.
Proof.
  intros r.
  destruct (processPendingJobs_on_handler 5 1000 (unreachableAt 1000))
    as (_ & W & D).
  split.
  - intros fuel run.
    destruct (W fuel r (idle_started _) eq_refl) as (H1 & H2 & _);
      [discriminate|].
    split; [exact H1 | exact H2].
  - destruct (D returningWait 0%nat r returningWait_returns (idle_started _)
                eq_refl) as (result & r' & E & P1 & _ & P3 & _ & _ & P6 & _);
      [lia|].
    exists result, r'. split; [exact E|]. split; [exact P1|].
    split; [|exact P6]. rewrite P3. exact P1.
Defined.

(** X12.  The rank change of [processJob] on the handler.  As [db.modify] is
    written, [processJob] never settles: it waits in [markInProgress], makes
    no call of [setUserRank], and stores nothing.  When the wait of
    [db.modify] comes back and [processJob] asks for the rank change of a job
    that is in the queue, the call is recorded once.  If the Directory
    Service accepts it, the job is completed with its attempts unchanged and
    the link counts two syncs: one by [updateLastSync], one by
    [incrementAnalytics].  If the Directory Service refuses, the answer
    carries its message, the job goes once through [markFailed] with retry
    allowed, and the link counts one sync and one failed sync. *)
Theorem processJob_rank_change_on_handler (dir : Directory) (now : Z)
  (job : Job.t) :
  (forall fuel r,
      let run :=
        roleSync.processJob (db.waitForLock fuel) fuel dir now job r in
      fst run = Pending
      /\ Runtime.setRankCalls (snd run) = Runtime.setRankCalls r
      /\ stored (snd run) = stored r)
  /\ (forall wait fuel r old link c,
         db.returns wait ->
         idle r ->
         SyncQueue.getJob (Job.id job) (db.content (Runtime.sync_queue r))
         = Some old ->
         getLink (Job.serverId job) (db.content (Runtime.roblox_links r))
         = Some link ->
         rankChangeOf dir job (documents r) c ->
         exists r' new link',
           snd (roleSync.processJob wait fuel dir now job r) = r'
           /\ Runtime.setRankCalls r' = Runtime.setRankCalls r ++ [c]
           /\ SyncQueue.getJob (Job.id job)
                (db.content (Runtime.sync_queue r')) = Some new
           /\ getLink (Job.serverId job)
                (db.content (Runtime.roblox_links r')) = Some link'
           /\ lastSyncAt (Link.analytics link') = Some now
           /\ match
                setUserRank dir (callGroupId c) (callUserId c) (callRoleId c)
              with
              | Ret _ =>
                  fst (roleSync.processJob wait fuel dir now job r) =
                  Fulfilled
                    (mkProcessResult true "Role synchronized successfully")
                  /\ Job.status new = COMPLETED
                  /\ Job.completedAt new = Some now
                  /\ Job.attempts new = Job.attempts old
                  /\ totalSyncs (Link.analytics link') =
                     totalSyncs (Link.analytics link) + 2
                  /\ failedSyncs (Link.analytics link') =
                     failedSyncs (Link.analytics link)
              | Throw message =>
                  fst (roleSync.processJob wait fuel dir now job r) =
                  Fulfilled (mkProcessResult false message)
                  /\ failedOnce true now (Job.attempts old) new
                  /\ Job.lastError new = Some message
                  /\ totalSyncs (Link.analytics link') =
                     totalSyncs (Link.analytics link) + 1
                  /\ failedSyncs (Link.analytics link') =
                     failedSyncs (Link.analytics link) + 1
              end).
Proof.
  split.
  - intros fuel r. cbv zeta. rewrite processJob_waits. cbn [fst snd].
    split; [reflexivity|]. split; destruct r; reflexivity.
  - intros wait fuel r old link c Hwait Hi Hold Hlink Hc.
    assert (Hp : present [Job.id job] (sync_queue (documents r))).
    { intros x [<-|[]]. apply getJob_In in Hold. destruct Hold as [Hin Hid].
      rewrite <- Hid. apply in_map. exact Hin. }
    destruct (simulates_processJob wait fuel Hwait [Job.id job] dir now job
                (or_introl eq_refl) r Hi Hp) as (r' & E & D & _ & _).
    pose proof (processJob_rank_change dir now job (documents r) old link c
                  Hold Hlink Hc) as T.
    cbv zeta in T. destruct T as (T1 & new & link' & T2 & T3 & T4 & T5).
    exists r', new, link'. rewrite E. cbn [fst snd].
    split; [reflexivity|].
    change (Runtime.setRankCalls r') with (setRankCalls (documents r')).
    change (db.content (Runtime.sync_queue r'))
      with (sync_queue (documents r')).
    change (db.content (Runtime.roblox_links r'))
      with (roblox_links (documents r')).
    rewrite D.
    split; [exact T1|]. split; [exact T2|]. split; [exact T3|].
    split; [exact T4|].
    destruct (setUserRank dir (callGroupId c) (callUserId c) (callRoleId c))
      as [u|message].
    + destruct T5 as (R & T5). rewrite R. split; [reflexivity | exact T5].
    + destruct T5 as (R & T5). rewrite R. split; [reflexivity | exact T5].
Qed.

(** A queued job for a rank that the subject does not hold yet. *)
Lemma processJob_rank_change_on_handler_witness :
  let r :=
    started
      (setQueue [exampleJob "A" 0 1]
         (worldWithLinks [("server", exampleLink "server" "G" "h" true)])) in
  let dir :=
    exampleDirectory "" [mkRole 77 "Member" 1] (Some (mkRole 70 "Guest" 0)) in
  (forall fuel,
      fst (roleSync.processJob (db.waitForLock fuel) fuel dir 1000
             (exampleJob "A" 0 1) r) = Pending)
  /\ Runtime.setRankCalls
       (snd (roleSync.processJob returningWait 0 dir 1000 (exampleJob "A" 0 1)
               r))
     = [mkSetRankCall "G" "A" 77].
Proof.
  intros r dir.
  destruct (processJob_rank_change_on_handler dir 1000 (exampleJob "A" 0 1))
    as (W & D).
  split.
  - intros fuel. apply (W fuel r).
  - destruct (D returningWait 0%nat r (exampleJob "A" 0 1)
                (exampleLink "server" "G" "h" true)
                (mkSetRankCall "G" "A" 77) returningWait_returns
                (idle_started _) eq_refl eq_refl)
      as (r' & new & link' & E & Hcalls & _).
    + exists (exampleLink "server" "G" "h" true), [mkRole 77 "Member" 1],
        (mkRole 77 "Member" 1), (mkRole 70 "Guest" 0).
      repeat split. discriminate.
    + rewrite E. exact Hcalls.
Defined.

(** ** The links on the handler *)



(** X18.  [deleteLink] on the handler.  As [db.modify] is written it never
    settles and the link of the tenant stays in the document, with its key.
    When the wait of [db.modify] comes back, [deleteLink] revokes the key of
    the tenant: after it the tenant has no link and the other tenants keep
    theirs; a key whose hash no other link holds is not found by
    [validateApiKey]; [authMiddleware] answers a request that presents it
    with 401 and [INVALID_API_KEY], whatever else the request carries; and
    [queueSync] refuses the tenant. *)
Theorem deleteLink_on_handler (hashApiKey : string -> string)
  (verifyRequestSignature :
     string -> string -> string -> Z -> string -> string -> bool)
  (serverId apiKey : string) (req : Request.t) (syncData : SyncData.t)
  (newId : string) (now : Z) :
  (forall fuel r,
      let run :=
        robloxLinks.deleteLink (db.waitForLock fuel) fuel serverId r in
      fst run = Pending
      /\ db.content (Runtime.roblox_links (snd run))
         = db.content (Runtime.roblox_links r))
  /\ (forall wait fuel r,
         db.returns wait ->
         idle r ->
         (forall other link,
             In (other, link) (db.content (Runtime.roblox_links r)) ->
             other <> serverId ->
             Link.apiKeyHash link <> hashApiKey apiKey) ->
         Request.authorization req = Some ("Bearer " ++ apiKey)%string ->
         SyncData.serverId syncData = serverId ->
         exists r1,
           robloxLinks.deleteLink wait fuel serverId r = (Fulfilled tt, r1)
           /\ getLink serverId (db.content (Runtime.roblox_links r1)) = None
           /\ (forall other,
                  other <> serverId ->
                  getLink other (db.content (Runtime.roblox_links r1))
                  = getLink other (db.content (Runtime.roblox_links r)))
           /\ fst (robloxLinks.validateApiKey hashApiKey wait fuel apiKey now
                     r1) = Fulfilled None
           /\ (exists text,
                  fst (auth.authMiddleware hashApiKey verifyRequestSignature
                         wait fuel req now r1)
                  = Fulfilled
                      (Rejected (mkRejection 401 text "INVALID_API_KEY")))
           /\ documents
                (snd (auth.authMiddleware hashApiKey verifyRequestSignature
                        wait fuel req now r1)) = documents r1
           /\ fst (roleSync.queueSync wait fuel syncData newId now r1)
              = Fulfilled
                  (mkQueueSyncResult false None
                     "Roblox integration not set up for this server")
           /\ documents (snd (roleSync.queueSync wait fuel syncData newId now
                                r1)) = documents r1).
Proof.
  split.
  - intros fuel r. cbv zeta. unfold robloxLinks.deleteLink, Async.bind.
    rewrite modify_stuck. destruct r; split; reflexivity.
  - intros wait fuel r Hwait Hi Hothers Hauth Hsid.
    pose proof (deleteLink_revokes hashApiKey verifyRequestSignature serverId
                  apiKey req syncData newId now (documents r) Hothers Hauth
                  Hsid) as T.
    cbv zeta in T. destruct T as (T1 & T2 & T3 & (text & T4) & T5).
    set (r1 := PATHS.put PATHS.LINKS
                 (db.fresh (deleteLink serverId
                              (db.content (Runtime.roblox_links r)))) r).
    assert (D1 : documents r1
                 = setLinks (deleteLink serverId (roblox_links (documents r)))
                     (documents r)) by reflexivity.
    assert (I1 : idle r1) by (apply put_links_idle, Hi).
    exists r1. split.
    { unfold robloxLinks.deleteLink, Async.bind.
      rewrite modify_run; [reflexivity|exact Hwait|apply Hi]. }
    rewrite <- D1 in T1, T2, T3, T4, T5.
    split; [exact T1|]. split; [exact T2|].
    destruct (simulates_validateApiKey hashApiKey wait fuel Hwait apiKey now
                r1 I1) as (r2 & E2 & _).
    destruct (simulates_authMiddleware hashApiKey verifyRequestSignature wait
                fuel Hwait req now r1 I1) as (r3 & E3 & D3 & _).
    destruct (simulates_queueSync wait fuel Hwait syncData newId now r1 I1)
      as (r4 & E4 & D4 & _).
    rewrite E2, E3, E4. cbn [fst snd].
    rewrite T3 in *. rewrite T4 in *. rewrite T5 in *. cbn [fst snd] in *.
    split; [reflexivity|]. split; [exists text; reflexivity|].
    split; [exact D3|]. split; [reflexivity | exact D4].
Qed.

(** The tenant 1001 of the example loses its link. *)
Lemma deleteLink_on_handler_witness :
  let r :=
    started
      (worldWithLinks
         [("1001", exampleLink "1001" "G" (exampleHash exampleKey) true)]) in
  (forall fuel,
      let run := robloxLinks.deleteLink (db.waitForLock fuel) fuel "1001" r in
      fst run = Pending
      /\ getLink "1001" (db.content (Runtime.roblox_links (snd run)))
         = Some (exampleLink "1001" "G" (exampleHash exampleKey) true))
  /\ exists r1 text,
      robloxLinks.deleteLink returningWait 0 "1001" r = (Fulfilled tt, r1)
      /\ fst (auth.authMiddleware exampleHash exampleVerify returningWait 0
                (exampleRequest 1) 1000 r1)
         = Fulfilled (Rejected (mkRejection 401 text "INVALID_API_KEY")).
Proof.
  intros r.
  destruct (deleteLink_on_handler exampleHash exampleVerify "1001" exampleKey
              (exampleRequest 1) exampleSyncData "job-a" 1000) as (W & D).
  split.
  - intros fuel run. destruct (W fuel r) as (H1 & H2).
    split; [exact H1|]. fold run in H2. rewrite H2. reflexivity.
  - destruct (D returningWait 0%nat r returningWait_returns (idle_started _))
      as (r1 & E1 & _ & _ & _ & (text & E3) & _).
    + intros other link [H|[]] Hne. injection H as <- _. contradiction.
    + reflexivity.
    + reflexivity.
    + exists r1, text. split; [exact E1 | exact E3].
Defined.



(** ** The optional middleware on the handler *)

Section OptionalOnHandler.

Variable hashApiKey : string -> string.
Variable verifyRequestSignature :
  string -> string -> string -> Z -> string -> string -> bool.

Lemma simulates_optionalAuthMiddleware (wait : bool -> bool) (fuel : nat)
  (req : Request.t) (now : Z) (r : Runtime.t) :
  db.returns wait ->
  idle r ->
  exists r',
    auth.optionalAuthMiddleware hashApiKey wait fuel req now r =
    (Fulfilled (fst (optionalAuthMiddleware hashApiKey req now (documents r))),
     r')
    /\ documents r' = snd (optionalAuthMiddleware hashApiKey req now
                             (documents r))
    /\ idle r'.
Proof.
  intros Hwait Hi.
  unfold auth.optionalAuthMiddleware, optionalAuthMiddleware, Async.tryCatch.
  destruct (Request.authorization req) as [authHeader|].
  - destruct (negb (truthyString (Some authHeader))
              || negb (startsWith "Bearer " authHeader)).
    + exists r. split; [reflexivity|]. split; [reflexivity | exact Hi].
    + cbv zeta.
      destruct (simulates_validateApiKey hashApiKey wait fuel Hwait
                  (substringFrom 7 authHeader) now r Hi)
        as (r1 & E & Hd & Hi1).
      unfold Async.bind. rewrite E.
      destruct (validateApiKey hashApiKey (substringFrom 7 authHeader) now
                  (roblox_links (documents r))) as [found ls'].
      cbn [fst snd] in *.
      destruct found as [link|].
      * destruct (Link.verified link); exists r1;
          (split; [reflexivity|]); split; assumption.
      * exists r1. split; [reflexivity|]. split; assumption.
  - exists r. split; [reflexivity|]. split; [reflexivity | exact Hi].
Qed.

(** X21.  [optionalAuthMiddleware] on the handler.  As [db.modify] is
    written it never attaches a link: a key whose hash matches sends
    [validateApiKey] into [updateApiKeyUsage], and [next()] is never called;
    the links stay as they are.  When the wait of [db.modify] comes back, it
    attaches a link exactly for a key whose hash is the hash of a verified
    link of the document, and asks for nothing else: neither a length of the
    key, nor a timestamp, a signature or a place; whenever [authMiddleware]
    lets a request through, the optional middleware attaches the same link
    and leaves the same documents. *)
Theorem optionalAuthMiddleware_on_handler (req : Request.t) (now : Z) :
  (forall fuel r ctx,
      let run :=
        auth.optionalAuthMiddleware hashApiKey (db.waitForLock fuel) fuel req
          now r in
      fst run <> Fulfilled (Some ctx)
      /\ db.content (Runtime.roblox_links (snd run))
         = db.content (Runtime.roblox_links r))
  /\ (forall wait fuel r,
         db.returns wait ->
         idle r ->
         exists attached r1,
           auth.optionalAuthMiddleware hashApiKey wait fuel req now r
           = (Fulfilled attached, r1)
           /\ (forall ctx,
                  attached = Some ctx <->
                  exists apiKey serverId link,
                    Request.authorization req
                    = Some ("Bearer " ++ apiKey)%string
                    /\ findByHash (hashApiKey apiKey)
                         (db.content (Runtime.roblox_links r))
                       = Some (serverId, link)
                    /\ Link.verified link = true
                    /\ ctx = mkAuthContext link (Link.serverId link)
                               (Link.groupId link) None)
           /\ (forall ctx,
                  fst (auth.authMiddleware hashApiKey verifyRequestSignature
                         wait fuel req now r) = Fulfilled (Next ctx) ->
                  attached =
                  Some (mkAuthContext (robloxLink ctx) (contextServerId ctx)
                          (contextGroupId ctx) None)
                  /\ documents r1 =
                     documents
                       (snd (auth.authMiddleware hashApiKey
                               verifyRequestSignature wait fuel req now r)))
           /\ db.content (Runtime.sync_queue r1)
              = db.content (Runtime.sync_queue r)
           /\ Runtime.setRankCalls r1 = Runtime.setRankCalls r).
Proof.
  split.
  - intros fuel r ctx. cbv zeta. split.
    + unfold auth.optionalAuthMiddleware, Async.tryCatch.
      destruct (Request.authorization req) as [authHeader|];
        [|discriminate].
      destruct (negb (truthyString (Some authHeader))
                || negb (startsWith "Bearer " authHeader)); [discriminate|].
      cbv zeta. unfold Async.bind.
      destruct (validateApiKey_written hashApiKey fuel
                  (substringFrom 7 authHeader) now r) as [E|E];
        destruct (robloxLinks.validateApiKey hashApiKey (db.waitForLock fuel)
                    fuel (substringFrom 7 authHeader) now r) as [x r1];
        cbn [fst] in E; subst x; discriminate.
    + assert (K : keeps (auth.optionalAuthMiddleware hashApiKey
                           (db.waitForLock fuel) fuel req now)).
      { unfold auth.optionalAuthMiddleware.
        apply keeps_tryCatch; [|intros ?; apply keeps_ret].
        destruct (Request.authorization req) as [authHeader|];
          [|apply keeps_ret].
        destruct (negb (truthyString (Some authHeader))
                  || negb (startsWith "Bearer " authHeader));
          [apply keeps_ret|].
        cbv zeta. apply keeps_bind; [apply keeps_validateApiKey|].
        intros [link|]; [destruct (Link.verified link)|]; apply keeps_ret. }
      specialize (K r). unfold stored in K. congruence.
  - intros wait fuel r Hwait Hi.
    destruct (simulates_optionalAuthMiddleware wait fuel req now r Hwait Hi)
      as (r1 & E1 & D1 & _).
    destruct (simulates_authMiddleware hashApiKey verifyRequestSignature wait
                fuel Hwait req now r Hi) as (r2 & E2 & D2 & _).
    pose proof (optionalAuthMiddleware_attaches hashApiKey
                  verifyRequestSignature req now (documents r)) as T.
    cbv zeta in T. destruct T as (T1 & T2 & T3 & T4).
    eexists. exists r1. split; [exact E1|].
    split; [exact T1|]. split.
    + intros ctx Hnext. rewrite E2 in Hnext |- *. cbn [fst snd] in *.
      injection Hnext as Hnext. rewrite D1, D2.
      apply T2.
      destruct (authMiddleware hashApiKey verifyRequestSignature req now
                  (documents r)) as [res w'].
      cbn [fst snd] in *. rewrite Hnext. reflexivity.
    + change (db.content (Runtime.sync_queue r1))
        with (sync_queue (documents r1)).
      change (Runtime.setRankCalls r1) with (setRankCalls (documents r1)).
      rewrite D1. split; [exact T3 | exact T4].
Qed.

End OptionalOnHandler.

(** A request that presents the key of the verified tenant 1001, and nothing
    else. *)
Lemma optionalAuthMiddleware_on_handler_witness :
  let r :=
    started
      (worldWithLinks
         [("1001", exampleLink "1001" "G" (exampleHash exampleKey) true)]) in
  let req :=
    {| Request.authorization := Some ("Bearer " ++ exampleKey)%string;
       Request.method := "GET";
       Request.path := "/api/roblox/status";
       Request.body := "";
       Request.bodyTimestamp := None;
       Request.queryTimestamp := None;
       Request.signature := None;
       Request.bodyPlaceId := None;
       Request.queryPlaceId := None |} in
  (forall fuel ctx,
      fst (auth.optionalAuthMiddleware exampleHash (db.waitForLock fuel) fuel
             req 1000 r) <> Fulfilled (Some ctx))
  /\ exists ctx r1,
      auth.optionalAuthMiddleware exampleHash returningWait 0 req 1000 r
      = (Fulfilled (Some ctx), r1)
      /\ contextServerId ctx = "1001".
Proof.
  intros r req.
  destruct (optionalAuthMiddleware_on_handler exampleHash exampleVerify req
              1000) as (W & D).
  split.
  - intros fuel ctx. apply (W fuel r ctx).
  - destruct (D returningWait 0%nat r returningWait_returns (idle_started _))
      as (attached & r1 & E1 & Hiff & _).
    assert (Ha : attached
                 = Some (mkAuthContext
                           (exampleLink "1001" "G" (exampleHash exampleKey)
                              true) "1001" "G" None)).
    { apply Hiff.
      exists exampleKey, "1001",
        (exampleLink "1001" "G" (exampleHash exampleKey) true).
      repeat split. }
    subst attached. eexists. exists r1. split; [exact E1 | reflexivity].
Defined.

(** ** The ownership verification on the handler *)

(** X24.  The round trip of the ownership check on the handler.  As
    [db.modify] is written, in a process that has just started,
    [startVerification] never settles and stores no verification, and it
    leaves the verifications locked: the check that follows never settles
    either.  When the wait of [db.modify] comes back: after
    [startVerification], whatever the document held for the tenant before, a
    [checkVerification] made no later than ten minutes afterwards that reads
    a description holding the code succeeds: the verification is marked
    verified at that instant, with one attempt counted.  Made later, it
    answers [EXPIRED] and removes the verification, so that the next check
    finds none. *)
Theorem startVerification_checkVerification_on_handler (dir : Directory)
  (serverId groupId groupName code userId : string) (start now : Z)
  (prefix suffix : string) :
  getGroupDescription dir groupId =
  Ret (prefix ++ ("KS_VERIFY_" ++ code) ++ suffix)%string ->
  (forall fuel w,
      let begun :=
        verification.startVerification (db.waitForLock fuel) fuel serverId
          groupId groupName code userId start (started w) in
      fst begun = Pending
      /\ db.content (Runtime.roblox_verifications (snd begun))
         = roblox_verifications w
      /\ fst (verification.checkVerification (db.waitForLock fuel) fuel dir
                serverId now (snd begun)) = Pending)
  /\ (forall wait fuel r,
         db.returns wait ->
         idle r ->
         exists v r1 checked r2,
           verification.startVerification wait fuel serverId groupId groupName
             code userId start r = (Fulfilled v, r1)
           /\ Verification.code v = ("KS_VERIFY_" ++ code)%string
           /\ RobloxVerification.getVerification serverId
                (db.content (Runtime.roblox_verifications r1)) = Some v
           /\ verification.checkVerification wait fuel dir serverId now r1
              = (Fulfilled checked, r2)
           /\ (now <= start + 10 * 60 * 1000 ->
               checkSuccess checked = true
               /\ exists v',
                   RobloxVerification.getVerification serverId
                     (db.content (Runtime.roblox_verifications r2)) = Some v'
                   /\ Verification.verified v' = true
                   /\ Verification.verifiedAt v' = Some now
                   /\ Verification.attempts v' = 1
                   /\ Verification.groupId v' = groupId)
           /\ (start + 10 * 60 * 1000 < now ->
               checked
               = RobloxVerification.failure RobloxVerification.EXPIRED
               /\ RobloxVerification.getVerification serverId
                    (db.content (Runtime.roblox_verifications r2)) = None
               /\ fst (verification.checkVerification wait fuel dir serverId
                         now r2)
                  = Fulfilled
                      (RobloxVerification.failure
                         RobloxVerification.NO_VERIFICATION))).
Proof.
  intros Hdesc. split.
  - intros fuel w. cbv zeta.
    unfold verification.startVerification, Async.bind.
    rewrite modify_stuck. cbn [fst snd].
    split; [reflexivity|]. split; [reflexivity|].
    unfold verification.checkVerification, Async.tryCatch, Async.bind,
      verification.getVerification, verification.getAllVerifications,
      Async.tryCatch, Async.bind, Async.read, db.read, db.readFile.
    cbn [PATHS.get PATHS.put PATHS.VERIFICATIONS started
         Runtime.roblox_verifications held db.fresh db.cached db.locked
         db.content].
    rewrite waitForLock_spec. reflexivity.
  - intros wait fuel r Hwait Hi.
    pose proof (startVerification_checkVerification dir serverId groupId
                  groupName code userId start now
                  (roblox_verifications (documents r)) prefix suffix Hdesc)
      as T.
    cbv zeta in T. destruct T as (T1 & T2 & T3).
    unfold RobloxVerification.startVerification in T1, T2, T3.
    cbn [fst snd] in T1, T2, T3.
    set (v := RobloxVerification.newVerification serverId groupId groupName
                code userId start) in *.
    set (r1 := PATHS.put PATHS.VERIFICATIONS
                 (db.fresh (dictSet serverId v
                              (db.content (Runtime.roblox_verifications r))))
                 r).
    assert (I1 : idle r1) by (apply put_verifications_idle, Hi).
    assert (E1 : verification.startVerification wait fuel serverId groupId
                   groupName code userId start r = (Fulfilled v, r1)).
    { unfold verification.startVerification, Async.bind. cbv zeta. fold v.
      rewrite (modify_verifications wait fuel Hwait
                 (fun vs => dictSet serverId v vs) r); [reflexivity|].
      apply Hi. }
    destruct (simulates_checkVerification wait fuel Hwait dir serverId now r1
                I1) as (r2 & E2 & D2 & I2).
    change (roblox_verifications (documents r1))
      with (dictSet serverId v (roblox_verifications (documents r)))
      in E2, D2.
    exists v, r1. eexists. exists r2.
    split; [exact E1|]. split; [exact T1|].
    split; [apply dictGet_dictSet_same|]. split; [exact E2|].
    change (db.content (Runtime.roblox_verifications r2))
      with (roblox_verifications (documents r2)).
    rewrite D2. cbn [roblox_verifications setVerifications].
    split; [exact T2|].
    intros Hlate. destruct (T3 Hlate) as (S1 & S2 & S3).
    split; [exact S1|]. split; [exact S2|].
    destruct (simulates_checkVerification wait fuel Hwait dir serverId now r2
                I2) as (r3 & E3 & _).
    rewrite E3, D2. cbn [fst roblox_verifications setVerifications].
    rewrite S3. reflexivity.
Qed.

(** Tenant 1001 starts a verification and puts the code in the description
    of the group. *)
Lemma startVerification_checkVerification_on_handler_witness :
  let dir :=
    exampleDirectory "Our group KS_VERIFY_ABCD1234 welcome" [] None in
  let r := started (worldWithVerifications []) in
  (forall fuel,
      fst (verification.startVerification (db.waitForLock fuel) fuel "1001"
             "G" "Group" "ABCD1234" "42" 0 r) = Pending)
  /\ exists v r1 checked r2,
      verification.startVerification returningWait 0 "1001" "G" "Group"
        "ABCD1234" "42" 0 r = (Fulfilled v, r1)
      /\ verification.checkVerification returningWait 0 dir "1001" 1000 r1
         = (Fulfilled checked, r2)
      /\ checkSuccess checked = true.
Proof.
  intros dir r.
  destruct (startVerification_checkVerification_on_handler dir "1001" "G"
              "Group" "ABCD1234" "42" 0 1000 "Our group " " welcome"
              eq_refl) as (W & D).
  split.
  - intros fuel. apply (W fuel (worldWithVerifications [])).
  - destruct (D returningWait 0%nat r returningWait_returns (idle_started _))
      as (v & r1 & checked & r2 & E1 & _ & _ & E2 & Hsoon & _).
    exists v, r1, checked, r2. split; [exact E1|]. split; [exact E2|].
    apply Hsoon. lia.
Defined.




(** ** The status that the manager shows, on the handler *)





(** ** The immediate sync on the handler *)

(** [markInProgress] of a job that the queue does not hold, when the wait of
    [db.modify] comes back: the modifier throws, and [db.modify], which has
    no [finally], leaves the lock of the queue set. *)
Lemma markInProgress_missing (wait : bool -> bool) (fuel : nat)
  (jobId : string) (now : Z) (r : Runtime.t) :
  db.returns wait ->
  db.locked (Runtime.sync_queue r) = false ->
  SyncQueue.getJob jobId (db.content (Runtime.sync_queue r)) = None ->
  syncQueue.markInProgress wait fuel jobId now r
  = (Thrown "Job not found",
     PATHS.put PATHS.SYNC_QUEUE (held (Runtime.sync_queue r)) r).
Proof.
  intros Hwait Hfree Hnone.
  unfold syncQueue.markInProgress, syncQueue.updateJob, Async.bind.
  rewrite modify_run; [|exact Hwait|exact Hfree].
  match goal with
  | |- context [SyncQueue.updateJob jobId ?u now ?q] =>
      pose proof (updateJob_spec jobId u now q) as S
  end.
  cbn [PATHS.get PATHS.SYNC_QUEUE] in S |- *. rewrite Hnone in S.
  rewrite S. reflexivity.
Qed.

(** X9.  [syncImmediately] on the handler.  It hands [processJob] a
    temporary job that it never adds to the queue.  As [db.modify] is
    written it never answers.  When the wait of [db.modify] comes back and
    the queue holds no job with the temporary id, the modifier of
    [markInProgress] throws and [db.modify] leaves the lock of the queue
    set: [markFailed] then looks the job up, and the call answers 'Failed to
    sync role' when that read is served from a cache entry less than five
    seconds old, and never answers when the read has to wait for the lock.
    Either way, whatever the Directory Service would have said, no rank is
    set and no document changes; and with the lock left set, a later
    [addJob] never settles. *)
Theorem syncImmediately_on_handler (dir : Directory) (syncData : SyncData.t)
  (now : Z) :
  (forall fuel r,
      let run :=
        roleSync.syncImmediately (db.waitForLock fuel) fuel dir syncData now
          r in
      fst run = Pending
      /\ Runtime.setRankCalls (snd run) = Runtime.setRankCalls r
      /\ stored (snd run) = stored r)
  /\ (forall wait fuel r,
         db.returns wait ->
         idle r ->
         SyncQueue.getJob ("immediate_" ++ numberToString now)%string
           (db.content (Runtime.sync_queue r)) = None ->
         let run := roleSync.syncImmediately wait fuel dir syncData now r in
         fst run =
         match db.cached (Runtime.sync_queue r) with
         | Some c =>
             if now - db.timestamp c <? 5000
             then Fulfilled (mkProcessResult false "Failed to sync role")
             else Pending
         | None => Pending
         end
         /\ Runtime.setRankCalls (snd run) = Runtime.setRankCalls r
         /\ stored (snd run) = stored r
         /\ db.locked (Runtime.sync_queue (snd run)) = true
         /\ forall wait' fuel' jobData newId later,
             fst (syncQueue.addJob wait' fuel' jobData newId later (snd run))
             = Pending).
Proof.
  split.
  - intros fuel r. cbv zeta.
    unfold roleSync.syncImmediately, Async.tryCatch.
    rewrite processJob_waits. cbn [fst snd].
    split; [reflexivity|]. split; destruct r; reflexivity.
  - intros wait fuel r Hwait Hi Hnone. cbv zeta.
    assert (Hfree : db.locked (Runtime.sync_queue r) = false) by apply Hi.
    assert (Hcache : match db.cached (Runtime.sync_queue r) with
                     | Some c => db.data c = db.content (Runtime.sync_queue r)
                     | None => True
                     end) by apply Hi.
    assert (R : roleSync.syncImmediately wait fuel dir syncData now r
                = (match db.cached (Runtime.sync_queue r) with
                   | Some c =>
                       if now - db.timestamp c <? 5000
                       then Fulfilled
                              (mkProcessResult false "Failed to sync role")
                       else Pending
                   | None => Pending
                   end,
                   PATHS.put PATHS.SYNC_QUEUE (held (Runtime.sync_queue r))
                     r)).
    { unfold roleSync.syncImmediately, roleSync.processJob, Async.tryCatch,
        roleSync.processJobBody, Async.bind.
      rewrite (markInProgress_missing wait fuel _ now r Hwait Hfree);
        [|exact Hnone].
      unfold roleSync.processJobCatch, Async.bind, syncQueue.markFailed,
        Async.bind, syncQueue.getJob, Async.tryCatch, Async.bind,
        syncQueue.getAllJobs, Async.tryCatch, Async.read, db.read,
        db.readFile.
      cbn [PATHS.get PATHS.put PATHS.SYNC_QUEUE Runtime.sync_queue held
           db.cached db.locked db.content RoleSyncManager.immediateJob
           Job.id].
      rewrite waitForLock_spec.
      destruct (db.cached (Runtime.sync_queue r)) as [c|]; [|reflexivity].
      destruct (now - db.timestamp c <? 5000); [|reflexivity].
      cbn [Async.ret fst snd]. rewrite Hcache.
      unfold SyncQueue.getJob in Hnone. rewrite Hnone.
      reflexivity. }
    rewrite R. cbn [fst snd].
    split; [reflexivity|]. split; [destruct r; reflexivity|].
    split; [destruct r; reflexivity|]. split; [destruct r; reflexivity|].
    intros wait' fuel' jobData newId later.
    unfold syncQueue.addJob, Async.bind, Async.modify, db.modify,
      db.acquireLock.
    rewrite waitForLock_spec.
    cbn [PATHS.get PATHS.put PATHS.SYNC_QUEUE Runtime.sync_queue held
         db.locked negb].
    reflexivity.
Qed.

(** An immediate sync in a process that has just started, and one made a
    second after the queue was read. *)
Lemma syncImmediately_on_handler_witness :
  let dir :=
    exampleDirectory "" [mkRole 105 "Builder" 5]
      (Some (mkRole 101 "Guest" 1)) in
  let r := started exampleWorld in
  let warm := snd (syncQueue.getAllJobs 0 0 r) in
  fst (roleSync.syncImmediately returningWait 0 dir exampleSyncData 1000 r)
  = Pending
  /\ fst (roleSync.syncImmediately returningWait 0 dir exampleSyncData 1000
            warm)
     = Fulfilled (mkProcessResult false "Failed to sync role")
  /\ db.locked
       (Runtime.sync_queue
          (snd (roleSync.syncImmediately returningWait 0 dir exampleSyncData
                  1000 warm))) = true.
Proof.
  intros dir r warm.
  destruct (syncImmediately_on_handler dir exampleSyncData 1000) as (_ & D).
  split; [|split].
  - destruct (D returningWait 0%nat r returningWait_returns (idle_started _)
                eq_refl) as (E & _).
    exact E.
  - assert (Hi : idle warm) by (vm_compute; repeat split).
    destruct (D returningWait 0%nat warm returningWait_returns Hi eq_refl)
      as (E & _).
    exact E.
  - assert (Hi : idle warm) by (vm_compute; repeat split).
    destruct (D returningWait 0%nat warm returningWait_returns Hi eq_refl)
      as (_ & _ & _ & L & _).
    exact L.
Defined.

(** ** Cleaning and extending verifications, on the handler *)

(** X25.  [cleanExpiredVerifications] on the handler.  As [db.modify] is
    written it never settles and removes nothing.  When the wait of
    [db.modify] comes back, on a document with distinct keys, it returns the
    number of verifications whose expiry lies before the clock, removes
    exactly those and keeps the others in their order; afterwards a tenant
    has a verification exactly when it had an unexpired one, and cleaning
    again at the same instant removes nothing. *)
Theorem cleanExpiredVerifications_on_handler (now : Z) :
  (forall fuel r,
      let run :=
        verification.cleanExpiredVerifications (db.waitForLock fuel) fuel now
          r in
      fst run = Pending
      /\ db.content (Runtime.roblox_verifications (snd run))
         = db.content (Runtime.roblox_verifications r))
  /\ (forall wait fuel r,
         db.returns wait ->
         idle r ->
         NoDup (map fst (db.content (Runtime.roblox_verifications r))) ->
         exists cleaned r1 r2,
           verification.cleanExpiredVerifications wait fuel now r
           = (Fulfilled cleaned, r1)
           /\ let vs := db.content (Runtime.roblox_verifications r) in
              let vs' := db.content (Runtime.roblox_verifications r1) in
              cleaned = Z.of_nat (List.length vs) - Z.of_nat (List.length vs')
              /\ 0 <= cleaned
              /\ vs' = filter
                         (fun entry =>
                            negb (Verification.expiresAt (snd entry) <? now))
                         vs
              /\ (forall serverId,
                     RobloxVerification.getVerification serverId vs' =
                     match RobloxVerification.getVerification serverId vs with
                     | Some v =>
                         if Verification.expiresAt v <? now then None
                         else Some v
                     | None => None
                     end)
              /\ verification.cleanExpiredVerifications wait fuel now r1
                 = (Fulfilled 0, r2)
              /\ db.content (Runtime.roblox_verifications r2) = vs').
Proof.
  split.
  - intros fuel r. cbv zeta.
    unfold verification.cleanExpiredVerifications, Async.tryCatch, Async.bind.
    rewrite modify_stuck. destruct r; split; reflexivity.
  - intros wait fuel r Hwait Hi Hnd.
    pose proof (cleanExpiredVerifications_effect now
                  (db.content (Runtime.roblox_verifications r)) Hnd) as T.
    cbv zeta in T. destruct T as (T1 & T2 & T3 & T4 & T5).
    set (out := VerificationManager.cleanExpiredVerifications now
                  (db.content (Runtime.roblox_verifications r))) in *.
    set (r1 := PATHS.put PATHS.VERIFICATIONS (db.fresh (snd out)) r).
    assert (I1 : idle r1) by (apply put_verifications_idle, Hi).
    assert (E1 : verification.cleanExpiredVerifications wait fuel now r
                 = (Fulfilled (fst out), r1)).
    { unfold verification.cleanExpiredVerifications, Async.tryCatch,
        Async.bind.
      rewrite modify_run; [|exact Hwait|apply Hi].
      cbn [PATHS.get PATHS.VERIFICATIONS]. fold out.
      destruct out as [n vs']. reflexivity. }
    set (r2 := PATHS.put PATHS.VERIFICATIONS (db.fresh (snd out)) r1).
    assert (E2 : verification.cleanExpiredVerifications wait fuel now r1
                 = (Fulfilled 0, r2)).
    { unfold verification.cleanExpiredVerifications, Async.tryCatch,
        Async.bind.
      rewrite modify_run; [|exact Hwait|apply I1].
      change (db.content (PATHS.get PATHS.VERIFICATIONS r1)) with (snd out).
      rewrite T5. reflexivity. }
    exists (fst out), r1, r2. split; [exact E1|].
    cbv zeta.
    change (db.content (Runtime.roblox_verifications r1)) with (snd out).
    change (db.content (Runtime.roblox_verifications r2)) with (snd out).
    split; [exact T1|]. split; [exact T2|]. split; [exact T3|].
    split; [exact T4|]. split; [exact E2 | reflexivity].
Qed.

(** The verification of tenant 1001, cleaned after its expiry. *)
Lemma cleanExpiredVerifications_on_handler_witness :
  let r := started (worldWithVerifications exampleVerifications) in
  (forall fuel,
      fst (verification.cleanExpiredVerifications (db.waitForLock fuel) fuel
             700000 r) = Pending)
  /\ exists r1,
      verification.cleanExpiredVerifications returningWait 0 700000 r
      = (Fulfilled 1, r1)
      /\ db.content (Runtime.roblox_verifications r1) = [].
Proof.
  intros r.
  destruct (cleanExpiredVerifications_on_handler 700000) as (W & D).
  split.
  - intros fuel. apply (W fuel r).
  - destruct (D returningWait 0%nat r returningWait_returns (idle_started _))
      as (cleaned & r1 & r2 & E1 & _ & _ & Hvs & _).
    + repeat constructor. intros [].
    + assert (Hc : (Fulfilled cleaned, r1)
                   = verification.cleanExpiredVerifications returningWait 0
                       700000 r) by (symmetry; exact E1).
      vm_compute in Hc. injection Hc as Hc Hr. subst cleaned.
      exists r1. split; [exact E1|]. rewrite Hvs. reflexivity.
Defined.


